(* ===== verification/_CoqProject ===== *)
-Q . S2P
Prelude.v
EventLoop.v
Random.v
Benchmark.v
Json.v
JsonCodec.v
Engine.v
WebStorage.v
Storage.v
JsBuiltins.v
Ui.v
Summary.v
Load.v
Charts.v
Export.v
Display.v
App.v
Overlay.v
Schema.v
ImportPromise.v
