(* ===== verification/Prelude.v ===== *)
(** * Attention Economy Navigator: a verification development

    The program (src/js) is a single-page tool in four scripts.  The
    analysis engine (analysis-engine.js) turns the platform and audience
    records of the form into scores drawn from [Math.random], benchmark
    ratings, findings and recommendations, and retains the last results.
    The storage manager (storage-manager.js) keeps the saved analyses as one
    JSON array under one key of [localStorage], and exports and imports
    them as JSON files (an import reads its file asynchronously and
    settles a promise).  The UI controller (ui-controller.js) owns the form:
    a platform card and an audience card per platform, added and removed by
    buttons, read back into the two records.  The application (app.js)
    wires the buttons: it validates the form, runs the analysis after a
    timer, and saves, lists, loads and deletes analyses.

    ** Files

    - [Prelude] (this file): the notation scope [nav_scope], the state monad
      [ST] (explicit state passing) and the JavaScript completion monad [JS]
      (a normal result or a thrown [exn], with the state reached before the
      throw kept), the [num] of scores ([NaN] included), and the shared
      lemmas on sums, divisions, strings and lists, with the hint databases
      [nav] and [strapp] and the tactics [st_simpl], [js_step], [by_eval].
    - [EventLoop]: the browser's timers, modelled from the HTML
      specification: a queue of timers with ids, due times and callbacks,
      [setTimeout], [clearTimeout], the event loop's choice of the next
      timer ([pop_timer]: earliest due, first set among equals) and the
      passing of time ([elapse], which never passes a due time).
    - [Random]: [Math.random] as an oracle [rnd : nat -> Z] ([u / 2^53] for
      the [i]-th draw, the state being the number of draws), the sort of
      [Array.prototype.sort] as the interface [ArraySort] (its law: the
      result is a permutation) with an insertion-sort instance, and
      [getRandomElements] with the four catalog samplers;
      [Math.floor(Math.random() * k)] rounds the product to the nearest
      double ([binary64_round]) before the floor.
    - [Benchmark]: [industryBenchmarks], [compareToBenchmark],
      [calculatePercentile].
    - [Engine]: the records of the form, the result records (modules
      [Coherence], [Audience], [Consistency]), the three analyses as [ST nat]
      computations in the order of their draws, the findings and
      recommendations, the JSON image of the results, and [analyze] with
      [getResults]/[setResults] over [engine_state].
    - [Json], [JsonCodec]: JSON values, and the interface [JsonCodec] of
      [JSON.stringify]/[JSON.parse] (its laws: parsing reads back what is
      written, and nothing is written as the empty text), with an instance:
      a printer for both layouts and a parser with fuel.
    - [WebStorage]: [localStorage] as a map from keys to strings under a
      quota on the total length of keys and values, with [SecurityError]
      for a disabled storage and [QuotaExceededError]; [room s n] says
      that [n] more characters fit.
    - [Storage]: every function of [StorageManager], proved against any
      [JsonCodec]; concrete storages and counterexamples use [json_codec].
    - [JsBuiltins]: number-to-string, [parseInt], [parseFloat], [trim],
      [Math.max] and the property order of JavaScript objects.
    - [Ui]: the cards as a [ui_state] (counter, platform cards, audience
      cards), [addNewPlatform], [removePlatform],
      [updateAudienceCardHeaders], [getAllPlatformData],
      [getAllAudienceData], and the events of the form as the step relation
      [ui_step]; a card records whether its name input has the [input]
      listener ([pc_listens]), which only [addNewPlatform] and
      [loadAnalysisData] attach.
    - [Summary]: the summary texts of the results tab
      ([generateCoherenceSummary], [generateAudienceSummary],
      [generateConsistencySummary]) with their templates written out, the
      alert classes and comparison words, and the controller's own random
      lists (module [UiRandom]) drawn from the same oracle.
    - [Load]: [loadAnalysisData], which rebuilds the cards from a saved
      analysis: the JavaScript values it reads ([undefined], [null],
      property reads that throw, [for...in] order, [String(v)], [||],
      [&&]) and the HTML parsing its templates rely on (an attribute value
      ends at a double quote, a textarea drops a leading newline and ends at
      [</textarea], a select takes its [selected] option).
    - [Charts]: the configurations [displayCoherenceChart],
      [displayAudienceChart] and [displayConsistencyChart] hand to Chart.js
      (labels read again from the form, values, colours by platform id, the
      engagement axis bound) and their [afterLabel] tooltip callbacks.
    - [Export]: the Markdown report of [exportRecommendations], read
      through property accesses on the retained results.
    - [Display]: [displayAnalysisResults] (charts, findings, summaries)
      and [displayRecommendations] on the results of an analysis, as the
      views they write.
    - [App]: over [app_state] (form, engine, storage, notices, the loading
      overlay with its message and [loadingTimeout], the timer queue,
      alerts, items of the load dialog, downloads, the drawn results):
      [showLoading] and [hideLoading] of the controller,
      [validateAnalysisData], [runAnalysis], the save handler
      [confirmSave], the load dialog [openLoadModal] with its delete
      buttons [clickDeleteItem], the load handler [confirmLoad], the
      export button [exportRecommendations], [analysisTimer], the
      callback of the timer [runAnalysis] sets (section [Timer], over the
      [Math.random] oracle), the callbacks as data ([app_callback]) run by
      [fire_timer], [finishAnalysis] and the page load [app_init].  The
      page is the step relation [app_step] (section [Events]): an
      [app_event] runs the listener [setupEventListeners] attaches for it
      ([app_handle]), to its end or to an exception, runs the next timer,
      or lets time pass.
    - [Overlay]: the invariant of the overlay and the timers over
      [app_step], the 10 s bound and the draining of the timers.
    - [Schema]: the shapes ([jtype], [has_type]) the readers of the stored
      and retained JSON values assume, and their invariant over [app_step].
    - [ImportPromise]: the promise [importAnalyses] returns, with its
      executor ([import_executor], run by [new_promise]) and the handlers
      of its [FileReader] ([reader_onload], [reader_onerror]) as separate
      tasks.  A world holds the storage, the [resolve]/[reject] calls each
      promise has received and the reads still pending; [import_step] runs
      an import, a finished read (in any order) or another manager call.

    ** What is proved

    - Engine: every score, similarity, overlap and sub-score lies in its
      documented range whatever the random draws; the overall scores are
      the floor of the mean; the pairs compared are exactly i < j in loop
      order, and the recursive enumeration equals the source's nested
      index loops; the catalog samplers return distinct catalog items of the
      documented counts; [analyze] retains the image of what it returns.
    - Benchmark: the rating is the highest bucket whose threshold the score
      meets, monotone in the score; the percentile lies in [0, 100] exactly
      between [poor - 10] and [excellent + 10], and is not clamped outside.
    - JSON: [JSON.parse] reads back both layouts of [JSON.stringify].
    - Storage: save appends, delete removes the element at the index, clear
      empties, import appends and counts, export is read back by import;
      every operation either succeeds or leaves the storage unchanged and
      touches only its own key; the rejections of import with their
      messages.  Counterexamples: near the quota the availability test
      fails, so an import overwrites the saved analyses and a save is
      followed by an empty list; storage failures are reported as parse
      errors; a non-array stored value makes [saveAnalysis] throw.
    - Ui and App: adding keeps platform and audience cards paired, and so
      does removing the card whose id is its position; removing platforms 3
      and 4 in turn strands platform 4 without audience card, an invariant
      of every later event, so that [runAnalysis] never schedules an
      analysis again; [validateAnalysisData] accepts exactly the valid forms
      and reports the last failing check; on the page as it loads, until a
      platform is added, typing a name never updates an audience header.
    - Summary: for every analysis of a nonempty form, the coherence and
      consistency summaries say "above the industry average" with a
      success, info or warning alert and list distinct catalog items; the
      audience summary grades one score on three disagreeing scales.
    - Charts: drawn on the form the analysis ran on, the coherence chart
      has a bar per platform with its name and score, then [Overall]; with
      distinct names a bar's tooltip shows its own platform, while two
      platforms of one name (two blank names) share the first one's
      tooltip.
    - Export and App: the report exported from retained results is the
      report of the results; after a recommended platform is removed from
      the form the export throws; on a valid unchanged form, running the
      analysis and its timer hides the overlay, retains the results and
      draws a chart bar and a recommendation card per platform.
    - Load and App: loading a saved analysis with ascending ids and values
      the card HTML reads literally gives back exactly its platform data;
      confirming the load of an analysis whose results have the result
      shape runs the whole display (three charts, findings, three
      summaries with their random draws) without exception, restores the
      form and the results and posts one notice.  Along
      every sequence of page events the availability test key never
      stays in [localStorage] and every pending timer holds validated
      data (by induction on [app_reachable]).
      Counterexamples: the save handler reports success when nothing was
      saved; a name with a double quote is cut at the quote on load; an
      analysis saved before any run has [null] results, and loading it
      throws in [displayAnalysisResults]; after a deletion in the load
      dialog the items keep stale indices, so for every stored list a
      delete removes another analysis and a load of the last item reads
      past the end of the array and throws; every name containing an x
      gets the Twitter/X recommendations.
    - Overlay: from the page load, while the overlay is shown its safety
      timeout is pending, due within 10 s, and time cannot pass it; no
      callback sets a timer, so running the pending timers empties the
      queue within 10 s and leaves the overlay hidden; a valid run is
      analysed 2 s later, before the safety timeout.
    - Schema: every result of [analyze] has the shape the display and the
      export read; along every sequence of page events from a typed store,
      the stored analyses keep the shape [loadAnalysisData] reads, the
      retained results stay [null] or of the result shape, and opening
      the load dialog never throws; exporting from such a page throws
      only when a platform the results recommend has left the form.
    - ImportPromise: starting an import and finishing its read at once is
      the one-step [Storage.importAnalyses] (refinement); along every
      interleaving each promise gets at most one [resolve]/[reject] call,
      exactly one once its read has finished (invariant and draining); an
      analysis saved while a file is being read is kept, ahead of the
      imported ones, because [onload] reads the storage when it runs.

    ** Bounds, fuel and modelling choices

    - Draws: [rnd i] is taken in [0, 2^53); [Math.floor(Math.random() * k)]
      is [binary64_round (rnd i * k) / 2^53], the product rounded to 53
      significant bits, ties to even (it can round up to the next
      integer, [Random.floor_random_rounds_up]); it stays below [k].
      Theorems quantify over every oracle.
    - The percentile is computed in exact integer arithmetic; it agrees
      with the floating-point formula of the source for every integer score
      in [-112, 323], which contains every score the analyses produce.
    - Time is an integer number of milliseconds; timers are the only
      source of delays, and user events happen at the current time.  The
      timer drain runs at most as many callbacks as are pending, which
      suffices because no callback sets a timer.  Likewise the pending
      reads of imports drain in as many steps as there are reads, since a
      handler starts no read.
    - The JSON parser runs with fuel [S (length text)]; the fuel lemma
      shows that the size of a value is at most the length of its text, so
      the fuel always suffices.
    - Storage sizes count one unit per character of keys and values.
    - The page itself (index.html) is not in the repository: the initial
      form (platforms 1 and 2, without remove buttons) and the assumption
      that [#platform-inputs] holds only platform cards are modelled from
      what the code expects of it.

    ** Not modelled

    Chart rendering (Chart.js), Bootstrap tabs, modals, toasts and tooltips,
    and [console] logging have no program logic.  On the value of a loaded
    analysis, [displayAnalysisResults] is modelled by what can make it
    throw and what it draws ([App.displayLoadedResults]: every property
    read of the three charts, the findings and the summaries, and the
    random draws of the summaries), not by the text it writes; on the
    results of an analysis it is modelled in full ([Display]).  The HTML
    parser is modelled for what the load templates need (attribute
    values, the textarea and its end tag, the selects); character
    references ([&amp;]) and markup inside loaded values are not decoded,
    and the load theorems assume values without [&] and [<]
    ([Load.html_plain], [Load.json_no_lt]).  [String.prototype.trim] of
    the validation removes ASCII white space only, and the
    shortest-digits printing of numbers is not modelled for fractions
    ([JsonCodec] prints a fraction as digits and a negative exponent,
    which its parser reads back).  The navigation between
    tabs, the 100 ms timer of a download (which only removes the link and
    revokes its URL), the dismissal of toasts and the partial page writes
    of a display that throws are not modelled. *)

From Stdlib Require Export ZArith Lia.
From stdpp Require Export base list strings gmap.

(** ** Notation scope of the development *)

Declare Scope nav_scope.
Delimit Scope nav_scope with nav.

(** ** State monad: the explicit threading of mutable state *)

Definition ST (S A : Type) : Type := S -> A * S.

Definition st_ret {S A} (a : A) : ST S A := fun s => (a, s).

Definition st_bind {S A B} (m : ST S A) (f : A -> ST S B) : ST S B :=
  fun s => let '(a, s') := m s in f a s'.

Definition st_get {S} : ST S S := fun s => (s, s).
Definition st_put {S} (s : S) : ST S unit := fun _ => (tt, s).

Notation "x <- m ;; k" := (st_bind m (fun x => k))
  (at level 100, m at next level, right associativity) : nav_scope.

Local Open Scope nav_scope.

(** [Array.prototype.map] with an effectful callback, left to right. *)
Fixpoint st_mapM {S A B} (f : A -> ST S B) (l : list A) : ST S (list B) :=
  match l with
  | [] => st_ret []
  | x :: xs => y <- f x ;; ys <- st_mapM f xs ;; st_ret (y :: ys)
  end.

(** ** JavaScript completions: normal results and thrown exceptions *)

(** The exceptions the modelled code can raise.  [TypeError] and
    [SyntaxError] carry the engine's message. *)
Inductive exn :=
  | TypeError (msg : string)
  | SyntaxError (msg : string)
  | QuotaExceededError
  | SecurityError.

Inductive completion (A : Type) :=
  | Normal (a : A)
  | Throw (e : exn).
Arguments Normal {A} a.
Arguments Throw {A} e.

(** A computation that may throw; the state reached before the throw is kept,
    as in JavaScript, where side effects before an exception persist. *)
Definition JS (S A : Type) : Type := S -> completion A * S.

Definition js_ret {S A} (a : A) : JS S A := fun s => (Normal a, s).
Definition js_throw {S A} (e : exn) : JS S A := fun s => (Throw e, s).
Definition js_bind {S A B} (m : JS S A) (f : A -> JS S B) : JS S B :=
  fun s => match m s with
           | (Normal a, s') => f a s'
           | (Throw e, s') => (Throw e, s')
           end.

(** [try { m } catch (e) { h e }] *)
Definition js_catch {S A} (m : JS S A) (h : exn -> JS S A) : JS S A :=
  fun s => match m s with
           | (Normal a, s') => (Normal a, s')
           | (Throw e, s') => h e s'
           end.

Notation "x <-! m ;; k" := (js_bind m (fun x => k))
  (at level 100, m at next level, right associativity) : nav_scope.

(** ** Shared lemmas on the monads *)

Lemma st_bind_unfold {S A B} (m : ST S A) (f : A -> ST S B) s :
  st_bind m f s = f (fst (m s)) (snd (m s)).
Proof. unfold st_bind. by destruct (m s). Qed.

Lemma js_bind_normal {S A B} (m : JS S A) (f : A -> JS S B) s a s' :
  m s = (Normal a, s') -> js_bind m f s = f a s'.
Proof. unfold js_bind. by intros ->. Qed.

Lemma js_bind_throw {S A B} (m : JS S A) (f : A -> JS S B) s e s' :
  m s = (Throw e, s') -> js_bind m f s = (Throw e, s').
Proof. unfold js_bind. by intros ->. Qed.

Lemma js_catch_normal {S A} (m : JS S A) h s a s' :
  m s = (Normal a, s') -> js_catch m h s = (Normal a, s').
Proof. unfold js_catch. by intros ->. Qed.

Lemma js_catch_throw {S A} (m : JS S A) h s e s' :
  m s = (Throw e, s') -> js_catch m h s = h e s'.
Proof. unfold js_catch. by intros ->. Qed.

Lemma js_bind_ret {S A B} (a : A) (f : A -> JS S B) s : js_bind (js_ret a) f s = f a s.
Proof. reflexivity. Qed.

(** One step of a [JS] computation whose first action is known. *)
Ltac js_step H :=
  first [ rewrite (js_bind_normal _ _ _ _ _ H)
        | rewrite (js_bind_throw _ _ _ _ _ H)
        | rewrite (js_catch_normal _ _ _ _ _ H)
        | rewrite (js_catch_throw _ _ _ _ _ H) ].

Lemma st_mapM_length {S A B} (f : A -> ST S B) l s :
  length (fst (st_mapM f l s)) = length l.
Proof.
  revert s. induction l as [|x xs IH]; intros s; [done|].
  cbn [st_mapM]. rewrite !st_bind_unfold. cbn. by rewrite IH.
Qed.

(** The invariant lemma for effectful maps: a state invariant [I] kept by
    each call, and a result property [P] that each call establishes. *)
Lemma st_mapM_Forall {S A B} (I : S -> Prop) (P : A -> B -> Prop)
    (f : A -> ST S B) :
  (forall x s, I s -> P x (fst (f x s)) /\ I (snd (f x s))) ->
  forall l s, I s ->
    Forall2 P l (fst (st_mapM f l s)) /\ I (snd (st_mapM f l s)).
Proof.
  intros Hf l. induction l as [|x xs IH]; intros s Hs; cbn [st_mapM].
  - split; [constructor | done].
  - rewrite !st_bind_unfold. cbn.
    destruct (Hf x s Hs) as [HP HI].
    destruct (IH _ HI) as [HP' HI'].
    split; [by constructor | done].
Qed.

(** Euclidean division brackets its dividend: with this, [lia] decides
    linear goals about [a / d] for a constant [d]. *)
Lemma Z_div_bracket (a d : Z) :
  (0 < d)%Z -> (d * (a / d) <= a < d * (a / d) + d)%Z.
Proof.
  intros Hd. pose proof (Z.div_mod a d ltac:(lia)).
  pose proof (Z.mod_pos_bound a d Hd). lia.
Qed.

(** ** JavaScript strings *)

(** [String.prototype.toLowerCase] on the ASCII letters. *)
Definition ascii_to_lower (c : Ascii.ascii) : Ascii.ascii :=
  let n := Ascii.nat_of_ascii c in
  if (65 <=? n)%nat && (n <=? 90)%nat then Ascii.ascii_of_nat (n + 32) else c.

Fixpoint js_toLowerCase (s : string) : string :=
  match s with
  | EmptyString => EmptyString
  | String c s' => String (ascii_to_lower c) (js_toLowerCase s')
  end.

(** [s.includes(sub)]: [sub] occurs at some position of [s]. *)
Fixpoint js_includes (s sub : string) : bool :=
  String.prefix sub s ||
  match s with
  | EmptyString => false
  | String _ s' => js_includes s' sub
  end.

(** ** Automation *)

Create HintDb nav discriminated.
#[export] Hint Resolve st_mapM_length : nav.

(** Close a decidable goal on concrete data by evaluation. *)
Ltac by_eval := apply (bool_decide_unpack _); vm_compute; reflexivity.

(** ** JavaScript numbers of the scoring code *)

(** The scores are integers, or [NaN] when a mean is taken over no platform
    ([Math.floor(0 / 0)]).  Comparisons with [NaN] are false. *)
Inductive num := Num (z : Z) | NaN.

Definition num_ge (x : num) (t : Z) : bool :=
  match x with Num z => (t <=? z)%Z | NaN => false end.

Definition num_gt (x : num) (t : Z) : bool :=
  match x with Num z => (t <? z)%Z | NaN => false end.

(** [Math.floor(total / n)] for the sum [total] of [n] scores.  With no
    score the sum is [0] and [0 / 0] is [NaN]. *)
Definition floor_div (total : Z) (n : nat) : num :=
  match n with
  | O => NaN
  | _ => Num (total / Z.of_nat n)%Z
  end.

(** ** String concatenation (stdpp makes [String.append] opaque to [simpl]) *)

Lemma string_app_cons c (s t : string) : String.append (String c s) t = String c (String.append s t).
Proof. reflexivity. Qed.

Lemma string_app_nil_l (t : string) : String.append EmptyString t = t.
Proof. reflexivity. Qed.

Lemma string_app_nil_r (s : string) : String.append s EmptyString = s.
Proof. induction s as [|c s IH]; [done|]. rewrite string_app_cons. by f_equal. Qed.

Lemma string_app_assoc (a b c : string) :
  String.append a (String.append b c) = String.append (String.append a b) c.
Proof.
  induction a as [|x a IH]; [done|]. rewrite !string_app_cons. by f_equal.
Qed.

Lemma string_length_app (a b : string) :
  String.length (String.append a b) = (String.length a + String.length b)%nat.
Proof. induction a as [|x a IH]; [done|]. rewrite string_app_cons. cbn. by f_equal. Qed.

Create Rewrite HintDb strapp.
#[export] Hint Rewrite string_app_cons string_app_nil_l string_app_nil_r : strapp.

Lemma js_toLowerCase_app (a b : string) :
  js_toLowerCase (a ++ b) = (js_toLowerCase a ++ js_toLowerCase b)%string.
Proof. induction a as [|c a IH]; [done|]. rewrite string_app_cons. cbn [js_toLowerCase]. by rewrite IH. Qed.

Lemma js_includes_head c s : js_includes (String c s) (String c EmptyString) = true.
Proof. cbn [js_includes String.prefix]. destruct (Ascii.ascii_dec c c); [by destruct s | congruence]. Qed.

(** What occurs in a suffix occurs in the string. *)
Lemma js_includes_app_r (a b sub : string) :
  js_includes b sub = true -> js_includes (a ++ b) sub = true.
Proof. intros H. induction a as [|c a IH]; [done|]. rewrite string_app_cons. cbn [js_includes]. by rewrite IH, orb_true_r. Qed.


(** ** Sums of scores *)

(** [let total = 0; xs.forEach(x => { total += x; })] *)
Definition sum_Z (l : list Z) : Z := fold_left Z.add l 0%Z.

Lemma fold_left_add_shift (l : list Z) (a : Z) :
  fold_left Z.add l a = (a + fold_left Z.add l 0)%Z.
Proof.
  revert a. induction l as [|x xs IH]; intros a; cbn; [lia|].
  rewrite IH. symmetry. rewrite IH. lia.
Qed.

Lemma sum_Z_cons x l : sum_Z (x :: l) = (x + sum_Z l)%Z.
Proof. unfold sum_Z. cbn. by rewrite fold_left_add_shift. Qed.

(** A sum of [n] values of [[lo, hi]] lies in [[n * lo, n * hi]]. *)
Lemma sum_Z_bounds (lo hi : Z) (l : list Z) :
  Forall (fun x => lo <= x <= hi)%Z l ->
  (Z.of_nat (length l) * lo <= sum_Z l <= Z.of_nat (length l) * hi)%Z.
Proof.
  induction 1 as [|x xs Hx _ IH]; [cbn; lia|].
  rewrite sum_Z_cons. cbn [length]. lia.
Qed.

(** The floor of a mean of values of [[lo, hi]] lies in [[lo, hi]]. *)
Lemma floor_div_bounds (lo hi : Z) (l : list Z) :
  l <> [] -> Forall (fun x => lo <= x <= hi)%Z l ->
  exists m, floor_div (sum_Z l) (length l) = Num m /\ (lo <= m <= hi)%Z.
Proof.
  intros Hne Hall. pose proof (sum_Z_bounds lo hi l Hall) as Hb.
  destruct l as [|x xs]; [done|]. cbn [length floor_div].
  eexists; split; [reflexivity|].
  change (Z.pos (Pos.of_succ_nat (length xs))) with (Z.of_nat (S (length xs))).
  cbn [length] in Hb.
  split; [apply Z.div_le_lower_bound | apply Z.div_le_upper_bound]; lia.
Qed.

(** ** Keyed results *)

(** A map over the keys that returns (key, value) pairs keeps the keys in
    order. *)
Lemma Forall2_keys {K V} (Q : V -> Prop) (ks : list K) (r : list (K * V)) :
  Forall2 (fun k kv => kv.1 = k /\ Q kv.2) ks r ->
  map fst r = ks /\ Forall (fun kv => Q kv.2) r.
Proof.
  induction 1 as [|k kv ks r [Hk HQ] _ [IH1 IH2]]; [done|].
  cbn. rewrite IH1, Hk. split; [done | by constructor].
Qed.

Lemma Forall2_Forall_r {A B} (P : B -> Prop) (l : list A) (r : list B) :
  Forall2 (fun _ y => P y) l r -> Forall P r.
Proof. induction 1; by constructor. Qed.

Lemma Forall2_map_l {A B} (f : B -> A) (l : list A) (r : list B) :
  Forall2 (fun x y => f y = x) l r -> map f r = l.
Proof. induction 1 as [|x y l r Hxy _ IH]; [done|]. cbn. by rewrite Hxy, IH. Qed.

(** Unfold the binds of a state computation and compute its projections. *)
Ltac st_simpl := repeat rewrite st_bind_unfold; cbn [fst snd st_ret].

(** The floor of the mean of [n] keyed scores of [[lo, hi]]. *)
Lemma keyed_mean_bounds {K V} (f : V -> Z) (lo hi : Z) (sc : list (K * V)) (n : nat) :
  length sc = n -> n <> 0%nat ->
  Forall (fun x => lo <= x <= hi)%Z (map (fun kv => f kv.2) sc) ->
  exists m, floor_div (sum_Z (map (fun kv => f kv.2) sc)) n = Num m /\ (lo <= m <= hi)%Z.
Proof.
  intros <- Hn HB.
  assert (Hne : map (fun kv => f kv.2) sc <> []) by (destruct sc; cbn in *; congruence).
  destruct (floor_div_bounds lo hi _ Hne HB) as (m & Hm & Hb).
  rewrite length_map in Hm. eauto.
Qed.

(** ** Lists updated by index *)

(** An update at an index that a projection does not see. *)
Lemma map_alter_invisible {A B} (f : A -> A) (g : A -> B) i (l : list A) :
  (forall x, g (f x) = g x) -> map g (alter f i l) = map g l.
Proof.
  intros Hf. revert i. induction l as [|x l IH]; intros [|i]; cbn; [done..| |]; f_equal; auto.
Qed.

(** Reading a list at every index, in order, gives the list back. *)
Lemma map_nth_seq0 {A} (l : list A) d : map (fun j => nth j l d) (seq 0 (length l)) = l.
Proof.
  induction l as [|x l IH]; [done|]. cbn [length seq map nth]. f_equal.
  rewrite <- seq_shift, map_map. exact IH.
Qed.

Lemma map_delete {A B} (g : A -> B) i (l : list A) : map g (delete i l) = delete i (map g l).
Proof. revert i. induction l as [|x l IH]; intros [|i]; cbn; f_equal; auto. Qed.
