(* ===== verification/EventLoop.v ===== *)
(** * EventLoop: the timers of the browser

    [setTimeout] and [clearTimeout] are not code of the repository; they
    are modelled from the HTML specification of timers.
    [setTimeout(cb, d)] returns a positive id, distinct from the ids of the
    timers set before, and runs [cb] once the clock has advanced by [d] ms
    (a negative delay counts as 0); timers due at the same time run in the
    order they were set.  [clearTimeout(id)] removes the pending timer with
    that id, and does nothing when there is none.

    A [timer_queue C] holds the clock in ms, the next id and the pending
    timers in the order they were set; a callback is a value of [C], which
    the client interprets.  The event loop either runs the next timer
    ([pop_timer]) or lets time pass ([elapse]) only up to the first due
    time, so no timer runs late. *)

From S2P Require Import Prelude.
Local Open Scope nav_scope.

Record timer (C : Type) := mk_timer { timer_id : nat; timer_due : Z; timer_cb : C }.
Arguments mk_timer {C} _ _ _.
Arguments timer_id {C} _.
Arguments timer_due {C} _.
Arguments timer_cb {C} _.

Record timer_queue (C : Type) := mk_queue {
  tq_clock : Z;
  tq_next : nat;
  tq_pending : list (timer C)
}.
Arguments mk_queue {C} _ _ _.
Arguments tq_clock {C} _.
Arguments tq_next {C} _.
Arguments tq_pending {C} _.

Section Timers.
Context {C : Type}.
Implicit Types (q : timer_queue C) (t : timer C) (l : list (timer C)).

(** The timers of a page that has just loaded; ids start at 1. *)
Definition queue_init : timer_queue C := mk_queue 0 1 [].

(** [setTimeout(cb, delay)] *)
Definition setTimeout (cb : C) (delay : Z) q : nat * timer_queue C :=
  (tq_next q, mk_queue (tq_clock q) (S (tq_next q))
                (tq_pending q ++ [mk_timer (tq_next q) (tq_clock q + Z.max 0 delay) cb])).

(** The pending timers but the one with id [id]. *)
Definition drop_id (id : nat) l : list (timer C) := filter (fun t => timer_id t <> id) l.
#[global] Arguments drop_id : simpl never.

(** [clearTimeout(id)] *)
Definition clearTimeout (id : nat) q : timer_queue C :=
  mk_queue (tq_clock q) (tq_next q) (drop_id id (tq_pending q)).

(** The timer that runs next: the earliest due, the first set among
    timers due at the same time. *)
Fixpoint earliest l : option (timer C) :=
  match l with
  | [] => None
  | t :: l' =>
      match earliest l' with
      | Some u => if (timer_due u <? timer_due t)%Z then Some u else Some t
      | None => Some t
      end
  end.

(** The event loop runs the next timer: the clock moves to its due time
    and the timer leaves the queue. *)
Definition pop_timer q : option (C * timer_queue C) :=
  match earliest (tq_pending q) with
  | None => None
  | Some t => Some (timer_cb t, mk_queue (Z.max (tq_clock q) (timer_due t)) (tq_next q)
                                 (drop_id (timer_id t) (tq_pending q)))
  end.

(** [d] ms pass before the next event; the event loop allows it only when
    no pending timer falls due before. *)
Definition elapse (d : Z) q : option (timer_queue C) :=
  if bool_decide (0 <= d)%Z &&
     forallb (fun t => bool_decide (tq_clock q + d <= timer_due t)%Z) (tq_pending q)
  then Some (mk_queue (tq_clock q + d) (tq_next q) (tq_pending q)) else None.

(** Well-formed queues: distinct positive ids below the next one, and no
    timer overdue. *)
Definition queue_wf q : Prop :=
  (0 < tq_next q)%nat /\
  NoDup (map timer_id (tq_pending q)) /\
  Forall (fun t => 0 < timer_id t < tq_next q)%nat (tq_pending q) /\
  Forall (fun t => tq_clock q <= timer_due t)%Z (tq_pending q).

End Timers.

(** ** Properties of the timer queue *)

Section TimerFacts.
Context {C : Type}.
Implicit Types (q : timer_queue C) (t : timer C) (l : list (timer C)).

Lemma earliest_None l : earliest l = None <-> l = [].
Proof. split; [|by intros ->]. destruct l; cbn; [done|]. by repeat case_match. Qed.

(** The next timer is pending and due no later than any other. *)
Lemma earliest_Some l t :
  earliest l = Some t -> t ∈ l /\ Forall (fun u => timer_due t <= timer_due u)%Z l.
Proof.
  revert t. induction l as [|u l IH]; intros t; cbn; [done|].
  destruct (earliest l) as [v|] eqn:E.
  - destruct (IH v eq_refl) as [Hv Hall].
    destruct (Z.ltb_spec (timer_due v) (timer_due u)); intros [= <-].
    + split; [by right|]. constructor; [lia|done].
    + split; [by left|]. constructor; [lia|]. eapply Forall_impl; [exact Hall|]. cbn. lia.
  - apply earliest_None in E as ->. intros [= <-]. split; [by left|]. repeat constructor. lia.
Qed.

Lemma elem_of_drop_id id l u : u ∈ drop_id id l <-> u ∈ l /\ timer_id u <> id.
Proof. unfold drop_id. rewrite list_elem_of_filter. tauto. Qed.

Lemma drop_id_sublist id l : drop_id id l `sublist_of` l.
Proof. unfold drop_id. apply sublist_filter. Qed.

(** Removing a pending timer shortens the queue. *)
Lemma drop_id_length t l : t ∈ l -> length (drop_id (timer_id t) l) < length l.
Proof.
  induction l as [|u l IH]; intros Ht; [by apply elem_of_nil in Ht|]. unfold drop_id in *.
  rewrite filter_cons. apply elem_of_cons in Ht as [<-|Ht].
  - rewrite decide_False by (intros Hne; by apply Hne). pose proof (sublist_length _ _ (sublist_filter
      (fun t' => timer_id t' <> timer_id t) l)). cbn. lia.
  - specialize (IH Ht). case_decide; cbn; lia.
Qed.

Lemma drop_id_absent id l : id ∉ map timer_id l -> drop_id id l = l.
Proof.
  induction l as [|u l IH]; intros Hid; [done|]. unfold drop_id in *. cbn in Hid.
  apply not_elem_of_cons in Hid as [Hu Hid]. rewrite filter_cons, decide_True by done.
  by rewrite IH.
Qed.

Lemma NoDup_map_drop_id {A} (f : timer C -> A) id l :
  NoDup (map f l) -> NoDup (map f (drop_id id l)).
Proof.
  induction l as [|u l IH]; intros Hn; [done|]. cbn in Hn. apply NoDup_cons in Hn as [Hu Hn].
  unfold drop_id in *. rewrite filter_cons. case_decide; [|by apply IH].
  cbn. apply NoDup_cons. split; [|by apply IH]. intros Hin. apply Hu.
  apply list_elem_of_fmap in Hin as (v & -> & Hv). apply elem_of_drop_id in Hv as [Hv _].
  by apply list_elem_of_fmap_2.
Qed.

Lemma Forall_drop_id (P : timer C -> Prop) id l : Forall P l -> Forall P (drop_id id l).
Proof. rewrite !Forall_forall. intros H u Hu. apply elem_of_drop_id in Hu. apply H, Hu. Qed.

#[local] Hint Resolve NoDup_map_drop_id Forall_drop_id : core.

(** Ids name timers: two pending timers with one id are one timer. *)
Lemma timer_id_unique l t u :
  NoDup (map timer_id l) -> t ∈ l -> u ∈ l -> timer_id t = timer_id u -> t = u.
Proof.
  induction l as [|x l IH]; intros Hn Ht Hu Hid; [by apply elem_of_nil in Ht|].
  cbn in Hn. apply NoDup_cons in Hn as [Hx Hn].
  apply elem_of_cons in Ht as [->|Ht], Hu as [->|Hu]; try done; try by apply IH.
  - exfalso. apply Hx. rewrite Hid. by apply list_elem_of_fmap_2.
  - exfalso. apply Hx. rewrite <- Hid. by apply list_elem_of_fmap_2.
Qed.

Lemma clearTimeout_wf id q : queue_wf q -> queue_wf (clearTimeout id q).
Proof. intros (Hp & Hn & Hid & Hd). unfold clearTimeout, queue_wf; cbn [tq_pending tq_next tq_clock]. auto. Qed.

Lemma setTimeout_wf cb d q : queue_wf q -> queue_wf (setTimeout cb d q).2.
Proof.
  intros (Hp & Hn & Hid & Hd). unfold setTimeout, queue_wf; cbn [fst snd tq_pending tq_next tq_clock].
  rewrite map_app. repeat split; [lia| | |].
  - apply NoDup_app. split; [done|]. split; [|apply NoDup_singleton].
    intros i Hi ->%list_elem_of_singleton. apply list_elem_of_fmap in Hi as (t & Ht & Hin).
    rewrite Forall_forall in Hid. specialize (Hid t Hin). cbn in Hid, Ht. lia.
  - apply Forall_app. split; [|repeat constructor; cbn; lia].
    eapply Forall_impl; [exact Hid|]. cbn. lia.
  - apply Forall_app. split; [done|]. repeat constructor. cbn. lia.
Qed.

(** The id [setTimeout] returns is positive and names no timer pending
    before. *)
Lemma setTimeout_fresh cb d q :
  queue_wf q -> (0 < (setTimeout cb d q).1)%nat /\ (setTimeout cb d q).1 ∉ map timer_id (tq_pending q).
Proof.
  intros (Hp & _ & Hid & _). unfold setTimeout; cbn [fst]. split; [done|].
  intros (t & Heq & Ht)%list_elem_of_fmap. rewrite Forall_forall in Hid.
  specialize (Hid t Ht). cbn in Hid. lia.
Qed.

(** Running the next timer: it was pending, due no later than the others,
    the clock moves to its due time and the others stay pending. *)
Lemma pop_timer_Some q c q' :
  queue_wf q -> pop_timer q = Some (c, q') ->
  exists t, t ∈ tq_pending q /\ timer_cb t = c /\
    tq_clock q' = timer_due t /\ tq_next q' = tq_next q /\
    tq_pending q' = drop_id (timer_id t) (tq_pending q).
Proof.
  intros (_ & _ & _ & Hd) Hpop. unfold pop_timer in Hpop.
  destruct (earliest (tq_pending q)) as [t|] eqn:E; [|done]. injection Hpop as <- <-.
  apply earliest_Some in E as [Ht _]. exists t. repeat split; [done|].
  rewrite Forall_forall in Hd. specialize (Hd t Ht). cbn. lia.
Qed.

Lemma pop_timer_None q : pop_timer q = None <-> tq_pending q = [].
Proof.
  unfold pop_timer. rewrite <- earliest_None. by destruct (earliest (tq_pending q)).
Qed.

Lemma pop_timer_wf q c q' : queue_wf q -> pop_timer q = Some (c, q') -> queue_wf q'.
Proof.
  intros Hwf Hpop. pose proof Hwf as (Hp & Hn & Hid & Hd). unfold pop_timer in Hpop.
  destruct (earliest (tq_pending q)) as [t|] eqn:E; [|done]. injection Hpop as <- <-.
  apply earliest_Some in E as [Ht Hmin]. unfold queue_wf; cbn [tq_pending tq_next tq_clock].
  repeat split; auto. apply Forall_drop_id. rewrite Forall_forall in Hd, Hmin |- *.
  intros u Hu. specialize (Hd u Hu). specialize (Hmin u Hu). lia.
Qed.

Lemma pop_timer_length q c q' :
  pop_timer q = Some (c, q') -> length (tq_pending q') < length (tq_pending q).
Proof.
  unfold pop_timer. destruct (earliest (tq_pending q)) as [t|] eqn:E; [|done].
  intros [= <- <-]. apply earliest_Some in E as [Ht _]. by apply drop_id_length.
Qed.

Lemma elapse_Some d q q' :
  elapse d q = Some q' ->
  (0 <= d)%Z /\ Forall (fun t => tq_clock q + d <= timer_due t)%Z (tq_pending q) /\
  q' = mk_queue (tq_clock q + d) (tq_next q) (tq_pending q).
Proof.
  unfold elapse. destruct (bool_decide _ && _) eqn:E; [|done]. intros [= <-].
  apply andb_true_iff in E as [H1 H2]. apply bool_decide_eq_true in H1.
  split; [done|]. split; [|done]. apply Forall_forall. intros t Ht.
  rewrite forallb_forall in H2. apply list_elem_of_In in Ht.
  exact (bool_decide_eq_true_1 _ (H2 t Ht)).
Qed.

Lemma elapse_wf d q q' : queue_wf q -> elapse d q = Some q' -> queue_wf q'.
Proof. intros (Hp & Hn & Hid & Hd) (_ & Hle & ->)%elapse_Some. by repeat split. Qed.

End TimerFacts.

#[export] Hint Resolve clearTimeout_wf setTimeout_wf pop_timer_wf elapse_wf : nav.
