(* ===== verification/Random.v ===== *)
(** * Random: Math.random, the browser's sort, and the random samplers

    [Math.random()] is modelled as an oracle [rnd : nat -> Z]: the [i]-th
    call returns [rnd i / 2^53] (a double of [0,1) has this form in the
    engines, which draw 53 random bits).  The state of the randomness is the
    number of draws made so far, so every random helper is an [ST nat]
    computation.  [Math.floor(Math.random() * k)] is [floor_random k], the
    product rounded to the nearest double ([binary64_round]) before the
    floor.

    [Array.prototype.sort] is not code of the repository: it is the
    interface [ArraySort], whose law is that the result is a permutation of
    the input whatever the comparator answers (ECMAScript requires this
    also for inconsistent comparators, such as the random one used here).
    [insertion_sort] is an instance (the insertion sort engines use on
    short arrays), used to evaluate the witnesses.

    Source: src/js/analysis-engine.js, lines 254-337 (the samplers) and
    src/js/ui-controller.js, lines 821-855 (the summary samplers). *)

From S2P Require Import Prelude.
Local Open Scope nav_scope.

(** ** The browser's sort, as an interface *)

Class ArraySort := {
  array_sort : forall {A : Type},
    (A -> A -> ST nat comparison) -> list A -> ST nat (list A);
  array_sort_perm : forall A (cmp : A -> A -> ST nat comparison) (l : list A) i,
    fst (array_sort cmp l i) ≡ₚ l
}.

(** An instance: the insertion sort of short arrays.  The sorted prefix is
    kept reversed, and the element is compared with the prefix from its end,
    [comparefn(a[j], element)], shifting while the answer is positive. *)
Section InsertionSort.
Context {A : Type} (cmp : A -> A -> ST nat comparison).

Fixpoint insert_back (x : A) (rp : list A) : ST nat (list A) :=
  match rp with
  | [] => st_ret [x]
  | t :: rest =>
      o <- cmp t x ;;
      match o with
      | Gt => r <- insert_back x rest ;; st_ret (t :: r)
      | _ => st_ret (x :: t :: rest)
      end
  end.

Fixpoint insertion_pass (rp l : list A) : ST nat (list A) :=
  match l with
  | [] => st_ret (rev rp)
  | x :: xs => rp' <- insert_back x rp ;; insertion_pass rp' xs
  end.

Definition insertion_sort (l : list A) : ST nat (list A) :=
  match l with
  | [] => st_ret []
  | x :: xs => insertion_pass [x] xs
  end.

Lemma insert_back_perm x rp i : fst (insert_back x rp i) ≡ₚ x :: rp.
Proof.
  revert i. induction rp as [|t rest IH]; intros i; [done|].
  cbn [insert_back]. rewrite st_bind_unfold.
  destruct (fst (cmp t x i)); cbn; try done.
  rewrite st_bind_unfold. cbn. rewrite IH. by constructor.
Qed.

Lemma insertion_pass_perm rp l i : fst (insertion_pass rp l i) ≡ₚ rev rp ++ l.
Proof.
  revert rp i. induction l as [|x xs IH]; intros rp i; cbn [insertion_pass].
  - by rewrite app_nil_r.
  - rewrite st_bind_unfold, IH, insert_back_perm. cbn.
    by rewrite <- app_assoc.
Qed.

Lemma insertion_sort_perm l i : fst (insertion_sort l i) ≡ₚ l.
Proof. destruct l; [done|]. apply insertion_pass_perm. Qed.
End InsertionSort.

#[export] Instance insertion_array_sort : ArraySort :=
  {| array_sort := @insertion_sort; array_sort_perm := @insertion_sort_perm |}.

(** ** JavaScript helpers *)

(** [arr.slice(0, end)], with a negative [end] counted from the end. *)
Definition js_slice0 {A} (l : list A) (e : Z) : list A :=
  if (e <? 0)%Z then take (Z.to_nat (Z.of_nat (length l) + e)) l
  else take (Z.to_nat e) l.

(** ** Rounding to a double

    A double has a significand of 53 bits.  For an integer [N >= 0],
    [binary64_round N] is the integer nearest to [N] with at most 53
    significant bits, ties to the even significand: the rounding of the
    real [N / 2^e] to a double, scaled back by [2^e], for every [e] that
    keeps it in the normal range. *)
Definition binary64_round (N : Z) : Z :=
  let s := (Z.log2 N - 52)%Z in
  if (s <=? 0)%Z then N else
  let q := Z.shiftr N s in
  let r := (N - Z.shiftl q s)%Z in
  let h := Z.shiftl 1 (s - 1) in
  let q' := if (h <? r)%Z then (q + 1)%Z
            else if (r =? h)%Z then (if Z.odd q then (q + 1)%Z else q) else q in
  Z.shiftl q' s.

(** The rounding moves [N] up by at most half a unit in the last place,
    which is at most [N / 2^53]. *)
Lemma binary64_round_bound N :
  (0 <= N)%Z -> (0 <= binary64_round N <= N + N / 2 ^ 53)%Z.
Proof.
  intros HN. unfold binary64_round.
  destruct (Z.leb_spec (Z.log2 N - 52) 0) as [Hs|Hs].
  { split; [lia|]. pose proof (Z.div_pos N (2 ^ 53) HN ltac:(lia)). lia. }
  set (s := (Z.log2 N - 52)%Z) in *.
  assert (Hpos : (0 < N)%Z).
  { destruct (Z.eq_dec N 0%Z) as [->|]; [cbn in s; subst s; lia | lia]. }
  rewrite !Z.shiftl_mul_pow2, Z.shiftr_div_pow2 by lia.
  rewrite Z.mul_1_l.
  pose proof (Z.log2_spec N Hpos) as [Hlo _].
  assert (Hh : (2 ^ (s - 1) * 2 ^ 53 <= N)%Z).
  { rewrite <- Z.pow_add_r by lia. replace (s - 1 + 53)%Z with (Z.log2 N) by lia. lia. }
  assert (Hhd : (2 ^ (s - 1) <= N / 2 ^ 53)%Z) by (apply Z.div_le_lower_bound; lia).
  assert (H2s : (2 ^ s = 2 * 2 ^ (s - 1))%Z).
  { rewrite <- Z.pow_succ_r by lia. f_equal. lia. }
  pose proof (Z.div_mod N (2 ^ s) ltac:(lia)) as Hdm.
  pose proof (Z.mod_pos_bound N (2 ^ s) ltac:(lia)) as Hm.
  pose proof (Z.div_pos N (2 ^ s) ltac:(lia) ltac:(lia)) as Hq.
  set (q := (N / 2 ^ s)%Z) in *. set (h := (2 ^ (s - 1))%Z) in *.
  assert (Hr : (N - q * 2 ^ s = N mod 2 ^ s)%Z) by lia.
  rewrite Hr.
  destruct (Z.ltb_spec h (N mod 2 ^ s)); [nia|].
  destruct (Z.eqb_spec (N mod 2 ^ s) h); [destruct (Z.odd q)|]; nia.
Qed.

(** ** The oracle and the samplers *)

Section WithOracle.
Context (rnd : nat -> Z).
Context `{ArraySort}.

(** [Math.random()]: the next draw, read as [u / 2^53]. *)
Definition math_random : ST nat Z := fun i => (rnd i, S i).

(** [Math.floor(Math.random() * k)].  The product [u / 2^53 * k] is
    rounded to the nearest double before the floor is taken:
    [binary64_round (u * k)] is that double scaled by [2^53]. *)
Definition floor_random (k : Z) : ST nat Z :=
  u <- math_random ;; st_ret (binary64_round (u * k) / 2 ^ 53)%Z.

(** The comparator [() => 0.5 - Math.random()]: positive when the draw is
    below one half. *)
Definition random_comparator {A} (_ _ : A) : ST nat comparison :=
  u <- math_random ;; st_ret (Z.compare (2 ^ 52) u).

(** [getRandomElements(array, count)] *)
Definition getRandomElements {A} (array : list A) (count : Z) : ST nat (list A) :=
  shuffled <- array_sort random_comparator array ;;
  st_ret (js_slice0 shuffled count).

Definition strengths_catalog : list string :=
  ["Clear brand voice"; "Consistent key messages"; "Strong visual identity";
   "Engaging content format"; "Well-defined audience targeting";
   "Effective call-to-action"; "Authentic tone"].

Definition weaknesses_catalog : list string :=
  ["Inconsistent messaging"; "Tone mismatch with audience";
   "Missing key brand elements"; "Unclear value proposition";
   "Content format limitations"; "Lack of audience targeting";
   "Weak call-to-action"].

Definition themes_catalog : list string :=
  ["Core brand values"; "Key product benefits"; "Target audience needs";
   "Company mission"; "Service offerings"; "Customer testimonials";
   "Industry expertise"].

Definition divergent_catalog : list string :=
  ["Tone of voice"; "Content depth"; "Call-to-action style";
   "Visual presentation"; "Feature emphasis"; "Technical detail level";
   "Promotional focus"].

(** [generateRandomStrengths(platform)]: 2 or 3 strengths. *)
Definition generateRandomStrengths (platform : string) : ST nat (list string) :=
  n <- floor_random 2 ;; getRandomElements strengths_catalog (2 + n).

(** [generateRandomWeaknesses(platform)]: 1 or 2 weaknesses. *)
Definition generateRandomWeaknesses (platform : string) : ST nat (list string) :=
  n <- floor_random 2 ;; getRandomElements weaknesses_catalog (1 + n).

Definition generateRandomCommonThemes : ST nat (list string) :=
  n <- floor_random 2 ;; getRandomElements themes_catalog (2 + n).

Definition generateRandomDivergentElements : ST nat (list string) :=
  n <- floor_random 2 ;; getRandomElements divergent_catalog (2 + n).
End WithOracle.

(** The rounding is observable: the draw [u = (2^54 - 1) / 3] times [3] is
    [2 - 2^-53] exactly, a tie between two doubles that rounds to [2], so
    [Math.floor] answers [2] where the exact product has floor [1]. *)
Example floor_random_rounds_up :
  fst (floor_random (fun _ : nat => ((2 ^ 54 - 1) / 3)%Z) 3%Z 0%nat) = 2%Z /\
  ((2 ^ 54 - 1) / 3 * 3 / 2 ^ 53 = 1)%Z.
Proof. split; vm_compute; reflexivity. Qed.

(** ** Properties of the samplers *)

(** [r] is a sample of [n] distinct elements of the catalog [cat]. *)
Definition sample_of {A} (cat : list A) (n : nat) (r : list A) : Prop :=
  length r = n /\ NoDup r /\ r ⊆ cat.

Section SamplerProperties.
Context (rnd : nat -> Z).
Hypothesis rnd_ok : forall i, (0 <= rnd i < 2 ^ 53)%Z.
Context `{ArraySort}.

Lemma floor_random_bound k i :
  (0 < k)%Z -> (0 <= fst (floor_random rnd k i) < k)%Z.
Proof.
  intros Hk. cbn. pose proof (rnd_ok i).
  pose proof (binary64_round_bound (rnd i * k) ltac:(nia)).
  assert ((rnd i * k) / 2 ^ 53 < k)%Z by (apply Z.div_lt_upper_bound; nia).
  split; [apply Z.div_pos; lia|].
  apply Z.div_lt_upper_bound; nia.
Qed.

Lemma floor_random_pos k i : snd (floor_random rnd k i) = S i.
Proof. done. Qed.

Lemma js_slice0_nonneg {A} (l : list A) e :
  (0 <= e)%Z -> js_slice0 l e = take (Z.to_nat e) l.
Proof. intros He. unfold js_slice0. by destruct (Z.ltb_spec e 0); [lia|]. Qed.

(** [getRandomElements] returns [min count (length array)] distinct
    elements of the array. *)
Lemma getRandomElements_sample {A} (array : list A) count i :
  NoDup array -> (0 <= count)%Z ->
  sample_of array (Nat.min (Z.to_nat count) (length array))
    (fst (getRandomElements rnd array count i)).
Proof.
  intros Hnd Hc. unfold getRandomElements. rewrite st_bind_unfold. cbn.
  rewrite js_slice0_nonneg by done.
  pose proof (array_sort_perm _ (random_comparator rnd) array i) as Hp.
  set (s := fst _) in *.
  split; [|split].
  - rewrite length_take. by rewrite (Permutation_length Hp).
  - eapply sublist_NoDup; [|apply sublist_take]. by rewrite Hp.
  - intros x Hx. rewrite <- Hp. by apply (sublist_subseteq _ _ (sublist_take s (Z.to_nat count))).
Qed.

(** The pattern of the four catalog samplers: a draw of [0] or [1], then a
    sample of [b] plus that many elements. *)
Lemma draw_then_sample (cat : list string) (b : Z) i :
  NoDup cat -> length cat = 7%nat -> (0 <= b <= 5)%Z ->
  exists k, (Z.to_nat b <= k <= Z.to_nat b + 1)%nat /\
    sample_of cat k
      (fst ((n <- floor_random rnd 2 ;; getRandomElements rnd cat (b + n)) i)).
Proof.
  intros Hnd Hlen Hb. rewrite st_bind_unfold.
  pose proof (floor_random_bound 2 i) as Hn.
  set (n := fst (floor_random rnd 2 i)) in *.
  exists (Z.to_nat (b + n)). split; [lia|].
  replace (Z.to_nat (b + n)) with (Nat.min (Z.to_nat (b + n)) (length cat)) by lia.
  apply getRandomElements_sample; [done | lia].
Qed.

Lemma catalogs_NoDup :
  NoDup strengths_catalog /\ NoDup weaknesses_catalog /\
  NoDup themes_catalog /\ NoDup divergent_catalog.
Proof. repeat split; by_eval. Qed.

Lemma generateRandomStrengths_sample p i :
  exists k, (2 <= k <= 3)%nat /\
    sample_of strengths_catalog k (fst (generateRandomStrengths rnd p i)).
Proof. exact (draw_then_sample _ 2 i (proj1 catalogs_NoDup) eq_refl ltac:(lia)). Qed.

Lemma generateRandomWeaknesses_sample p i :
  exists k, (1 <= k <= 2)%nat /\
    sample_of weaknesses_catalog k (fst (generateRandomWeaknesses rnd p i)).
Proof.
  exact (draw_then_sample _ 1 i (proj1 (proj2 catalogs_NoDup)) eq_refl ltac:(lia)).
Qed.

Lemma generateRandomCommonThemes_sample i :
  exists k, (2 <= k <= 3)%nat /\
    sample_of themes_catalog k (fst (generateRandomCommonThemes rnd i)).
Proof.
  exact (draw_then_sample _ 2 i (proj1 (proj2 (proj2 catalogs_NoDup))) eq_refl ltac:(lia)).
Qed.

Lemma generateRandomDivergentElements_sample i :
  exists k, (2 <= k <= 3)%nat /\
    sample_of divergent_catalog k (fst (generateRandomDivergentElements rnd i)).
Proof.
  exact (draw_then_sample _ 2 i (proj2 (proj2 (proj2 catalogs_NoDup))) eq_refl ltac:(lia)).
Qed.

(** Each catalog sampler of the coherence analysis returns distinct
    elements of its seven-item catalog: 2 or 3 strengths, 1 or 2
    weaknesses, 2 or 3 common themes and 2 or 3 divergent elements,
    whatever the random draws. *)
Theorem catalog_samplers_spec p i :
  (exists k, (2 <= k <= 3)%nat /\
     sample_of strengths_catalog k (fst (generateRandomStrengths rnd p i))) /\
  (exists k, (1 <= k <= 2)%nat /\
     sample_of weaknesses_catalog k (fst (generateRandomWeaknesses rnd p i))) /\
  (exists k, (2 <= k <= 3)%nat /\
     sample_of themes_catalog k (fst (generateRandomCommonThemes rnd i))) /\
  (exists k, (2 <= k <= 3)%nat /\
     sample_of divergent_catalog k (fst (generateRandomDivergentElements rnd i))).
Proof.
  split; [|split; [|split]].
  - apply generateRandomStrengths_sample.
  - apply generateRandomWeaknesses_sample.
  - apply generateRandomCommonThemes_sample.
  - apply generateRandomDivergentElements_sample.
Qed.
End SamplerProperties.

(** Witness: with every draw at [0] the comparator always answers positive,
    the insertion sort reverses the catalog, and the strengths sampler
    returns the last two strengths. *)
Lemma catalog_samplers_spec_witness :
  fst (generateRandomStrengths (fun _ => 0%Z) "1" 0) =
    ["Authentic tone"; "Effective call-to-action"] /\
  exists k, (2 <= k <= 3)%nat /\
    sample_of strengths_catalog k (fst (generateRandomStrengths (fun _ => 0%Z) "1" 0)).
Proof.
  split; [vm_compute; reflexivity|].
  apply (catalog_samplers_spec (fun _ => 0%Z)); lia.
Defined.
