(* ===== verification/Benchmark.v ===== *)
(** * Benchmark: rating a score against the industry thresholds

    Models [industryBenchmarks], [compareToBenchmark] and
    [calculatePercentile] of src/js/analysis-engine.js (lines 12-26 and
    442-486).  A score is a [num]: an integer or [NaN].

    [calculatePercentile] computes [Math.floor(((score - min) / (max - min))
    * 100)] in floating point; the model computes the exact
    [((score - min) * 100) / (max - min)].  The two agree for every integer
    score in [-112, 323] for both categories (the first disagreement is at
    [329] for coherence and [324] for consistency, where the product
    [0.29... * 100] rounds below an integer), and every score the analysis
    produces lies in [0, 100]. *)

From S2P Require Import Prelude.
Local Open Scope Z_scope.

(** ** Data *)

(** The [category] argument, the strings ['coherence'] and ['consistency']. *)
Inductive category := cat_coherence | cat_consistency.

Record thresholds := mk_thresholds {
  excellent : Z; good : Z; average : Z; poor : Z
}.

Definition industryBenchmarks (c : category) : thresholds :=
  match c with
  | cat_coherence => mk_thresholds 85 70 55 40
  | cat_consistency => mk_thresholds 80 65 50 35
  end.

Inductive rating := Excellent | Good | Average | BelowAverage | Poor.

(** The rating strings of the source. *)
Definition rating_text (r : rating) : string :=
  match r with
  | Excellent => "excellent"
  | Good => "good"
  | Average => "average"
  | BelowAverage => "below average"
  | Poor => "poor"
  end.

Record benchmark_comparison := mk_benchmark {
  bc_score : num;
  industryAverage : Z;
  bc_rating : rating;
  percentile : num
}.

(** ** Operations *)

(** [calculatePercentile(score, category)] *)
Definition calculatePercentile (score : num) (c : category) : num :=
  let b := industryBenchmarks c in
  let min := poor b - 10 in
  let max := excellent b + 10 in
  match score with
  | Num s => Num (((s - min) * 100) / (max - min))
  | NaN => NaN
  end.

(** The if-else chain of [compareToBenchmark]. *)
Definition rate (score : num) (b : thresholds) : rating :=
  if num_ge score (excellent b) then Excellent
  else if num_ge score (good b) then Good
  else if num_ge score (average b) then Average
  else if num_ge score (poor b) then BelowAverage
  else Poor.

(** [compareToBenchmark(score, category)] *)
Definition compareToBenchmark (score : num) (c : category) : benchmark_comparison :=
  let b := industryBenchmarks c in
  mk_benchmark score (average b) (rate score b) (calculatePercentile score c).

(** ** The order of the ratings *)

Definition rating_rank (r : rating) : Z :=
  match r with
  | Excellent => 4 | Good => 3 | Average => 2 | BelowAverage => 1 | Poor => 0
  end.

(** Thresholds that decrease strictly from excellent to poor. *)
Definition thresholds_ok (b : thresholds) : Prop :=
  poor b < average b < good b /\ good b < excellent b.

(** ** Properties *)

Lemma industryBenchmarks_ok c : thresholds_ok (industryBenchmarks c).
Proof. destruct c; cbn; unfold thresholds_ok; cbn; lia. Qed.

Ltac rate_cases :=
  unfold rate; cbn [num_ge];
  repeat match goal with
         | |- context [Z.leb ?a ?b] => destruct (Z.leb_spec a b)
         end.

Section Rate.
Context (b : thresholds) (Hb : thresholds_ok b).

Lemma rate_excellent s : rate (Num s) b = Excellent <-> excellent b <= s.
Proof. destruct Hb. rate_cases; split; intros; try done; lia. Qed.

Lemma rate_good s : rate (Num s) b = Good <-> good b <= s < excellent b.
Proof. destruct Hb. rate_cases; split; intros; try done; lia. Qed.

Lemma rate_average s : rate (Num s) b = Average <-> average b <= s < good b.
Proof. destruct Hb. rate_cases; split; intros; try done; lia. Qed.

Lemma rate_below_average s :
  rate (Num s) b = BelowAverage <-> poor b <= s < average b.
Proof. destruct Hb. rate_cases; split; intros; try done; lia. Qed.

Lemma rate_poor s : rate (Num s) b = Poor <-> s < poor b.
Proof. destruct Hb. rate_cases; split; intros; try done; lia. Qed.

Lemma rate_monotone s1 s2 :
  s1 <= s2 -> rating_rank (rate (Num s1) b) <= rating_rank (rate (Num s2) b).
Proof. destruct Hb. intros. rate_cases; cbn; lia. Qed.
End Rate.

(** C16: the rating of [compareToBenchmark] is the highest bucket whose
    threshold the score meets, and "poor" below the lowest threshold. *)
Theorem compareToBenchmark_rating s c :
  let b := industryBenchmarks c in
  let r := bc_rating (compareToBenchmark (Num s) c) in
  (r = Excellent <-> excellent b <= s) /\
  (r = Good <-> good b <= s < excellent b) /\
  (r = Average <-> average b <= s < good b) /\
  (r = BelowAverage <-> poor b <= s < average b) /\
  (r = Poor <-> s < poor b).
Proof.
  pose proof (industryBenchmarks_ok c) as Hb. cbn zeta. unfold compareToBenchmark.
  cbn [bc_rating].
  repeat split; first [apply rate_excellent | apply rate_good | apply rate_average
                      | apply rate_below_average | apply rate_poor]; done.
Qed.

(** A higher score never gets a lower rating. *)
Theorem compareToBenchmark_monotone s1 s2 c :
  s1 <= s2 ->
  rating_rank (bc_rating (compareToBenchmark (Num s1) c))
    <= rating_rank (bc_rating (compareToBenchmark (Num s2) c)).
Proof. intros. apply rate_monotone; [apply industryBenchmarks_ok | done]. Qed.

Lemma compareToBenchmark_monotone_witness :
  rating_rank (bc_rating (compareToBenchmark (Num 60) cat_coherence))
    <= rating_rank (bc_rating (compareToBenchmark (Num 72) cat_coherence)).
Proof. apply compareToBenchmark_monotone. lia. Defined.

(** The bounds of the linear rescale: [min = poor - 10], [max = excellent + 10]. *)
Definition percentile_min (c : category) : Z := poor (industryBenchmarks c) - 10.
Definition percentile_max (c : category) : Z := excellent (industryBenchmarks c) + 10.

(** C36: the percentile lies in [0, 100] exactly when the score lies
    between the category's [poor - 10] and [excellent + 10]: it is not
    clamped, although the source documents it as "Percentile (0-100)". *)
Theorem calculatePercentile_range s c :
  exists p, calculatePercentile (Num s) c = Num p /\
    (0 <= p <-> percentile_min c <= s) /\ (p <= 100 <-> s <= percentile_max c).
Proof.
  eexists; split; [reflexivity|].
  unfold percentile_min, percentile_max. destruct c; cbn.
  all: match goal with
       | |- context [?a / ?d] => pose proof (Z_div_bracket a d ltac:(lia))
       end; lia.
Qed.

(** A score between the bounds of the rescale has a percentile in [0, 100]. *)
Lemma calculatePercentile_in_range s c :
  percentile_min c <= s <= percentile_max c ->
  exists p, calculatePercentile (Num s) c = Num p /\ 0 <= p <= 100.
Proof.
  unfold percentile_min, percentile_max. intros Hs.
  eexists; split; [reflexivity|]. destruct c; cbn in *.
  all: match goal with
       | |- context [?a / ?d] => pose proof (Z_div_bracket a d ltac:(lia))
       end; lia.
Qed.

(** The examples of the specification: the coherence ratings of the
    scores 90, 72, 60, 45 and 10, and the coherence percentile of 85. *)
Example compareToBenchmark_spec_examples :
  map (fun s => rating_text (bc_rating (compareToBenchmark (Num s) cat_coherence)))
      [90; 72; 60; 45; 10]
    = ["excellent"; "good"; "average"; "below average"; "poor"]%string /\
  percentile (compareToBenchmark (Num 85) cat_coherence) = Num 84.
Proof. split; reflexivity. Qed.

(** The percentile is not clamped to [0, 100], although the source
    documents its result as "Percentile (0-100)": a coherence score of 10
    gives -31 and a score of 100 gives 107. *)
Example calculatePercentile_unclamped :
  calculatePercentile (Num 10) cat_coherence = Num (-31) /\
  calculatePercentile (Num 100) cat_coherence = Num 107.
Proof. split; reflexivity. Qed.

(** A [NaN] score (the mean over no platform) is rated "poor", and its
    percentile is [NaN]. *)
Theorem compareToBenchmark_NaN c :
  bc_rating (compareToBenchmark NaN c) = Poor /\
  percentile (compareToBenchmark NaN c) = NaN.
Proof. by destruct c. Qed.
