(* ===== verification/Json.v ===== *)
(** * Json: JavaScript values as JSON

    The values the program stores, loads and passes between its modules
    are plain JavaScript objects built from literals; they are modelled by
    their JSON image [json].  A finite number is [mant * 10 ^ exp10]: the
    decimal the user typed or the engine printed.  [NaN] becomes [null], as
    [JSON.stringify] writes it.  An object is the list of its properties in
    enumeration order. *)

From S2P Require Import Prelude.
Local Open Scope Z_scope.

Record jnum := JNum { mant : Z; exp10 : Z }.

Local Set Warnings "-register-all".

Inductive json :=
  | JNull
  | JBool (b : bool)
  | JNumber (n : jnum)
  | JString (s : string)
  | JArray (l : list json)
  | JObject (fields : list (string * json)).

(** The induction principle for the nested lists of [json]. *)
Definition json_ind' (P : json -> Prop)
    (fnull : P JNull)
    (fbool : forall b, P (JBool b))
    (fnum : forall n, P (JNumber n))
    (fstr : forall s, P (JString s))
    (farr : forall l, Forall P l -> P (JArray l))
    (fobj : forall fs, Forall (fun kv => P (snd kv)) fs -> P (JObject fs)) :
    forall j, P j :=
  fix F j :=
    match j with
    | JNull => fnull
    | JBool b => fbool b
    | JNumber n => fnum n
    | JString s => fstr s
    | JArray l =>
        farr l ((fix G l : Forall P l :=
                   match l with
                   | [] => List.Forall_nil _
                   | x :: xs => List.Forall_cons _ x xs (F x) (G xs)
                   end) l)
    | JObject fs =>
        fobj fs ((fix G fs : Forall (fun kv => P (snd kv)) fs :=
                    match fs with
                    | [] => List.Forall_nil _
                    | kv :: rest => List.Forall_cons _ kv rest (F (snd kv)) (G rest)
                    end) fs)
    end.

(** ** Conversions used by the modules *)

Definition jnum_of_Z (z : Z) : jnum := JNum z 0.

Definition json_of_Z (z : Z) : json := JNumber (jnum_of_Z z).

(** [JSON.stringify] writes [NaN] as [null]. *)
Definition json_of_num (n : num) : json :=
  match n with Num z => json_of_Z z | NaN => JNull end.

Definition json_of_strings (l : list string) : json := JArray (map JString l).

(** [o[k]] on an object: the value of its property [k], or [undefined]. *)
Fixpoint get_field (fs : list (string * json)) (k : string) : option json :=
  match fs with
  | [] => None
  | (k', v) :: rest => if String.eqb k' k then Some v else get_field rest k
  end.

(** [x || 0] on a number: [0], [-0] (and [NaN]) are falsy. *)
Definition jnum_or_zero (n : jnum) : jnum :=
  if (mant n =? 0)%Z then jnum_of_Z 0 else n.
