(* ===== verification/JsonCodec.v ===== *)
(** * JsonCodec: JSON text, as JSON.stringify writes it and JSON.parse reads it

    [JSON.stringify] and [JSON.parse] are not code of the repository; the
    storage manager relies on one law of theirs: parsing what was written
    gives the value back.  [JsonCodec] is that interface; the storage
    theorems are proved against it.  [json_codec] is an instance: a printer
    with a layout parameter ([stringify] for [JSON.stringify(v)],
    [stringify_pretty] for [JSON.stringify(v, null, 2)]) and a parser that
    skips whitespace between tokens and reads numbers with a fraction and an
    exponent.  Its round trip is proved for both layouts.

    A number [mant * 10 ^ exp10] is written [mant] or [mant e exp10] (for
    instance [25e-1] for 2.5); strings escape the quote and the backslash.
    The parser also decodes the escapes of the newline, tab, carriage
    return, backspace, form feed and slash. *)

From Stdlib Require Import Ascii DecimalString DecimalZ DecimalPos.
From S2P Require Import Prelude Json.
Local Open Scope string_scope.

(** ** The interface *)

Class JsonCodec := {
  json_stringify : json -> string;
  json_stringify_pretty : json -> string;
  (** [inl msg]: a SyntaxError with its message *)
  json_parse : string -> string + json;
  json_parse_stringify : forall j, json_parse (json_stringify j) = inr j;
  json_parse_stringify_pretty : forall j, json_parse (json_stringify_pretty j) = inr j;
  (** no value is written as the empty text *)
  json_stringify_nonempty : forall j, json_stringify j <> EmptyString
}.

(** ** Characters *)

(** The double quote and the backslash, built from their codes. *)
Definition dquote : Ascii.ascii := Ascii.ascii_of_nat 34.
Definition backslash : Ascii.ascii := Ascii.ascii_of_nat 92.

Definition is_ws (c : Ascii.ascii) : bool :=
  let n := Ascii.nat_of_ascii c in
  Nat.eqb n 32 || Nat.eqb n 10 || Nat.eqb n 13 || Nat.eqb n 9.

Fixpoint skip_ws (s : string) : string :=
  match s with
  | String c r => if is_ws c then skip_ws r else s
  | EmptyString => EmptyString
  end.

(** The characters a number token is made of. *)
Definition is_num_char (c : Ascii.ascii) : bool :=
  let n := Ascii.nat_of_ascii c in
  (Nat.leb 48 n && Nat.leb n 57) || Nat.eqb n 45 || Nat.eqb n 43 || Nat.eqb n 46 ||
  Nat.eqb n 101 || Nat.eqb n 69.

Fixpoint span_num (s : string) : string * string :=
  match s with
  | String c r =>
      if is_num_char c then let '(t, rest) := span_num r in (String c t, rest)
      else (EmptyString, s)
  | EmptyString => (EmptyString, EmptyString)
  end.

(** ** Numbers *)

Definition string_of_Z (z : Z) : string := NilZero.string_of_int (Z.to_int z).

Definition Z_of_string (s : string) : option Z :=
  option_map Z.of_int (NilZero.int_of_string s).

Definition print_jnum (n : jnum) : string :=
  string_of_Z (mant n) ++
  (if (exp10 n =? 0)%Z then EmptyString else String "e"%char (string_of_Z (exp10 n))).

(** Split [s] at the first occurrence of [c]. *)
Fixpoint split_at (c : Ascii.ascii) (s : string) : string * option string :=
  match s with
  | EmptyString => (EmptyString, None)
  | String d r =>
      if Ascii.eqb d c then (EmptyString, Some r)
      else let '(a, b) := split_at c r in (String d a, b)
  end.

Definition strip_plus (s : string) : string :=
  match s with String "+"%char r => r | _ => s end.

(** A number token: [int] or [int.frac], with an optional [e]/[E] exponent. *)
Definition jnum_of_token (t : string) : option jnum :=
  let '(a, e) := match split_at "e"%char t with
                 | (a, Some e) => (a, Some e)
                 | (a, None) => split_at "E"%char a
                 end in
  let '(ip, fp) := split_at "."%char a in
  let frac := match fp with Some f => f | None => EmptyString end in
  m ← Z_of_string (ip ++ frac);
  x ← match e with Some es => Z_of_string (strip_plus es) | None => Some 0%Z end;
  Some (JNum m (x - Z.of_nat (String.length frac))).

(** ** Strings *)

Fixpoint escape (s : string) : string :=
  match s with
  | EmptyString => EmptyString
  | String c r =>
      if Ascii.eqb c dquote then String backslash (String dquote (escape r))
      else if Ascii.eqb c backslash then String backslash (String backslash (escape r))
      else String c (escape r)
  end.

Definition quote (s : string) : string :=
  String dquote (escape s ++ String dquote EmptyString).

Definition unescape_char (c : Ascii.ascii) : option Ascii.ascii :=
  if Ascii.eqb c dquote then Some c
  else if Ascii.eqb c backslash then Some c
  else if Ascii.eqb c "/"%char then Some c
  else if Ascii.eqb c "n"%char then Some (Ascii.ascii_of_nat 10)
  else if Ascii.eqb c "t"%char then Some (Ascii.ascii_of_nat 9)
  else if Ascii.eqb c "r"%char then Some (Ascii.ascii_of_nat 13)
  else if Ascii.eqb c "b"%char then Some (Ascii.ascii_of_nat 8)
  else if Ascii.eqb c "f"%char then Some (Ascii.ascii_of_nat 12)
  else None.

(** The body of a string literal after its opening quote, up to the
    closing quote. *)
Fixpoint parse_string_body (s : string) : option (string * string) :=
  match s with
  | EmptyString => None
  | String c r =>
      if Ascii.eqb c dquote then Some (EmptyString, r)
      else if Ascii.eqb c backslash then
        match r with
        | EmptyString => None
        | String e r' =>
            d ← unescape_char e;
            '(b, rest) ← parse_string_body r';
            Some (String d b, rest)
        end
      else '(b, rest) ← parse_string_body r; Some (String c b, rest)
  end.

(** ** The printer *)

Section Printer.
Context (nl : nat -> string) (colon : string).

(** [nl d] precedes an element or a member at depth [d] and the closing
    bracket at depth [d - 1]; [colon] follows the colon of a member. *)
Fixpoint print (d : nat) (j : json) : string :=
  match j with
  | JNull => "null"
  | JBool true => "true"
  | JBool false => "false"
  | JNumber n => print_jnum n
  | JString s => quote s
  | JArray [] => "[]"
  | JArray (x :: xs) =>
      "[" ++ nl (S d) ++ print (S d) x ++
      (fix go (l : list json) : string :=
         match l with
         | [] => EmptyString
         | y :: ys => "," ++ nl (S d) ++ print (S d) y ++ go ys
         end) xs ++ nl d ++ "]"
  | JObject [] => "{}"
  | JObject ((k, v) :: kvs) =>
      "{" ++ nl (S d) ++ quote k ++ ":" ++ colon ++ print (S d) v ++
      (fix go (l : list (string * json)) : string :=
         match l with
         | [] => EmptyString
         | (k', v') :: rest =>
             "," ++ nl (S d) ++ quote k' ++ ":" ++ colon ++ print (S d) v' ++ go rest
         end) kvs ++ nl d ++ "}"
  end.
End Printer.

Fixpoint spaces (n : nat) : string :=
  match n with O => EmptyString | S m => String " "%char (spaces m) end.

(** [JSON.stringify(v)] and [JSON.stringify(v, null, 2)] *)
Definition stringify (j : json) : string := print (fun _ => EmptyString) EmptyString 0 j.

Definition stringify_pretty (j : json) : string :=
  print (fun d => String (Ascii.ascii_of_nat 10) (spaces (2 * d))) " " 0 j.

(** ** The parser *)

Definition starts_with (c : Ascii.ascii) (s : string) : bool :=
  match s with String d _ => Ascii.eqb d c | EmptyString => false end.

Definition after_first (s : string) : string :=
  match s with String _ r => r | EmptyString => EmptyString end.

Fixpoint parse_value (fuel : nat) (s : string) {struct fuel} : option (json * string) :=
  match fuel with
  | O => None
  | S f =>
      match skip_ws s with
      | EmptyString => None
      | String c r =>
          if Ascii.eqb c dquote then
            '(b, r') ← parse_string_body r; Some (JString b, r')
          else if Ascii.eqb c "["%char then
            if starts_with "]"%char (skip_ws r) then Some (JArray [], after_first (skip_ws r))
            else parse_elems f [] r
          else if Ascii.eqb c "{"%char then
            if starts_with "}"%char (skip_ws r) then Some (JObject [], after_first (skip_ws r))
            else parse_members f [] r
          else if Ascii.eqb c "n"%char then
            match r with
            | String "u"%char (String "l"%char (String "l"%char r')) => Some (JNull, r')
            | _ => None
            end
          else if Ascii.eqb c "t"%char then
            match r with
            | String "r"%char (String "u"%char (String "e"%char r')) => Some (JBool true, r')
            | _ => None
            end
          else if Ascii.eqb c "f"%char then
            match r with
            | String "a"%char (String "l"%char (String "s"%char (String "e"%char r'))) =>
                Some (JBool false, r')
            | _ => None
            end
          else
            let '(t, r') := span_num (String c r) in
            match t with
            | EmptyString => None
            | _ => n ← jnum_of_token t; Some (JNumber n, r')
            end
      end
  end
with parse_elems (fuel : nat) (acc : list json) (s : string) {struct fuel}
    : option (json * string) :=
  match fuel with
  | O => None
  | S f =>
      '(v, r) ← parse_value f s;
      match skip_ws r with
      | String ","%char r' => parse_elems f (acc ++ [v]) r'
      | String "]"%char r' => Some (JArray (acc ++ [v]), r')
      | _ => None
      end
  end
with parse_members (fuel : nat) (acc : list (string * json)) (s : string) {struct fuel}
    : option (json * string) :=
  match fuel with
  | O => None
  | S f =>
      match skip_ws s with
      | String c r =>
          if Ascii.eqb c dquote then
            '(k, r1) ← parse_string_body r;
            match skip_ws r1 with
            | String ":"%char r2 =>
                '(v, r3) ← parse_value f r2;
                match skip_ws r3 with
                | String ","%char r' => parse_members f (acc ++ [(k, v)]) r'
                | String "}"%char r' => Some (JObject (acc ++ [(k, v)]), r')
                | _ => None
                end
            | _ => None
            end
          else None
      | EmptyString => None
      end
  end.

(** [JSON.parse(text)]: one value, then only whitespace. *)
Definition parse (s : string) : string + json :=
  match parse_value (S (String.length s)) s with
  | Some (j, r) =>
      match skip_ws r with
      | EmptyString => inr j
      | _ => inl "Unexpected non-whitespace character after JSON"
      end
  | None => inl "Unexpected token in JSON"
  end.

(** ** The instance *)

(** The size of a value, which bounds the fuel the parser needs. *)
Fixpoint json_size (j : json) : nat :=
  match j with
  | JArray l => S (fold_right (fun x n => S (json_size x + n)) 0 l)
  | JObject fs => S (fold_right (fun kv n => S (json_size kv.2 + n)) 0 fs)
  | _ => 1
  end.

(** Every character of [s] satisfies [p]. *)
Fixpoint str_forall (p : Ascii.ascii -> bool) (s : string) : bool :=
  match s with
  | EmptyString => true
  | String c r => p c && str_forall p r
  end.

Definition is_int_char (c : Ascii.ascii) : bool :=
  let n := Ascii.nat_of_ascii c in (Nat.leb 48 n && Nat.leb n 57) || Nat.eqb n 45.

(** A text that continues after a value: empty, or starting with a
    character that cannot extend a number. *)
Definition stops (r : string) : Prop :=
  match r with EmptyString => True | String c _ => is_num_char c = false end.

(** ** Characters and numbers *)

Lemma str_forall_app p a b : str_forall p (a ++ b) = str_forall p a && str_forall p b.
Proof. induction a as [|c a IH]; simpl; [done|]. rewrite IH. by destruct (p c). Qed.

Lemma string_of_uint_digits u :
  str_forall is_int_char (NilEmpty.string_of_uint u) = true.
Proof. induction u; cbn; rewrite ?IHu; reflexivity. Qed.

Lemma string_of_Z_chars z : str_forall is_int_char (string_of_Z z) = true.
Proof.
  unfold string_of_Z, NilZero.string_of_int, NilZero.string_of_uint.
  destruct (Z.to_int z) as [u|u]; cbn [str_forall];
    destruct u; cbn [str_forall]; rewrite ?string_of_uint_digits; reflexivity.
Qed.

Lemma string_of_Z_roundtrip z : Z_of_string (string_of_Z z) = Some z.
Proof.
  unfold Z_of_string, string_of_Z. rewrite NilZero.isi.
  - cbn. by rewrite DecimalZ.of_to.
  - destruct z; cbn; [done | | done].
    intros [= H]. by apply (Unsigned.to_uint_nonnil p).
  - destruct z; cbn; [done | done |].
    intros [= H]. by apply (Unsigned.to_uint_nonnil p).
Qed.

Lemma string_of_Z_nonempty z : string_of_Z z <> EmptyString.
Proof.
  unfold string_of_Z, NilZero.string_of_int, NilZero.string_of_uint.
  destruct (Z.to_int z) as [u|u]; destruct u; cbn; done.
Qed.

Lemma split_at_none c s :
  str_forall (fun d => negb (Ascii.eqb d c)) s = true -> split_at c s = (s, None).
Proof.
  induction s as [|d s IH]; simpl; [done|].
  destruct (Ascii.eqb d c); simpl; [done|]. intros H. by rewrite IH.
Qed.

Lemma split_at_app c a b :
  str_forall (fun d => negb (Ascii.eqb d c)) a = true ->
  split_at c (a ++ String c b) = (a, Some b).
Proof.
  induction a as [|d a IH]; simpl.
  - by rewrite Ascii.eqb_refl.
  - destruct (Ascii.eqb d c); simpl; [done|]. intros H. by rewrite IH.
Qed.

Lemma str_forall_impl (p q : Ascii.ascii -> bool) s :
  (forall c, p c = true -> q c = true) -> str_forall p s = true -> str_forall q s = true.
Proof.
  intros Hpq. induction s as [|c s IH]; cbn; [done|].
  destruct (p c) eqn:E; [|done]. rewrite (Hpq c E). cbn. done.
Qed.

(** A digit or a minus sign is none of e, E, the point and the plus. *)
Lemma int_char_not c :
  is_int_char c = true ->
  negb (Ascii.eqb c "e"%char) = true /\ negb (Ascii.eqb c "E"%char) = true /\
  negb (Ascii.eqb c "."%char) = true /\ is_num_char c = true /\ is_ws c = false /\
  c <> "+"%char.
Proof.
  unfold is_int_char, is_num_char, is_ws. intros H.
  destruct c as [[] [] [] [] [] [] [] []]; cbn in *; repeat split; done.
Qed.

Lemma int_chars_no (c : Ascii.ascii) s :
  (forall d, is_int_char d = true -> negb (Ascii.eqb d c) = true) ->
  str_forall is_int_char s = true -> str_forall (fun d => negb (Ascii.eqb d c)) s = true.
Proof. intros H. apply str_forall_impl. exact H. Qed.

Lemma strip_plus_int s : str_forall is_int_char s = true -> strip_plus s = s.
Proof.
  destruct s as [|c r]; [done|]. simpl. intros [Hc _]%andb_prop.
  destruct (int_char_not c Hc) as (_ & _ & _ & _ & _ & Hp).
  by destruct c as [[] [] [] [] [] [] [] []].
Qed.

Lemma jnum_of_token_print n : jnum_of_token (print_jnum n) = Some n.
Proof.
  destruct n as [m e]. unfold print_jnum, jnum_of_token. cbn [mant exp10].
  pose proof (string_of_Z_chars m) as Hm.
  assert (Hne : forall c, (forall d, is_int_char d = true -> negb (Ascii.eqb d c) = true) ->
            split_at c (string_of_Z m) = (string_of_Z m, None))
    by (intros c Hc; apply split_at_none, int_chars_no; done).
  assert (He : split_at "e"%char (string_of_Z m) = (string_of_Z m, None))
    by (apply Hne; intros d Hd; apply (int_char_not d Hd)).
  assert (HE : split_at "E"%char (string_of_Z m) = (string_of_Z m, None))
    by (apply Hne; intros d Hd; apply (int_char_not d Hd)).
  assert (Hd : split_at "."%char (string_of_Z m) = (string_of_Z m, None))
    by (apply Hne; intros d Hd; apply (int_char_not d Hd)).
  destruct (Z.eqb_spec e 0) as [->|Hnz].
  - rewrite string_app_nil_r, He, HE, Hd. simpl.
    rewrite string_app_nil_r, string_of_Z_roundtrip. done.
  - rewrite split_at_app.
    + rewrite Hd. simpl. rewrite string_app_nil_r, string_of_Z_roundtrip.
      rewrite strip_plus_int, string_of_Z_roundtrip by apply string_of_Z_chars.
      simpl. by rewrite Z.sub_0_r.
    + apply int_chars_no; [|done]. intros d Hd'. apply (int_char_not d Hd').
Qed.

Lemma print_jnum_chars n : str_forall is_num_char (print_jnum n) = true.
Proof.
  unfold print_jnum. rewrite str_forall_app.
  assert (H : forall z, str_forall is_num_char (string_of_Z z) = true).
  { intros z. eapply str_forall_impl; [|apply string_of_Z_chars].
    intros c Hc. apply (int_char_not c Hc). }
  rewrite H. destruct (exp10 n =? 0)%Z; [done|]. simpl. by rewrite H.
Qed.

Lemma span_num_app a r :
  str_forall is_num_char a = true -> stops r -> span_num (a ++ r) = (a, r).
Proof.
  intros Ha Hr. induction a as [|c a IH]; simpl in *.
  - destruct r as [|c r]; [done|]. simpl. by rewrite Hr.
  - apply andb_prop in Ha as [Hc Ha]. rewrite Hc, IH by done. done.
Qed.

(** ** Strings and whitespace *)

Lemma parse_string_body_escape s r :
  parse_string_body (escape s ++ String dquote r) = Some (s, r).
Proof.
  induction s as [|c s IH]; [reflexivity|].
  cbn [escape]. destruct (Ascii.eqb c dquote) eqn:Hq.
  - apply Ascii.eqb_eq in Hq as ->. rewrite !string_app_cons. cbn. by rewrite IH.
  - destruct (Ascii.eqb c backslash) eqn:Hb.
    + apply Ascii.eqb_eq in Hb as ->. rewrite !string_app_cons. cbn. by rewrite IH.
    + rewrite string_app_cons. cbn [parse_string_body]. rewrite Hq, Hb, IH. done.
Qed.

Lemma skip_ws_app w s : str_forall is_ws w = true -> skip_ws (w ++ s) = skip_ws s.
Proof.
  induction w as [|c w IH]; [done|]. rewrite string_app_cons. cbn.
  intros [-> Hw]%andb_prop. by apply IH.
Qed.

Lemma quote_app k t : quote k ++ t = String dquote (escape k ++ String dquote t).
Proof. unfold quote. by rewrite string_app_cons, <- string_app_assoc. Qed.

Lemma skip_ws_nonws c r : is_ws c = false -> skip_ws (String c r) = String c r.
Proof. cbn. by intros ->. Qed.

Lemma ws_not_num c : is_ws c = true -> is_num_char c = false.
Proof. unfold is_ws, is_num_char. destruct c as [[] [] [] [] [] [] [] []]; done. Qed.

Lemma stops_ws_app w c r :
  str_forall is_ws w = true -> is_num_char c = false -> stops (w ++ String c r).
Proof.
  destruct w as [|d w]; [done|]. rewrite string_app_cons. cbn.
  intros [Hd _]%andb_prop _. by apply ws_not_num.
Qed.

Lemma parse_value_ws fuel w s :
  str_forall is_ws w = true -> parse_value fuel (w ++ s) = parse_value fuel s.
Proof. intros Hw. destruct fuel; [done|]. cbn [parse_value]. by rewrite skip_ws_app. Qed.

Lemma parse_members_ws fuel acc w s :
  str_forall is_ws w = true -> parse_members fuel acc (w ++ s) = parse_members fuel acc s.
Proof. intros Hw. destruct fuel; [done|]. cbn [parse_members]. by rewrite skip_ws_app. Qed.

(** A number starts with a digit or a minus sign, which opens no other
    kind of value and is no whitespace. *)
Lemma int_char_dispatch c :
  is_int_char c = true ->
  Ascii.eqb c dquote = false /\ Ascii.eqb c "["%char = false /\
  Ascii.eqb c "{"%char = false /\ Ascii.eqb c "n"%char = false /\
  Ascii.eqb c "t"%char = false /\ Ascii.eqb c "f"%char = false /\
  Ascii.eqb c "]"%char = false /\ is_ws c = false.
Proof.
  unfold is_int_char, is_ws, dquote.
  destruct c as [[] [] [] [] [] [] [] []]; cbn; intros H; try discriminate; repeat split.
Qed.

Lemma print_jnum_head n :
  exists c r, print_jnum n = String c r /\ is_int_char c = true.
Proof.
  unfold print_jnum. pose proof (string_of_Z_chars (mant n)) as H.
  pose proof (string_of_Z_nonempty (mant n)) as Hne.
  destruct (string_of_Z (mant n)) as [|c r]; [done|].
  rewrite string_app_cons. eexists c, _. split; [reflexivity|].
  cbn in H. by apply andb_prop in H as [? _].
Qed.

Section Roundtrip.
Context (nl : nat -> string) (colon : string).
Hypothesis Hnl : forall d, str_forall is_ws (nl d) = true.
Hypothesis Hcolon : str_forall is_ws colon = true.

Lemma print_head d j :
  exists c r, print nl colon d j = String c r /\ is_ws c = false /\
              Ascii.eqb c "]"%char = false.
Proof.
  destruct j as [| [] | n | s | [|x xs] | [|[k v] kvs]]; cbn [print];
    try (eexists _, _; split; [reflexivity | split; reflexivity]).
  destruct (print_jnum_head n) as (c & r & -> & Hc).
  exists c, r. split; [done|]. pose proof (int_char_dispatch c Hc). tauto.
Qed.

(** The separators and elements after the first element of an array, and
    the members after the first member of an object, as [print] writes
    them. *)
Fixpoint elems_text (d : nat) (l : list json) : string :=
  match l with
  | [] => EmptyString
  | y :: ys => "," ++ nl (S d) ++ print nl colon (S d) y ++ elems_text d ys
  end.

Fixpoint members_text (d : nat) (l : list (string * json)) : string :=
  match l with
  | [] => EmptyString
  | (k', v') :: rest =>
      "," ++ nl (S d) ++ quote k' ++ ":" ++ colon ++ print nl colon (S d) v' ++
      members_text d rest
  end.

Lemma print_array d x xs :
  print nl colon d (JArray (x :: xs)) =
    "[" ++ nl (S d) ++ print nl colon (S d) x ++ elems_text d xs ++ nl d ++ "]".
Proof.
  cbn [print]. f_equal. f_equal. f_equal. f_equal.
  induction xs as [|y ys IH]; [done|]. cbn. by rewrite IH.
Qed.

Lemma print_object d k v kvs :
  print nl colon d (JObject ((k, v) :: kvs)) =
    "{" ++ nl (S d) ++ quote k ++ ":" ++ colon ++ print nl colon (S d) v ++
    members_text d kvs ++ nl d ++ "}".
Proof.
  cbn [print]. do 7 f_equal.
  induction kvs as [|[k' v'] rest IH]; [done|]. cbn. by rewrite IH.
Qed.
End Roundtrip.

Fixpoint elems_size (l : list json) : nat :=
  match l with [] => 0 | x :: xs => S (json_size x + elems_size xs) end.

Fixpoint members_size (l : list (string * json)) : nat :=
  match l with [] => 0 | kv :: rest => S (json_size kv.2 + members_size rest) end.

Lemma json_size_array l : json_size (JArray l) = S (elems_size l).
Proof. cbn. f_equal. Qed.

Lemma json_size_object fs : json_size (JObject fs) = S (members_size fs).
Proof. cbn. f_equal. Qed.

Section Size.
Context (nl : nat -> string) (colon : string).

Lemma elems_text_length d xs :
  Forall (fun x => forall d, json_size x <= String.length (print nl colon d x)) xs ->
  elems_size xs <= String.length (elems_text nl colon d xs).
Proof.
  induction 1 as [|y ys Hy _ IH]; cbn [elems_size elems_text]; [lia|].
  rewrite !string_length_app. specialize (Hy (S d)). cbn. lia.
Qed.

Lemma members_text_length d kvs :
  Forall (fun kv => forall d, json_size kv.2 <= String.length (print nl colon d kv.2)) kvs ->
  members_size kvs <= String.length (members_text nl colon d kvs).
Proof.
  induction 1 as [|[k v] kvs Hv _ IH]; cbn [members_size members_text]; [lia|].
  rewrite !string_length_app. specialize (Hv (S d)). cbn in *. lia.
Qed.

(** The printed text is at least as long as the value is large, so the
    fuel [S (length text)] of [parse] suffices. *)
Lemma json_size_le_length j d : json_size j <= String.length (print nl colon d j).
Proof.
  revert d. induction j as [| [] | n | s | l Hl | fs Hfs] using json_ind'; intros d;
    try (cbn; lia).
  - cbn [print json_size]. destruct (print_jnum_head n) as (c & r0 & -> & _). cbn. lia.
  - destruct l as [|x xs]; [cbn; lia|].
    apply Forall_cons in Hl as [Hx Hxs].
    rewrite print_array, json_size_array, !string_length_app.
    pose proof (Hx (S d)). pose proof (elems_text_length d xs Hxs). cbn. lia.
  - destruct fs as [|[k v] kvs]; [cbn; lia|].
    apply Forall_cons in Hfs as [Hv Hkvs].
    rewrite print_object, json_size_object, !string_length_app.
    pose proof (Hv (S d)). pose proof (members_text_length d kvs Hkvs). cbn in *. lia.
Qed.
End Size.

Section RoundtripProof.
Context (nl : nat -> string) (colon : string).
Hypothesis Hnl : forall d, str_forall is_ws (nl d) = true.
Hypothesis Hcolon : str_forall is_ws colon = true.

(** What the round trip states of one value, at any depth, with any
    fuel above its size, before any text that stops a number. *)
Definition parses_back (j : json) : Prop :=
  forall d fuel r, json_size j <= fuel -> stops r ->
    parse_value fuel (print nl colon d j ++ r) = Some (j, r).

Lemma parse_elems_loop d xs :
  Forall parses_back xs ->
  forall x acc fuel r, parses_back x -> elems_size (x :: xs) <= fuel -> stops r ->
    parse_elems fuel acc
      (nl (S d) ++ print nl colon (S d) x ++ elems_text nl colon d xs ++ nl d ++ "]" ++ r)
    = Some (JArray (acc ++ x :: xs), r).
Proof.
  induction 1 as [|y ys Hy Hys IH]; intros x acc fuel r Hx Hsz Hr;
    (destruct fuel as [|f]; [cbn in Hsz; lia|]); cbn [parse_elems];
    rewrite parse_value_ws by apply Hnl; cbn [elems_text].
  - rewrite string_app_nil_l, Hx; [| cbn in Hsz; lia | by apply stops_ws_app].
    cbn. rewrite skip_ws_app by apply Hnl. reflexivity.
  - rewrite <- !string_app_assoc.
    rewrite Hx; [| cbn in Hsz; lia | reflexivity].
    rewrite string_app_cons, string_app_nil_l. cbn -[parse_elems skip_ws].
    rewrite (skip_ws_nonws ","%char _ eq_refl). cbn -[parse_elems].
    cbn -[parse_elems]. rewrite IH; [by rewrite <- app_assoc | done | cbn in *; lia | done].
Qed.
Lemma parse_members_loop d kvs :
  Forall (fun kv => parses_back kv.2) kvs ->
  forall k v acc fuel r, parses_back v -> members_size ((k, v) :: kvs) <= fuel -> stops r ->
    parse_members fuel acc
      (nl (S d) ++ quote k ++ ":" ++ colon ++ print nl colon (S d) v ++
       members_text nl colon d kvs ++ nl d ++ "}" ++ r)
    = Some (JObject (acc ++ (k, v) :: kvs), r).
Proof.
  induction 1 as [|[k' v'] kvs Hy Hys IH]; intros k v acc fuel r Hv Hsz Hr;
    (destruct fuel as [|f]; [cbn in Hsz; lia|]); cbn [parse_members];
    rewrite skip_ws_app, quote_app, skip_ws_nonws, Ascii.eqb_refl by (apply Hnl || reflexivity);
    rewrite parse_string_body_escape; cbn -[skip_ws parse_value parse_members];
    rewrite string_app_cons, string_app_nil_l, skip_ws_nonws by reflexivity;
    cbn -[skip_ws parse_value parse_members];
    rewrite parse_value_ws by apply Hcolon; cbn [members_text].
  - rewrite string_app_nil_l, Hv; [| cbn in Hsz; lia | by apply stops_ws_app].
    cbn -[parse_members]. rewrite skip_ws_app by apply Hnl. reflexivity.
  - rewrite <- !string_app_assoc.
    rewrite Hv; [| cbn in Hsz; lia | reflexivity].
    rewrite string_app_cons, string_app_nil_l. cbn -[parse_members skip_ws].
    rewrite (skip_ws_nonws ","%char _ eq_refl). cbn -[parse_members].
    rewrite IH; [by rewrite <- app_assoc | done | cbn in *; lia | done].
Qed.

Lemma print_parses_back j : parses_back j.
Proof.
  induction j as [| [] | n | s | l Hl | fs Hfs] using json_ind';
    intros d fuel r Hsz Hr; (destruct fuel as [|f]; [cbn in Hsz; lia|]);
    cbn [parse_value].
  - autorewrite with strapp. reflexivity.
  - autorewrite with strapp. reflexivity.
  - autorewrite with strapp. reflexivity.
  - cbn [print]. destruct (print_jnum_head n) as (c & r0 & Hp & Hc).
    destruct (int_char_dispatch c Hc) as (H1 & H2 & H3 & H4 & H5 & H6 & _ & H8).
    rewrite Hp, string_app_cons, skip_ws_nonws, H1, H2, H3, H4, H5, H6 by done.
    rewrite <- string_app_cons, <- Hp, span_num_app by (apply print_jnum_chars || done).
    rewrite Hp, <- Hp, jnum_of_token_print. reflexivity.
  - cbn [print]. rewrite quote_app, skip_ws_nonws, Ascii.eqb_refl by reflexivity.
    rewrite parse_string_body_escape. reflexivity.
  - destruct l as [|x xs].
    { autorewrite with strapp. reflexivity. }
    apply Forall_cons in Hl as [Hx Hxs].
    rewrite print_array, <- !string_app_assoc, string_app_cons, string_app_nil_l,
      skip_ws_nonws by reflexivity.
    cbn -[skip_ws parse_elems]. rewrite skip_ws_app by apply Hnl.
    destruct (print_head nl colon (S d) x) as (c & r0 & Hp & Hc1 & Hc2).
    rewrite Hp, string_app_cons, skip_ws_nonws by done. cbn [starts_with].
    rewrite Hc2, <- string_app_cons, <- Hp.
    apply (parse_elems_loop d xs Hxs x [] f r Hx); [rewrite json_size_array in Hsz; lia | done].
  - destruct fs as [|[k v] kvs].
    { autorewrite with strapp. reflexivity. }
    apply Forall_cons in Hfs as [Hv Hkvs].
    rewrite print_object, <- !string_app_assoc, string_app_cons, string_app_nil_l,
      skip_ws_nonws by reflexivity.
    cbn -[skip_ws parse_members]. rewrite skip_ws_app by apply Hnl.
    rewrite quote_app, skip_ws_nonws by reflexivity. cbn [starts_with].
    rewrite <- quote_app.
    apply (parse_members_loop d kvs Hkvs k v [] f r Hv); [rewrite json_size_object in Hsz; lia | done].
Qed.

Lemma parse_print j : parse (print nl colon 0 j) = inr j.
Proof.
  unfold parse. rewrite <- (string_app_nil_r (print nl colon 0 j)) at 2.
  rewrite print_parses_back; [done | pose proof (json_size_le_length nl colon j 0); lia | done].
Qed.
End RoundtripProof.

Lemma spaces_ws n : str_forall is_ws (spaces n) = true.
Proof. induction n; cbn; [done | by rewrite IHn]. Qed.

Lemma pretty_nl_ws d : str_forall is_ws (String (Ascii.ascii_of_nat 10) (spaces (2 * d))) = true.
Proof. cbn. apply spaces_ws. Qed.

Lemma stringify_nonempty j : stringify j <> EmptyString.
Proof.
  intros He. pose proof (json_size_le_length (fun _ => EmptyString) EmptyString j 0) as H.
  unfold stringify in He. rewrite He in H. destruct j; cbn in H; lia.
Qed.

#[export] Instance json_codec : JsonCodec := {|
  json_stringify := stringify;
  json_stringify_pretty := stringify_pretty;
  json_parse := parse;
  json_parse_stringify := parse_print (fun _ => EmptyString) EmptyString (fun _ => eq_refl) eq_refl;
  json_parse_stringify_pretty := parse_print _ " " pretty_nl_ws eq_refl;
  json_stringify_nonempty := stringify_nonempty
|}.

(** [JSON.parse] reads back what [JSON.stringify(v)] and
    [JSON.stringify(v, null, 2)] write, for every value. *)
Theorem json_roundtrip j : parse (stringify j) = inr j /\ parse (stringify_pretty j) = inr j.
Proof.
  split; [apply (parse_print (fun _ => EmptyString) EmptyString) | apply (parse_print _ " ")];
    first [done | apply pretty_nl_ws].
Qed.

(** The layout of [JSON.stringify(v, null, 2)] on a small array. *)
Example stringify_pretty_layout :
  let newline := String (Ascii.ascii_of_nat 10) EmptyString in
  stringify_pretty (JArray [json_of_Z 1; JNull; JArray []]) =
    "[" ++ newline ++ "  1," ++ newline ++ "  null," ++ newline ++ "  []" ++ newline ++ "]".
Proof. reflexivity. Qed.
