(* ===== verification/Engine.v ===== *)
(** * Engine: the analysis engine of src/js/analysis-engine.js

    The module [AnalysisEngine] keeps one piece of state, the retained
    [analysisResults], and draws its scores from [Math.random].  Its state
    here is [engine_state]: the number of random draws made so far and the
    retained results as a JSON value (JSON [null] before the first run; a
    saved analysis loaded by the application puts back whatever JSON was
    stored).  Each analysis is an [ST nat] computation over the draws, in the
    order the source makes them.

    The inputs [platformData] and [audienceData] are JavaScript objects keyed
    by platform id: lists of (key, record) pairs in enumeration order
    ([Object.keys] is [map fst]).  The records have the fields the UI
    controller builds (src/js/ui-controller.js, [getAllPlatformData] and
    [getAllAudienceData]). *)

From S2P Require Import Prelude Random Benchmark Json.
Local Open Scope nav_scope.

(** ** Input records *)

Record PlatformRecord := mk_platform {
  name : string; content : string; tone : string; format : string;
  keywords : string
}.

Record AgeDistribution := mk_age {
  age_18_24 : jnum; age_25_34 : jnum; age_35_44 : jnum;
  age_45_54 : jnum; age_55_64 : jnum; age_65plus : jnum
}.

Record GenderDistribution := mk_gender { male : jnum; female : jnum; other : jnum }.

Record AudienceRecord := mk_audience {
  audienceSize : jnum; engagementRate : jnum;
  ageDistribution : AgeDistribution; genderDistribution : GenderDistribution;
  interests : string
}.

(** ** Result records, one module per analysis *)

Module Coherence.
Record platform_score := mk_score {
  score : Z; strengths : list string; weaknesses : list string
}.
Record platform_comparison := mk_comparison {
  platforms : string * string; similarity : Z;
  commonThemes : list string; divergentElements : list string
}.
Record result := mk_result {
  overallScore : num;
  platformScores : list (string * platform_score);
  comparisons : list platform_comparison;
  benchmarkComparison : benchmark_comparison
}.
End Coherence.

Module Audience.
Record reach := mk_reach {
  size : jnum; engagement : jnum; primaryAgeGroup : option string;
  genderDistribution : GenderDistribution
}.
Record overlap := mk_overlap {
  platforms : string * string; overlapPercentage : Z;
  uniqueToFirst : Z; uniqueToSecond : Z
}.
Record result := mk_result {
  fragmentationScore : Z;
  audienceOverlap : list overlap;
  platformReach : list (string * reach);
  audienceGaps : list string
}.
End Audience.

Module Consistency.
Record platform_score := mk_score {
  score : Z; keyMessagePresence : Z; toneConsistency : Z; valueAlignment : Z
}.
Record result := mk_result {
  overallScore : num;
  platformScores : list (string * platform_score);
  benchmarkComparison : benchmark_comparison
}.
End Consistency.

Record PlatformRecommendation := mk_platform_rec {
  title : string; recommendations : list string
}.

Record RecommendationSet := mk_recommendations {
  strategyRecommendations : list string;
  platformRecommendations : list (string * PlatformRecommendation);
  nextSteps : list string
}.

Record AnalysisResult := mk_analysis {
  coherence : Coherence.result;
  audience : Audience.result;
  consistency : Consistency.result;
  keyFindings : list string;
  recommendationSet : RecommendationSet
}.

(** The nested [for (i) for (j > i)] loops enumerate these pairs, in order. *)
Fixpoint all_pairs {A} (l : list A) : list (A * A) :=
  match l with
  | [] => []
  | x :: xs => map (pair x) xs ++ all_pairs xs
  end.

(** The loops as written, by index: [for (let i = 0; i < platforms.length;
    i++) for (let j = i + 1; j < platforms.length; j++)] reading
    [platforms[i]] and [platforms[j]]; [d] is never read, as both indices
    are in range. *)
Definition loop_pairs {A} (d : A) (platforms : list A) : list (A * A) :=
  flat_map (fun i => map (fun j => (nth i platforms d, nth j platforms d))
                         (seq (S i) (length platforms - S i)))
           (seq 0 (length platforms)).

(** ** The analyses *)

Section Analyses.
Context (rnd : nat -> Z).
Context `{ArraySort}.

(** The body of the first [platforms.forEach]: a score in [60, 89],
    strengths and weaknesses. *)
Definition coherenceScoreFor (platform : string)
    : ST nat (string * Coherence.platform_score) :=
  s <- floor_random rnd 30 ;;
  strengths <- generateRandomStrengths rnd platform ;;
  weaknesses <- generateRandomWeaknesses rnd platform ;;
  st_ret (platform, Coherence.mk_score (s + 60) strengths weaknesses).

(** The body of the nested loop: the comparison of [platforms[i]] with
    [platforms[j]]. *)
Definition comparePlatforms (pr : string * string)
    : ST nat Coherence.platform_comparison :=
  similarityScore <- floor_random rnd 40 ;;
  themes <- generateRandomCommonThemes rnd ;;
  divergent <- generateRandomDivergentElements rnd ;;
  st_ret (Coherence.mk_comparison pr (similarityScore + 50) themes divergent).

(** [analyzeContentCoherence(platformData)] *)
Definition analyzeContentCoherence (platformData : list (string * PlatformRecord))
    : ST nat Coherence.result :=
  let platforms := map fst platformData in
  coherenceScores <- st_mapM coherenceScoreFor platforms ;;
  platformComparisons <- st_mapM comparePlatforms (all_pairs platforms) ;;
  let totalScore := sum_Z (map (fun kv => Coherence.score kv.2) coherenceScores) in
  let overallScore := floor_div totalScore (length platforms) in
  st_ret (Coherence.mk_result overallScore coherenceScores platformComparisons
            (compareToBenchmark overallScore cat_coherence)).

(** [calculatePrimaryAgeGroup(audienceData)]: a random age group;
    [ageGroups[i]] is [undefined] out of range. *)
Definition ageGroups : list string :=
  ["18-24"; "25-34"; "35-44"; "45-54"; "55-64"; "65+"].

Definition calculatePrimaryAgeGroup (a : AudienceRecord) : ST nat (option string) :=
  i <- floor_random rnd (Z.of_nat (length ageGroups)) ;;
  st_ret (if (i <? 0)%Z then None else ageGroups !! Z.to_nat i).

(** [calculateFragmentationScore(overlapData)]: ignores its argument. *)
Definition calculateFragmentationScore (overlapData : list Audience.overlap) : ST nat Z :=
  f <- floor_random rnd 40 ;; st_ret (f + 40)%Z.

Definition identifyAudienceGaps (audienceData : list (string * AudienceRecord))
    : list string :=
  ["35-44 age demographic is underrepresented across all platforms";
   "Male audience engagement is lower on Instagram compared to other platforms";
   "Technical audience segment shows low engagement with video content";
   "International audience has limited representation in current content strategy"].

(** The body of [platforms.forEach] of the audience analysis; the
    reading [audienceData[platform]] is the pair's record. *)
Definition reachFor (kv : string * AudienceRecord) : ST nat (string * Audience.reach) :=
  primary <- calculatePrimaryAgeGroup kv.2 ;;
  st_ret (kv.1, Audience.mk_reach (jnum_or_zero (audienceSize kv.2))
                  (jnum_or_zero (engagementRate kv.2)) primary
                  (genderDistribution kv.2)).

(** The body of the nested loop: a simulated overlap in [20, 79]. *)
Definition overlapFor (pr : string * string) : ST nat Audience.overlap :=
  o <- floor_random rnd 60 ;;
  let overlapPercentage := (o + 20)%Z in
  st_ret (Audience.mk_overlap pr overlapPercentage
            (100 - overlapPercentage) (100 - overlapPercentage)).

(** [analyzeAudienceFragmentation(audienceData)] *)
Definition analyzeAudienceFragmentation (audienceData : list (string * AudienceRecord))
    : ST nat Audience.result :=
  let platforms := map fst audienceData in
  platformReach <- st_mapM reachFor audienceData ;;
  audienceOverlap <- st_mapM overlapFor (all_pairs platforms) ;;
  fragmentationScore <- calculateFragmentationScore audienceOverlap ;;
  st_ret (Audience.mk_result fragmentationScore audienceOverlap platformReach
            (identifyAudienceGaps audienceData)).

(** The body of [platforms.forEach] of the consistency analysis. *)
Definition consistencyScoreFor (platform : string)
    : ST nat (string * Consistency.platform_score) :=
  s <- floor_random rnd 35 ;;
  k <- floor_random rnd 30 ;;
  t <- floor_random rnd 40 ;;
  v <- floor_random rnd 30 ;;
  st_ret (platform, Consistency.mk_score (s + 55) (k + 70) (t + 60) (v + 65)).

(** [analyzeMessageConsistency(platformData)] *)
Definition analyzeMessageConsistency (platformData : list (string * PlatformRecord))
    : ST nat Consistency.result :=
  let platforms := map fst platformData in
  consistencyScores <- st_mapM consistencyScoreFor platforms ;;
  let totalScore := sum_Z (map (fun kv => Consistency.score kv.2) consistencyScores) in
  let overallScore := floor_div totalScore (length platforms) in
  st_ret (Consistency.mk_result overallScore consistencyScores
            (compareToBenchmark overallScore cat_consistency)).
End Analyses.

(** ** Findings and recommendations (no random draw) *)

Definition generateKeyFindings (platformData : list (string * PlatformRecord))
    (audienceData : list (string * AudienceRecord)) : list string :=
  ["Your message consistency across platforms is 72% (Industry average: 65%)";
   "There is a 68% audience overlap between your website and social media platforms";
   "Your brand voice varies significantly between your website (formal) and social media (casual)";
   "Key messages are consistently present in 85% of content across all platforms";
   "Primary audience demographics show significant variation across platforms"].

(** [generatePlatformSpecificRecommendations(platformId, platformData)]:
    the first case whose word occurs in the lower-cased platform name. *)
Definition generatePlatformSpecificRecommendations (platformId : string)
    (platformData : PlatformRecord) : list string :=
  let platformName := js_toLowerCase (name platformData) in
  if js_includes platformName "website" then
    ["Ensure key brand messages are prominently displayed on your homepage";
     "Align website tone more closely with overall brand voice";
     "Include clear links to your social media platforms";
     "Develop more in-depth content that can be repurposed for other channels"]
  else if js_includes platformName "instagram" then
    ["Maintain visual consistency with your brand guidelines";
     "Use stories to highlight content from other platforms";
     "Adapt formal content into more engaging visual formats";
     "Include clear calls-to-action that direct to your website"]
  else if js_includes platformName "twitter" || js_includes platformName "x" then
    ["Keep brand voice consistent while adapting to platform constraints";
     "Create thread formats for longer content pieces from other platforms";
     "Engage directly with audience to strengthen community";
     "Use platform-specific features like polls to increase engagement"]
  else if js_includes platformName "linkedin" then
    ["Maintain professional tone while aligning with overall brand voice";
     "Repurpose detailed content from website into digestible formats";
     "Focus on industry expertise and thought leadership";
     "Cross-promote content from other platforms in a professional context"]
  else if js_includes platformName "facebook" then
    ["Optimize content for both feed and groups";
     "Use events feature to drive cross-platform engagement";
     "Develop community-focused content that aligns with website messaging";
     "Balance promotional content with value-driven posts"]
  else if js_includes platformName "youtube" then
    ["Maintain consistent intro/outro across all videos";
     "Align video descriptions with website messaging";
     "Create video content that complements written content on other platforms";
     "Use end screens to direct viewers to your website and other channels"]
  else
    ["Ensure brand voice remains consistent while adapting to platform format";
     "Cross-reference content from other platforms for message alignment";
     "Develop platform-specific content calendar aligned with overall strategy";
     "Review engagement metrics to optimize content format and frequency"].

(** [generateRecommendations(platformData, audienceData)] *)
Definition generateRecommendations (platformData : list (string * PlatformRecord))
    (audienceData : list (string * AudienceRecord)) : RecommendationSet :=
  mk_recommendations
    ["Develop a centralized content calendar to coordinate messaging across all platforms";
     "Create platform-specific content guidelines while maintaining core brand elements";
     "Consider implementing a cross-platform campaign to bridge audience segments";
     "Focus on increasing content consistency across primary platforms";
     "Develop platform-specific KPIs aligned with audience engagement patterns"]
    (map (fun kv =>
            (kv.1, mk_platform_rec ("Optimize Your " +:+ name kv.2 +:+ " Strategy")
                     (generatePlatformSpecificRecommendations kv.1 kv.2)))
         platformData)
    ["Review your content strategy to address identified consistency gaps";
     "Develop platform-specific content guidelines based on audience preferences";
     "Implement A/B testing to validate optimization recommendations";
     "Schedule a follow-up analysis in 3 months to track improvements";
     "Consider audience research to better understand segment overlap"].

(** ** The results as the JSON object they are *)

Definition json_of_pair (p : string * string) : json :=
  JArray [JString p.1; JString p.2].

Definition json_of_benchmark (b : benchmark_comparison) : json :=
  JObject [("score", json_of_num (bc_score b));
           ("industryAverage", json_of_Z (industryAverage b));
           ("rating", JString (rating_text (bc_rating b)));
           ("percentile", json_of_num (percentile b))].

Definition json_of_gender (g : GenderDistribution) : json :=
  JObject [("male", JNumber (male g)); ("female", JNumber (female g));
           ("other", JNumber (other g))].

Definition json_of_coherence (c : Coherence.result) : json :=
  JObject
    [("overallScore", json_of_num (Coherence.overallScore c));
     ("platformScores", JObject (map (fun kv =>
        (kv.1, JObject [("score", json_of_Z (Coherence.score kv.2));
                        ("strengths", json_of_strings (Coherence.strengths kv.2));
                        ("weaknesses", json_of_strings (Coherence.weaknesses kv.2))]))
        (Coherence.platformScores c)));
     ("comparisons", JArray (map (fun cmp =>
        JObject [("platforms", json_of_pair (Coherence.platforms cmp));
                 ("similarity", json_of_Z (Coherence.similarity cmp));
                 ("commonThemes", json_of_strings (Coherence.commonThemes cmp));
                 ("divergentElements", json_of_strings (Coherence.divergentElements cmp))])
        (Coherence.comparisons c)));
     ("benchmarkComparison", json_of_benchmark (Coherence.benchmarkComparison c))].

(** A property whose value is [undefined] is left out by [JSON.stringify]. *)
Definition json_of_reach (r : Audience.reach) : json :=
  JObject
    ([("size", JNumber (Audience.size r)); ("engagement", JNumber (Audience.engagement r))] ++
     match Audience.primaryAgeGroup r with
     | Some g => [("primaryAgeGroup", JString g)]
     | None => []
     end ++
     [("genderDistribution", json_of_gender (Audience.genderDistribution r))]).

Definition json_of_audience (a : Audience.result) : json :=
  JObject
    [("fragmentationScore", json_of_Z (Audience.fragmentationScore a));
     ("audienceOverlap", JArray (map (fun o =>
        JObject [("platforms", json_of_pair (Audience.platforms o));
                 ("overlapPercentage", json_of_Z (Audience.overlapPercentage o));
                 ("uniqueToFirst", json_of_Z (Audience.uniqueToFirst o));
                 ("uniqueToSecond", json_of_Z (Audience.uniqueToSecond o))])
        (Audience.audienceOverlap a)));
     ("platformReach", JObject (map (fun kv => (kv.1, json_of_reach kv.2))
                                  (Audience.platformReach a)));
     ("audienceGaps", json_of_strings (Audience.audienceGaps a))].

Definition json_of_consistency (c : Consistency.result) : json :=
  JObject
    [("overallScore", json_of_num (Consistency.overallScore c));
     ("platformScores", JObject (map (fun kv =>
        (kv.1, JObject [("score", json_of_Z (Consistency.score kv.2));
                        ("keyMessagePresence", json_of_Z (Consistency.keyMessagePresence kv.2));
                        ("toneConsistency", json_of_Z (Consistency.toneConsistency kv.2));
                        ("valueAlignment", json_of_Z (Consistency.valueAlignment kv.2))]))
        (Consistency.platformScores c)));
     ("benchmarkComparison", json_of_benchmark (Consistency.benchmarkComparison c))].

Definition json_of_recommendations (r : RecommendationSet) : json :=
  JObject
    [("strategyRecommendations", json_of_strings (strategyRecommendations r));
     ("platformRecommendations", JObject (map (fun kv =>
        (kv.1, JObject [("title", JString (title kv.2));
                        ("recommendations", json_of_strings (recommendations kv.2))]))
        (platformRecommendations r)));
     ("nextSteps", json_of_strings (nextSteps r))].

Definition json_of_analysis (r : AnalysisResult) : json :=
  JObject [("coherence", json_of_coherence (coherence r));
           ("audience", json_of_audience (audience r));
           ("consistency", json_of_consistency (consistency r));
           ("keyFindings", json_of_strings (keyFindings r));
           ("recommendations", json_of_recommendations (recommendationSet r))].

(** ** The module's state and its public operations *)

Record engine_state := mk_engine { draws : nat; analysisResults : json }.

(** [let analysisResults = null] *)
Definition engine_init : engine_state := mk_engine 0 JNull.

(** Run a computation on the random draws. *)
Definition with_draws {A} (m : ST nat A) : ST engine_state A :=
  fun e => let '(a, d) := m (draws e) in (a, mk_engine d (analysisResults e)).

(** [getResults()] and [setResults(results)] *)
Definition getResults : ST engine_state json := fun e => (analysisResults e, e).

Definition setResults (results : json) : ST engine_state unit :=
  fun e => (tt, mk_engine (draws e) results).

Section Analyze.
Context (rnd : nat -> Z).
Context `{ArraySort}.

(** [analyze(platformData, audienceData)]: the object literal's properties
    are evaluated in order, then the results are retained. *)
Definition analyze (platformData : list (string * PlatformRecord))
    (audienceData : list (string * AudienceRecord)) : ST engine_state AnalysisResult :=
  results <- with_draws (
      coh <- analyzeContentCoherence rnd platformData ;;
      aud <- analyzeAudienceFragmentation rnd audienceData ;;
      con <- analyzeMessageConsistency rnd platformData ;;
      st_ret (mk_analysis coh aud con (generateKeyFindings platformData audienceData)
                (generateRecommendations platformData audienceData))) ;;
  _ <- setResults (json_of_analysis results) ;;
  st_ret results.
End Analyze.

(** ** The pairs of platforms *)

(** The pairs [all_pairs] enumerates, by recursion on the list, are
    the pairs the source's nested index loops visit, in the same order. *)
Theorem all_pairs_loops {A} (d : A) (l : list A) : all_pairs l = loop_pairs d l.
Proof.
  induction l as [|x xs IH]; [done|]. unfold loop_pairs in *. cbn [length seq flat_map all_pairs].
  f_equal.
  - rewrite <- seq_shift, map_map. cbn [nth].
    replace (S (length xs) - 1) with (length xs) by lia.
    rewrite <- (map_nth_seq0 xs d) at 1. by rewrite map_map.
  - rewrite IH, <- seq_shift, !flat_map_concat_map, map_map. f_equal. apply map_ext_in.
    intros i Hi. replace (S (length xs) - S (S i)) with (length xs - S i) by lia.
    rewrite <- (seq_shift (length xs - S i) (S i)), map_map. by cbn [nth].
Qed.

Lemma all_pairs_length {A} (l : list A) :
  (2 * length (all_pairs l) = length l * (length l - 1))%nat.
Proof.
  induction l as [|x xs IH]; [done|]. cbn [all_pairs length].
  rewrite length_app, length_map. destruct xs; cbn in *; nia.
Qed.

Lemma elem_of_all_pairs {A} (l : list A) a b :
  (a, b) ∈ all_pairs l <->
  exists i j, (i < j)%nat /\ l !! i = Some a /\ l !! j = Some b.
Proof.
  induction l as [|x xs IH]; cbn [all_pairs].
  - split; [by intros ?%elem_of_nil | intros (i & j & _ & Hi & _); done].
  - rewrite elem_of_app, IH, list_elem_of_In, in_map_iff. split.
    + intros [(b' & [= <- <-] & Hb) | (i & j & Hij & Hi & Hj)].
      * apply list_elem_of_In, list_elem_of_lookup in Hb as [j Hj].
        exists 0%nat, (S j). naive_solver lia.
      * exists (S i), (S j). naive_solver lia.
    + intros ([|i] & [|j] & Hij & Hi & Hj); cbn in Hi, Hj; try lia.
      * left. exists b. simplify_eq. split; [done|].
        apply list_elem_of_In, list_elem_of_lookup. eauto.
      * right. exists i, j. naive_solver lia.
Qed.

(** ** Properties of the analyses *)

Section AnalysisProperties.
Context (rnd : nat -> Z).
Hypothesis rnd_ok : forall i, (0 <= rnd i < 2 ^ 53)%Z.
Context `{ArraySort}.

(** [Math.floor(Math.random() * k) + b] lies in [[b, b + k - 1]]. *)
Lemma floor_random_offset k b i :
  (0 < k)%Z -> (b <= fst (floor_random rnd k i) + b <= b + k - 1)%Z.
Proof. intros Hk. pose proof (floor_random_bound rnd rnd_ok k i Hk). lia. Qed.

Definition coherence_score_ok (s : Coherence.platform_score) : Prop :=
  (60 <= Coherence.score s <= 89)%Z /\
  (2 <= length (Coherence.strengths s) <= 3)%nat /\
  (1 <= length (Coherence.weaknesses s) <= 2)%nat.

Definition comparison_ok (c : Coherence.platform_comparison) : Prop :=
  (50 <= Coherence.similarity c <= 89)%Z /\
  (2 <= length (Coherence.commonThemes c) <= 3)%nat /\
  (2 <= length (Coherence.divergentElements c) <= 3)%nat.

Lemma coherenceScoreFor_ok p j :
  (fst (coherenceScoreFor rnd p j)).1 = p /\
  coherence_score_ok (fst (coherenceScoreFor rnd p j)).2.
Proof.
  unfold coherenceScoreFor. st_simpl. split; [done|].
  set (j1 := snd (floor_random rnd 30 j)).
  destruct (generateRandomStrengths_sample rnd rnd_ok p j1) as (k1 & Hk1 & Hs1 & _).
  destruct (generateRandomWeaknesses_sample rnd rnd_ok p
              (snd (generateRandomStrengths rnd p j1))) as (k2 & Hk2 & Hs2 & _).
  pose proof (floor_random_offset 30 60 j ltac:(lia)).
  unfold coherence_score_ok; cbn [Coherence.score Coherence.strengths Coherence.weaknesses].
  lia.
Qed.

Lemma comparePlatforms_ok pr j :
  Coherence.platforms (fst (comparePlatforms rnd pr j)) = pr /\
  comparison_ok (fst (comparePlatforms rnd pr j)).
Proof.
  unfold comparePlatforms. st_simpl. split; [done|].
  set (j1 := snd (floor_random rnd 40 j)).
  destruct (generateRandomCommonThemes_sample rnd rnd_ok j1) as (k1 & Hk1 & Hs1 & _).
  destruct (generateRandomDivergentElements_sample rnd rnd_ok
              (snd (generateRandomCommonThemes rnd j1))) as (k2 & Hk2 & Hs2 & _).
  pose proof (floor_random_offset 40 50 j ltac:(lia)).
  unfold comparison_ok.
  cbn [Coherence.similarity Coherence.commonThemes Coherence.divergentElements]. lia.
Qed.

(** An effectful map whose every call establishes [P] of its argument. *)
Lemma st_mapM_each {A B} (P : A -> B -> Prop) (f : A -> ST nat B) (l : list A) i :
  (forall x j, P x (fst (f x j))) -> Forall2 P l (fst (st_mapM f l i)).
Proof.
  intros Hf. apply (proj1 (st_mapM_Forall (fun _ => True) P f
                            (fun x j _ => conj (Hf x j) I) l i I)).
Qed.

(** C13: the coherence analysis scores every platform of [platformData],
    in key order, with a score in [60, 89], 2 or 3 strengths and 1 or 2
    weaknesses; it compares every pair [platforms[i], platforms[j]] with
    [i < j], in loop order, with a similarity in [50, 89] and 2 or 3
    common themes and divergent elements. *)
Theorem analyzeContentCoherence_spec pd i :
  let r := fst (analyzeContentCoherence rnd pd i) in
  map fst (Coherence.platformScores r) = map fst pd /\
  Forall (fun kv => coherence_score_ok kv.2) (Coherence.platformScores r) /\
  map Coherence.platforms (Coherence.comparisons r) = all_pairs (map fst pd) /\
  Forall comparison_ok (Coherence.comparisons r).
Proof.
  cbv zeta. unfold analyzeContentCoherence. st_simpl.
  destruct (Forall2_keys coherence_score_ok (map fst pd) _
              (st_mapM_each _ _ _ i (fun p j => coherenceScoreFor_ok p j))) as [H1 H2].
  pose proof (st_mapM_each (fun pr c => Coherence.platforms c = pr /\ comparison_ok c)
                (comparePlatforms rnd) (all_pairs (map fst pd))
                (snd (st_mapM (coherenceScoreFor rnd) (map fst pd) i))
                comparePlatforms_ok) as HC.
  repeat split; [done | done | |].
  - apply Forall2_map_l. eapply Forall2_impl; [exact HC | naive_solver].
  - eapply Forall2_Forall_r, Forall2_impl; [exact HC | naive_solver].
Qed.

Lemma coherence_scores_bounds (ks : list string) i :
  Forall (fun x => (60 <= x <= 89)%Z)
    (map (fun kv => Coherence.score kv.2)
         (fst (st_mapM (coherenceScoreFor rnd) ks i))).
Proof.
  destruct (Forall2_keys coherence_score_ok ks _
              (st_mapM_each _ _ _ i (fun p j => coherenceScoreFor_ok p j))) as [_ H2].
  apply Forall_map. eapply Forall_impl; [exact H2|]. by intros kv [? _].
Qed.

(** The overall coherence score of a nonempty platform list, and the
    benchmark it is compared with. *)
Lemma coherence_overall_range pd i :
  pd <> [] ->
  exists m, Coherence.overallScore (fst (analyzeContentCoherence rnd pd i)) = Num m /\
    (60 <= m <= 89)%Z /\
    Coherence.benchmarkComparison (fst (analyzeContentCoherence rnd pd i)) =
      compareToBenchmark (Num m) cat_coherence.
Proof.
  intros Hne. unfold analyzeContentCoherence. st_simpl. rewrite length_map.
  pose proof (coherence_scores_bounds (map fst pd) i) as HB.
  pose proof (st_mapM_length (coherenceScoreFor rnd) (map fst pd) i) as HL.
  rewrite length_map in HL.
  destruct (keyed_mean_bounds _ 60 89 _ (length pd) HL ltac:(by destruct pd) HB) as (m & Hm & Hb).
  exists m. cbn [Coherence.overallScore Coherence.benchmarkComparison]. by rewrite Hm.
Qed.

Lemma coherence_score_keys pd i :
  map fst (Coherence.platformScores (fst (analyzeContentCoherence rnd pd i))) = map fst pd.
Proof.
  unfold analyzeContentCoherence. st_simpl. cbn [Coherence.platformScores].
  exact (proj1 (Forall2_keys coherence_score_ok (map fst pd) _
                  (st_mapM_each _ _ _ i (fun p j => coherenceScoreFor_ok p j)))).
Qed.

(** The overall coherence score is the floor of the mean of the
    per-platform scores; it lies in [60, 89] when there is a platform, and
    its benchmark percentile then lies in [0, 100]; with no platform it is
    [NaN]. *)
Theorem analyzeContentCoherence_overall pd i :
  let r := fst (analyzeContentCoherence rnd pd i) in
  Coherence.overallScore r =
    floor_div (sum_Z (map (fun kv => Coherence.score kv.2) (Coherence.platformScores r)))
              (length pd) /\
  Coherence.benchmarkComparison r =
    compareToBenchmark (Coherence.overallScore r) cat_coherence /\
  (pd = [] -> Coherence.overallScore r = NaN) /\
  (pd <> [] -> exists m, Coherence.overallScore r = Num m /\ (60 <= m <= 89)%Z /\
     exists p, percentile (Coherence.benchmarkComparison r) = Num p /\ (0 <= p <= 100)%Z).
Proof.
  cbv zeta. unfold analyzeContentCoherence. st_simpl. rewrite length_map.
  pose proof (coherence_scores_bounds (map fst pd) i) as HB.
  pose proof (st_mapM_length (coherenceScoreFor rnd) (map fst pd) i) as HL.
  set (sc := fst (st_mapM (coherenceScoreFor rnd) (map fst pd) i)) in *.
  rewrite length_map in HL.
  repeat split; [by intros -> |]. intros Hne.
  destruct (keyed_mean_bounds _ 60 89 sc (length pd) HL
              ltac:(by destruct pd) HB) as (m & Hm & Hb).
  rewrite Hm.
  exists m. split; [done|]. split; [done|].
  unfold compareToBenchmark; cbn [percentile].
  apply calculatePercentile_in_range. unfold percentile_min, percentile_max; cbn; lia.
Qed.

Definition consistency_score_ok (s : Consistency.platform_score) : Prop :=
  (55 <= Consistency.score s <= 89)%Z /\
  (70 <= Consistency.keyMessagePresence s <= 99)%Z /\
  (60 <= Consistency.toneConsistency s <= 99)%Z /\
  (65 <= Consistency.valueAlignment s <= 94)%Z.

Lemma consistencyScoreFor_ok p j :
  (fst (consistencyScoreFor rnd p j)).1 = p /\
  consistency_score_ok (fst (consistencyScoreFor rnd p j)).2.
Proof.
  unfold consistencyScoreFor. st_simpl. split; [done|].
  pose proof (floor_random_offset 35 55 j ltac:(lia)).
  pose proof (floor_random_offset 30 70 (S j) ltac:(lia)).
  pose proof (floor_random_offset 40 60 (S (S j)) ltac:(lia)).
  pose proof (floor_random_offset 30 65 (S (S (S j))) ltac:(lia)).
  unfold consistency_score_ok; cbn [Consistency.score Consistency.keyMessagePresence
    Consistency.toneConsistency Consistency.valueAlignment].
  rewrite !floor_random_pos. lia.
Qed.

Lemma consistency_scores_bounds (ks : list string) i :
  Forall (fun x => (55 <= x <= 89)%Z)
    (map (fun kv => Consistency.score kv.2)
         (fst (st_mapM (consistencyScoreFor rnd) ks i))).
Proof.
  destruct (Forall2_keys consistency_score_ok ks _
              (st_mapM_each _ _ _ i (fun p j => consistencyScoreFor_ok p j))) as [_ H2].
  apply Forall_map. eapply Forall_impl; [exact H2|]. by intros kv [? _].
Qed.

Lemma consistency_overall_range pd i :
  pd <> [] ->
  exists m, Consistency.overallScore (fst (analyzeMessageConsistency rnd pd i)) = Num m /\
    (55 <= m <= 89)%Z /\
    Consistency.benchmarkComparison (fst (analyzeMessageConsistency rnd pd i)) =
      compareToBenchmark (Num m) cat_consistency.
Proof.
  intros Hne. unfold analyzeMessageConsistency. st_simpl. rewrite length_map.
  pose proof (consistency_scores_bounds (map fst pd) i) as HB.
  pose proof (st_mapM_length (consistencyScoreFor rnd) (map fst pd) i) as HL.
  rewrite length_map in HL.
  destruct (keyed_mean_bounds _ 55 89 _ (length pd) HL ltac:(by destruct pd) HB) as (m & Hm & Hb).
  exists m. cbn [Consistency.overallScore Consistency.benchmarkComparison]. by rewrite Hm.
Qed.

(** C14: the consistency analysis scores every platform, in key order,
    with a score in [55, 89], a key-message presence in [70, 99], a tone
    consistency in [60, 99] and a value alignment in [65, 94]; the
    overall score is the floor of the mean of the scores, in [55, 89] with
    a percentile in [0, 100] when there is a platform, and [NaN] without. *)
Theorem analyzeMessageConsistency_spec pd i :
  let r := fst (analyzeMessageConsistency rnd pd i) in
  map fst (Consistency.platformScores r) = map fst pd /\
  Forall (fun kv => consistency_score_ok kv.2) (Consistency.platformScores r) /\
  Consistency.overallScore r =
    floor_div (sum_Z (map (fun kv => Consistency.score kv.2)
                        (Consistency.platformScores r))) (length pd) /\
  Consistency.benchmarkComparison r =
    compareToBenchmark (Consistency.overallScore r) cat_consistency /\
  (pd = [] -> Consistency.overallScore r = NaN) /\
  (pd <> [] -> exists m, Consistency.overallScore r = Num m /\ (55 <= m <= 89)%Z /\
     exists p, percentile (Consistency.benchmarkComparison r) = Num p /\ (0 <= p <= 100)%Z).
Proof.
  cbv zeta. unfold analyzeMessageConsistency. st_simpl. rewrite length_map.
  destruct (Forall2_keys consistency_score_ok (map fst pd) _
              (st_mapM_each _ _ _ i (fun p j => consistencyScoreFor_ok p j))) as [H1 H2].
  pose proof (st_mapM_length (consistencyScoreFor rnd) (map fst pd) i) as HL.
  set (sc := fst (st_mapM (consistencyScoreFor rnd) (map fst pd) i)) in *.
  rewrite length_map in HL.
  repeat split; [done | done | by intros -> |]. intros Hne.
  assert (HB : Forall (fun x => (55 <= x <= 89)%Z) (map (fun kv => Consistency.score kv.2) sc)).
  { apply Forall_map. eapply Forall_impl; [exact H2|]. by intros kv [? _]. }
  destruct (keyed_mean_bounds _ 55 89 sc (length pd) HL
              ltac:(by destruct pd) HB) as (m & Hm & Hb).
  rewrite Hm. exists m. split; [done|]. split; [done|].
  unfold compareToBenchmark; cbn [percentile].
  apply calculatePercentile_in_range. unfold percentile_min, percentile_max; cbn; lia.
Qed.

Definition reach_ok (kv : string * AudienceRecord) (r : string * Audience.reach) : Prop :=
  r.1 = kv.1 /\
  Audience.size r.2 = jnum_or_zero (audienceSize kv.2) /\
  Audience.engagement r.2 = jnum_or_zero (engagementRate kv.2) /\
  exists g, Audience.primaryAgeGroup r.2 = Some g /\ g ∈ ageGroups.

Definition overlap_ok (o : Audience.overlap) : Prop :=
  (20 <= Audience.overlapPercentage o <= 79)%Z /\
  Audience.uniqueToFirst o = (100 - Audience.overlapPercentage o)%Z /\
  Audience.uniqueToSecond o = Audience.uniqueToFirst o.

Lemma calculatePrimaryAgeGroup_ok a j :
  exists g, fst (calculatePrimaryAgeGroup rnd a j) = Some g /\ g ∈ ageGroups.
Proof.
  unfold calculatePrimaryAgeGroup. st_simpl.
  change (Z.of_nat (length ageGroups)) with 6%Z.
  pose proof (floor_random_bound rnd rnd_ok 6 j ltac:(lia)).
  destruct (Z.ltb_spec (fst (floor_random rnd 6 j)) 0); [lia|].
  destruct (lookup_lt_is_Some_2 ageGroups (Z.to_nat (fst (floor_random rnd 6 j))))
    as [g Hg]; [change (length ageGroups) with 6%nat; lia|].
  exists g. split; [done|]. by eapply list_elem_of_lookup_2.
Qed.

Lemma reachFor_ok kv j : reach_ok kv (fst (reachFor rnd kv j)).
Proof.
  unfold reachFor, reach_ok. st_simpl. cbn [fst snd Audience.size Audience.engagement
    Audience.primaryAgeGroup]. split; [done|]. split; [done|]. split; [done|].
  apply calculatePrimaryAgeGroup_ok.
Qed.

Lemma overlapFor_ok pr j :
  Audience.platforms (fst (overlapFor rnd pr j)) = pr /\ overlap_ok (fst (overlapFor rnd pr j)).
Proof.
  unfold overlapFor, overlap_ok. st_simpl.
  pose proof (floor_random_offset 60 20 j ltac:(lia)).
  cbn [Audience.platforms Audience.overlapPercentage Audience.uniqueToFirst
       Audience.uniqueToSecond]. split; [done | lia].
Qed.

Lemma fragmentation_range ad i :
  (40 <= Audience.fragmentationScore (fst (analyzeAudienceFragmentation rnd ad i)) <= 79)%Z.
Proof.
  unfold analyzeAudienceFragmentation, calculateFragmentationScore. st_simpl.
  apply (floor_random_offset 40 40); lia.
Qed.

Lemma consistency_score_keys pd i :
  map fst (Consistency.platformScores (fst (analyzeMessageConsistency rnd pd i))) = map fst pd.
Proof.
  unfold analyzeMessageConsistency. st_simpl. cbn [Consistency.platformScores].
  exact (proj1 (Forall2_keys consistency_score_ok (map fst pd) _
                  (st_mapM_each _ _ _ i (fun p j => consistencyScoreFor_ok p j)))).
Qed.

Lemma audience_reach_keys ad i :
  map fst (Audience.platformReach (fst (analyzeAudienceFragmentation rnd ad i))) = map fst ad.
Proof.
  unfold analyzeAudienceFragmentation. st_simpl. cbn [Audience.platformReach].
  pose proof (st_mapM_each reach_ok (reachFor rnd) ad i reachFor_ok) as HR.
  induction HR as [|kv r ad rs [Hk _] _ IH]; [done|]. cbn. by rewrite Hk, IH.
Qed.

(** C15: the audience analysis reports every platform of [audienceData],
    in key order, with its size and engagement rate (0 for a missing
    value) and a primary age group among the six labels; it gives every
    pair [i < j] an overlap in [20, 79] with [uniqueToFirst] and
    [uniqueToSecond] both [100 - overlap]; the fragmentation score lies in
    [40, 79] whatever the overlaps. *)
Theorem analyzeAudienceFragmentation_spec ad i :
  let r := fst (analyzeAudienceFragmentation rnd ad i) in
  Forall2 reach_ok ad (Audience.platformReach r) /\
  map Audience.platforms (Audience.audienceOverlap r) = all_pairs (map fst ad) /\
  Forall overlap_ok (Audience.audienceOverlap r) /\
  (40 <= Audience.fragmentationScore r <= 79)%Z.
Proof.
  cbv zeta. unfold analyzeAudienceFragmentation, calculateFragmentationScore. st_simpl.
  pose proof (st_mapM_each (fun pr o => Audience.platforms o = pr /\ overlap_ok o)
                (overlapFor rnd) (all_pairs (map fst ad))
                (snd (st_mapM (reachFor rnd) ad i)) overlapFor_ok) as HO.
  split; [apply st_mapM_each, reachFor_ok|].
  split; [apply Forall2_map_l; eapply Forall2_impl; [exact HO | naive_solver]|].
  split; [eapply Forall2_Forall_r, Forall2_impl; [exact HO | naive_solver]|].
  apply (floor_random_offset 40 40); lia.
Qed.
End AnalysisProperties.

(** ** The retained results *)

Section AnalyzeProperties.
Context (rnd : nat -> Z).
Context `{ArraySort}.

(** [analyze] retains the JSON image of the results it returns, and
    what it returns and retains does not depend on the results retained
    before: a new run overwrites them. *)
Theorem analyze_overwrites pd ad e1 e2 :
  draws e1 = draws e2 ->
  analyze rnd pd ad e1 = analyze rnd pd ad e2 /\
  fst (getResults (snd (analyze rnd pd ad e1))) = json_of_analysis (fst (analyze rnd pd ad e1)).
Proof.
  intros Hd. unfold analyze, with_draws, setResults, getResults, st_bind. rewrite Hd.
  destruct (analyzeContentCoherence rnd pd (draws e2)) as [coh d1].
  destruct (analyzeAudienceFragmentation rnd ad d1) as [aud d2].
  destruct (analyzeMessageConsistency rnd pd d2) as [con d3].
  done.
Qed.

(** The parts of the results of [analyze], each computed from the draws
    made so far, and the results it retains. *)
Lemma analyze_parts pd ad e :
  exists i j k,
    coherence (fst (analyze rnd pd ad e)) = fst (analyzeContentCoherence rnd pd i) /\
    audience (fst (analyze rnd pd ad e)) = fst (analyzeAudienceFragmentation rnd ad j) /\
    consistency (fst (analyze rnd pd ad e)) = fst (analyzeMessageConsistency rnd pd k) /\
    recommendationSet (fst (analyze rnd pd ad e)) = generateRecommendations pd ad /\
    analysisResults (snd (analyze rnd pd ad e)) = json_of_analysis (fst (analyze rnd pd ad e)).
Proof.
  unfold analyze, with_draws, setResults, st_bind.
  exists (draws e), (snd (analyzeContentCoherence rnd pd (draws e))).
  exists (snd (analyzeAudienceFragmentation rnd ad (snd (analyzeContentCoherence rnd pd (draws e))))).
  destruct (analyzeContentCoherence rnd pd (draws e)) as [coh d1] eqn:E1.
  destruct (analyzeAudienceFragmentation rnd ad d1) as [aud d2] eqn:E2.
  destruct (analyzeMessageConsistency rnd pd d2) as [con d3] eqn:E3.
  cbn [fst snd st_ret]. rewrite ?E2. cbn [fst snd]. rewrite ?E3. repeat split.
Qed.

(** [setResults] replaces the retained results, which [getResults]
    then returns, and leaves the random draws alone. *)
Theorem setResults_getResults j e :
  fst (getResults (snd (setResults j e))) = j /\ draws (snd (setResults j e)) = draws e.
Proof. done. Qed.
End AnalyzeProperties.

(** ** Platform-specific recommendations *)

Definition twitter_recommendations : list string :=
  generatePlatformSpecificRecommendations "" (mk_platform "twitter" "" "" "" "").

Definition facebook_recommendations : list string :=
  generatePlatformSpecificRecommendations "" (mk_platform "facebook" "" "" "" "").

(** C37: the test [platformName.includes('x')], meant for the platform X,
    matches every name with an "x" or "X" anywhere: unless the name
    mentions a website or Instagram, the platform gets the Twitter/X
    recommendations, also when its name is a LinkedIn, Facebook or YouTube
    one ("Facebook Xtra"), whose own case is never reached. *)
Theorem platform_recommendations_x_substring platformId p pre c post :
  name p = (pre ++ String c post)%string -> (String c "" = "x" \/ String c "" = "X") ->
  js_includes (js_toLowerCase (name p)) "website" = false ->
  js_includes (js_toLowerCase (name p)) "instagram" = false ->
  generatePlatformSpecificRecommendations platformId p = twitter_recommendations.
Proof.
  intros Hn Hc Hw Hi. unfold generatePlatformSpecificRecommendations. rewrite Hw, Hi.
  assert (Hx : js_includes (js_toLowerCase (name p)) "x" = true).
  { rewrite Hn, js_toLowerCase_app. apply js_includes_app_r.
    cbn [js_toLowerCase]. replace (ascii_to_lower c) with (Ascii.Ascii false false false true true true true false)
      by (destruct Hc as [Hc|Hc]; injection Hc as ->; reflexivity).
    apply js_includes_head. }
  by rewrite Hx, orb_true_r.
Qed.

Lemma platform_recommendations_x_substring_witness :
  generatePlatformSpecificRecommendations "4" (mk_platform "Facebook Xtra" "" "" "" "")
    = twitter_recommendations /\ twitter_recommendations <> facebook_recommendations.
Proof.
  split; [|discriminate].
  apply (platform_recommendations_x_substring _ _ "Facebook " (Ascii.Ascii false false false true true false true false) "tra"); [reflexivity | by right | reflexivity..].
Defined.

(** ** Witnesses on a concrete session *)

(** A concrete random source: a multiplicative hash of the draw index,
    reduced to 53 bits. *)
Definition hash_rnd (i : nat) : Z := (Z.of_nat i * 2654435761) mod 2 ^ 53.

Lemma hash_rnd_ok i : (0 <= hash_rnd i < 2 ^ 53)%Z.
Proof. apply Z.mod_pos_bound. lia. Qed.

Definition sample_platformData : list (string * PlatformRecord) :=
  [("1", mk_platform "Website" "We build tools for focused teams." "formal" "article" "focus");
   ("2", mk_platform "Instagram" "Focus wins. #teams" "casual" "social-post" "focus");
   ("3", mk_platform "LinkedIn" "How focused teams ship." "professional" "article" "teams")].

Definition sample_audienceData : list (string * AudienceRecord) :=
  let z := jnum_of_Z 0 in
  let ages := mk_age (jnum_of_Z 20) (jnum_of_Z 35) (jnum_of_Z 25) (jnum_of_Z 10) z z in
  let g := mk_gender (jnum_of_Z 48) (jnum_of_Z 50) (jnum_of_Z 2) in
  [("1", mk_audience (jnum_of_Z 12000) (JNum 25 (-1)) ages g "Technology");
   ("2", mk_audience (jnum_of_Z 8000) (JNum 41 (-1)) ages g "Design");
   ("3", mk_audience z z ages g "Management")].

Lemma analyzeContentCoherence_spec_witness :
  let r := fst (analyzeContentCoherence hash_rnd sample_platformData 0) in
  map fst (Coherence.platformScores r) = ["1"; "2"; "3"] /\
  map Coherence.platforms (Coherence.comparisons r) = [("1", "2"); ("1", "3"); ("2", "3")] /\
  Forall comparison_ok (Coherence.comparisons r).
Proof.
  destruct (analyzeContentCoherence_spec hash_rnd hash_rnd_ok sample_platformData 0)
    as (H1 & _ & H3 & H4).
  split; [exact H1 | split; [exact H3 | exact H4]].
Defined.

Lemma analyzeContentCoherence_overall_witness :
  exists m, Coherence.overallScore (fst (analyzeContentCoherence hash_rnd sample_platformData 0))
              = Num m /\ (60 <= m <= 89)%Z.
Proof.
  destruct (analyzeContentCoherence_overall hash_rnd hash_rnd_ok sample_platformData 0)
    as (_ & _ & _ & H4).
  destruct (H4 ltac:(discriminate)) as (m & Hm & Hb & _). eauto.
Defined.

Lemma analyzeMessageConsistency_spec_witness :
  exists m, Consistency.overallScore (fst (analyzeMessageConsistency hash_rnd sample_platformData 0))
              = Num m /\ (55 <= m <= 89)%Z.
Proof.
  destruct (analyzeMessageConsistency_spec hash_rnd hash_rnd_ok sample_platformData 0)
    as (_ & _ & _ & _ & _ & H6).
  destruct (H6 ltac:(discriminate)) as (m & Hm & Hb & _). eauto.
Defined.

Lemma analyzeAudienceFragmentation_spec_witness :
  (40 <= Audience.fragmentationScore
           (fst (analyzeAudienceFragmentation hash_rnd sample_audienceData 0%nat)) <= 79)%Z.
Proof.
  apply (analyzeAudienceFragmentation_spec hash_rnd hash_rnd_ok sample_audienceData 0).
Defined.

Lemma analyze_overwrites_witness :
  fst (getResults (snd (analyze hash_rnd sample_platformData sample_audienceData
                          (mk_engine 5 (JString "previous")))))
    = json_of_analysis (fst (analyze hash_rnd sample_platformData sample_audienceData
                               (mk_engine 5 (JString "previous")))).
Proof.
  apply (analyze_overwrites hash_rnd _ _ _ (mk_engine 5 JNull)). reflexivity.
Defined.
