(* ===== verification/WebStorage.v ===== *)
(** * WebStorage: the [window.localStorage] the storage manager writes to

    The Web Storage API is not code of the repository; it is modelled from
    its specification.  A storage area is a map from keys to string values,
    kept within a quota on the total length of its keys and values (as the
    browsers count it, in UTF-16 code units; here one unit per character).
    [setItem] that would exceed the quota throws [QuotaExceededError] and
    changes nothing.  A storage the user has disabled throws [SecurityError]
    on every access. *)

From S2P Require Import Prelude.
Local Open Scope nav_scope.

Record local_storage := mk_storage {
  ls_enabled : bool;
  ls_quota : nat;
  ls_items : gmap string string
}.

Definition with_items (s : local_storage) (m : gmap string string) : local_storage :=
  mk_storage (ls_enabled s) (ls_quota s) m.

(** The space an entry takes: its key and its value. *)
Definition entry_size (k v : string) : nat := (String.length k + String.length v)%nat.

Definition usage (m : gmap string string) : nat :=
  map_fold (fun k v acc => entry_size k v + acc)%nat 0%nat m.

(** [localStorage.getItem(k)]: the value, or [null]. *)
Definition getItem (k : string) : JS local_storage (option string) :=
  fun s => if ls_enabled s then (Normal (ls_items s !! k), s) else (Throw SecurityError, s).

(** [localStorage.setItem(k, v)] *)
Definition setItem (k v : string) : JS local_storage unit :=
  fun s =>
    if ls_enabled s then
      let m := <[k:=v]> (ls_items s) in
      if (usage m <=? ls_quota s)%nat then (Normal tt, with_items s m)
      else (Throw QuotaExceededError, s)
    else (Throw SecurityError, s).

(** [localStorage.removeItem(k)] *)
Definition removeItem (k : string) : JS local_storage unit :=
  fun s =>
    if ls_enabled s then (Normal tt, with_items s (delete k (ls_items s)))
    else (Throw SecurityError, s).

(** [setItem(k, v)] succeeds on [s]. *)
Definition fits (s : local_storage) (k v : string) : bool :=
  ls_enabled s && (usage (<[k:=v]> (ls_items s)) <=? ls_quota s)%nat.

(** ** Lemmas *)

Lemma usage_delete m k v :
  m !! k = Some v -> usage m = (entry_size k v + usage (delete k m))%nat.
Proof.
  intros Hk. unfold usage.
  by rewrite (map_fold_delete_L _ _ k v m); [| intros; lia | done].
Qed.

Lemma usage_insert m k v :
  usage (<[k:=v]> m) = (entry_size k v + usage (delete k m))%nat.
Proof.
  rewrite <- insert_delete_eq. unfold usage.
  by rewrite map_fold_insert_L; [| intros; lia | apply lookup_delete_eq].
Qed.

Lemma usage_delete_le m k : (usage (delete k m) <= usage m)%nat.
Proof.
  destruct (m !! k) as [v|] eqn:Hk.
  - rewrite (usage_delete m k v Hk). lia.
  - by rewrite delete_id.
Qed.

Lemma fits_enabled s k v : fits s k v = true -> ls_enabled s = true.
Proof. unfold fits. by intros [-> _]%andb_prop. Qed.

Lemma setItem_fits s k v :
  fits s k v = true -> setItem k v s = (Normal tt, with_items s (<[k:=v]> (ls_items s))).
Proof.
  unfold fits, setItem. destruct (ls_enabled s); [|done]. cbn. by intros ->.
Qed.

Lemma setItem_no_fit s k v :
  fits s k v = false -> exists e, setItem k v s = (Throw e, s).
Proof.
  unfold fits, setItem. destruct (ls_enabled s); cbn; [intros ->|intros _]; eauto.
Qed.

Lemma removeItem_enabled s k :
  ls_enabled s = true -> removeItem k s = (Normal tt, with_items s (delete k (ls_items s))).
Proof. unfold removeItem. by intros ->. Qed.

Lemma getItem_enabled s k :
  ls_enabled s = true -> getItem k s = (Normal (ls_items s !! k), s).
Proof. unfold getItem. by intros ->. Qed.

Lemma with_items_items s m : ls_items (with_items s m) = m.
Proof. done. Qed.

Lemma with_items_id s : with_items s (ls_items s) = s.
Proof. by destruct s. Qed.

Lemma with_items_twice s m m' : with_items (with_items s m) m' = with_items s m'.
Proof. done. Qed.

(** A value that fits after another value of the same key fits when it is
    no longer. *)
Lemma fits_shorter s k v v' :
  String.length v' <= String.length v -> fits s k v = true -> fits s k v' = true.
Proof.
  unfold fits. rewrite !usage_insert. unfold entry_size.
  destruct (ls_enabled s); cbn; [|done]. rewrite !Nat.leb_le. lia.
Qed.

(** There is room for [n] more characters on the enabled storage [s]. *)
Definition room (s : local_storage) (n : nat) : Prop :=
  ls_enabled s = true /\ (usage (ls_items s) + n <= ls_quota s)%nat.

Lemma usage_insert_le m k v : (usage (<[k:=v]> m) <= entry_size k v + usage m)%nat.
Proof. rewrite usage_insert. pose proof (usage_delete_le m k). lia. Qed.

Lemma room_weaken s n n' : (n' <= n)%nat -> room s n -> room s n'.
Proof. unfold room. intros ? [? ?]. split; [done | lia]. Qed.

Lemma room_fits s k v : room s (entry_size k v) -> fits s k v = true.
Proof.
  unfold room, fits. intros [-> Hn]. apply Nat.leb_le.
  pose proof (usage_insert_le (ls_items s) k v). lia.
Qed.

(** Writing [v] under [k] uses at most its size of the room. *)
Lemma room_insert s k v n :
  room s (entry_size k v + n) -> room (with_items s (<[k:=v]> (ls_items s))) n.
Proof.
  unfold room. cbn. intros [-> Hn]. split; [done|].
  pose proof (usage_insert_le (ls_items s) k v). lia.
Qed.

Create Rewrite HintDb webstorage.
#[export] Hint Rewrite with_items_items with_items_twice with_items_id : webstorage.
