(* ===== verification/Storage.v ===== *)
(** * Storage: src/js/storage-manager.js

    The operations of [StorageManager] on the [localStorage] model of
    [WebStorage], proved against the [JsonCodec] interface of
    [JSON.stringify] and [JSON.parse].  Every operation is a [JS] computation
    on the storage: it returns its value, or throws the [TypeError] the
    source lets escape when the stored text is valid JSON but not an array.
    [console.error] calls are not modelled.

    [importAnalyses] returns a promise whose executor runs its checks
    synchronously and settles it in the [FileReader] callbacks; the model
    runs the whole executor and [onload] (or [onerror]) as one step that
    gives the settled value.  [exportAllAnalyses] returns [true] after it
    triggers a download; the model returns the download. *)

From S2P Require Import Prelude Json JsonCodec WebStorage.
Local Open Scope nav_scope.

Definition STORAGE_KEY : string := "attention-economy-navigator-data".

Definition storage_test : string := "__storage_test__".

(** A [File] given to [importAnalyses]: its MIME type, and its text, or
    [None] when the [FileReader] fails. *)
Record file := mk_file { file_type : string; file_text : option string }.

(** The settled state of the promise of [importAnalyses]. *)
Inductive settled := Resolved (count : nat) | Rejected (reason : string).

(** The anchor element [exportAllAnalyses] clicks. *)
Record download := mk_download {
  dl_filename : string; dl_type : string; dl_contents : string
}.

(** [e.message] of the exceptions the manager catches.  The messages of
    [QuotaExceededError] and [SecurityError] are the browser's. *)
Definition exn_message (e : exn) : string :=
  match e with
  | TypeError m | SyntaxError m => m
  | QuotaExceededError => "The quota has been exceeded."
  | SecurityError => "The operation is insecure."
  end.

(** ** The array operations the manager applies to the parsed value *)

(** [v.length]: of an array or a string its length; [null] throws; other
    values have none ([undefined]), except an object with a numeric
    [length] property. *)
Definition js_length (v : json) : JS local_storage (option Z) :=
  match v with
  | JArray l => js_ret (Some (Z.of_nat (length l)))
  | JString s => js_ret (Some (Z.of_nat (String.length s)))
  | JNull => js_throw (TypeError "Cannot read properties of null (reading 'length')")
  | JObject fs =>
      match get_field fs "length" with
      | Some (JNumber (JNum m 0)) => js_ret (Some m)
      | _ => js_ret None
      end
  | _ => js_ret None
  end.

(** The [TypeError] of calling an array method [m] on a value that has none. *)
Definition no_method (v : json) (m : string) : exn :=
  match v with
  | JNull => TypeError ("Cannot read properties of null (reading '" ++ m ++ "')")
  | _ => TypeError ("savedAnalyses." ++ m ++ " is not a function")
  end.

(** [v.push(x)] *)
Definition js_push (v x : json) : JS local_storage json :=
  match v with
  | JArray l => js_ret (JArray (l ++ [x]))
  | _ => js_throw (no_method v "push")
  end.

(** [v.splice(i, 1)] for an index in range. *)
Definition js_splice1 (v : json) (i : Z) : JS local_storage json :=
  match v with
  | JArray l => js_ret (JArray (delete (Z.to_nat i) l))
  | _ => js_throw (no_method v "splice")
  end.

(** [[...v]]: the elements of an array, the characters of a string. *)
Definition js_spread (v : json) : JS local_storage (list json) :=
  match v with
  | JArray l => js_ret l
  | JString s => js_ret (map (fun c => JString (String c EmptyString)) (String.list_ascii_of_string s))
  | _ => js_throw (TypeError "existingAnalyses is not iterable")
  end.

(** [index < 0 || index >= length]; a comparison with [undefined] is false. *)
Definition index_invalid (index : Z) (len : option Z) : bool :=
  (index <? 0)%Z || match len with Some n => (n <=? index)%Z | None => false end.

(** [try { setItem(KEY, text); return true } catch { return false }] *)
Definition write_back (text : string) : JS local_storage bool :=
  js_catch (_ <-! setItem STORAGE_KEY text ;; js_ret true) (fun _ => js_ret false).

Section Manager.
Context `{!JsonCodec}.

(** [isLocalStorageAvailable()] *)
Definition isLocalStorageAvailable : JS local_storage bool :=
  js_catch (_ <-! setItem storage_test storage_test ;;
            _ <-! removeItem storage_test ;;
            js_ret true)
           (fun _ => js_ret false).

(** [init()]: the availability check, whose failure is only logged. *)
Definition init : JS local_storage unit :=
  _ <-! isLocalStorageAvailable ;;
  js_ret tt.

(** [getSavedAnalyses()] *)
Definition getSavedAnalyses : JS local_storage json :=
  ok <-! isLocalStorageAvailable ;;
  if negb ok then js_ret (JArray []) else
  savedData <-! getItem STORAGE_KEY ;;
  match savedData with
  | Some (String _ _ as text) =>
      match json_parse text with
      | inr v => js_ret v
      | inl _ => js_ret (JArray [])
      end
  | _ => js_ret (JArray [])
  end.

(** [saveAnalysis(analysisData)] *)
Definition saveAnalysis (analysisData : json) : JS local_storage bool :=
  ok <-! isLocalStorageAvailable ;;
  if negb ok then js_ret false else
  savedAnalyses <-! getSavedAnalyses ;;
  pushed <-! js_push savedAnalyses analysisData ;;
  write_back (json_stringify pushed).

(** [deleteAnalysis(index)] *)
Definition deleteAnalysis (index : Z) : JS local_storage bool :=
  ok <-! isLocalStorageAvailable ;;
  if negb ok then js_ret false else
  savedAnalyses <-! getSavedAnalyses ;;
  len <-! js_length savedAnalyses ;;
  if index_invalid index len then js_ret false else
  spliced <-! js_splice1 savedAnalyses index ;;
  write_back (json_stringify spliced).

(** [clearAllAnalyses()] *)
Definition clearAllAnalyses : JS local_storage bool :=
  ok <-! isLocalStorageAvailable ;;
  if negb ok then js_ret false else
  js_catch (_ <-! removeItem STORAGE_KEY ;; js_ret true) (fun _ => js_ret false).

(** [exportAllAnalyses()]: [None] for [return false], [Some d] for the
    download [d] and [return true]. *)
Definition exportAllAnalyses : JS local_storage (option download) :=
  savedAnalyses <-! getSavedAnalyses ;;
  len <-! js_length savedAnalyses ;;
  if decide (len = Some 0%Z) then js_ret None else
  js_ret (Some (mk_download "attention-economy-analyses.json" "application/json"
                 (json_stringify_pretty savedAnalyses))).

(** [JSON.parse(text)], throwing its [SyntaxError]. *)
Definition parse_or_throw (text : string) : JS local_storage json :=
  match json_parse text with
  | inr v => js_ret v
  | inl msg => js_throw (SyntaxError msg)
  end.

(** The [onload] handler of [importAnalyses]. *)
Definition import_onload (text : string) : JS local_storage settled :=
  js_catch
    (importedData <-! parse_or_throw text ;;
     match importedData with
     | JArray imported =>
         existingAnalyses <-! getSavedAnalyses ;;
         existing <-! js_spread existingAnalyses ;;
         _ <-! setItem STORAGE_KEY (json_stringify (JArray (existing ++ imported))) ;;
         js_ret (Resolved (length imported))
     | _ => js_ret (Rejected "Invalid data format. Expected an array of analyses.")
     end)
    (fun e => js_ret (Rejected ("Error parsing import file: " ++ exn_message e))).

(** [importAnalyses(file)], run until its promise settles. *)
Definition importAnalyses (f : option file) : JS local_storage settled :=
  match f with
  | None => js_ret (Rejected "No file provided")
  | Some f =>
      if negb (String.eqb (file_type f) "application/json") then
        js_ret (Rejected "Invalid file type. Please select a JSON file.")
      else
        match file_text f with
        | None => js_ret (Rejected "Error reading file")
        | Some text => import_onload text
        end
  end.

End Manager.

(** ** The state the manager reads *)

(** The test key is never left behind: the invariant of the storage. *)
Definition storage_ok (s : local_storage) : Prop := ls_items s !! storage_test = None.

(** [isLocalStorageAvailable()] returns [true]: the test entry fits. *)
Definition avail (s : local_storage) : bool := fits s storage_test storage_test.

Section ManagerFacts.
Context `{!JsonCodec}.

(** The value [getSavedAnalyses] parses from the stored text. *)
Definition saved_value (s : local_storage) : json :=
  match ls_items s !! STORAGE_KEY with
  | Some (String _ _ as text) =>
      match json_parse text with inr v => v | inl _ => JArray [] end
  | _ => JArray []
  end.

Lemma storage_key_ne : STORAGE_KEY <> storage_test.
Proof. done. Qed.

Lemma isLocalStorageAvailable_spec s :
  storage_ok s -> isLocalStorageAvailable s = (Normal (avail s), s).
Proof.
  intros Hs. unfold isLocalStorageAvailable, avail.
  destruct (fits s storage_test storage_test) eqn:Hf.
  - pose proof (fits_enabled _ _ _ Hf) as He.
    apply js_catch_normal. js_step (setItem_fits _ _ _ Hf).
    js_step (removeItem_enabled (with_items s (<[storage_test:=storage_test]> (ls_items s)))
               storage_test He).
    cbn. rewrite delete_insert_eq, delete_id by done. by destruct s.
  - destruct (setItem_no_fit _ _ _ Hf) as [e He].
    by js_step (js_bind_throw _ (fun _ => _ <-! removeItem storage_test ;; js_ret true) _ _ _ He).
Qed.

Lemma getSavedAnalyses_spec s :
  storage_ok s ->
  getSavedAnalyses s = (Normal (if avail s then saved_value s else JArray []), s).
Proof.
  intros Hs. unfold getSavedAnalyses. js_step (isLocalStorageAvailable_spec s Hs).
  destruct (avail s) eqn:Ha; [|done]. cbn [negb].
  js_step (getItem_enabled s STORAGE_KEY (fits_enabled _ _ _ Ha)).
  unfold saved_value. destruct (ls_items s !! STORAGE_KEY) as [[|c t]|]; [done| |done].
  by destruct (json_parse _).
Qed.

(** [s] stores the text of [v] under the key of the manager. *)
Definition stores (s : local_storage) (v : json) : Prop :=
  ls_items s !! STORAGE_KEY = Some (json_stringify v).

Lemma stores_saved_value s v : stores s v -> saved_value s = v.
Proof.
  unfold stores, saved_value. intros ->.
  pose proof (json_stringify_nonempty v) as Hne. pose proof (json_parse_stringify v) as Hp.
  destruct (json_stringify v); [done|]. by rewrite Hp.
Qed.

Lemma stores_insert s v :
  stores (with_items s (<[STORAGE_KEY:=json_stringify v]> (ls_items s))) v.
Proof. apply lookup_insert_eq. Qed.

Lemma storage_ok_insert s v :
  storage_ok s -> storage_ok (with_items s (<[STORAGE_KEY:=v]> (ls_items s))).
Proof. unfold storage_ok. cbn. intros. by rewrite lookup_insert_ne. Qed.

Lemma storage_ok_delete s k :
  storage_ok s -> storage_ok (with_items s (delete k (ls_items s))).
Proof. unfold storage_ok. cbn. intros. apply lookup_delete_None; auto. Qed.

End ManagerFacts.

(** ** Properties of the manager *)

Section ManagerProperties.
Context `{!JsonCodec}.

(** The first steps every guarded operation takes: the availability test,
    then the read of the saved analyses. *)
Lemma guarded_read {A} s (k : json -> JS local_storage A) (dflt : A) :
  storage_ok s -> avail s = true ->
  (ok <-! isLocalStorageAvailable ;;
   if negb ok then js_ret dflt else
   v <-! getSavedAnalyses ;; k v) s = k (saved_value s) s.
Proof.
  intros Hs Ha. js_step (isLocalStorageAvailable_spec s Hs). rewrite Ha. cbn [negb].
  js_step (getSavedAnalyses_spec s Hs). by rewrite Ha.
Qed.

Lemma guarded_unavailable {A} s (k : JS local_storage A) (dflt : A) :
  storage_ok s -> avail s = false ->
  (ok <-! isLocalStorageAvailable ;; if negb ok then js_ret dflt else k) s = (Normal dflt, s).
Proof. intros Hs Ha. js_step (isLocalStorageAvailable_spec s Hs). by rewrite Ha. Qed.

Lemma write_back_fits s text :
  fits s STORAGE_KEY text = true ->
  write_back text s = (Normal true, with_items s (<[STORAGE_KEY:=text]> (ls_items s))).
Proof. intros Hf. apply js_catch_normal. by js_step (setItem_fits _ _ _ Hf). Qed.

Lemma write_back_no_fit s text :
  fits s STORAGE_KEY text = false -> write_back text s = (Normal false, s).
Proof.
  intros Hf. destruct (setItem_no_fit _ _ _ Hf) as [e He].
  unfold write_back, js_catch, js_bind. by rewrite He.
Qed.

Lemma write_back_cases s text :
  (fits s STORAGE_KEY text = true /\
     write_back text s = (Normal true, with_items s (<[STORAGE_KEY:=text]> (ls_items s)))) \/
  (fits s STORAGE_KEY text = false /\ write_back text s = (Normal false, s)).
Proof.
  destruct (fits s STORAGE_KEY text) eqn:Hf;
    [left; split; [done | by apply write_back_fits] | right; split; [done | by apply write_back_no_fit]].
Qed.

End ManagerProperties.

(** Split on whether the write of the manager fits. *)
Ltac split_write_back :=
  match goal with
  | |- context [write_back ?t ?s] =>
      destruct (write_back_cases s t) as [[_ ->]|[_ ->]];
      try solve [left; reflexivity | right; eexists; reflexivity | auto]
  end.

Section SaveDelete.
Context `{!JsonCodec}.

Lemma saveAnalysis_available s x :
  storage_ok s -> avail s = true ->
  saveAnalysis x s = (pushed <-! js_push (saved_value s) x ;; write_back (json_stringify pushed)) s.
Proof. intros. unfold saveAnalysis. by rewrite guarded_read. Qed.

(** [saveAnalysis] leaves the storage as it was, or writes its key and
    returns [true]. *)
Lemma saveAnalysis_outcome s x :
  storage_ok s ->
  snd (saveAnalysis x s) = s \/
  exists t, saveAnalysis x s = (Normal true, with_items s (<[STORAGE_KEY:=t]> (ls_items s))).
Proof.
  intros Hs. destruct (avail s) eqn:Ha.
  - rewrite saveAnalysis_available by done.
    destruct (saved_value s); cbn -[write_back]; try (left; reflexivity).
    split_write_back.
  - unfold saveAnalysis. rewrite guarded_unavailable by done. by left.
Qed.

Lemma deleteAnalysis_available s i :
  storage_ok s -> avail s = true ->
  deleteAnalysis i s =
    (len <-! js_length (saved_value s) ;;
     if index_invalid i len then js_ret false else
     spliced <-! js_splice1 (saved_value s) i ;; write_back (json_stringify spliced)) s.
Proof. intros. unfold deleteAnalysis. by rewrite guarded_read. Qed.

Lemma deleteAnalysis_outcome s i :
  storage_ok s ->
  snd (deleteAnalysis i s) = s \/
  exists t, deleteAnalysis i s = (Normal true, with_items s (<[STORAGE_KEY:=t]> (ls_items s))).
Proof.
  intros Hs. destruct (avail s) eqn:Ha.
  - rewrite deleteAnalysis_available by done.
    destruct (saved_value s) as [| | | | l | fs]; cbn -[write_back]; repeat case_match;
      cbn -[write_back]; auto.
    all: try destruct (index_invalid i None); try destruct (index_invalid i (Some mant));
      cbn -[write_back]; auto.
    all: split_write_back.
  - unfold deleteAnalysis. rewrite guarded_unavailable by done. by left.
Qed.

Lemma clearAllAnalyses_outcome s :
  storage_ok s ->
  clearAllAnalyses s =
    if avail s then (Normal true, with_items s (delete STORAGE_KEY (ls_items s)))
    else (Normal false, s).
Proof.
  intros Hs. unfold clearAllAnalyses. js_step (isLocalStorageAvailable_spec s Hs).
  destruct (avail s) eqn:Ha; [|done]. cbn [negb]. apply js_catch_normal.
  by js_step (removeItem_enabled s STORAGE_KEY (fits_enabled _ _ _ Ha)).
Qed.

End SaveDelete.

Section ImportFacts.
Context `{!JsonCodec}.

(** [getSavedAnalyses] and the spread of its result, on a valid storage. *)
Lemma import_onload_array s text items :
  storage_ok s -> json_parse text = inr (JArray items) ->
  import_onload text s =
    js_catch
      (existing <-! js_spread (if avail s then saved_value s else JArray []) ;;
       _ <-! setItem STORAGE_KEY (json_stringify (JArray (existing ++ items))) ;;
       js_ret (Resolved (length items)))
      (fun e => js_ret (Rejected ("Error parsing import file: " ++ exn_message e))) s.
Proof.
  intros Hs Hp. unfold import_onload, js_catch at 1 2.
  unfold parse_or_throw. rewrite Hp, js_bind_ret. by rewrite (js_bind_normal _ _ _ _ _ (getSavedAnalyses_spec s Hs)).
Qed.

(** An import whose promise does not resolve leaves the storage as it was. *)
Lemma importAnalyses_outcome s f :
  storage_ok s ->
  snd (importAnalyses f s) = s \/
  exists n t, importAnalyses f s =
                (Normal (Resolved n), with_items s (<[STORAGE_KEY:=t]> (ls_items s))).
Proof.
  intros Hs. destruct f as [[ty [text|]]|]; cbn -[import_onload]; [|by destruct negb; left..].
  destruct (negb _); [by left|].
  destruct (json_parse text) as [msg|[| | | | items |]] eqn:Hp;
    try (left; unfold import_onload, parse_or_throw, js_catch, js_bind; by rewrite Hp).
  rewrite (import_onload_array s text items Hs Hp).
  destruct (if avail s then saved_value s else JArray []) as [| | | | l |];
    unfold js_catch, js_bind, js_spread, js_ret, js_throw; cbn -[setItem];
    try (left; reflexivity).
  all: match goal with
       | |- context [setItem STORAGE_KEY ?t ?st] =>
           destruct (fits st STORAGE_KEY t) eqn:Hf;
           [rewrite (setItem_fits _ _ _ Hf); right; do 2 eexists; reflexivity
           |destruct (setItem_no_fit _ _ _ Hf) as [e ->]; by left]
       end.
Qed.

End ImportFacts.

Lemma index_invalid_in_range i n : (0 <= i < n)%Z -> index_invalid i (Some n) = false.
Proof. intros. unfold index_invalid. apply orb_false_intro; [apply Z.ltb_ge | apply Z.leb_gt]; lia. Qed.

Lemma index_invalid_out_of_range i n : (i < 0 \/ n <= i)%Z -> index_invalid i (Some n) = true.
Proof.
  intros [H|H]; unfold index_invalid; apply orb_true_intro; [left; by apply Z.ltb_lt | right; by apply Z.leb_le].
Qed.

Section StorageClaims.
Context `{!JsonCodec}.

(** The state after a write of the manager's key. *)
Lemma written_facts s v :
  storage_ok s ->
  let s' := with_items s (<[STORAGE_KEY:=json_stringify v]> (ls_items s)) in
  saved_value s' = v /\ storage_ok s' /\
  forall k, k <> STORAGE_KEY -> ls_items s' !! k = ls_items s !! k.
Proof.
  intros Hs. split; [apply stores_saved_value, stores_insert|].
  split; [by apply storage_ok_insert | intros k Hk; apply lookup_insert_ne; congruence].
Qed.

Lemma import_appends s l items text :
  storage_ok s -> avail s = true -> saved_value s = JArray l ->
  json_parse text = inr (JArray items) ->
  fits s STORAGE_KEY (json_stringify (JArray (l ++ items))) = true ->
  importAnalyses (Some (mk_file "application/json" (Some text))) s =
    (Normal (Resolved (length items)),
     with_items s (<[STORAGE_KEY:=json_stringify (JArray (l ++ items))]> (ls_items s))).
Proof.
  intros Hs Ha Hl Hp Hf. cbn -[import_onload].
  rewrite (import_onload_array s text items Hs Hp), Ha, Hl.
  apply js_catch_normal. cbn [js_spread]. rewrite js_bind_ret.
  by js_step (setItem_fits _ _ _ Hf).
Qed.

(** C1: saving an analysis on an available storage that holds the array
    [l], when the new text fits, returns [true], stores [l ++ [x]] and
    changes no other key. *)
Theorem saveAnalysis_appends s l x :
  storage_ok s -> avail s = true -> saved_value s = JArray l ->
  fits s STORAGE_KEY (json_stringify (JArray (l ++ [x]))) = true ->
  exists s', saveAnalysis x s = (Normal true, s') /\
    saved_value s' = JArray (l ++ [x]) /\ storage_ok s' /\
    forall k, k <> STORAGE_KEY -> ls_items s' !! k = ls_items s !! k.
Proof.
  intros Hs Ha Hl Hf. rewrite saveAnalysis_available, Hl by done. cbn [js_push].
  rewrite js_bind_ret, write_back_fits by done.
  eexists; split; [reflexivity | by apply written_facts].
Qed.

(** C17: deleting the analysis at an index in range removes exactly that
    element and returns [true], when the shorter text fits. *)
Theorem deleteAnalysis_removes s l i :
  storage_ok s -> avail s = true -> saved_value s = JArray l ->
  (0 <= i < Z.of_nat (length l))%Z ->
  fits s STORAGE_KEY (json_stringify (JArray (delete (Z.to_nat i) l))) = true ->
  exists s', deleteAnalysis i s = (Normal true, s') /\
    saved_value s' = JArray (take (Z.to_nat i) l ++ drop (S (Z.to_nat i)) l) /\
    length (take (Z.to_nat i) l ++ drop (S (Z.to_nat i)) l) = pred (length l) /\
    storage_ok s'.
Proof.
  intros Hs Ha Hl Hi Hf. rewrite deleteAnalysis_available, Hl by done. cbn [js_length].
  rewrite js_bind_ret, index_invalid_in_range by done. cbn [js_splice1].
  rewrite js_bind_ret, write_back_fits by done.
  eexists; split; [reflexivity|]. rewrite <- delete_take_drop.
  destruct (written_facts s (JArray (delete (Z.to_nat i) l)) Hs) as (H1 & H2 & _).
  split; [done|]. split; [|done]. rewrite length_delete; [lia|].
  apply lookup_lt_is_Some_2. lia.
Qed.

(** A [deleteAnalysis] with an index outside the stored array returns
    [false] and changes nothing. *)
Theorem deleteAnalysis_invalid_index s l i :
  storage_ok s -> saved_value s = JArray l -> (i < 0 \/ Z.of_nat (length l) <= i)%Z ->
  deleteAnalysis i s = (Normal false, s).
Proof.
  intros Hs Hl Hi. destruct (avail s) eqn:Ha.
  - rewrite deleteAnalysis_available, Hl by done. cbn [js_length].
    by rewrite js_bind_ret, index_invalid_out_of_range.
  - unfold deleteAnalysis. by rewrite guarded_unavailable.
Qed.


(** The effect of every operation on the storage: nothing, or a write of
    the manager's key. *)
Definition touches_only_key (s s' : local_storage) : Prop :=
  s' = s \/ (exists t, s' = with_items s (<[STORAGE_KEY:=t]> (ls_items s))) \/
  s' = with_items s (delete STORAGE_KEY (ls_items s)).

(** C2: every operation of the manager either reports success or leaves
    the storage as it was; and all of them change no key but their own,
    so the test key never stays behind. *)
Theorem storage_operations_atomic s :
  storage_ok s ->
  (forall x, snd (saveAnalysis x s) = s \/ fst (saveAnalysis x s) = Normal true) /\
  (forall i, snd (deleteAnalysis i s) = s \/ fst (deleteAnalysis i s) = Normal true) /\
  (snd (clearAllAnalyses s) = s \/ fst (clearAllAnalyses s) = Normal true) /\
  (forall f, snd (importAnalyses f s) = s \/
             exists n, fst (importAnalyses f s) = Normal (Resolved n)) /\
  (forall x, touches_only_key s (snd (saveAnalysis x s))) /\
  (forall i, touches_only_key s (snd (deleteAnalysis i s))) /\
  touches_only_key s (snd (clearAllAnalyses s)) /\
  (forall f, touches_only_key s (snd (importAnalyses f s))).
Proof.
  intros Hs. unfold touches_only_key. rewrite !clearAllAnalyses_outcome by done.
  repeat split; intros; try (destruct (avail s); cbn; eauto; fail).
  all: first [ destruct (saveAnalysis_outcome s x Hs) as [Ho|[t Ho]]
             | destruct (deleteAnalysis_outcome s i Hs) as [Ho|[t Ho]]
             | destruct (importAnalyses_outcome s f Hs) as [Ho|(n & t & Ho)] ];
    [by left | rewrite Ho; cbn; eauto].
Qed.

(** C18: importing a JSON file whose text is an array [items], into an
    available storage holding [l], resolves with the number of imported
    analyses and stores [l ++ items], when the text fits. *)
Theorem importAnalyses_appends s l items text :
  storage_ok s -> avail s = true -> saved_value s = JArray l ->
  json_parse text = inr (JArray items) ->
  fits s STORAGE_KEY (json_stringify (JArray (l ++ items))) = true ->
  exists s', importAnalyses (Some (mk_file "application/json" (Some text))) s =
               (Normal (Resolved (length items)), s') /\
             saved_value s' = JArray (l ++ items) /\ storage_ok s'.
Proof.
  intros Hs Ha Hl Hp Hf. rewrite (import_appends s l items text) by done.
  eexists; split; [reflexivity|]. by destruct (written_facts s (JArray (l ++ items)) Hs) as (? & ? & _).
Qed.

(** C27: the rejections of [importAnalyses], each with the message of the
    source, and none of them changes the storage: no file, a file that is
    not JSON, a read error, a text that is not JSON, and JSON that is not
    an array. *)
Theorem importAnalyses_rejections s ty text msg v :
  storage_ok s ->
  String.eqb ty "application/json" = false ->
  json_parse text = inl msg ->
  (forall l, v <> JArray l) ->
  importAnalyses None s = (Normal (Rejected "No file provided"), s) /\
  importAnalyses (Some (mk_file ty (Some text))) s =
    (Normal (Rejected "Invalid file type. Please select a JSON file."), s) /\
  importAnalyses (Some (mk_file "application/json" None)) s =
    (Normal (Rejected "Error reading file"), s) /\
  importAnalyses (Some (mk_file "application/json" (Some text))) s =
    (Normal (Rejected ("Error parsing import file: " ++ msg)), s) /\
  (forall text', json_parse text' = inr v ->
     importAnalyses (Some (mk_file "application/json" (Some text'))) s =
       (Normal (Rejected "Invalid data format. Expected an array of analyses."), s)).
Proof.
  intros Hs Hty Hp Hv. cbn -[import_onload]. rewrite Hty.
  do 4 (split; [try done|]).
  - unfold import_onload, parse_or_throw, js_catch, js_bind. by rewrite Hp.
  - intros text' Hp'. unfold import_onload, parse_or_throw, js_catch, js_bind. rewrite Hp'.
    destruct v; try done. by destruct (Hv l).
Qed.

(** C19: what [exportAllAnalyses] downloads from a storage holding a
    non-empty array, [importAnalyses] reads back: imported into a storage
    holding [l0], it resolves with the number of exported analyses and
    stores [l0 ++ l]. *)
Theorem export_import_roundtrip s l s0 l0 :
  storage_ok s -> avail s = true -> saved_value s = JArray l -> l <> [] ->
  storage_ok s0 -> avail s0 = true -> saved_value s0 = JArray l0 ->
  fits s0 STORAGE_KEY (json_stringify (JArray (l0 ++ l))) = true ->
  exists d, exportAllAnalyses s = (Normal (Some d), s) /\
    dl_filename d = "attention-economy-analyses.json" /\
    importAnalyses (Some (mk_file (dl_type d) (Some (dl_contents d)))) s0 =
      (Normal (Resolved (length l)),
       with_items s0 (<[STORAGE_KEY:=json_stringify (JArray (l0 ++ l))]> (ls_items s0))).
Proof.
  intros Hs Ha Hl Hne Hs0 Ha0 Hl0 Hf. unfold exportAllAnalyses.
  js_step (getSavedAnalyses_spec s Hs). rewrite Ha, Hl. cbn [js_length].
  rewrite js_bind_ret. rewrite decide_False; [|destruct l; [done|]; intros [= Hz]; cbn in Hz; lia].
  eexists; split; [reflexivity|]. split; [done|]. cbn [dl_type dl_contents].
  by apply import_appends; [..|apply json_parse_stringify_pretty|].
Qed.

(** [clearAllAnalyses] on an available storage removes the key of the
    manager, so that the saved analyses read back as the empty array; on an
    unavailable storage it returns [false] and changes nothing. *)
Theorem clearAllAnalyses_spec s :
  storage_ok s ->
  (avail s = true ->
   exists s', clearAllAnalyses s = (Normal true, s') /\
     ls_items s' !! STORAGE_KEY = None /\ saved_value s' = JArray []) /\
  (avail s = false -> clearAllAnalyses s = (Normal false, s)).
Proof.
  intros Hs. rewrite clearAllAnalyses_outcome by done.
  split; intros ->; [|done]. eexists; split; [reflexivity|].
  unfold saved_value. cbn. by rewrite lookup_delete_eq.
Qed.

(** C28: when the stored text is JSON but not an array, [saveAnalysis]
    throws the [TypeError] of [savedAnalyses.push] to its caller, and
    [deleteAnalysis] of index 0 on stored [null] throws the one of reading
    [length]; the storage is unchanged. *)
Theorem saveAnalysis_non_array_throws s x v :
  storage_ok s -> avail s = true -> saved_value s = v -> (forall l, v <> JArray l) ->
  saveAnalysis x s = (Throw (no_method v "push"), s) /\
  (v = JNull -> deleteAnalysis 0 s =
     (Throw (TypeError "Cannot read properties of null (reading 'length')"), s)).
Proof.
  intros Hs Ha Hv Hna. rewrite saveAnalysis_available, Hv by done. split.
  - destruct v; try done. by destruct (Hna l).
  - intros ->. rewrite deleteAnalysis_available, Hv by done. done.
Qed.

(** An import whose combined text does not fit is rejected with the
    exception of [setItem]. *)
Lemma setItem_no_fit_exn s k v :
  fits s k v = false ->
  setItem k v s = (Throw (if ls_enabled s then QuotaExceededError else SecurityError), s).
Proof. unfold fits, setItem. destruct (ls_enabled s); cbn; [intros ->|]; done. Qed.

(** C6: near the quota, where the availability test no longer fits,
    [importAnalyses] reads no existing analysis: when the imported array
    alone fits, it resolves with its length and the storage then holds the
    imported analyses only; whatever was saved before is lost. *)
Theorem importAnalyses_near_quota_loses_data s items text :
  storage_ok s -> avail s = false -> json_parse text = inr (JArray items) ->
  fits s STORAGE_KEY (json_stringify (JArray items)) = true ->
  exists s', importAnalyses (Some (mk_file "application/json" (Some text))) s =
               (Normal (Resolved (length items)), s') /\ saved_value s' = JArray items.
Proof.
  intros Hs Ha Hp Hf. cbn -[import_onload]. rewrite (import_onload_array s text items Hs Hp), Ha.
  eexists; split.
  - apply js_catch_normal. cbn [js_spread app]. rewrite js_bind_ret.
    js_step (setItem_fits _ _ _ Hf). reflexivity.
  - by destruct (written_facts s (JArray items) Hs) as [-> _].
Qed.

(** C26: a save whose text fits but leaves no room for the availability
    test returns [true] and stores [l ++ [x]]; from then on
    [getSavedAnalyses] returns the empty array, so the analyses just saved
    cannot be listed. *)
Theorem saveAnalysis_then_list_empty s l x :
  storage_ok s -> avail s = true -> saved_value s = JArray l ->
  fits s STORAGE_KEY (json_stringify (JArray (l ++ [x]))) = true ->
  avail (with_items s (<[STORAGE_KEY:=json_stringify (JArray (l ++ [x]))]> (ls_items s))) = false ->
  let s' := with_items s (<[STORAGE_KEY:=json_stringify (JArray (l ++ [x]))]> (ls_items s)) in
  saveAnalysis x s = (Normal true, s') /\ saved_value s' = JArray (l ++ [x]) /\
  getSavedAnalyses s' = (Normal (JArray []), s').
Proof.
  intros Hs Ha Hl Hf Ha'. cbn zeta.
  destruct (written_facts s (JArray (l ++ [x])) Hs) as (Hv & Hs' & _).
  split; [|split; [done|]].
  - rewrite saveAnalysis_available, Hl by done. cbn [js_push].
    by rewrite js_bind_ret, write_back_fits.
  - by rewrite getSavedAnalyses_spec, Ha'.
Qed.

(** C35: [importAnalyses] reports a storage that cannot be written as a
    parse error of the file: when the combined text does not fit (or the
    storage is disabled), a valid file is rejected with "Error parsing
    import file: " followed by the message of [QuotaExceededError] (or of
    [SecurityError]), and the storage is unchanged. *)
Theorem importAnalyses_storage_error_as_parse_error s l items text :
  storage_ok s -> json_parse text = inr (JArray items) ->
  (if avail s then saved_value s else JArray []) = JArray l ->
  fits s STORAGE_KEY (json_stringify (JArray (l ++ items))) = false ->
  importAnalyses (Some (mk_file "application/json" (Some text))) s =
    (Normal (Rejected ("Error parsing import file: " ++
       exn_message (if ls_enabled s then QuotaExceededError else SecurityError))), s).
Proof.
  intros Hs Hp Hl Hf. cbn -[import_onload]. rewrite (import_onload_array s text items Hs Hp), Hl.
  unfold js_catch. cbn [js_spread]. rewrite js_bind_ret.
  unfold js_bind. by rewrite (setItem_no_fit_exn _ _ _ Hf).
Qed.

(** A delete at an index in range on an available storage writes the
    array without that element. *)
Lemma deleteAnalysis_writes s l i :
  storage_ok s -> avail s = true -> saved_value s = JArray l -> (i < length l)%nat ->
  fits s STORAGE_KEY (json_stringify (JArray (delete i l))) = true ->
  deleteAnalysis (Z.of_nat i) s =
    (Normal true, with_items s (<[STORAGE_KEY:=json_stringify (JArray (delete i l))]> (ls_items s))).
Proof.
  intros Hs Ha Hl Hi Hf. rewrite deleteAnalysis_available, Hl by done. cbn [js_length].
  rewrite js_bind_ret, index_invalid_in_range by lia. cbn [js_splice1]. rewrite Nat2Z.id.
  by rewrite js_bind_ret, write_back_fits.
Qed.

End StorageClaims.

(** ** Concrete storages *)

Definition analysis_named (n : string) : json := JObject [("name", JString n)].

(** A storage with room, holding the analyses A and B. *)
Definition roomy_storage : local_storage :=
  mk_storage true 1000 (<[STORAGE_KEY:=stringify (JArray [analysis_named "A"; analysis_named "B"])]> ∅).

(** A storage of quota 80 holding A and B: 59 units are used, and the
    32 units of the test entry no longer fit. *)
Definition full_storage : local_storage :=
  mk_storage true 80 (<[STORAGE_KEY:=stringify (JArray [analysis_named "A"; analysis_named "B"])]> ∅).

(** A storage of quota 80 holding A: 46 units are used. *)
Definition nearly_full_storage : local_storage :=
  mk_storage true 80 (<[STORAGE_KEY:=stringify (JArray [analysis_named "A"])]> ∅).

(** ** Witnesses: the theorems applied to the concrete storages *)

Lemma saveAnalysis_appends_witness :
  exists s', saveAnalysis (analysis_named "C") roomy_storage = (Normal true, s') /\
    saved_value s' = JArray ([analysis_named "A"; analysis_named "B"] ++ [analysis_named "C"]) /\
    storage_ok s' /\
    forall k, k <> STORAGE_KEY -> ls_items s' !! k = ls_items roomy_storage !! k.
Proof. apply saveAnalysis_appends; vm_compute; reflexivity. Defined.

Lemma deleteAnalysis_removes_witness :
  exists s', deleteAnalysis 0 roomy_storage = (Normal true, s') /\
    saved_value s' = JArray (take (Z.to_nat 0) [analysis_named "A"; analysis_named "B"] ++
                             drop (S (Z.to_nat 0)) [analysis_named "A"; analysis_named "B"]) /\
    length (take (Z.to_nat 0) [analysis_named "A"; analysis_named "B"] ++
            drop (S (Z.to_nat 0)) [analysis_named "A"; analysis_named "B"]) =
      pred (length [analysis_named "A"; analysis_named "B"]) /\
    storage_ok s'.
Proof. apply deleteAnalysis_removes; try (vm_compute; reflexivity). cbn; lia. Defined.

Lemma deleteAnalysis_invalid_index_witness :
  deleteAnalysis 2 roomy_storage = (Normal false, roomy_storage).
Proof.
  apply (deleteAnalysis_invalid_index _ [analysis_named "A"; analysis_named "B"]);
    [vm_compute; reflexivity | vm_compute; reflexivity | cbn; lia].
Defined.

Lemma storage_operations_atomic_witness :
  let s := full_storage in
  (forall x, snd (saveAnalysis x s) = s \/ fst (saveAnalysis x s) = Normal true) /\
  (forall i, snd (deleteAnalysis i s) = s \/ fst (deleteAnalysis i s) = Normal true) /\
  (snd (clearAllAnalyses s) = s \/ fst (clearAllAnalyses s) = Normal true) /\
  (forall f, snd (importAnalyses f s) = s \/
             exists n, fst (importAnalyses f s) = Normal (Resolved n)) /\
  (forall x, touches_only_key s (snd (saveAnalysis x s))) /\
  (forall i, touches_only_key s (snd (deleteAnalysis i s))) /\
  touches_only_key s (snd (clearAllAnalyses s)) /\
  (forall f, touches_only_key s (snd (importAnalyses f s))).
Proof. apply storage_operations_atomic. vm_compute. reflexivity. Defined.

Lemma importAnalyses_appends_witness :
  exists s', importAnalyses (Some (mk_file "application/json"
                                     (Some (stringify (JArray [analysis_named "C"]))))) roomy_storage =
               (Normal (Resolved (length [analysis_named "C"])), s') /\
             saved_value s' = JArray ([analysis_named "A"; analysis_named "B"] ++ [analysis_named "C"]) /\
             storage_ok s'.
Proof. apply importAnalyses_appends; vm_compute; reflexivity. Defined.

(** The text of a file that is not JSON. *)
Definition not_json_text : string := "{name".

Lemma importAnalyses_rejections_witness :
  let s := roomy_storage in
  importAnalyses None s = (Normal (Rejected "No file provided"), s) /\
  importAnalyses (Some (mk_file "text/plain" (Some not_json_text))) s =
    (Normal (Rejected "Invalid file type. Please select a JSON file."), s) /\
  importAnalyses (Some (mk_file "application/json" None)) s =
    (Normal (Rejected "Error reading file"), s) /\
  importAnalyses (Some (mk_file "application/json" (Some not_json_text))) s =
    (Normal (Rejected ("Error parsing import file: " ++ "Unexpected token in JSON")), s) /\
  (forall text', json_parse text' = inr (analysis_named "A") ->
     importAnalyses (Some (mk_file "application/json" (Some text'))) s =
       (Normal (Rejected "Invalid data format. Expected an array of analyses."), s)).
Proof.
  apply importAnalyses_rejections; [vm_compute; reflexivity .. |]. by intros l.
Defined.

Lemma export_import_roundtrip_witness :
  exists d, exportAllAnalyses roomy_storage = (Normal (Some d), roomy_storage) /\
    dl_filename d = "attention-economy-analyses.json" /\
    importAnalyses (Some (mk_file (dl_type d) (Some (dl_contents d)))) nearly_full_storage =
      (Normal (Resolved (length [analysis_named "A"; analysis_named "B"])),
       with_items nearly_full_storage
         (<[STORAGE_KEY:=json_stringify
                           (JArray ([analysis_named "A"] ++ [analysis_named "A"; analysis_named "B"]))]>
            (ls_items nearly_full_storage))).
Proof.
  apply export_import_roundtrip; try (vm_compute; reflexivity). done.
Defined.

Lemma clearAllAnalyses_spec_witness :
  (avail roomy_storage = true ->
   exists s', clearAllAnalyses roomy_storage = (Normal true, s') /\
     ls_items s' !! STORAGE_KEY = None /\ saved_value s' = JArray []) /\
  (avail roomy_storage = false -> clearAllAnalyses roomy_storage = (Normal false, roomy_storage)).
Proof. apply clearAllAnalyses_spec. vm_compute. reflexivity. Defined.

(** A storage holding the text [null]. *)
Definition null_storage : local_storage :=
  mk_storage true 1000 (<[STORAGE_KEY:="null"]> ∅).

Lemma saveAnalysis_non_array_throws_witness :
  saveAnalysis (analysis_named "A") null_storage = (Throw (no_method JNull "push"), null_storage) /\
  (JNull = JNull -> deleteAnalysis 0 null_storage =
     (Throw (TypeError "Cannot read properties of null (reading 'length')"), null_storage)).
Proof. apply saveAnalysis_non_array_throws; try (vm_compute; reflexivity). by intros l. Defined.

(** A storage with room holding B. *)
Definition storage_B : local_storage :=
  mk_storage true 1000 (<[STORAGE_KEY:=stringify (JArray [analysis_named "B"])]> ∅).

(** The example of the specification: importing a file holding
    [[{"name":"A"}]] into a storage holding [[{"name":"B"}]] resolves with
    1 and leaves two analyses, B then A. *)
Example importAnalyses_spec_example :
  let r := importAnalyses (Some (mk_file "application/json"
                                   (Some (stringify (JArray [analysis_named "A"]))))) storage_B in
  fst r = Normal (Resolved 1) /\
  saved_value (snd r) = JArray [analysis_named "B"; analysis_named "A"].
Proof. vm_compute. split; reflexivity. Qed.

(** A storage with room holding A twice. *)
Definition storage_AA : local_storage :=
  mk_storage true 1000 (<[STORAGE_KEY:=stringify (JArray [analysis_named "A"; analysis_named "A"])]> ∅).

(** The specification says that after [deleteAt(i)] no entry equal to
    the removed one is left; the storage keeps equal entries, and deleting
    one of two equal analyses leaves the other. *)
Theorem deleteAnalysis_duplicate_remains :
  let r := deleteAnalysis 0 storage_AA in
  fst r = Normal true /\ saved_value (snd r) = JArray [analysis_named "A"].
Proof. vm_compute. split; reflexivity. Qed.

(** A storage the user has disabled. *)
Definition disabled_storage : local_storage := mk_storage false 1000 ∅.

Lemma importAnalyses_near_quota_loses_data_witness :
  exists s', importAnalyses (Some (mk_file "application/json"
                                     (Some (stringify (JArray [analysis_named "C"]))))) full_storage =
               (Normal (Resolved (length [analysis_named "C"])), s') /\
             saved_value s' = JArray [analysis_named "C"].
Proof. apply importAnalyses_near_quota_loses_data; vm_compute; reflexivity. Defined.

Lemma saveAnalysis_then_list_empty_witness :
  let s := nearly_full_storage in
  let l := [analysis_named "A"] in
  let s' := with_items s (<[STORAGE_KEY:=json_stringify (JArray (l ++ [analysis_named "B"]))]> (ls_items s)) in
  saveAnalysis (analysis_named "B") s = (Normal true, s') /\
  saved_value s' = JArray (l ++ [analysis_named "B"]) /\ getSavedAnalyses s' = (Normal (JArray []), s').
Proof. apply saveAnalysis_then_list_empty; vm_compute; reflexivity. Defined.

Lemma importAnalyses_storage_error_as_parse_error_witness :
  importAnalyses (Some (mk_file "application/json" (Some (stringify (JArray [analysis_named "C"])))))
    disabled_storage =
    (Normal (Rejected ("Error parsing import file: " ++
       exn_message (if ls_enabled disabled_storage then QuotaExceededError else SecurityError))),
     disabled_storage).
Proof. apply (importAnalyses_storage_error_as_parse_error _ [] [analysis_named "C"]); vm_compute; reflexivity. Defined.
