(* ===== verification/JsBuiltins.v ===== *)
(** * JsBuiltins: the JavaScript built-ins the UI controller and the
    application call

    Number-to-string conversion of the integers the code interpolates into
    element ids, [parseInt] and [parseFloat] on the strings the form inputs
    hold, [String.prototype.trim], [Math.max], and the enumeration order of
    the properties of an ordinary object (integer-like keys first, in
    ascending order, then the other keys in insertion order).  They are
    modelled from the ECMAScript specification for the strings the code
    passes them: decimal text, without the hexadecimal prefix of
    [parseInt] or the [Infinity] literal of [parseFloat]. *)

From Stdlib Require Import Ascii DecimalString DecimalN DecimalZ.
From S2P Require Import Prelude Json JsonCodec.
Local Open Scope nav_scope.

(** ** Numbers and their text *)

(** [String(n)] for a number that is an integer or [NaN]. *)
Definition num_to_string (n : num) : string :=
  match n with Num z => string_of_Z z | NaN => "NaN" end.

(** [n + 1] *)
Definition num_succ (n : num) : num :=
  match n with Num z => Num (z + 1)%Z | NaN => NaN end.

(** [Math.max(a, b)] *)
Definition num_max (a b : num) : num :=
  match a, b with Num x, Num y => Num (Z.max x y) | _, _ => NaN end.

(** The value of a nonempty string of decimal digits. *)
Definition index_value (s : string) : option N :=
  option_map N.of_uint (NilZero.uint_of_string s).

Definition is_digit (c : ascii) : bool :=
  let n := nat_of_ascii c in (Nat.leb 48 n && Nat.leb n 57)%bool.

(** The longest prefix of decimal digits, and the rest. *)
Fixpoint span_digits (s : string) : string * string :=
  match s with
  | String c r =>
      if is_digit c then let '(d, r') := span_digits r in (String c d, r') else (EmptyString, s)
  | EmptyString => (EmptyString, EmptyString)
  end.

(** The whitespace [parseInt], [parseFloat] and [trim] skip (its ASCII part). *)
Definition is_js_ws (c : ascii) : bool :=
  let n := nat_of_ascii c in
  (Nat.eqb n 32 || Nat.eqb n 9 || Nat.eqb n 10 || Nat.eqb n 11 || Nat.eqb n 12 ||
   Nat.eqb n 13)%bool.

Fixpoint trim_start (s : string) : string :=
  match s with
  | String c r => if is_js_ws c then trim_start r else s
  | EmptyString => EmptyString
  end.

(** [s.trim() === ''] *)
Definition trim_is_empty (s : string) : bool :=
  match trim_start s with EmptyString => true | _ => false end.

(** [parseInt(s)]: optional sign, then the longest prefix of digits. *)
Definition js_parseInt (s : string) : num :=
  let '(neg, r) :=
    match trim_start s with
    | String "-"%char r => (true, r)
    | String "+"%char r => (false, r)
    | t => (false, t)
    end in
  match index_value (fst (span_digits r)) with
  | Some n => Num (if neg then - Z.of_N n else Z.of_N n)%Z
  | None => NaN
  end.

(** [parseFloat(s)] for a decimal literal: optional sign, digits with an
    optional fraction, an optional exponent; [None] is [NaN]. *)
Definition js_parseFloat (s : string) : option jnum :=
  let '(neg, r) :=
    match trim_start s with
    | String "-"%char r => (true, r)
    | String "+"%char r => (false, r)
    | t => (false, t)
    end in
  let '(ip, r1) := span_digits r in
  let '(fp, r2) :=
    match r1 with
    | String "."%char r1' => span_digits r1'
    | _ => (EmptyString, r1)
    end in
  let e :=
    match r2 with
    | String c r2' =>
        if (Ascii.eqb c "e" || Ascii.eqb c "E")%bool then
          let '(eneg, r3) :=
            match r2' with
            | String "-"%char r3 => (true, r3)
            | String "+"%char r3 => (false, r3)
            | t => (false, t)
            end in
          match index_value (fst (span_digits r3)) with
          | Some v => if eneg then (- Z.of_N v)%Z else Z.of_N v
          | None => 0%Z
          end
        else 0%Z
    | EmptyString => 0%Z
    end in
  match index_value (ip ++ fp) with
  | Some m =>
      Some (JNum (if neg then - Z.of_N m else Z.of_N m) (e - Z.of_nat (String.length fp)))%Z
  | None => None
  end.

(** ** Property order of ordinary objects *)

(** An array index: the canonical decimal text of an integer below
    [2^32 - 1]. *)
Definition array_index (k : string) : option N :=
  match index_value k with
  | Some n =>
      if String.eqb (string_of_Z (Z.of_N n)) k && N.ltb n 4294967295 then Some n else None
  | None => None
  end.

(** A new property [k]: an array index goes before the first larger index
    and before every other key; any other key goes last. *)
Fixpoint obj_insert_new {A} (o : list (string * A)) (k : string) (v : A) : list (string * A) :=
  match o with
  | [] => [(k, v)]
  | (k', v') :: rest =>
      match array_index k, array_index k' with
      | Some n, Some n' => if N.ltb n n' then (k, v) :: o else (k', v') :: obj_insert_new rest k v
      | Some _, None => (k, v) :: o
      | None, _ => (k', v') :: obj_insert_new rest k v
      end
  end.

(** [o[k] = v]: an existing property keeps its place. *)
Definition obj_set {A} (o : list (string * A)) (k : string) (v : A) : list (string * A) :=
  if existsb (fun kv => String.eqb kv.1 k) o
  then map (fun kv => if String.eqb kv.1 k then (k, v) else kv) o
  else obj_insert_new o k v.

(** [o[k]] *)
Fixpoint obj_get {A} (o : list (string * A)) (k : string) : option A :=
  match o with
  | [] => None
  | (k', v) :: rest => if String.eqb k' k then Some v else obj_get rest k
  end.

(** ** Lemmas *)

Lemma obj_get_cons {A} k (v : A) o k' :
  obj_get ((k, v) :: o) k' = if String.eqb k k' then Some v else obj_get o k'.
Proof. reflexivity. Qed.

Lemma obj_insert_new_get {A} (o : list (string * A)) k v k' :
  existsb (fun kv => String.eqb kv.1 k) o = false ->
  obj_get (obj_insert_new o k v) k' = if String.eqb k k' then Some v else obj_get o k'.
Proof.
  induction o as [|[k1 v1] rest IH]; intros Hk; [done|].
  cbn in Hk. apply orb_false_iff in Hk as [Hk1 Hk].
  assert (Hstep : obj_get ((k1, v1) :: obj_insert_new rest k v) k' =
                  if String.eqb k k' then Some v else obj_get ((k1, v1) :: rest) k').
  { rewrite !obj_get_cons, IH by done.
    destruct (String.eqb_spec k1 k'), (String.eqb_spec k k'); subst; try done.
    by rewrite String.eqb_refl in Hk1. }
  cbn [obj_insert_new]. destruct (array_index k) as [n|], (array_index k1) as [n1|];
    try destruct (N.ltb n n1); first [exact Hstep | reflexivity].
Qed.

Lemma obj_replace_get {A} (o : list (string * A)) k v k' :
  obj_get (map (fun kv => if String.eqb kv.1 k then (k, v) else kv) o) k' =
    if String.eqb k k' then (if existsb (fun kv => String.eqb kv.1 k) o then Some v else None)
    else obj_get o k'.
Proof.
  induction o as [|[k1 v1] rest IH]; cbn; [by destruct (String.eqb k k')|].
  destruct (String.eqb_spec k1 k); subst; cbn.
  - by destruct (String.eqb k k').
  - rewrite IH. destruct (String.eqb_spec k1 k'), (String.eqb_spec k k'); subst; congruence.
Qed.

(** Reading a property after writing it. *)
Lemma obj_set_get {A} (o : list (string * A)) k v k' :
  obj_get (obj_set o k v) k' = if String.eqb k k' then Some v else obj_get o k'.
Proof.
  unfold obj_set. destruct (existsb _ o) eqn:He.
  - rewrite obj_replace_get, He. done.
  - by apply obj_insert_new_get.
Qed.

(** The text of a non-negative integer reads back as its value. *)
Lemma index_value_string_of_Z z : (0 <= z)%Z -> index_value (string_of_Z z) = Some (Z.to_N z).
Proof.
  destruct z as [|p|p]; intros Hz; [reflexivity| |lia].
  unfold index_value, string_of_Z. cbn [Z.to_int NilZero.string_of_int].
  rewrite NilZero.usu by apply DecimalPos.Unsigned.to_uint_nonnil. cbn.
  f_equal. exact (DecimalN.Unsigned.of_to (N.pos p)).
Qed.

Lemma string_of_Z_inj_nonneg a b :
  (0 <= a)%Z -> (0 <= b)%Z -> string_of_Z a = string_of_Z b -> a = b.
Proof.
  intros Ha Hb H. apply (f_equal index_value) in H.
  rewrite !index_value_string_of_Z in H by done. injection H. lia.
Qed.

Lemma string_of_uint_is_digits u : str_forall is_digit (NilEmpty.string_of_uint u) = true.
Proof. induction u; cbn; rewrite ?IHu; reflexivity. Qed.

(** The text of a non-negative integer is a nonempty string of digits. *)
Lemma string_of_Z_digits z : (0 <= z)%Z -> str_forall is_digit (string_of_Z z) = true.
Proof.
  destruct z as [|p|p]; intros Hz; [reflexivity| |lia].
  unfold string_of_Z. cbn [Z.to_int NilZero.string_of_int NilZero.string_of_uint].
  destruct (Pos.to_uint p); cbn [NilZero.string_of_uint];
    first [reflexivity | apply string_of_uint_is_digits].
Qed.

Lemma span_digits_app d r :
  str_forall is_digit d = true ->
  (match r with String c _ => is_digit c = false | EmptyString => True end) ->
  span_digits (d ++ r) = (d, r).
Proof.
  intros Hd Hr. revert Hd. induction d as [|c d IH]; intros Hd.
  - rewrite string_app_nil_l. destruct r as [|c r]; [reflexivity|].
    cbn [span_digits]. by rewrite Hr.
  - cbn in Hd. apply andb_prop in Hd as [Hc Hd].
    rewrite string_app_cons. cbn [span_digits]. by rewrite Hc, IH.
Qed.

Lemma substring_0_length s : String.substring 0 (String.length s) s = s.
Proof. induction s as [|c s IH]; cbn; [done|]. by rewrite IH. Qed.

Lemma obj_get_in {A} (o : list (string * A)) k v : obj_get o k = Some v -> (k, v) ∈ o.
Proof.
  induction o as [|[k' v'] o IH]; cbn; [done|].
  destruct (String.eqb_spec k' k) as [->|]; [intros [= ->]; left|intros; right; auto].
Qed.
