(* ===== verification/Ui.v ===== *)
(** * Ui: the platform and audience cards of src/js/ui-controller.js

    The input form is two lists of cards: the platform cards of
    [#platform-inputs] and the audience cards of [#audience-inputs], in
    document order, with the counter [platformCount] of [UIController].  A
    platform card is known by the id [<id>] its inputs carry
    ([platform<id>-name], [platform<id>-content], ...); an audience card by
    its [data-platform] attribute.  The form values are the strings the
    inputs hold.

    The model assumes what the code assumes of the page (index.html is not
    in the repository): [#platform-inputs] holds only platform cards, so
    that [.platform-card:nth-child(n)] is its [n]-th card; no other element
    has an id of the form [platform...-name]; the page starts with the
    platform cards 1 and 2 and their audience cards, without remove
    buttons and without [input] listener on their name inputs (no script
    attaches one).  [document.getElementById] returns the first element
    with the id, in document order.  Colours, labels and placeholders are not
    modelled. *)

From S2P Require Import Prelude Json JsonCodec JsBuiltins Engine.
Local Open Scope nav_scope.

(** ** The cards *)

Record platform_card := mk_pcard {
  pc_id : string;
  pc_header : string;
  pc_name : string; pc_content : string; pc_tone : string; pc_format : string;
  pc_keywords : string;
  (** the [data-platform] of its remove button, when it has one *)
  pc_remove : option string;
  (** its name input has the [input] listener [updateAudienceCardHeaders] *)
  pc_listens : bool
}.

Record audience_card := mk_acard {
  ac_platform : string;
  ac_header : string;
  ac_size : string; ac_engagement : string;
  (** the inputs 18-24, 25-34, 35-44, 45-54, 55-64 and 65plus *)
  ac_ages : list string;
  (** the inputs male, female and other *)
  ac_genders : list string;
  ac_interests : string
}.

Record ui_state := mk_ui {
  platformCount : num;
  platform_inputs : list platform_card;
  audience_inputs : list audience_card
}.

Definition empty_audience_card (id header : string) : audience_card :=
  mk_acard id header "" "" (repeat EmptyString 6) (repeat EmptyString 3) "".

(** The page as it loads: platforms 1 and 2, [platformCount = 2]; no
    script attaches a listener to their name inputs. *)
Definition initial_platform_card (id : string) : platform_card :=
  mk_pcard id ("Platform " ++ id) "" "" "" "" "" None false.

Definition ui_init : ui_state :=
  mk_ui (Num 2) [initial_platform_card "1"; initial_platform_card "2"]
        [empty_audience_card "1" " Audience"; empty_audience_card "2" " Audience"].

(** ** Queries *)

(** [document.getElementById('platform<id>-name')] and the other inputs of
    a platform card: the first card with the id. *)
Fixpoint find_platform (id : string) (cs : list platform_card) : option platform_card :=
  match cs with
  | [] => None
  | c :: rest => if String.eqb (pc_id c) id then Some c else find_platform id rest
  end.

(** [document.querySelector('.audience-card[data-platform="<id>"]')], and
    the inputs [platform<id>-audience-size], ... inside it. *)
Fixpoint find_audience (id : string) (cs : list audience_card) : option audience_card :=
  match cs with
  | [] => None
  | c :: rest => if String.eqb (ac_platform c) id then Some c else find_audience id rest
  end.

(** The id of a platform name input. *)
Definition name_input_id (c : platform_card) : string := "platform" ++ pc_id c ++ "-name".

(** [/platform(\d+)-name/] at the start of [s]: the digits it captures. *)
Definition match_platform_at (s : string) : option string :=
  if String.prefix "platform" s then
    let '(d, r) := span_digits (String.substring 8 (String.length s - 8) s) in
    match d with
    | EmptyString => None
    | _ => if String.prefix "-name" r then Some d else None
    end
  else None.

(** [s.match(/platform(\d+)-name/)[1]]: the leftmost match; [None] is the
    [null] whose [[1]] throws. *)
Fixpoint match_platform_id (s : string) : option string :=
  match s with
  | EmptyString => None
  | String _ r =>
      match match_platform_at s with
      | Some d => Some d
      | None => match_platform_id r
      end
  end.

Definition regex_null : exn := TypeError "Cannot read properties of null (reading '1')".

(** ** Updating the cards *)

(** Set the header of the first audience card with [data-platform = id]. *)
Fixpoint set_audience_header (id h : string) (cs : list audience_card) : list audience_card :=
  match cs with
  | [] => []
  | c :: rest =>
      if String.eqb (ac_platform c) id
      then mk_acard (ac_platform c) h (ac_size c) (ac_engagement c) (ac_ages c)
                    (ac_genders c) (ac_interests c) :: rest
      else c :: set_audience_header id h rest
  end.

(** Remove the first audience card with [data-platform = id]. *)
Fixpoint remove_audience (id : string) (cs : list audience_card) : list audience_card :=
  match cs with
  | [] => []
  | c :: rest => if String.eqb (ac_platform c) id then rest else c :: remove_audience id rest
  end.

Definition with_audience (s : ui_state) (a : list audience_card) : ui_state :=
  mk_ui (platformCount s) (platform_inputs s) a.

Definition with_platforms (s : ui_state) (p : list platform_card) : ui_state :=
  mk_ui (platformCount s) p (audience_inputs s).

(** [updateAudienceCardHeaders()]: for each name input, in document order,
    the header of its audience card becomes [`${input.value} Audience`]. *)
Fixpoint update_headers (cs : list platform_card) : JS ui_state unit :=
  match cs with
  | [] => js_ret tt
  | c :: rest =>
      match match_platform_id (name_input_id c) with
      | None => js_throw regex_null
      | Some pid =>
          fun s =>
            update_headers rest
              (with_audience s (set_audience_header pid (pc_name c ++ " Audience")
                                                   (audience_inputs s)))
      end
  end.

Definition updateAudienceCardHeaders : JS ui_state unit :=
  fun s => update_headers (platform_inputs s) s.

Definition set_listens (c : platform_card) : platform_card :=
  mk_pcard (pc_id c) (pc_header c) (pc_name c) (pc_content c) (pc_tone c) (pc_format c)
           (pc_keywords c) (pc_remove c) true.

(** [document.getElementById('platform<id>-name').addEventListener('input',
    updateAudienceCardHeaders)]: the first card with the id gets it. *)
Fixpoint listen_first (id : string) (cs : list platform_card) : list platform_card :=
  match cs with
  | [] => []
  | c :: rest => if String.eqb (pc_id c) id then set_listens c :: rest
                 else c :: listen_first id rest
  end.

(** [addNewPlatform()]: the cards are appended, the headers updated, and
    then the listener attached to the name input [platform<n>-name]. *)
Definition addNewPlatform : JS ui_state unit :=
  fun s =>
    let n := num_succ (platformCount s) in
    let id := num_to_string n in
    let pc := mk_pcard id ("Platform " ++ id ++ ": New Platform") "New Platform" "" "" "" ""
                       (Some id) false in
    let ac := empty_audience_card id "New Platform Audience" in
    match updateAudienceCardHeaders
            (mk_ui n (platform_inputs s ++ [pc]) (audience_inputs s ++ [ac])) with
    | (Throw e, s1) => (Throw e, s1)
    | (Normal _, s1) => (Normal tt, with_platforms s1 (listen_first id (platform_inputs s1)))
    end.

(** The argument of [:nth-child()]: an integer; other text makes
    [querySelector] throw. *)
Definition nth_child_arg (n : string) : option N := index_value n.

Definition invalid_selector : exn := SyntaxError "is not a valid selector".

(** [removePlatform(platformNumber)] *)
Definition removePlatform (platformNumber : string) : JS ui_state unit :=
  fun s =>
    match nth_child_arg platformNumber with
    | None => (Throw invalid_selector, s)
    | Some k =>
        let ps := platform_inputs s in
        let ps' := match k with
                   | N0 => ps
                   | Npos p => delete (pred (Pos.to_nat p)) ps
                   end in
        (Normal tt, mk_ui (platformCount s) ps' (remove_audience platformNumber (audience_inputs s)))
    end.

(** ** Reading the form *)

(** [getInputValueAsNumber(id)] on an input that exists. *)
Definition input_number (v : string) : jnum :=
  match js_parseFloat v with Some n => n | None => jnum_of_Z 0 end.

Definition platform_record (c : platform_card) : PlatformRecord :=
  mk_platform (pc_name c) (pc_content c) (pc_tone c) (pc_format c) (pc_keywords c).

(** [getAllPlatformData()] *)
Fixpoint collect_platforms (all : list platform_card) (cs : list platform_card)
    (acc : list (string * PlatformRecord)) : completion (list (string * PlatformRecord)) :=
  match cs with
  | [] => Normal acc
  | c :: rest =>
      match match_platform_id (name_input_id c) with
      | None => Throw regex_null
      | Some pid =>
          match find_platform pid all with
          | None => Throw (TypeError "Cannot read properties of null (reading 'value')")
          | Some d => collect_platforms all rest (obj_set acc pid (platform_record d))
          end
      end
  end.

Definition getAllPlatformData : JS ui_state (list (string * PlatformRecord)) :=
  fun s => (collect_platforms (platform_inputs s) (platform_inputs s) [], s).

Lemma find_platform_listens id cs :
  find_platform id (map set_listens cs) = set_listens <$> find_platform id cs.
Proof.
  induction cs as [|c cs IH]; [done|]. cbn [find_platform map].
  change (pc_id (set_listens c)) with (pc_id c). by destruct (String.eqb (pc_id c) id).
Qed.

(** The listeners of the name inputs do not change what the form reads. *)
Lemma collect_platforms_listens all cs acc :
  collect_platforms (map set_listens all) (map set_listens cs) acc = collect_platforms all cs acc.
Proof.
  revert acc. induction cs as [|c cs IH]; intros acc; [done|]. cbn [collect_platforms map].
  change (name_input_id (set_listens c)) with (name_input_id c).
  destruct (match_platform_id _); [|done]. rewrite find_platform_listens.
  destruct (find_platform _ all); cbn [fmap option_fmap option_map]; [apply IH|done].
Qed.

Definition nth_input (l : list string) (i : nat) : jnum := input_number (nth i l EmptyString).

Definition audience_record (c : audience_card) : AudienceRecord :=
  mk_audience (input_number (ac_size c)) (input_number (ac_engagement c))
    (mk_age (nth_input (ac_ages c) 0) (nth_input (ac_ages c) 1) (nth_input (ac_ages c) 2)
            (nth_input (ac_ages c) 3) (nth_input (ac_ages c) 4) (nth_input (ac_ages c) 5))
    (mk_gender (nth_input (ac_genders c) 0) (nth_input (ac_genders c) 1)
               (nth_input (ac_genders c) 2))
    (ac_interests c).

(** [getAllAudienceData()]: each card is read through the inputs of the
    first card with its [data-platform]. *)
Fixpoint collect_audience (all : list audience_card) (cs : list audience_card)
    (acc : list (string * AudienceRecord)) : list (string * AudienceRecord) :=
  match cs with
  | [] => acc
  | c :: rest =>
      let d := match find_audience (ac_platform c) all with Some d => d | None => c end in
      collect_audience all rest (obj_set acc (ac_platform c) (audience_record d))
  end.

Definition getAllAudienceData : JS ui_state (list (string * AudienceRecord)) :=
  fun s => (Normal (collect_audience (audience_inputs s) (audience_inputs s) []), s).

(** ** Events on the form *)

(** Set the name input of the [i]-th platform card. *)
Definition set_name (v : string) (c : platform_card) : platform_card :=
  mk_pcard (pc_id c) (pc_header c) v (pc_content c) (pc_tone c) (pc_format c) (pc_keywords c)
           (pc_remove c) (pc_listens c).

Definition set_content (v : string) (c : platform_card) : platform_card :=
  mk_pcard (pc_id c) (pc_header c) (pc_name c) v (pc_tone c) (pc_format c) (pc_keywords c)
           (pc_remove c) (pc_listens c).

(** The audience inputs of a card, typed by the user. *)
Definition set_audience_values (size engagement : string) (ages genders : list string)
    (interests : string) (c : audience_card) : audience_card :=
  mk_acard (ac_platform c) (ac_header c) size engagement ages genders interests.

(** The events of the form: the button [#add-platform] and the listeners
    [addNewPlatform] and [loadAnalysisData] attach to the cards they
    write (the remove buttons and the name inputs), and typing in the
    other inputs. *)
Inductive ui_event :=
  (** the button [#add-platform] *)
  | ClickAdd
  (** the remove button of the [i]-th platform card *)
  | ClickRemove (i : nat)
  (** typing in the name input of the [i]-th platform card, whose [input]
      listener, when it has one, updates the audience headers *)
  | InputName (i : nat) (v : string)
  | InputContent (i : nat) (v : string)
  | InputAudience (j : nat) (size engagement : string) (ages genders : list string)
                  (interests : string).

(** The listener the event runs. *)
Definition ui_handle (ev : ui_event) : JS ui_state unit :=
  match ev with
  | ClickAdd => addNewPlatform
  | ClickRemove i =>
      fun s =>
        match platform_inputs s !! i with
        | Some c => match pc_remove c with Some r => removePlatform r s | None => (Normal tt, s) end
        | None => (Normal tt, s)
        end
  | InputName i v =>
      fun s =>
        match platform_inputs s !! i with
        | Some c =>
            let s1 := with_platforms s (alter (set_name v) i (platform_inputs s)) in
            if pc_listens c then updateAudienceCardHeaders s1 else (Normal tt, s1)
        | None => (Normal tt, s)
        end
  | InputContent i v =>
      fun s => (Normal tt, with_platforms s (alter (set_content v) i (platform_inputs s)))
  | InputAudience j size eng ages genders interests =>
      fun s => (Normal tt, with_audience s (alter (set_audience_values size eng ages genders interests)
                                                  j (audience_inputs s)))
  end.

(** A step of the form: a listener runs; what it did before an exception
    stays done. *)
Inductive ui_step : ui_state -> ui_state -> Prop :=
  | ui_step_event ev s : ui_step s (snd (ui_handle ev s)).

(** The states the form reaches by events. *)
Definition ui_reachable (s0 s : ui_state) : Prop := rtc ui_step s0 s.

(** Run a list of events. *)
Fixpoint run_events (evs : list ui_event) (s : ui_state) : ui_state :=
  match evs with
  | [] => s
  | ev :: rest => run_events rest (snd (ui_handle ev s))
  end.

(** ** Lemmas on the card operations *)

Lemma prefix_app a t : String.prefix a (a ++ t) = true.
Proof.
  induction a as [|c a IH]; [by destruct t|].
  rewrite string_app_cons. cbn. destruct (Ascii.ascii_dec c c); [done | congruence].
Qed.

Lemma substring_app a t :
  String.substring (String.length a) (String.length (a ++ t) - String.length a) (a ++ t) = t.
Proof.
  rewrite string_length_app, Nat.add_comm, Nat.add_sub.
  induction a as [|c a IH]; [apply substring_0_length|].
  rewrite string_app_cons. exact IH.
Qed.

(** The id of a card the code created, [String(n)] for [n >= 0], is what the
    regular expression reads back from its name input. *)
Lemma match_platform_id_digits z :
  (0 <= z)%Z -> match_platform_id ("platform" ++ string_of_Z z ++ "-name") = Some (string_of_Z z).
Proof.
  intros Hz.
  assert (Hat : match_platform_at ("platform" ++ string_of_Z z ++ "-name") = Some (string_of_Z z)).
  { unfold match_platform_at. rewrite prefix_app.
    change 8 with (String.length "platform"). rewrite substring_app.
    rewrite (span_digits_app (string_of_Z z) "-name" (string_of_Z_digits z Hz) eq_refl).
    pose proof (string_of_Z_nonempty z). destruct (string_of_Z z); [done | reflexivity]. }
  revert Hat. generalize ("platform" ++ string_of_Z z ++ "-name")%string.
  intros [|c r] Hat; [done|]. cbn [match_platform_id]. by rewrite Hat.
Qed.

(** The part of the form the lifecycle of the cards acts on: the counter,
    the id and remove button of each platform card, the [data-platform] of
    each audience card. *)
Definition shape_of (c : platform_card) : string * option string := (pc_id c, pc_remove c).

Definition ui_shape (s : ui_state) : num * list (string * option string) * list string :=
  (platformCount s, map shape_of (platform_inputs s), map ac_platform (audience_inputs s)).

Lemma set_audience_header_ids id h cs :
  map ac_platform (set_audience_header id h cs) = map ac_platform cs.
Proof. induction cs as [|c cs IH]; cbn; [done|]. case_match; cbn; by rewrite ?IH. Qed.

(** Updating the headers changes no part of the shape, even when it throws. *)
Lemma update_headers_shape cs s : ui_shape (snd (update_headers cs s)) = ui_shape s.
Proof.
  revert s. induction cs as [|c cs IH]; intros s; [done|]. cbn [update_headers].
  destruct (match_platform_id (name_input_id c)); [|done].
  rewrite IH. unfold ui_shape. cbn. by rewrite set_audience_header_ids.
Qed.

Lemma updateAudienceCardHeaders_shape s :
  ui_shape (snd (updateAudienceCardHeaders s)) = ui_shape s.
Proof. apply update_headers_shape. Qed.

(** The edits of the inputs keep the shape. *)
Lemma edit_shape ev s :
  match ev with ClickAdd | ClickRemove _ => False | _ => True end ->
  ui_shape (snd (ui_handle ev s)) = ui_shape s.
Proof.
  destruct ev as [| i | i v | i v | j size eng ages genders interests]; intros []; cbn [ui_handle].
  - destruct (platform_inputs s !! i) as [c|]; [|done].
    destruct (pc_listens c); rewrite ?updateAudienceCardHeaders_shape; unfold ui_shape; cbn;
      by rewrite map_alter_invisible.
  - unfold ui_shape. cbn. by rewrite map_alter_invisible.
  - unfold ui_shape. cbn. by rewrite map_alter_invisible.
Qed.

Fixpoint remove_first (x : string) (l : list string) : list string :=
  match l with
  | [] => []
  | y :: l' => if String.eqb y x then l' else y :: remove_first x l'
  end.

Lemma remove_audience_ids r cs :
  map ac_platform (remove_audience r cs) = remove_first r (map ac_platform cs).
Proof. induction cs as [|c cs IH]; cbn; [done|]. case_match; cbn; by rewrite ?IH. Qed.

Lemma remove_first_subset x y l : y ∈ remove_first x l -> y ∈ l.
Proof.
  induction l as [|z l IH]; cbn; [done|]. case_match; [set_solver|].
  rewrite !elem_of_cons. tauto.
Qed.

Lemma listen_first_shape id cs : map shape_of (listen_first id cs) = map shape_of cs.
Proof. induction cs as [|c cs IH]; cbn; [done|]. case_match; cbn; by rewrite ?IH. Qed.

(** [addNewPlatform] with the counter at [n]: card [n + 1], with its remove
    button and its audience card, is appended. *)
Lemma addNewPlatform_shape s n :
  platformCount s = Num n ->
  let id := string_of_Z (n + 1) in
  ui_shape (snd (addNewPlatform s)) =
    (Num (n + 1), map shape_of (platform_inputs s) ++ [(id, Some id)],
     map ac_platform (audience_inputs s) ++ [id]).
Proof.
  intros Hn. unfold addNewPlatform. rewrite Hn. cbn zeta.
  match goal with |- context [updateAudienceCardHeaders ?s0] =>
    pose proof (updateAudienceCardHeaders_shape s0) as Hsh;
    destruct (updateAudienceCardHeaders s0) as [[] s1] end;
  [|rewrite Hsh; unfold ui_shape; cbn; by rewrite !map_app].
  revert Hsh. unfold ui_shape. cbn. rewrite listen_first_shape. intros [= -> -> ->].
  by rewrite !map_app.
Qed.

(** [removePlatform(r)] removes the [r]-th platform card, when there is
    one, and the first audience card whose [data-platform] is [r]. *)
Lemma removePlatform_shape s r k :
  nth_child_arg r = Some k ->
  ui_shape (snd (removePlatform r s)) =
    (platformCount s,
     match k with
     | N0 => map shape_of (platform_inputs s)
     | Npos p => delete (pred (Pos.to_nat p)) (map shape_of (platform_inputs s))
     end,
     remove_first r (map ac_platform (audience_inputs s))).
Proof.
  intros Hk. unfold removePlatform. rewrite Hk. unfold ui_shape. cbn.
  rewrite remove_audience_ids. destruct k; [done|]. by rewrite map_delete.
Qed.

Lemma removePlatform_invalid s r : nth_child_arg r = None -> snd (removePlatform r s) = s.
Proof. unfold removePlatform. by intros ->. Qed.

(** ** A platform card no listener can pair again *)

(** Every remove button of [bs] targets a position after [S p]. *)
Definition buttons_after (p : nat) (bs : list (string * option string)) : Prop :=
  Forall (fun b => forall r q, b.2 = Some r -> nth_child_arg r = Some q -> (N.of_nat (S p) < q)%N) bs.

(** The card at index [p], with id [k <= platformCount], has no audience
    card, and every remove button targets a later position. *)
Definition stranded_shape (sh : num * list (string * option string) * list string) : Prop :=
  let '(cnt, ps, ids) := sh in
  exists p k n rm, cnt = Num n /\ ps !! p = Some (string_of_Z k, rm) /\
    (0 <= k <= n)%Z /\ (Z.of_nat p < n)%Z /\ buttons_after p ps /\ string_of_Z k ∉ ids.

Definition stranded (s : ui_state) : Prop := stranded_shape (ui_shape s).

Lemma nth_child_arg_string_of_Z z : (0 <= z)%Z -> nth_child_arg (string_of_Z z) = Some (Z.to_N z).
Proof. apply index_value_string_of_Z. Qed.

Lemma stranded_add s : stranded s -> stranded (snd (addNewPlatform s)).
Proof.
  unfold stranded. destruct (ui_shape s) as [[cnt ps] ids] eqn:Hsh.
  intros (p & k & n & rm & -> & Hp & Hk & Hpn & Hb & Ha).
  injection Hsh as Hc Hps Hids.
  rewrite (addNewPlatform_shape s n Hc), Hps, Hids.
  exists p, k, (n + 1)%Z, rm. split; [done|].
  split; [rewrite lookup_app_l; [done | by eapply lookup_lt_Some]|].
  split; [lia|]. split; [lia|]. split.
  - apply Forall_app. split; [done|]. constructor; [|done].
    intros r q [= <-]. rewrite nth_child_arg_string_of_Z by lia. intros [= <-]. lia.
  - rewrite not_elem_of_app. split; [done|].
    intros ->%list_elem_of_singleton%string_of_Z_inj_nonneg; lia.
Qed.

Lemma stranded_remove s r :
  stranded s -> (exists i c, platform_inputs s !! i = Some c /\ pc_remove c = Some r) ->
  stranded (snd (removePlatform r s)).
Proof.
  intros Hs (i & c & Hi & Hr).
  destruct (nth_child_arg r) as [q|] eqn:Hq; [|by rewrite removePlatform_invalid].
  revert Hs. unfold stranded. rewrite (removePlatform_shape s r q Hq).
  destruct (ui_shape s) as [[cnt ps] ids] eqn:Hsh. injection Hsh as Hc Hps Hids.
  intros (p & k & n & rm & -> & Hp & Hk & Hpn & Hb & Ha). rewrite Hc, Hps, Hids.
  assert (Hlt : (N.of_nat (S p) < q)%N).
  { eapply (Forall_lookup_1 _ _ i (pc_id c, pc_remove c) Hb); [|done|done].
    rewrite <- Hps, list_lookup_fmap, Hi. done. }
  destruct q as [|pq]; [lia|].
  exists p, k, n, rm. split; [done|].
  split; [rewrite list_lookup_delete_lt; [done | lia]|].
  split; [done|]. split; [done|]. split; [by apply Forall_delete|].
  by intros ?%remove_first_subset.
Qed.

Lemma stranded_step s s' : stranded s -> ui_step s s' -> stranded s'.
Proof.
  intros Hs Hst. inversion Hst as [ev s0]; subst.
  destruct ev as [| i | i v | i v | j size eng ages genders interests].
  - by apply stranded_add.
  - cbn [ui_handle]. destruct (platform_inputs s !! i) as [c|] eqn:Hi; [|exact Hs].
    destruct (pc_remove c) as [r|] eqn:Hr; [|exact Hs].
    apply stranded_remove; eauto.
  - unfold stranded. by rewrite edit_shape.
  - unfold stranded. by rewrite edit_shape.
  - unfold stranded. by rewrite edit_shape.
Qed.

Lemma stranded_reachable s s' : stranded s -> ui_reachable s s' -> stranded s'.
Proof. intros Hs Hr. induction Hr; eauto using stranded_step. Qed.

(** ** The pairing of platform and audience cards *)

(** Each platform card has the audience card of the same id, in the same
    order. *)
Definition paired (s : ui_state) : Prop :=
  map pc_id (platform_inputs s) = map ac_platform (audience_inputs s).

Lemma remove_first_delete x l j :
  NoDup l -> l !! j = Some x -> remove_first x l = delete j l.
Proof.
  revert j. induction l as [|y l IH]; intros j Hnd Hj; [done|].
  apply NoDup_cons in Hnd as [Hy Hnd]. destruct j as [|j]; cbn in *.
  - injection Hj as ->. by rewrite String.eqb_refl.
  - destruct (String.eqb_spec y x) as [->|]; [|by rewrite (IH j)].
    by apply list_elem_of_lookup_2 in Hj.
Qed.

Lemma pc_ids_shapes l : map pc_id l = map fst (map shape_of l).
Proof. by rewrite map_map. Qed.

(** [addNewPlatform] keeps the cards paired: platform card and
    audience card [n + 1] are appended together. *)
Theorem addNewPlatform_paired s n :
  paired s -> platformCount s = Num n ->
  let s' := snd (addNewPlatform s) in
  paired s' /\ platformCount s' = Num (n + 1) /\
  map pc_id (platform_inputs s') = map pc_id (platform_inputs s) ++ [string_of_Z (n + 1)].
Proof.
  intros Hp Hn. cbn zeta. pose proof (addNewPlatform_shape s n Hn) as Hsh.
  unfold ui_shape in Hsh. injection Hsh as Hc Hps Hids. unfold paired in *.
  rewrite !pc_ids_shapes, Hps, Hids, map_app, <- pc_ids_shapes, Hp. done.
Qed.

(** [removePlatform(r)] keeps the cards paired when the card with
    id [r] is the [r]-th card and the ids are distinct: both of its cards
    go. *)
Theorem removePlatform_paired s j r :
  paired s -> NoDup (map pc_id (platform_inputs s)) ->
  map pc_id (platform_inputs s) !! j = Some r -> nth_child_arg r = Some (N.of_nat (S j)) ->
  let s' := snd (removePlatform r s) in
  paired s' /\ map pc_id (platform_inputs s') = delete j (map pc_id (platform_inputs s)).
Proof.
  intros Hp Hnd Hj Hr. cbn zeta. pose proof (removePlatform_shape s r _ Hr) as Hsh.
  unfold ui_shape in Hsh. injection Hsh as Hc Hps Hids. unfold paired in *.
  replace (Pos.to_nat (Pos.of_succ_nat j)) with (S j) in Hps by lia. cbn in Hps.
  rewrite !pc_ids_shapes, Hps, Hids, <- map_delete, <- !pc_ids_shapes, <- Hp.
  rewrite (remove_first_delete r _ j Hnd Hj), map_delete. done.
Qed.

(** The events of the counterexample: add platforms 3 and 4, then click the
    remove button of the third card (platform 3), then the one of the new
    third card (platform 4). *)
Definition add_two_remove_two : list ui_event := [ClickAdd; ClickAdd; ClickRemove 2; ClickRemove 2].

Lemma desync_stranded : stranded (run_events add_two_remove_two ui_init).
Proof.
  unfold stranded.
  replace (ui_shape (run_events add_two_remove_two ui_init)) with
    (Num 4, [("1", None); ("2", None); ("4", Some "4")], ["1"; "2"]%string)
    by (vm_compute; reflexivity).
  exists 2%nat, 4%Z, 4%Z, (Some "4"%string).
  split; [done|]. split; [reflexivity|]. split; [lia|]. split; [lia|]. split.
  - repeat constructor; intros r q Hr; try discriminate.
    injection Hr as <-. intros [= <-]. lia.
  - by_eval.
Qed.

(** [removePlatform] selects the platform card by position
    ([nth-child]) but the audience card by id ([data-platform]): after
    removing platform 3, removing platform 4 finds no fourth card and
    removes only its audience card, leaving platform 4 without audience
    data and out of reach of every remove button. *)
Theorem removePlatform_desync :
  let s := run_events add_two_remove_two ui_init in
  paired ui_init /\
  ui_shape s = (Num 4, [("1", None); ("2", None); ("4", Some "4")], ["1"; "2"]) /\
  ~ paired s /\ stranded s.
Proof.
  cbn zeta.
  assert (Hs : ui_shape (run_events add_two_remove_two ui_init) =
                 (Num 4, [("1", None); ("2", None); ("4", Some "4")], ["1"; "2"]%string))
    by (vm_compute; reflexivity).
  split; [reflexivity|]. split; [exact Hs|]. split; [vm_compute; discriminate|].
  apply desync_stranded.
Qed.

Lemma addNewPlatform_paired_witness :
  let s' := snd (addNewPlatform ui_init) in
  paired s' /\ platformCount s' = Num (2 + 1) /\
  map pc_id (platform_inputs s') = map pc_id (platform_inputs ui_init) ++ [string_of_Z (2 + 1)].
Proof. apply addNewPlatform_paired; reflexivity. Defined.

(** The form after adding platforms 3 and 4. *)
Definition four_platforms : ui_state := run_events [ClickAdd; ClickAdd] ui_init.

Lemma removePlatform_paired_witness :
  let s' := snd (removePlatform "4" four_platforms) in
  paired s' /\ map pc_id (platform_inputs s') = delete 3 (map pc_id (platform_inputs four_platforms)).
Proof.
  apply removePlatform_paired; [vm_compute; reflexivity | | vm_compute; reflexivity | vm_compute; reflexivity].
  vm_compute. repeat constructor; set_solver.
Defined.

(** ** The name inputs of the initial cards

    No script attaches a listener to the cards of the page as it loads:
    [addNewPlatform] attaches the [input] listener to the card it creates
    and [loadAnalysisData] to the cards it writes, but nothing does so for
    platforms 1 and 2, which also have no remove button. *)

Definition unattached (c : platform_card) : Prop := pc_listens c = false /\ pc_remove c = None.

Lemma unattached_step ev s :
  ev <> ClickAdd -> Forall unattached (platform_inputs s) ->
  Forall unattached (platform_inputs (snd (ui_handle ev s))) /\
  map ac_header (audience_inputs (snd (ui_handle ev s))) = map ac_header (audience_inputs s).
Proof.
  intros Hev Hu. destruct ev as [| i | i v | i v | j size eng ages genders interests];
    cbn [ui_handle]; [done| | | |].
  - destruct (platform_inputs s !! i) as [c|] eqn:Hi; [|done].
    by rewrite (proj2 (Forall_lookup_1 _ _ _ _ Hu Hi)).
  - destruct (platform_inputs s !! i) as [c|] eqn:Hi; [|done].
    rewrite (proj1 (Forall_lookup_1 _ _ _ _ Hu Hi)). cbn. split; [|done].
    apply Forall_alter; [done|]. by intros x _ [].
  - cbn. split; [|done]. apply Forall_alter; [done|]. by intros x _ [].
  - cbn. split; [done|]. by apply map_alter_invisible.
Qed.

Lemma run_events_unattached evs s :
  Forall (fun ev => ev <> ClickAdd) evs -> Forall unattached (platform_inputs s) ->
  map ac_header (audience_inputs (run_events evs s)) = map ac_header (audience_inputs s).
Proof.
  intros Hevs. revert s. induction Hevs as [|ev evs Hev _ IH]; intros s Hu; [done|].
  cbn [run_events]. destruct (unattached_step ev s Hev Hu) as [Hu' Hh].
  by rewrite IH.
Qed.

(** C25: On the page as it loads, as long as no platform is added, typing
    in the name inputs of platforms 1 and 2 (or in any other input, or
    clicking a remove button) never changes the header of an audience
    card: their name inputs have no [input] listener, so the audience
    cards keep the headers the page loaded with, whatever names are
    typed. *)
Theorem initial_names_never_update_headers evs :
  Forall (fun ev => ev <> ClickAdd) evs ->
  map ac_header (audience_inputs (run_events evs ui_init)) = map ac_header (audience_inputs ui_init).
Proof.
  intros Hevs. apply run_events_unattached; [done|]. unfold unattached. repeat constructor.
Qed.

Lemma initial_names_never_update_headers_witness :
  Forall (fun ev => ev <> ClickAdd) [InputName 0 "Blog"; InputName 1 "Newsletter"] /\
  map ac_header (audience_inputs (run_events [InputName 0 "Blog"; InputName 1 "Newsletter"] ui_init)) =
    [" Audience"; " Audience"].
Proof.
  split; [repeat constructor; discriminate|].
  apply (initial_names_never_update_headers [InputName 0 "Blog"; InputName 1 "Newsletter"]).
  repeat constructor; discriminate.
Defined.

(** ** The records of the form as JSON, as [JSON.stringify] sees them *)

Definition json_of_platform_record (r : PlatformRecord) : json :=
  JObject [("name", JString (name r)); ("content", JString (content r));
           ("tone", JString (tone r)); ("format", JString (format r));
           ("keywords", JString (keywords r))].

Definition json_of_age (a : AgeDistribution) : json :=
  JObject [("18-24", JNumber (age_18_24 a)); ("25-34", JNumber (age_25_34 a));
           ("35-44", JNumber (age_35_44 a)); ("45-54", JNumber (age_45_54 a));
           ("55-64", JNumber (age_55_64 a)); ("65plus", JNumber (age_65plus a))].

Definition json_of_audience_record (r : AudienceRecord) : json :=
  JObject [("audienceSize", JNumber (audienceSize r)); ("engagementRate", JNumber (engagementRate r));
           ("ageDistribution", json_of_age (ageDistribution r));
           ("genderDistribution", json_of_gender (genderDistribution r));
           ("interests", JString (interests r))].

Definition json_of_platform_data (pd : list (string * PlatformRecord)) : json :=
  JObject (map (fun kv => (kv.1, json_of_platform_record kv.2)) pd).

Definition json_of_audience_data (ad : list (string * AudienceRecord)) : json :=
  JObject (map (fun kv => (kv.1, json_of_audience_record kv.2)) ad).
