(* ===== verification/Summary.v ===== *)
(** * Summary: the summary texts of the results tab (src/js/ui-controller.js)

    [generateCoherenceSummary], [generateAudienceSummary] and
    [generateConsistencySummary] write the HTML shown above each chart: an
    alert whose class comes from [getRatingClass] or
    [getFragmentationClass], the score, a comparison word chosen by a
    threshold, and a short list, which for coherence and consistency is
    drawn at random from the controller's own catalogs
    ([generateRandomStrengths(3)], [generateRandomWeaknesses(2)]).  The
    templates are written out character for character, with [q] for the
    double quote and [ln k s] for a line break followed by [k] spaces and
    [s]; the draws go through the same [Math.random] oracle and
    [Array.prototype.sort] interface as the engine's. *)

From Stdlib Require Import Ascii.
From S2P Require Import Prelude Random Benchmark JsonCodec JsBuiltins Engine.
Local Open Scope nav_scope.
Local Open Scope string_scope.

(** ** Text *)

Definition q : string := String dquote EmptyString.

Definition ln (k : nat) (s : string) : string :=
  String (ascii_of_nat 10) (String.string_of_list_ascii (repeat " "%char k) ++ s).

(** [items.map(x => `<li>${x}</li>`).join('')] *)
Definition li_join (items : list string) : string :=
  String.concat "" (map (fun x => "<li>" ++ x ++ "</li>") items).

(** ** Classes and comparison words *)

(** [getRatingClass(rating)] *)
Definition getRatingClass (rating : string) : string :=
  if String.eqb rating "excellent" then "success"
  else if String.eqb rating "good" then "info"
  else if String.eqb rating "average" then "warning"
  else if String.eqb rating "below average" then "warning"
  else if String.eqb rating "poor" then "danger"
  else "secondary".

(** [getFragmentationClass(score)] *)
Definition getFragmentationClass (score : Z) : string :=
  if (score <? 40)%Z then "success"
  else if (score <? 60)%Z then "info"
  else if (score <? 80)%Z then "warning"
  else "danger".

(** [benchmark.score > benchmark.industryAverage ? 'above' : 'below'] *)
Definition above_below (b : benchmark_comparison) : string :=
  if num_gt (bc_score b) (industryAverage b) then "above" else "below".

(** [fragmentationScore > 50 ? 'High' : 'Moderate'] *)
Definition fragmentation_level (score : Z) : string :=
  if (50 <? score)%Z then "High" else "Moderate".

(** [fragmentationScore > 70 ? 'significant' : fragmentationScore > 50 ? 'moderate' : 'minimal'] *)
Definition fragmentation_extent (score : Z) : string :=
  if (70 <? score)%Z then "significant" else if (50 <? score)%Z then "moderate" else "minimal".

(** ** The random lists of the controller *)

Module UiRandom.
Section WithOracle.
Context (rnd : nat -> Z).
Context `{ArraySort}.

Definition strengths : list string :=
  ["Consistent brand voice across major platforms";
   "Key messaging alignment between website and social media";
   "Visual identity elements maintained across channels";
   "Value proposition clearly communicated on all platforms";
   "Product/service descriptions maintain consistency";
   "Target audience addressed consistently";
   "Call-to-action uniformity"].

Definition weaknesses : list string :=
  ["Tone variations between formal and casual channels";
   "Inconsistent terminology for key features";
   "Value proposition emphasis differs across platforms";
   "Messaging priority inconsistencies";
   "Visual brand elements not consistently applied";
   "Varying levels of technical detail";
   "Inconsistent call-to-action strategies"].

(** [strengths.sort(() => 0.5 - Math.random()).slice(0, count)]: the array
    literal is fresh at each call, so sorting it in place draws as sorting
    a copy does. *)
Definition generateRandomStrengths (count : Z) : ST nat (list string) :=
  sorted <- array_sort (random_comparator rnd) strengths ;;
  st_ret (js_slice0 sorted count).

Definition generateRandomWeaknesses (count : Z) : ST nat (list string) :=
  sorted <- array_sort (random_comparator rnd) weaknesses ;;
  st_ret (js_slice0 sorted count).

End WithOracle.
End UiRandom.

(** ** The templates *)

Definition render_coherence (cls score rating pct cmp avg : string) (items : list string) : string :=
  ln 12 ("<div class=" ++ q ++ "alert alert-" ++ cls ++ " mb-3" ++ q ++ ">") ++
  ln 16 ("<strong>Overall Content Coherence: " ++ score ++ "/100</strong> ") ++
  ln 16 ("(" ++ rating ++ ", " ++ pct ++ "th percentile)") ++
  ln 12 "</div>" ++
  ln 12 ("<p>Your content coherence is " ++ cmp ++ " ") ++
  ln 12 ("the industry average of " ++ avg ++ ".</p>") ++
  ln 12 "<p>Key areas of strong coherence include:</p>" ++
  ln 12 "<ul>" ++
  ln 16 (li_join items) ++
  ln 12 "</ul>" ++
  ln 8 "".

Definition render_audience (cls score level extent : string) (items : list string) : string :=
  ln 12 ("<div class=" ++ q ++ "alert alert-" ++ cls ++ " mb-3" ++ q ++ ">") ++
  ln 16 ("<strong>Audience Fragmentation Score: " ++ score ++ "/100</strong>") ++
  ln 16 ("(" ++ level ++ " fragmentation)") ++
  ln 12 "</div>" ++
  ln 12 ("<p>Your audience shows " ++ extent ++ " fragmentation across platforms.</p>") ++
  ln 12 "<p>Key audience insights:</p>" ++
  ln 12 "<ul>" ++
  ln 16 (li_join items) ++
  ln 12 "</ul>" ++
  ln 8 "".

Definition render_consistency (cls score rating pct cmp avg : string) (items : list string) : string :=
  ln 12 ("<div class=" ++ q ++ "alert alert-" ++ cls ++ " mb-3" ++ q ++ ">") ++
  ln 16 ("<strong>Message Consistency Score: " ++ score ++ "/100</strong>") ++
  ln 16 ("(" ++ rating ++ ", " ++ pct ++ "th percentile)") ++
  ln 12 "</div>" ++
  ln 12 ("<p>Your message consistency is " ++ cmp ++ " ") ++
  ln 12 ("the industry average of " ++ avg ++ ".</p>") ++
  ln 12 "<p>Focus on improving consistency in:</p>" ++
  ln 12 "<ul>" ++
  ln 16 (li_join items) ++
  ln 12 "</ul>" ++
  ln 8 "".

(** ** The generators *)

Section Generators.
Context (rnd : nat -> Z).
Context `{ArraySort}.

(** [generateCoherenceSummary(coherenceData)] *)
Definition generateCoherenceSummary (coherenceData : Coherence.result) : ST nat string :=
  let benchmark := Coherence.benchmarkComparison coherenceData in
  items <- UiRandom.generateRandomStrengths rnd 3 ;;
  st_ret (render_coherence (getRatingClass (rating_text (bc_rating benchmark)))
            (num_to_string (Coherence.overallScore coherenceData))
            (rating_text (bc_rating benchmark)) (num_to_string (percentile benchmark))
            (above_below benchmark) (string_of_Z (industryAverage benchmark)) items).

(** [generateAudienceSummary(audienceData)] *)
Definition generateAudienceSummary (audienceData : Audience.result) : string :=
  let s := Audience.fragmentationScore audienceData in
  render_audience (getFragmentationClass s) (string_of_Z s) (fragmentation_level s)
    (fragmentation_extent s) (js_slice0 (Audience.audienceGaps audienceData) 2).

(** [generateConsistencySummary(consistencyData)] *)
Definition generateConsistencySummary (consistencyData : Consistency.result) : ST nat string :=
  let benchmark := Consistency.benchmarkComparison consistencyData in
  items <- UiRandom.generateRandomWeaknesses rnd 2 ;;
  st_ret (render_consistency (getRatingClass (rating_text (bc_rating benchmark)))
            (num_to_string (Consistency.overallScore consistencyData))
            (rating_text (bc_rating benchmark)) (num_to_string (percentile benchmark))
            (above_below benchmark) (string_of_Z (industryAverage benchmark)) items).

End Generators.

(** ** Properties *)

Section SummaryFacts.
Context (rnd : nat -> Z).
Hypothesis rnd_ok : forall i, (0 <= rnd i < 2 ^ 53)%Z.
Context `{ArraySort}.

Lemma ui_catalogs_NoDup : NoDup UiRandom.strengths /\ NoDup UiRandom.weaknesses.
Proof. split; by_eval. Qed.

Lemma ui_strengths_sample count i :
  (0 <= count <= 7)%Z ->
  sample_of UiRandom.strengths (Z.to_nat count) (fst (UiRandom.generateRandomStrengths rnd count i)).
Proof.
  intros Hc. replace (Z.to_nat count) with (Nat.min (Z.to_nat count) (length UiRandom.strengths))
    by (cbn; lia).
  apply (getRandomElements_sample rnd _ count i (proj1 ui_catalogs_NoDup)). lia.
Qed.

Lemma ui_weaknesses_sample count i :
  (0 <= count <= 7)%Z ->
  sample_of UiRandom.weaknesses (Z.to_nat count) (fst (UiRandom.generateRandomWeaknesses rnd count i)).
Proof.
  intros Hc. replace (Z.to_nat count) with (Nat.min (Z.to_nat count) (length UiRandom.weaknesses))
    by (cbn; lia).
  apply (getRandomElements_sample rnd _ count i (proj2 ui_catalogs_NoDup)). lia.
Qed.

(** A score at or above the average threshold is compared as [above] when
    strictly above, and its alert is not [danger] nor [secondary]. *)
Lemma benchmark_view_above m c :
  (average (industryBenchmarks c) < m)%Z ->
  above_below (compareToBenchmark (Num m) c) = "above" /\
  getRatingClass (rating_text (bc_rating (compareToBenchmark (Num m) c))) ∈ ["success"; "info"; "warning"].
Proof.
  intros Hm. split.
  - unfold above_below, num_gt. cbn. by destruct (Z.ltb_spec (average (industryBenchmarks c)) m); [|lia].
  - cbn [compareToBenchmark bc_rating]. unfold rate, num_ge.
    destruct (Z.leb_spec (excellent (industryBenchmarks c)) m); [cbn; set_solver|].
    destruct (Z.leb_spec (good (industryBenchmarks c)) m); [cbn; set_solver|].
    destruct (Z.leb_spec (average (industryBenchmarks c)) m); [cbn; set_solver|lia].
Qed.

(** For every analysis of a nonempty platform list, whatever the
    random draws, the coherence summary says the score is above the
    industry average of 55 and the consistency summary above the average of
    50 (the overall scores lie in [60, 89] and [55, 89]); their alerts are
    [success], [info] or [warning], never [danger]; and they list 3
    distinct strengths and 2 distinct weaknesses of the controller's
    catalogs. *)
Theorem analysis_summaries_above pd i j k :
  pd <> [] ->
  (exists cls score rating pct items,
     fst (generateCoherenceSummary rnd (fst (analyzeContentCoherence rnd pd i)) j) =
       render_coherence cls score rating pct "above" "55" items /\
     cls ∈ ["success"; "info"; "warning"] /\ sample_of UiRandom.strengths 3 items) /\
  (exists cls score rating pct items,
     fst (generateConsistencySummary rnd (fst (analyzeMessageConsistency rnd pd i)) k) =
       render_consistency cls score rating pct "above" "50" items /\
     cls ∈ ["success"; "info"; "warning"] /\ sample_of UiRandom.weaknesses 2 items).
Proof.
  intros Hne. split.
  - destruct (coherence_overall_range rnd rnd_ok pd i Hne) as (m & Hm & Hb & Hbc).
    destruct (benchmark_view_above m cat_coherence ltac:(cbn; lia)) as [Ha Hc].
    unfold generateCoherenceSummary. rewrite st_bind_unfold, Hbc, Ha.
    do 5 eexists. split; [reflexivity|]. split; [exact Hc|]. apply (ui_strengths_sample 3 j); lia.
  - destruct (consistency_overall_range rnd rnd_ok pd i Hne) as (m & Hm & Hb & Hbc).
    destruct (benchmark_view_above m cat_consistency ltac:(cbn; lia)) as [Ha Hc].
    unfold generateConsistencySummary. rewrite st_bind_unfold, Hbc, Ha.
    do 5 eexists. split; [reflexivity|]. split; [exact Hc|]. apply (ui_weaknesses_sample 2 k); lia.
Qed.

(** The audience summary grades the fragmentation score on three
    scales that disagree.  For every audience analysis, whatever the
    draws, the summary's heading calls a score above 50 [High] and the
    others [Moderate], its sentence calls a score above 70 [significant],
    above 50 [moderate] and the others [minimal], and its alert is [info]
    below 60 and [warning] from 60: a score of 45 is a [Moderate]
    fragmentation that is [minimal], one of 65 a [High] fragmentation that
    is [moderate].  The two insights listed are the first two gaps. *)
Theorem audience_summary_labels ad i :
  let s := Audience.fragmentationScore (fst (analyzeAudienceFragmentation rnd ad i)) in
  exists level extent cls,
    generateAudienceSummary (fst (analyzeAudienceFragmentation rnd ad i)) =
      render_audience cls (string_of_Z s) level extent
        ["35-44 age demographic is underrepresented across all platforms";
         "Male audience engagement is lower on Instagram compared to other platforms"] /\
    ((s <= 50)%Z -> level = "Moderate" /\ extent = "minimal") /\
    ((50 < s <= 70)%Z -> level = "High" /\ extent = "moderate") /\
    ((70 < s)%Z -> level = "High" /\ extent = "significant") /\
    cls = (if (s <? 60)%Z then "info" else "warning").
Proof.
  cbv zeta. pose proof (fragmentation_range rnd rnd_ok ad i) as Hs.
  set (r := fst (analyzeAudienceFragmentation rnd ad i)) in *.
  assert (Hg : Audience.audienceGaps r = identifyAudienceGaps ad).
  { subst r. unfold analyzeAudienceFragmentation. by st_simpl. }
  unfold generateAudienceSummary. rewrite Hg.
  set (s := Audience.fragmentationScore r) in *.
  do 3 eexists. split; [reflexivity|].
  unfold fragmentation_level, fragmentation_extent, getFragmentationClass.
  destruct (Z.ltb_spec s 40), (Z.ltb_spec s 60), (Z.ltb_spec s 80), (Z.ltb_spec 70 s), (Z.ltb_spec 50 s);
    repeat (split || intros); (reflexivity || lia).
Qed.

End SummaryFacts.

(** ** Witnesses *)

Lemma analysis_summaries_above_witness :
  sample_platformData <> [] /\
  (exists cls score rating pct items,
     fst (generateCoherenceSummary hash_rnd
            (fst (analyzeContentCoherence hash_rnd sample_platformData 0)) 0) =
       render_coherence cls score rating pct "above" "55" items /\
     cls ∈ ["success"; "info"; "warning"] /\ sample_of UiRandom.strengths 3 items) /\
  (exists cls score rating pct items,
     fst (generateConsistencySummary hash_rnd
            (fst (analyzeMessageConsistency hash_rnd sample_platformData 0)) 0) =
       render_consistency cls score rating pct "above" "50" items /\
     cls ∈ ["success"; "info"; "warning"] /\ sample_of UiRandom.weaknesses 2 items).
Proof.
  split; [discriminate|].
  apply (analysis_summaries_above hash_rnd hash_rnd_ok sample_platformData 0 0 0). discriminate.
Defined.

Lemma audience_summary_labels_witness :
  let s := Audience.fragmentationScore (fst (analyzeAudienceFragmentation hash_rnd sample_audienceData 0)) in
  exists level extent cls,
    generateAudienceSummary (fst (analyzeAudienceFragmentation hash_rnd sample_audienceData 0)) =
      render_audience cls (string_of_Z s) level extent
        ["35-44 age demographic is underrepresented across all platforms";
         "Male audience engagement is lower on Instagram compared to other platforms"] /\
    ((s <= 50)%Z -> level = "Moderate" /\ extent = "minimal") /\
    ((50 < s <= 70)%Z -> level = "High" /\ extent = "moderate") /\
    ((70 < s)%Z -> level = "High" /\ extent = "significant") /\
    cls = (if (s <? 60)%Z then "info" else "warning").
Proof. exact (audience_summary_labels hash_rnd hash_rnd_ok sample_audienceData 0). Defined.
