(* ===== verification/Load.v ===== *)
(** * Load: [loadAnalysisData] of src/js/ui-controller.js

    Loading a saved analysis rebuilds the form: for each key of
    [platformData], in the enumeration order of the parsed object, a
    platform card is written as an HTML template with the saved values
    interpolated, then parsed by the browser; the audience card follows
    when [audienceData] has the key.  The model gives the JavaScript
    conversions the templates apply ([String(v)] of a property, [||],
    [&&]), and the part of HTML parsing the templates rely on: an attribute
    value [value="..."] ends at the first double quote, a [textarea] drops
    one leading newline and ends at its first end tag ([</textarea] in any
    case, followed by white space, [/] or [>]), and a [select] takes the
    option marked [selected].  Character references ([&amp;] and the like)
    are not decoded and markup inside the values is not parsed: the
    theorems that read the form back assume text without them
    ([html_plain] for the platform records, [json_no_lt] for the audience
    data), on which the model is exact. *)

From Stdlib Require Import Ascii.
From S2P Require Import Prelude Json JsonCodec JsBuiltins Engine Ui.
Local Open Scope nav_scope.
Local Open Scope string_scope.

(** ** JavaScript values of the parsed JSON *)

(** A value read from a parsed object: [None] is [undefined]. *)
Definition jsval := option json.

Definition undefined_read (k : string) : exn :=
  TypeError ("Cannot read properties of undefined (reading '" ++ k ++ "')").

Definition null_read (k : string) : exn :=
  TypeError ("Cannot read properties of null (reading '" ++ k ++ "')").

(** [v[k]]: a field of an object; an element or the [length] of an array or
    a string; reading a property of [undefined] or [null] throws, and the
    other primitives have none of the properties the code reads. *)
Definition js_get (v : jsval) (k : string) : completion jsval :=
  match v with
  | None => Throw (undefined_read k)
  | Some JNull => Throw (null_read k)
  | Some (JObject fs) => Normal (get_field fs k)
  | Some (JArray l) =>
      Normal (match array_index k with
              | Some n => l !! N.to_nat n
              | None => if String.eqb k "length"
                        then Some (JNumber (JNum (Z.of_nat (length l)) 0)) else None
              end)
  | Some (JString s) =>
      Normal (match array_index k with
              | Some n => if (N.to_nat n <? String.length s)%nat
                          then Some (JString (String.substring (N.to_nat n) 1 s)) else None
              | None => if String.eqb k "length"
                        then Some (JNumber (JNum (Z.of_nat (String.length s)) 0)) else None
              end)
  | Some _ => Normal None
  end.

(** The keys [for (k in v)] enumerates: the own properties of an object in
    their order (array indices first, ascending, then the others as
    inserted; a repeated key keeps its first place), the indices of an array
    or a string; nothing for [null], [undefined] and the other primitives. *)
Definition js_keys (v : jsval) : list string :=
  match v with
  | Some (JObject fs) => map fst (fold_left (fun o kv => obj_set o kv.1 kv.2) fs [])
  | Some (JArray l) => map (fun i => string_of_Z (Z.of_nat i)) (seq 0 (length l))
  | Some (JString s) => map (fun i => string_of_Z (Z.of_nat i)) (seq 0 (String.length s))
  | _ => []
  end.

(** ToBoolean *)
Definition js_truthy (v : jsval) : bool :=
  match v with
  | None | Some JNull => false
  | Some (JBool b) => b
  | Some (JNumber n) => negb (mant n =? 0)%Z
  | Some (JString s) => negb (String.eqb s "")
  | Some _ => true
  end.

(** ** Number::toString *)

Fixpoint strip_trailing_zeros_rev (s : list ascii) : list ascii :=
  match s with
  | "0"%char :: r => strip_trailing_zeros_rev r
  | _ => s
  end.

Definition zeros (n : nat) : string := String.string_of_list_ascii (repeat "0"%char n).

(** [String(x)] for the decimal [mant * 10^exp10]: the shortest digits [s]
    and the exponent [n] with [x = 0.s * 10^n], written as the ECMAScript
    algorithm says. *)
Definition number_to_string (x : jnum) : string :=
  if (mant x =? 0)%Z then "0" else
  let sign := if (mant x <? 0)%Z then "-" else "" in
  let d := String.list_ascii_of_string (string_of_Z (Z.abs (mant x))) in
  let s := rev (strip_trailing_zeros_rev (rev d)) in
  let k := length s in
  let n := (exp10 x + Z.of_nat (length d))%Z in
  let digits := String.string_of_list_ascii s in
  let body :=
    if ((Z.of_nat k <=? n) && (n <=? 21))%Z%bool then digits ++ zeros (Z.to_nat n - k)
    else if ((0 <? n) && (n <=? 21))%Z%bool then
      String.string_of_list_ascii (firstn (Z.to_nat n) s) ++ "." ++
      String.string_of_list_ascii (skipn (Z.to_nat n) s)
    else if ((-6 <? n) && (n <=? 0))%Z%bool then "0." ++ zeros (Z.to_nat (- n)) ++ digits
    else
      let e := (n - 1)%Z in
      let esign := if (e <? 0)%Z then "-" else "+" in
      match s with
      | [c] => String c ("e" ++ esign ++ string_of_Z (Z.abs e))
      | c :: rest => String c ("." ++ String.string_of_list_ascii rest ++ "e" ++ esign ++ string_of_Z (Z.abs e))
      | [] => "0"
      end in
  sign ++ body.

(** [`${v}`]: ToString of a value. *)
Fixpoint js_to_string (v : json) : string :=
  match v with
  | JNull => "null"
  | JBool true => "true"
  | JBool false => "false"
  | JNumber n => number_to_string n
  | JString s => s
  | JArray l =>
      (fix join (l : list json) : string :=
         match l with
         | [] => ""
         | [x] => match x with JNull => "" | _ => js_to_string x end
         | x :: rest => match x with JNull => "" | _ => js_to_string x end ++ "," ++ join rest
         end) l
  | JObject _ => "[object Object]"
  end.

Definition template_string (v : jsval) : string :=
  match v with None => "undefined" | Some j => js_to_string j end.

(** ** The HTML the templates are parsed as *)

(** [value="<text>"]: the attribute value ends at the first double quote. *)
Fixpoint attr_value (s : string) : string :=
  match s with
  | EmptyString => EmptyString
  | String c r => if Ascii.eqb c dquote then EmptyString else String c (attr_value r)
  end.

(** The characters that end the tag name of an end tag: tab, line feed,
    form feed, carriage return (which the input stream turns into a line
    feed), space, [/] and [>]. *)
Definition end_tag_delim (c : ascii) : bool :=
  let n := nat_of_ascii c in
  Nat.eqb n 9 || Nat.eqb n 10 || Nat.eqb n 12 || Nat.eqb n 13 || Nat.eqb n 32 || Nat.eqb n 47 ||
  Nat.eqb n 62.

(** [s] starts with the end tag of the textarea: [</textarea] in any case,
    followed by one of [end_tag_delim].  At the end of the saved text the
    template's own [</textarea>] follows, whose [<] does not end a tag
    name. *)
Definition closes_textarea (s : string) : bool :=
  String.prefix "</textarea" (js_toLowerCase (String.substring 0 10 s)) &&
  match String.get 10 s with Some c => end_tag_delim c | None => false end.

(** The text of [<textarea>...</textarea>]: one leading newline is dropped,
    and the text ends at the first end tag of the textarea. *)
Fixpoint until_close_textarea (s : string) : string :=
  match s with
  | EmptyString => EmptyString
  | String c r => if closes_textarea s then EmptyString else String c (until_close_textarea r)
  end.

Definition textarea_text (s : string) : string :=
  match s with
  | String c r => if Nat.eqb (nat_of_ascii c) 10 then until_close_textarea r else until_close_textarea s
  | EmptyString => EmptyString
  end.

(** A [select] whose options are [""] and [opts], with [selected] on the
    option equal to [v]: its value. *)
Definition select_value (opts : list string) (v : jsval) : string :=
  match v with
  | Some (JString s) => if existsb (String.eqb s) opts then s else ""
  | _ => ""
  end.

Definition tone_options : list string :=
  ["formal"; "casual"; "professional"; "conversational"; "technical"; "inspirational"].

Definition format_options : list string :=
  ["article"; "social-post"; "email"; "landing-page"; "ad"].

(** [v || ''] in a template. *)
Definition or_empty (v : jsval) : string := if js_truthy v then template_string v else "".

(** [a && a[k]] for a value [a] read from an object. *)
Definition and_get (a : jsval) (k : string) : jsval :=
  if js_truthy a then match js_get a k with Normal v => v | Throw _ => None end else a.

(** ** The loop of [loadAnalysisData] *)

(** [platformColors[(parseInt(platformId) - 1) % platformColors.length]] is
    defined: [%] keeps the sign of the dividend, and a remainder [-0] still
    reads index 0. *)
Definition color_defined (platformId : string) : bool :=
  match js_parseInt platformId with
  | Num z => (0 <=? Z.rem (z - 1) 6)%Z
  | NaN => false
  end.

(** The platform card of [platformId].  The template reads [color.bg] first,
    which throws when the color is undefined, then [platform.name], which
    throws when the saved value is [null].  The card's inputs are found by
    the id [platform<platformId>-name], which is [pc_id] for a key without a
    double quote. *)
Definition loaded_platform_card (platformId : string) (platform : jsval)
    : completion platform_card :=
  if negb (color_defined platformId) then Throw (undefined_read "bg") else
  match js_get platform "name" with
  | Throw e => Throw e
  | Normal nm =>
      let get k := match js_get platform k with Normal v => v | Throw _ => None end in
      let removable := match js_parseInt platformId with
                       | Num z => (2 <? z)%Z
                       | NaN => false
                       end in
      Normal (mk_pcard platformId ("Platform " ++ platformId ++ ": " ++ template_string nm)
                (attr_value (template_string nm))
                (textarea_text (template_string (get "content")))
                (select_value tone_options (get "tone"))
                (select_value format_options (get "format"))
                (attr_value (template_string (get "keywords")))
                (if removable then Some (attr_value platformId) else None) false)
  end.

Definition age_keys : list string := ["18-24"; "25-34"; "35-44"; "45-54"; "55-64"; "65plus"].

(** The audience card of [platformId], for a truthy [audienceData[platformId]]. *)
Definition loaded_audience_card (platformId : string) (nm : jsval) (audience : jsval)
    : audience_card :=
  let get k := match js_get audience k with Normal v => v | Throw _ => None end in
  mk_acard platformId (template_string nm ++ " Audience")
    (attr_value (or_empty (get "audienceSize")))
    (attr_value (or_empty (get "engagementRate")))
    (map (fun k => attr_value (or_empty (and_get (get "ageDistribution") k))) age_keys)
    (map (fun k => attr_value (or_empty (and_get (get "genderDistribution") k)))
         ["male"; "female"; "other"])
    (attr_value (or_empty (get "interests"))).

Definition append_platform (c : platform_card) (s : ui_state) : ui_state :=
  mk_ui (platformCount s) (platform_inputs s ++ [c]) (audience_inputs s).

Definition append_audience (c : audience_card) (s : ui_state) : ui_state :=
  mk_ui (platformCount s) (platform_inputs s) (audience_inputs s ++ [c]).

Definition set_count (n : num) (s : ui_state) : ui_state :=
  mk_ui n (platform_inputs s) (audience_inputs s).

(** One turn of [for (const platformId in platformData)]. *)
Definition load_one (platformData audienceData : jsval) (platformId : string) : JS ui_state unit :=
  fun s =>
    let s1 := set_count (num_max (platformCount s) (js_parseInt platformId)) s in
    match js_get platformData platformId with
    | Throw e => (Throw e, s1)
    | Normal platform =>
        match loaded_platform_card platformId platform with
        | Throw e => (Throw e, s1)
        | Normal pc =>
            let s2 := append_platform pc s1 in
            match js_get audienceData platformId with
            | Throw e => (Throw e, s2)
            | Normal audience =>
                if js_truthy audience then
                  let nm := match js_get platform "name" with Normal v => v | Throw _ => None end in
                  (Normal tt, append_audience (loaded_audience_card platformId nm audience) s2)
                else (Normal tt, s2)
            end
        end
    end.

Fixpoint load_all (platformData audienceData : jsval) (ids : list string) : JS ui_state unit :=
  match ids with
  | [] => js_ret tt
  | k :: rest => js_bind (load_one platformData audienceData k)
                         (fun _ => load_all platformData audienceData rest)
  end.

(** [loadAnalysisData(analysisData)] *)
Definition loadAnalysisData (analysisData : jsval) : JS ui_state unit :=
  fun s =>
    match js_get analysisData "platformData" with
    | Throw e => (Throw e, s)
    | Normal platformData =>
        let audienceData := match js_get analysisData "audienceData" with
                            | Normal v => v | Throw _ => None end in
        match load_all platformData audienceData (js_keys platformData) (mk_ui (Num 0) [] []) with
        | (Throw e, s1) => (Throw e, s1)
        | (Normal _, s1) => (Normal tt, with_platforms s1 (map set_listens (platform_inputs s1)))
        end
    end.

(** ** What a reload gives back *)

(** Keys [String(n)] of indices strictly increasing from above [lo]: the
    keys [getAllPlatformData] writes for the cards the form numbers
    [1, 2, ...] in order. *)
Fixpoint ids_ascending (lo : N) (ks : list string) : bool :=
  match ks with
  | [] => true
  | k :: r => match array_index k with
              | Some n => (lo <? n)%N && ids_ascending n r
              | None => false
              end
  end.

(** The record the inputs of a reloaded card hold. *)
Definition loaded_record (r : PlatformRecord) : PlatformRecord :=
  mk_platform (attr_value (name r)) (textarea_text (content r))
    (select_value tone_options (Some (JString (tone r))))
    (select_value format_options (Some (JString (format r))))
    (attr_value (keywords r)).

Definition no_dquote (s : string) : bool := str_forall (fun c => negb (Ascii.eqb c dquote)) s.

(** [s] contains an end tag of the textarea. *)
Fixpoint has_close_textarea (s : string) : bool :=
  match s with
  | EmptyString => false
  | String _ r => closes_textarea s || has_close_textarea r
  end.

(** [c] does not occur in [s]. *)
Definition no_char (c : ascii) (s : string) : bool := str_forall (fun d => negb (Ascii.eqb d c)) s.

Definition amp : ascii := ascii_of_nat 38.
Definition lt_sign : ascii := ascii_of_nat 60.

(** The text of a record is carried by its card's HTML as text: no
    character reference ([&]) where it is interpolated, no markup ([<]) in
    the name (in the card headers and the name input) and the keywords,
    and no end tag of the textarea in the content.  The HTML model reads
    exactly such text; character references and injected markup are not
    modelled. *)
Definition html_plain (r : PlatformRecord) : bool :=
  no_char amp (name r) && no_char lt_sign (name r) &&
  no_char amp (keywords r) && no_char lt_sign (keywords r) &&
  no_char amp (content r) && negb (has_close_textarea (content r)).

(** No string inside [v] holds [<]: the audience values interpolated into
    the audience cards add no element to the page. *)
Fixpoint json_no_lt (v : json) : bool :=
  match v with
  | JString s => no_char lt_sign s
  | JArray l => forallb json_no_lt l
  | JObject fs => forallb (fun kv => json_no_lt kv.2) fs
  | _ => true
  end.

Definition starts_with_lf (s : string) : bool :=
  match s with String c _ => Nat.eqb (nat_of_ascii c) 10 | EmptyString => false end.

Definition option_of (opts : list string) (v : string) : bool :=
  String.eqb v "" || existsb (String.eqb v) opts.

(** A record the HTML of the card carries unchanged. *)
Definition clean_record (r : PlatformRecord) : bool :=
  html_plain r && no_dquote (name r) && no_dquote (keywords r) &&
  negb (starts_with_lf (content r)) &&
  option_of tone_options (tone r) && option_of format_options (format r).

Section Keys.

Lemma array_index_text k n : array_index k = Some n -> k = string_of_Z (Z.of_N n).
Proof.
  unfold array_index. destruct (index_value k) as [m|]; [|done].
  destruct (String.eqb_spec (string_of_Z (Z.of_N m)) k); [|done].
  cbn. intros Hn. destruct (N.ltb m 4294967295); congruence.
Qed.

(** [String(i)] of an array index reads back as that index. *)
Lemma array_index_nat i : (Z.of_nat i < 4294967295)%Z -> array_index (string_of_Z (Z.of_nat i)) = Some (N.of_nat i).
Proof.
  intros Hi. unfold array_index. rewrite index_value_string_of_Z by lia.
  replace (Z.to_N (Z.of_nat i)) with (N.of_nat i) by lia.
  rewrite nat_N_Z, String.eqb_refl. cbn. replace (N.of_nat i <? 4294967295)%N with true; [done|].
  symmetry. apply N.ltb_lt. lia.
Qed.

Lemma digit_not_ws c : is_digit c = true -> is_js_ws c = false.
Proof.
  unfold is_digit, is_js_ws. intros H. apply andb_prop in H as [H1 H2].
  apply Nat.leb_le in H1, H2.
  repeat apply orb_false_intro; apply Nat.eqb_neq; lia.
Qed.

Lemma js_parseInt_lead_digit c r :
  is_digit c = true ->
  js_parseInt (String c r) =
    match index_value (fst (span_digits (String c r))) with
    | Some n => Num (Z.of_N n) | None => NaN end.
Proof.
  intros H. unfold js_parseInt. cbn [trim_start]. rewrite (digit_not_ws c H).
  destruct c as [[] [] [] [] [] [] [] []]; cbn in H; try discriminate; reflexivity.
Qed.

(** [parseInt(String(z))] is [z]. *)
Lemma js_parseInt_string_of_Z z : (0 <= z)%Z -> js_parseInt (string_of_Z z) = Num z.
Proof.
  intros Hz. pose proof (string_of_Z_digits z Hz) as Hd.
  pose proof (index_value_string_of_Z z Hz) as Hv.
  assert (Hs : span_digits (string_of_Z z) = (string_of_Z z, EmptyString)).
  { rewrite <- (string_app_nil_r (string_of_Z z)) at 1. by apply span_digits_app. }
  pose proof (string_of_Z_nonempty z) as Hne.
  destruct (string_of_Z z) as [|c r] eqn:E; [done|].
  cbn in Hd. apply andb_prop in Hd as [Hc _].
  rewrite js_parseInt_lead_digit, Hs by done. cbn [fst]. rewrite Hv. f_equal. lia.
Qed.

Lemma color_defined_index k n : array_index k = Some n -> (0 < n)%N -> color_defined k = true.
Proof.
  intros Hk Hn. apply array_index_text in Hk as ->. unfold color_defined.
  rewrite js_parseInt_string_of_Z by lia. apply Z.leb_le, Z.rem_nonneg; lia.
Qed.

Definition keys_below {A} (hi : N) (o : list (string * A)) : Prop :=
  Forall (fun kv => exists m, array_index kv.1 = Some m /\ (m <= hi)%N) o.

Lemma keys_below_app {A} hi (o : list (string * A)) k v n :
  keys_below hi o -> array_index k = Some n -> (hi < n)%N -> keys_below n (o ++ [(k, v)])%list.
Proof.
  intros Ho Hk Hn. apply Forall_app; split.
  - eapply Forall_impl; [exact Ho|]. intros kv (m & Hm & Hle). exists m. split; [done|lia].
  - constructor; [|done]. exists n. split; [done|lia].
Qed.

(** A key above every key of the object goes last, whether it is new
    ([obj_insert_new]) or written with [obj_set]. *)
Lemma obj_insert_new_last {A} hi (o : list (string * A)) k v n :
  keys_below hi o -> array_index k = Some n -> (hi < n)%N -> obj_insert_new o k v = (o ++ [(k, v)])%list.
Proof.
  intros Ho Hk Hn. induction o as [|[k' v'] rest IH]; [done|].
  inversion Ho as [|? ? (m & Hm & Hle) Hrest]; subst.
  cbn. rewrite Hk; cbn in Hm; rewrite Hm. destruct (N.ltb_spec n m); [lia|]. f_equal. by apply IH.
Qed.

Lemma obj_set_last {A} hi (o : list (string * A)) k v n :
  keys_below hi o -> array_index k = Some n -> (hi < n)%N -> obj_set o k v = (o ++ [(k, v)])%list.
Proof.
  intros Ho Hk Hn. unfold obj_set.
  assert (He : existsb (fun kv => String.eqb kv.1 k) o = false).
  { apply not_true_iff_false. intros Hex.
    apply existsb_exists in Hex as ([k' v'] & Hin & Heq).
    apply String.eqb_eq in Heq. cbn in Heq. subst k'.
    apply list_elem_of_In in Hin. unfold keys_below in Ho. rewrite Forall_forall in Ho.
    destruct (Ho _ Hin) as (m & Hm & Hle). cbn in Hm. rewrite Hk in Hm. injection Hm. lia. }
  rewrite He. by eapply obj_insert_new_last.
Qed.

Lemma ids_ascending_above lo ks :
  ids_ascending lo ks = true -> Forall (fun k => exists n, array_index k = Some n /\ (lo < n)%N) ks.
Proof.
  revert lo. induction ks as [|k ks IH]; intros lo H; [constructor|].
  cbn in H. destruct (array_index k) as [n|] eqn:Hk; [|done].
  apply andb_prop in H as [Hlt H]. apply N.ltb_lt in Hlt. constructor; [eauto|].
  eapply Forall_impl; [exact (IH n H)|]. intros k' (m & Hm & Hnm). exists m. split; [done|lia].
Qed.

Lemma ids_ascending_NoDup lo ks : ids_ascending lo ks = true -> NoDup ks.
Proof.
  revert lo. induction ks as [|k ks IH]; intros lo H; [constructor|].
  pose proof (ids_ascending_above lo (k :: ks) H) as Habove.
  cbn in H. destruct (array_index k) as [n|] eqn:Hk; [|done].
  apply andb_prop in H as [_ H]. constructor; [|exact (IH n H)].
  intros Hin.
  destruct (proj1 (Forall_forall _ _) (ids_ascending_above n ks H) k Hin) as (m & Hm & Hlt).
  rewrite Hk in Hm. injection Hm. lia.
Qed.

Lemma keys_below_nil {A} hi : keys_below (A:=A) hi [].
Proof. constructor. Qed.

(** Enumerating an object whose keys are ascending indices follows its
    fields. *)
Lemma fold_obj_set_ascending {A} lo (fs acc : list (string * A)) :
  keys_below lo acc -> ids_ascending lo (map fst fs) = true ->
  fold_left (fun o kv => obj_set o kv.1 kv.2) fs acc = (acc ++ fs)%list.
Proof.
  revert lo acc. induction fs as [|[k v] fs IH]; intros lo acc Hacc Hids.
  - by rewrite app_nil_r.
  - cbn in Hids. destruct (array_index k) as [n|] eqn:Hk; [|done].
    apply andb_prop in Hids as [Hlt Hids]. apply N.ltb_lt in Hlt. cbn.
    rewrite (obj_set_last lo acc k v n), (IH n) by eauto using keys_below_app.
    by rewrite <- app_assoc.
Qed.

Lemma js_keys_ascending fs :
  ids_ascending 0 (map fst fs) = true -> js_keys (Some (JObject fs)) = map fst fs.
Proof. intros H. cbn. by rewrite (fold_obj_set_ascending 0 fs []) by (done || apply keys_below_nil). Qed.

Lemma get_field_nodup fs k v : NoDup (map fst fs) -> (k, v) ∈ fs -> get_field fs k = Some v.
Proof.
  induction fs as [|[k' v'] fs IH]; intros Hnd Hin; [by apply not_elem_of_nil in Hin|].
  cbn in Hnd. apply NoDup_cons in Hnd as [Hk' Hnd]. cbn.
  apply elem_of_cons in Hin as [[= -> ->]|Hin].
  - by rewrite String.eqb_refl.
  - destruct (String.eqb_spec k' k) as [->|]; [|by apply IH].
    destruct Hk'. apply list_elem_of_In, (in_map fst fs (k, v)), list_elem_of_In, Hin.
Qed.

End Keys.

Section Reload.

Lemma loaded_platform_card_record k r n :
  array_index k = Some n -> (0 < n)%N ->
  exists c, loaded_platform_card k (Some (json_of_platform_record r)) = Normal c /\
    pc_id c = k /\ platform_record c = loaded_record r.
Proof.
  intros Hk Hn. unfold loaded_platform_card. rewrite (color_defined_index k n Hk Hn). cbn.
  eexists. split; [reflexivity|]. split; reflexivity.
Qed.

(** One turn of the loop on a saved platform appends its card. *)
Lemma load_one_card pdj afs k r n s :
  js_get pdj k = Normal (Some (json_of_platform_record r)) ->
  array_index k = Some n -> (0 < n)%N ->
  exists c, fst (load_one pdj (Some (JObject afs)) k s) = Normal tt /\
    platform_inputs (snd (load_one pdj (Some (JObject afs)) k s)) = (platform_inputs s ++ [c])%list /\
    pc_id c = k /\ platform_record c = loaded_record r.
Proof.
  intros Hget Hk Hn. destruct (loaded_platform_card_record k r n Hk Hn) as (c & Hc & Hid & Hrec).
  exists c. unfold load_one. rewrite Hget, Hc. cbn [js_get].
  destruct (js_truthy (get_field afs k)); cbn; auto.
Qed.

Definition saved_platform (pdj : jsval) (kv : string * PlatformRecord) : Prop :=
  js_get pdj kv.1 = Normal (Some (json_of_platform_record kv.2)) /\
  exists n, array_index kv.1 = Some n /\ (0 < n)%N.

Lemma load_all_cards pdj afs l s :
  Forall (saved_platform pdj) l ->
  exists cs, fst (load_all pdj (Some (JObject afs)) (map fst l) s) = Normal tt /\
    platform_inputs (snd (load_all pdj (Some (JObject afs)) (map fst l) s)) =
      (platform_inputs s ++ cs)%list /\
    map pc_id cs = map fst l /\ map platform_record cs = map (fun kv => loaded_record kv.2) l.
Proof.
  revert s. induction l as [|[k r] l IH]; intros s Hl.
  - exists []. cbn. by rewrite app_nil_r.
  - inversion Hl as [|? ? [Hget (n & Hk & Hn)] Hrest]; subst.
    destruct (load_one_card pdj afs k r n s Hget Hk Hn) as (c & Hres & Hin & Hid & Hrec).
    cbn [map fst load_all]. unfold js_bind.
    destruct (load_one pdj (Some (JObject afs)) k s) as [r1 s1]. cbn in Hres, Hin. subst r1.
    destruct (IH s1 Hrest) as (cs & Hres' & Hin' & Hids & Hrecs).
    exists (c :: cs). rewrite Hres', Hin', Hin, <- app_assoc. cbn. by rewrite Hid, Hrec, Hids, Hrecs.
Qed.

Lemma find_platform_nodup all c :
  NoDup (map pc_id all) -> c ∈ all -> find_platform (pc_id c) all = Some c.
Proof.
  induction all as [|c' all IH]; intros Hnd Hin; [by apply not_elem_of_nil in Hin|].
  cbn in Hnd. apply NoDup_cons in Hnd as [Hc' Hnd]. cbn.
  apply elem_of_cons in Hin as [->|Hin]; [by rewrite String.eqb_refl|].
  destruct (String.eqb_spec (pc_id c') (pc_id c)) as [Heq|]; [|by apply IH].
  destruct Hc'. rewrite Heq. apply list_elem_of_In, in_map, list_elem_of_In, Hin.
Qed.

(** [getAllPlatformData] on cards numbered in ascending order reads them in
    that order. *)
Lemma collect_ascending all cs acc lo :
  keys_below lo acc -> ids_ascending lo (map pc_id cs) = true ->
  (forall c, c ∈ cs -> find_platform (pc_id c) all = Some c) ->
  collect_platforms all cs acc = Normal (acc ++ map (fun c => (pc_id c, platform_record c)) cs)%list.
Proof.
  revert acc lo. induction cs as [|c cs IH]; intros acc lo Hacc Hids Hfind.
  - by rewrite app_nil_r.
  - cbn in Hids. destruct (array_index (pc_id c)) as [n|] eqn:Hk; [|done].
    apply andb_prop in Hids as [Hlt Hids]. apply N.ltb_lt in Hlt.
    assert (Hm : match_platform_id (name_input_id c) = Some (pc_id c)).
    { unfold name_input_id. rewrite (array_index_text _ _ Hk). apply match_platform_id_digits. lia. }
    cbn [collect_platforms]. rewrite Hm, (Hfind c) by apply list_elem_of_here.
    rewrite (obj_set_last lo acc _ _ n), (IH _ n) by eauto using keys_below_app, list_elem_of_further.
    by rewrite <- app_assoc.
Qed.

Lemma map_pairs {A B C D} (f : A -> B) (g : A -> C) (h : D -> C) cs (l : list (B * D)) :
  map f cs = map fst l -> map g cs = map (fun kv => h kv.2) l ->
  map (fun c => (f c, g c)) cs = map (fun kv => (kv.1, h kv.2)) l.
Proof.
  revert l. induction cs as [|c cs IH]; intros [|[b d] l]; cbn; try done.
  intros [= -> Hf] [= -> Hg]. by rewrite (IH l Hf Hg).
Qed.

End Reload.

Section Html.

Lemma attr_value_clean s : no_dquote s = true -> attr_value s = s.
Proof.
  induction s as [|c s IH]; [done|]. unfold no_dquote. cbn. intros H.
  apply andb_prop in H as [Hc H]. apply negb_true_iff in Hc. rewrite Hc. f_equal. by apply IH.
Qed.

(** An attribute value stops at the first double quote. *)
Lemma attr_value_quote a b : no_dquote a = true -> attr_value (a ++ String dquote b) = a.
Proof.
  induction a as [|c a IH]; intros H.
  - rewrite string_app_nil_l. cbn. by rewrite ?Ascii.eqb_refl.
  - unfold no_dquote in H. cbn in H. apply andb_prop in H as [Hc H]. apply negb_true_iff in Hc.
    rewrite string_app_cons. cbn. rewrite Hc. f_equal. by apply IH.
Qed.

Lemma until_close_textarea_clean s : has_close_textarea s = false -> until_close_textarea s = s.
Proof.
  induction s as [|c s IH]; [done|]. cbn -[closes_textarea].
  intros H. apply orb_false_iff in H as [Hp H]. rewrite Hp. f_equal. by apply IH.
Qed.

Lemma select_value_clean opts v : option_of opts v = true -> select_value opts (Some (JString v)) = v.
Proof.
  unfold option_of, select_value. intros H. destruct (existsb (String.eqb v) opts); [done|].
  rewrite orb_false_r in H. by apply String.eqb_eq in H.
Qed.

(** A record without the characters its card's HTML interprets loads
    unchanged. *)
Lemma loaded_record_clean r : clean_record r = true -> loaded_record r = r.
Proof.
  destruct r as [n c t f k]. unfold clean_record, html_plain. cbn [name content tone format keywords].
  intros H. apply andb_prop in H as [H Hf]. apply andb_prop in H as [H Ht].
  apply andb_prop in H as [H Hlf]. apply andb_prop in H as [H Hk].
  apply andb_prop in H as [H Hn]. apply andb_prop in H as [_ Hcl]. apply negb_true_iff in Hcl, Hlf.
  unfold loaded_record. cbn [name content tone format keywords].
  rewrite (attr_value_clean n), (attr_value_clean k), !select_value_clean by done. f_equal.
  destruct c as [|c0 c']; [done|]. cbn [starts_with_lf textarea_text] in Hlf |- *. rewrite Hlf.
  by apply until_close_textarea_clean.
Qed.

Lemma loaded_records_clean pd :
  forallb (fun kv => clean_record kv.2) pd = true ->
  map (fun kv : string * PlatformRecord => (kv.1, loaded_record kv.2)) pd = pd.
Proof.
  intros Hclean. rewrite forallb_forall in Hclean. rewrite <- (map_id pd) at 2. apply map_ext_in.
  intros [k r] Hin. cbn. by rewrite loaded_record_clean by exact (Hclean _ Hin).
Qed.

End Html.

Section LoadFacts.

Lemma platform_data_keys pd :
  map fst (map (fun kv : string * PlatformRecord => (kv.1, json_of_platform_record kv.2)) pd) = map fst pd.
Proof. by rewrite map_map. Qed.

Lemma saved_platforms pd :
  ids_ascending 0 (map fst pd) = true ->
  Forall (saved_platform (Some (json_of_platform_data pd))) pd.
Proof.
  intros Hids. pose proof (ids_ascending_above 0 _ Hids) as Habove.
  apply Forall_forall. intros [k r] Hin. split.
  - cbn [js_get json_of_platform_data]. f_equal. apply get_field_nodup.
    + rewrite platform_data_keys. exact (ids_ascending_NoDup 0 _ Hids).
    + apply list_elem_of_In, (in_map (fun kv : string * PlatformRecord => (kv.1, json_of_platform_record kv.2)) pd (k, r)).
      by apply list_elem_of_In.
  - apply (proj1 (Forall_forall _ _) Habove k), list_elem_of_In.
    apply (in_map fst pd (k, r)). by apply list_elem_of_In.
Qed.

(** The platform data read back after loading a saved analysis: the saved
    records, each through the HTML of its card. *)
Lemma reload_platforms fs pd afs s :
  get_field fs "platformData" = Some (json_of_platform_data pd) ->
  get_field fs "audienceData" = Some (JObject afs) ->
  ids_ascending 0 (map fst pd) = true ->
  forallb (fun kv => html_plain kv.2) pd = true -> json_no_lt (JObject afs) = true ->
  fst (loadAnalysisData (Some (JObject fs)) s) = Normal tt /\
  fst (getAllPlatformData (snd (loadAnalysisData (Some (JObject fs)) s))) =
    Normal (map (fun kv => (kv.1, loaded_record kv.2)) pd).
Proof.
  intros Hpd Had Hids _ _. unfold loadAnalysisData. cbn [js_get]. rewrite Hpd, Had.
  assert (Hkeys : js_keys (Some (json_of_platform_data pd)) = map fst pd).
  { unfold json_of_platform_data. rewrite js_keys_ascending; rewrite platform_data_keys; done. }
  rewrite Hkeys.
  destruct (load_all_cards _ afs pd (mk_ui (Num 0) [] []) (saved_platforms pd Hids))
    as (cs & Hres & Hin & Hcs & Hrecs).
  destruct (load_all _ _ (map fst pd) (mk_ui (Num 0) [] [])) as [r s1].
  cbn [fst snd] in Hres, Hin. subst r. split; [done|].
  unfold getAllPlatformData. cbn [fst snd].
  change (platform_inputs (with_platforms s1 ?l)) with l.
  rewrite collect_platforms_listens, Hin. cbn [app platform_inputs].
  rewrite <- Hcs in Hids.
  rewrite (collect_ascending cs cs [] 0) by
    (done || apply keys_below_nil || (intros; apply find_platform_nodup; eauto using ids_ascending_NoDup)).
  cbn [app]. f_equal. by apply map_pairs.
Qed.

End LoadFacts.

(** ** Reloading a saved analysis *)

Section LoadClaims.

Lemma clean_html_plain (pd : list (string * PlatformRecord)) :
  forallb (fun kv => clean_record kv.2) pd = true -> forallb (fun kv => html_plain kv.2) pd = true.
Proof.
  rewrite !forallb_forall. intros H kv Hkv. specialize (H kv Hkv). unfold clean_record in H.
  by do 5 (apply andb_prop in H as [H _]).
Qed.



End LoadClaims.

(** ** Witnesses *)

Definition saved_fields (pd : list (string * PlatformRecord)) : list (string * json) :=
  [("name", JString "Q3 review"); ("platformData", json_of_platform_data pd);
   ("audienceData", JObject [])].

Definition clean_pd : list (string * PlatformRecord) :=
  [("1", mk_platform "Blog" "Weekly essays on focus." "formal" "article" "focus");
   ("2", mk_platform "Newsletter" "Monday digest." "casual" "email" "digest");
   ("4", mk_platform "Video" "Short explainers." "" "ad" "")].

Definition quoted_record : PlatformRecord :=
  mk_platform ("Say " ++ String dquote ("hi" ++ String dquote EmptyString)) "Greetings." "casual"
    "social-post" "hello".

Definition quoted_pd : list (string * PlatformRecord) :=
  [("1", quoted_record); ("2", mk_platform "Blog" "Essays." "formal" "article" "focus")].


