(* ===== verification/Charts.v ===== *)
(** * Charts: the chart configurations of the results tab
    (src/js/ui-controller.js, [displayCoherenceChart],
    [displayAudienceChart], [displayConsistencyChart])

    Each display function reads the form again with [getAllPlatformData],
    walks the per-platform entries of the results, labels each entry with
    the name the form now gives its platform, colours it by its id, and
    hands the configuration to Chart.js.  Chart.js itself is not modelled:
    a display function here returns the data of the configuration (labels,
    values, colours, the axis bound the audience chart computes) and the
    [afterLabel] tooltip callbacks, which look the platform up again by its
    name.  Reading [platformData[platformId].name] for an id the form no
    longer has throws, as does the colour of an id below 1. *)

From S2P Require Import Prelude Random Json JsonCodec JsBuiltins Benchmark Engine Ui Load.
Local Open Scope nav_scope.
Local Open Scope string_scope.

(** ** Colours *)

(** [platformColors] *)
Definition platformColors : list (string * string) :=
  [("bg-primary", "text-white"); ("bg-info", "text-white"); ("bg-success", "text-white");
   ("bg-warning", "text-dark"); ("bg-danger", "text-white"); ("bg-secondary", "text-white")].

(** [s.replace(pat, rep)] with a string pattern: the first occurrence. *)
Fixpoint js_replace_first (pat rep s : string) : string :=
  if String.prefix pat s
  then rep ++ String.substring (String.length pat) (String.length s - String.length pat) s
  else match s with
       | EmptyString => EmptyString
       | String c r => String c (js_replace_first pat rep r)
       end.

(** [platformColors[(parseInt(platformId) - 1) % platformColors.length]]:
    the remainder keeps the sign of the dividend; [-0] reads index 0. *)
Definition platform_color (platformId : string) : completion (string * string) :=
  match js_parseInt platformId with
  | Num z =>
      let r := Z.rem (z - 1) 6 in
      if (0 <=? r)%Z then
        match platformColors !! Z.to_nat r with
        | Some c => Normal c
        | None => Throw (undefined_read "bg")
        end
      else Throw (undefined_read "bg")
  | NaN => Throw (undefined_read "bg")
  end.

(** The [if]/[else if] chain from a Bootstrap colour name to its RGBA. *)
Definition color_rgba (color : string) : string :=
  if String.eqb color "primary" then "rgba(0, 123, 255, 0.7)"
  else if String.eqb color "info" then "rgba(23, 162, 184, 0.7)"
  else if String.eqb color "success" then "rgba(40, 167, 69, 0.7)"
  else if String.eqb color "warning" then "rgba(255, 193, 7, 0.7)"
  else if String.eqb color "danger" then "rgba(220, 53, 69, 0.7)"
  else if String.eqb color "secondary" then "rgba(108, 117, 125, 0.7)"
  else "rgba(0, 123, 255, 0.7)".

(** The colour of a platform's bar or dataset. *)
Definition platform_rgba (platformId : string) : completion string :=
  match platform_color platformId with
  | Throw e => Throw e
  | Normal (bg, _) => Normal (color_rgba (js_replace_first "bg-" "" bg))
  end.

Definition border_of (rgba : string) : string := js_replace_first "0.7" "1" rgba.

Definition overall_grey : string := "rgba(108, 117, 125, 0.7)".

(** [platformData[platformId].name] *)
Definition name_of (platformData : list (string * PlatformRecord)) (platformId : string)
    : completion string :=
  match obj_get platformData platformId with
  | Some r => Normal (name r)
  | None => Throw (undefined_read "name")
  end.

(** The first id of the form whose platform has the name [label]: the loop
    [for (const id in platformData) if (platformData[id].name === label)]. *)
Fixpoint find_id_by_name (platformData : list (string * PlatformRecord)) (label : string)
    : option string :=
  match platformData with
  | [] => None
  | (id, r) :: rest => if String.eqb (name r) label then Some id else find_id_by_name rest label
  end.

(** The value an [afterLabel] callback returns: a line or lines. *)
Inductive tooltip := TText (s : string) | TLines (l : list string).

(** ** The coherence bar chart *)

Record coherence_chart := mk_cchart {
  cc_labels : list string; cc_scores : list num; cc_colors : list string; cc_borders : list string
}.

Fixpoint coherence_bars (platformData : list (string * PlatformRecord))
    (scores : list (string * Coherence.platform_score))
    : completion (list string * list num * list string) :=
  match scores with
  | [] => Normal ([], [], [])
  | (platformId, ps) :: rest =>
      match name_of platformData platformId with
      | Throw e => Throw e
      | Normal nm =>
          match platform_rgba platformId with
          | Throw e => Throw e
          | Normal rgba =>
              match coherence_bars platformData rest with
              | Throw e => Throw e
              | Normal (ls, ss, cs) => Normal (nm :: ls, Num (Coherence.score ps) :: ss, rgba :: cs)
              end
          end
      end
  end.

(** [displayCoherenceChart(coherenceData)]: the configuration it draws. *)
Definition displayCoherenceChart (coherenceData : Coherence.result) : JS ui_state coherence_chart :=
  fun s =>
    match fst (getAllPlatformData s) with
    | Throw e => (Throw e, s)
    | Normal platformData =>
        match coherence_bars platformData (Coherence.platformScores coherenceData) with
        | Throw e => (Throw e, s)
        | Normal (labels, scores, colors) =>
            let colors' := (colors ++ [overall_grey])%list in
            (Normal (mk_cchart (labels ++ ["Overall"])%list (scores ++ [Coherence.overallScore coherenceData])%list
                       colors' (map border_of colors')), s)
        end
    end.

(** Its [afterLabel] callback, over the [platformData] the display read. *)
Definition coherence_afterLabel (platformData : list (string * PlatformRecord))
    (coherenceData : Coherence.result) (label : string) : tooltip :=
  if String.eqb label "Overall"
  then TText ("Rating: " ++ rating_text (bc_rating (Coherence.benchmarkComparison coherenceData)))
  else match find_id_by_name platformData label with
       | Some platformId =>
           if String.eqb platformId "" then TText "" else
           match obj_get (Coherence.platformScores coherenceData) platformId with
           | Some ps =>
               TLines ["Strengths: " ++ String.concat ", " (Coherence.strengths ps);
                       "Areas for improvement: " ++ String.concat ", " (Coherence.weaknesses ps)]
           | None => TText ""
           end
       | None => TText ""
       end.

(** ** The audience bar chart *)

(** [x / 1000] on a decimal. *)
Definition jnum_div1000 (x : jnum) : jnum := JNum (mant x) (exp10 x - 3).

(** [x * 1.5] on a decimal. *)
Definition jnum_times_1_5 (x : jnum) : jnum := JNum (mant x * 15) (exp10 x - 1).

(** [x < y] on decimals. *)
Definition jnum_ltb (x y : jnum) : bool :=
  let e := Z.min (exp10 x) (exp10 y) in
  (mant x * 10 ^ (exp10 x - e) <? mant y * 10 ^ (exp10 y - e))%Z.

(** [Math.max(...xs)]: [None] is the [-Infinity] of an empty list. *)
Definition jnum_max_list (xs : list jnum) : option jnum :=
  fold_left (fun m x => match m with
                        | None => Some x
                        | Some y => if jnum_ltb y x then Some x else Some y
                        end) xs None.

Record audience_chart := mk_achart {
  ach_labels : list string; ach_sizes : list jnum; ach_engagement : list jnum;
  (** [Math.max(...engagementRate) * 1.5], [None] for [-Infinity] *)
  ach_y1_max : option jnum
}.

Fixpoint audience_bars (platformData : list (string * PlatformRecord))
    (reach : list (string * Audience.reach)) : completion (list string * list jnum * list jnum) :=
  match reach with
  | [] => Normal ([], [], [])
  | (platformId, r) :: rest =>
      match name_of platformData platformId with
      | Throw e => Throw e
      | Normal nm =>
          match audience_bars platformData rest with
          | Throw e => Throw e
          | Normal (ls, ss, es) =>
              Normal (nm :: ls, jnum_div1000 (Audience.size r) :: ss, Audience.engagement r :: es)
          end
      end
  end.

(** [displayAudienceChart(audienceData)] *)
Definition displayAudienceChart (audienceData : Audience.result) : JS ui_state audience_chart :=
  fun s =>
    match fst (getAllPlatformData s) with
    | Throw e => (Throw e, s)
    | Normal platformData =>
        match audience_bars platformData (Audience.platformReach audienceData) with
        | Throw e => (Throw e, s)
        | Normal (labels, sizes, rates) =>
            (Normal (mk_achart labels sizes rates (option_map jnum_times_1_5 (jnum_max_list rates))), s)
        end
    end.

Definition audience_afterLabel (platformData : list (string * PlatformRecord))
    (audienceData : Audience.result) (label : string) : tooltip :=
  match find_id_by_name platformData label with
  | Some platformId =>
      if String.eqb platformId "" then TText "" else
      match obj_get (Audience.platformReach audienceData) platformId with
      | Some r =>
          TLines ["Primary Age Group: " ++
                  match Audience.primaryAgeGroup r with Some g => g | None => "undefined" end]
      | None => TText ""
      end
  | None => TText ""
  end.

(** ** The consistency radar chart *)

Record dataset := mk_dataset {
  ds_label : string; ds_data : list Z; ds_color : string; ds_border : string
}.

Record consistency_chart := mk_rchart { rc_axes : list string; rc_datasets : list dataset }.

Definition consistency_axes : list string :=
  ["Overall Consistency"; "Key Message Presence"; "Tone Consistency"; "Value Alignment"].

Fixpoint consistency_datasets (platformData : list (string * PlatformRecord))
    (scores : list (string * Consistency.platform_score)) : completion (list dataset) :=
  match scores with
  | [] => Normal []
  | (platformId, ps) :: rest =>
      match platform_rgba platformId with
      | Throw e => Throw e
      | Normal rgba =>
          match name_of platformData platformId with
          | Throw e => Throw e
          | Normal nm =>
              match consistency_datasets platformData rest with
              | Throw e => Throw e
              | Normal ds =>
                  Normal (mk_dataset nm [Consistency.score ps; Consistency.keyMessagePresence ps;
                                         Consistency.toneConsistency ps; Consistency.valueAlignment ps]
                            rgba (border_of rgba) :: ds)
              end
          end
      end
  end.

(** [displayConsistencyChart(consistencyData)] *)
Definition displayConsistencyChart (consistencyData : Consistency.result)
    : JS ui_state consistency_chart :=
  fun s =>
    match fst (getAllPlatformData s) with
    | Throw e => (Throw e, s)
    | Normal platformData =>
        match consistency_datasets platformData (Consistency.platformScores consistencyData) with
        | Throw e => (Throw e, s)
        | Normal ds => (Normal (mk_rchart consistency_axes ds), s)
        end
    end.

(** ** Properties *)

(** The name the form gives the platform [k], [""] when it has none. *)
Definition label_of (platformData : list (string * PlatformRecord)) (k : string) : string :=
  match obj_get platformData k with Some r => name r | None => "" end.

(** Every id has a platform in the form and is a positive index. *)
Definition chart_ready (platformData : list (string * PlatformRecord)) (ids : list string) : Prop :=
  Forall (fun k => is_Some (obj_get platformData k) /\
                   exists n, array_index k = Some n /\ (0 < n)%N) ids.

Section ChartFacts.

Lemma platform_rgba_index k n : array_index k = Some n -> (0 < n)%N -> exists c, platform_rgba k = Normal c.
Proof.
  intros Hk Hn. apply array_index_text in Hk as ->. unfold platform_rgba, platform_color.
  rewrite js_parseInt_string_of_Z by lia.
  pose proof (Z.rem_bound_pos (Z.of_N n - 1) 6 ltac:(lia) ltac:(lia)) as Hr.
  destruct (Z.leb_spec 0 (Z.rem (Z.of_N n - 1) 6)); [|lia].
  destruct (lookup_lt_is_Some_2 platformColors (Z.to_nat (Z.rem (Z.of_N n - 1) 6)))
    as [[bg tx] Hc]; [cbn; lia|].
  rewrite Hc. eauto.
Qed.

Lemma coherence_bars_ready pd scores :
  chart_ready pd (map fst scores) ->
  exists cs, coherence_bars pd scores =
    Normal (map (fun kv => label_of pd kv.1) scores,
            map (fun kv => Num (Coherence.score kv.2)) scores, cs) /\ length cs = length scores.
Proof.
  induction scores as [|[k ps] scores IH]; intros Hready; [by exists []|].
  inversion Hready as [|? ? [[r Hr] (n & Hk & Hn)] Hrest]; subst.
  destruct (platform_rgba_index k n Hk Hn) as [c Hc].
  destruct (IH Hrest) as (cs & Hbars & Hlen).
  exists (c :: cs). cbn [coherence_bars]. unfold name_of. rewrite Hr, Hc, Hbars.
  cbn -[label_of]. assert (label_of pd k = name r) as -> by (unfold label_of; by rewrite Hr). by rewrite Hlen.
Qed.

Lemma obj_get_nodup {A} (o : list (string * A)) k v :
  NoDup (map fst o) -> (k, v) ∈ o -> obj_get o k = Some v.
Proof.
  induction o as [|[k' v'] o IH]; intros Hnd Hin; [by apply not_elem_of_nil in Hin|].
  cbn in Hnd. apply NoDup_cons in Hnd as [Hk' Hnd]. cbn.
  apply elem_of_cons in Hin as [[= -> ->]|Hin]; [by rewrite String.eqb_refl|].
  destruct (String.eqb_spec k' k) as [->|]; [|by apply IH].
  destruct Hk'. apply list_elem_of_In, (in_map fst o (k, v)), list_elem_of_In, Hin.
Qed.

Lemma audience_bars_ready pd (reach : list (string * Audience.reach)) :
  Forall (fun k => is_Some (obj_get pd k)) (map fst reach) ->
  exists sizes rates, audience_bars pd reach = Normal (map (fun kv => label_of pd kv.1) reach, sizes, rates) /\
    length sizes = length reach /\ length rates = length reach.
Proof.
  induction reach as [|[k r] reach IH]; intros Hready; [by exists [], []|].
  inversion Hready as [|? ? [x Hx] Hrest]; subst.
  destruct (IH Hrest) as (sizes & rates & Hbars & Hl1 & Hl2).
  exists (jnum_div1000 (Audience.size r) :: sizes), (Audience.engagement r :: rates).
  cbn [audience_bars]. unfold name_of. rewrite Hx, Hbars. cbn -[label_of].
  assert (label_of pd k = name x) as -> by (unfold label_of; by rewrite Hx). by rewrite Hl1, Hl2.
Qed.

Lemma consistency_datasets_ready pd (scores : list (string * Consistency.platform_score)) :
  chart_ready pd (map fst scores) ->
  exists ds, consistency_datasets pd scores = Normal ds /\
    map ds_label ds = map (fun kv => label_of pd kv.1) scores.
Proof.
  induction scores as [|[k ps] scores IH]; intros Hready; [by exists []|].
  inversion Hready as [|? ? [[r Hr] (n & Hk & Hn)] Hrest]; subst.
  destruct (platform_rgba_index k n Hk Hn) as [c Hc].
  destruct (IH Hrest) as (ds & Hds & Hlabels).
  eexists. cbn [consistency_datasets]. unfold name_of. rewrite Hc, Hr, Hds. split; [reflexivity|].
  cbn -[label_of]. rewrite Hlabels. f_equal. unfold label_of. by rewrite Hr.
Qed.

(** The ids of a form numbered in ascending order are ready for the charts,
    and label the bars with the names of the form. *)
Lemma chart_ready_ascending pd :
  ids_ascending 0 (map fst pd) = true ->
  chart_ready pd (map fst pd) /\ map (label_of pd) (map fst pd) = map (fun kv => name kv.2) pd.
Proof.
  intros Hids. pose proof (ids_ascending_NoDup 0 _ Hids) as Hnd.
  pose proof (ids_ascending_above 0 _ Hids) as Habove. split.
  - apply Forall_forall. intros k Hk. split; [|by apply (proj1 (Forall_forall _ _) Habove k)].
    apply list_elem_of_In, in_map_iff in Hk as ([k' r] & <- & Hin).
    exists r. apply obj_get_nodup; [done|]. by apply list_elem_of_In.
  - rewrite map_map. apply map_ext_in. intros [k r] Hin. unfold label_of. cbn.
    rewrite (obj_get_nodup pd k r Hnd); [done|]. by apply list_elem_of_In.
Qed.

(** The lookup by name finds the first platform of the form with the name. *)
Lemma find_id_by_name_first pre k r post :
  Forall (fun kv => name kv.2 <> name r) pre ->
  find_id_by_name (pre ++ (k, r) :: post) (name r) = Some k.
Proof.
  induction pre as [|[k' r'] pre IH]; intros Hpre; cbn.
  - by rewrite String.eqb_refl.
  - inversion Hpre as [|? ? Hne Hrest]; subst. cbn in Hne.
    destruct (String.eqb_spec (name r') (name r)); [done|]. by apply IH.
Qed.

(** The tooltip of the entry [k] of the coherence scores. *)
Definition scores_tooltip (coherenceData : Coherence.result) (k : string) : tooltip :=
  match obj_get (Coherence.platformScores coherenceData) k with
  | Some ps =>
      TLines ["Strengths: " ++ String.concat ", " (Coherence.strengths ps);
              "Areas for improvement: " ++ String.concat ", " (Coherence.weaknesses ps)]
  | None => TText ""
  end.

Lemma coherence_afterLabel_found pd res label k :
  find_id_by_name pd label = Some k -> label <> "Overall" -> k <> "" ->
  coherence_afterLabel pd res label = scores_tooltip res k.
Proof.
  intros Hf Hl Hk. unfold coherence_afterLabel, scores_tooltip.
  destruct (String.eqb_spec label "Overall"); [done|]. rewrite Hf.
  by destruct (String.eqb_spec k ""). 
Qed.

Lemma find_id_by_name_nodup pd k r :
  NoDup (map (fun kv => name kv.2) pd) -> (k, r) ∈ pd -> find_id_by_name pd (name r) = Some k.
Proof.
  intros Hnd Hin. apply list_elem_of_split in Hin as (pre & post & ->).
  apply find_id_by_name_first. rewrite map_app in Hnd. cbn in Hnd.
  apply NoDup_app in Hnd as (_ & Hdis & _).
  apply Forall_forall. intros kv Hkv Heq. apply (Hdis (name r)).
  - rewrite <- Heq. apply list_elem_of_In, (in_map (fun kv => name kv.2) pre kv), list_elem_of_In, Hkv.
  - apply list_elem_of_here.
Qed.

End ChartFacts.

(** ** The charts of an analysis *)

Section ChartClaims.
Context (rnd : nat -> Z).
Hypothesis rnd_ok : forall i, (0 <= rnd i < 2 ^ 53)%Z.
Context `{ArraySort}.

(** C22: Drawn while the form still holds the platform data the coherence
    analysis ran on (ids numbered in ascending order), the coherence chart
    has one bar per platform, labelled with its name in the form's order,
    with the platform's score, then the bar [Overall] with the overall
    score; every bar has a colour and a border. *)
Theorem displayCoherenceChart_analysis pd i s :
  fst (getAllPlatformData s) = Normal pd -> ids_ascending 0 (map fst pd) = true ->
  let r := fst (analyzeContentCoherence rnd pd i) in
  exists ch, displayCoherenceChart r s = (Normal ch, s) /\
    cc_labels ch = (map (fun kv => name kv.2) pd ++ ["Overall"])%list /\
    cc_scores ch = (map (fun kv => Num (Coherence.score kv.2)) (Coherence.platformScores r) ++
                    [Coherence.overallScore r])%list /\
    length (cc_colors ch) = S (length pd) /\ length (cc_borders ch) = S (length pd).
Proof.
  intros Hpd Hids. cbv zeta. destruct (chart_ready_ascending pd Hids) as [Hready Hlabels].
  pose proof (coherence_score_keys rnd rnd_ok pd i) as Hkeys.
  set (r := fst (analyzeContentCoherence rnd pd i)) in *.
  rewrite <- Hkeys in Hready.
  destruct (coherence_bars_ready pd (Coherence.platformScores r) Hready) as (cs & Hbars & Hlen).
  unfold displayCoherenceChart. rewrite Hpd, Hbars.
  eexists. split; [reflexivity|]. cbn [cc_labels cc_scores cc_colors cc_borders].
  rewrite <- (map_map fst (label_of pd)), Hkeys, Hlabels.
  assert (Hn : length (Coherence.platformScores r) = length pd)
    by (rewrite <- (length_map fst (Coherence.platformScores r)), Hkeys; apply length_map).
  rewrite length_map, !length_app, Hlen, Hn. cbn. repeat split; lia.
Qed.

End ChartClaims.

Section TooltipClaims.

(** When the platforms of the form have distinct names, none of them
    [Overall], the tooltip of a platform's bar (whose label is its name)
    shows that platform's strengths and areas for improvement. *)
Theorem coherence_tooltip_own pd res k r :
  NoDup (map (fun kv => name kv.2) pd) -> name r <> "Overall" -> (k, r) ∈ pd -> k <> "" ->
  coherence_afterLabel pd res (name r) = scores_tooltip res k.
Proof.
  intros Hnd Ho Hin Hk. apply coherence_afterLabel_found; [|done|done].
  by apply find_id_by_name_nodup.
Qed.

(** The tooltip looks the platform up by its name: when two platforms
    share a name (two names left blank, say), the tooltip of the second
    platform's bar shows the strengths and weaknesses of the first. *)
Theorem coherence_tooltip_duplicate_name pd res pre k1 r1 mid k2 r2 post :
  pd = (pre ++ (k1, r1) :: mid ++ (k2, r2) :: post)%list ->
  name r2 = name r1 -> name r1 <> "Overall" ->
  Forall (fun kv => name kv.2 <> name r1) pre -> k1 <> "" ->
  coherence_afterLabel pd res (name r2) = scores_tooltip res k1.
Proof.
  intros -> Hname Ho Hpre Hk. rewrite Hname.
  apply coherence_afterLabel_found; [|done|done]. by apply find_id_by_name_first.
Qed.

End TooltipClaims.

(** ** Witnesses *)

Definition blank_pd : list (string * PlatformRecord) :=
  [("1", mk_platform "" "Weekly essays." "" "" ""); ("2", mk_platform "" "Monday digest." "" "" "")].

Definition named_pd : list (string * PlatformRecord) :=
  [("1", mk_platform "Blog" "Weekly essays." "" "" ""); ("2", mk_platform "Newsletter" "Monday digest." "" "" "")].

(** A form holding [named_pd]: the two initial cards with names and contents. *)
Definition named_form : ui_state :=
  mk_ui (Num 2)
    [mk_pcard "1" "Platform 1: Blog" "Blog" "Weekly essays." "" "" "" None false;
     mk_pcard "2" "Platform 2: Newsletter" "Newsletter" "Monday digest." "" "" "" None false]
    [empty_audience_card "1" "Blog Audience"; empty_audience_card "2" "Newsletter Audience"].

Lemma displayCoherenceChart_analysis_witness :
  fst (getAllPlatformData named_form) = Normal named_pd /\
  exists ch, displayCoherenceChart (fst (analyzeContentCoherence hash_rnd named_pd 0)) named_form =
               (Normal ch, named_form) /\
    cc_labels ch = ["Blog"; "Newsletter"; "Overall"] /\
    cc_scores ch = (map (fun kv => Num (Coherence.score kv.2))
                      (Coherence.platformScores (fst (analyzeContentCoherence hash_rnd named_pd 0))) ++
                    [Coherence.overallScore (fst (analyzeContentCoherence hash_rnd named_pd 0))])%list /\
    length (cc_colors ch) = 3%nat /\ length (cc_borders ch) = 3%nat.
Proof.
  split; [vm_compute; reflexivity|].
  apply (displayCoherenceChart_analysis hash_rnd hash_rnd_ok named_pd 0 named_form);
    vm_compute; reflexivity.
Defined.

Lemma coherence_tooltip_own_witness :
  coherence_afterLabel named_pd (fst (analyzeContentCoherence hash_rnd named_pd 0)) "Newsletter" =
    scores_tooltip (fst (analyzeContentCoherence hash_rnd named_pd 0)) "2".
Proof.
  apply (coherence_tooltip_own named_pd _ "2" (mk_platform "Newsletter" "Monday digest." "" "" ""));
    [vm_compute; repeat constructor; set_solver | discriminate | right; left | discriminate].
Defined.

Lemma coherence_tooltip_duplicate_name_witness :
  coherence_afterLabel blank_pd (fst (analyzeContentCoherence hash_rnd blank_pd 0)) "" =
    scores_tooltip (fst (analyzeContentCoherence hash_rnd blank_pd 0)) "1".
Proof.
  - apply (coherence_tooltip_duplicate_name blank_pd _ [] "1" (mk_platform "" "Weekly essays." "" "" "")
             [] "2" (mk_platform "" "Monday digest." "" "" "") []);
      [reflexivity | reflexivity | discriminate | constructor | discriminate].
Defined.
