(* ===== verification/Export.v ===== *)
(** * Export: [exportRecommendations] of src/js/ui-controller.js

    The export reads the results the engine retains ([getResults()]) and
    the form as it is now ([getAllPlatformData()]), and writes a Markdown
    report: the overall scores, the key findings, the strategy
    recommendations, a section per platform recommendation, and the
    numbered next steps.  The results are read through JavaScript property
    accesses on the retained value, modelled on its JSON image: a missing
    property is [undefined], and reading through [undefined] or [null]
    throws.  [platformData[platformId].name] is read for every platform the
    results recommend for, so a platform removed from the form since the
    analysis makes the export throw.  The comparison
    [fragmentationScore > 50] converts numbers, [null] and booleans; the
    retained results hold a number there, and other values are read as
    [NaN]. *)

From Stdlib Require Import Ascii.
From S2P Require Import Prelude Random Json JsonCodec JsBuiltins Benchmark Engine Ui Load Charts.
Local Open Scope nav_scope.
Local Open Scope string_scope.

(** ** Completions without state *)

Definition c_bind {A B} (c : completion A) (f : A -> completion B) : completion B :=
  match c with Normal a => f a | Throw e => Throw e end.

Local Notation "x <-? c ;; k" := (c_bind c (fun x => k))
  (at level 100, c at next level, right associativity).

(** [v.k1.k2...] *)
Fixpoint js_path (v : jsval) (ks : list string) : completion jsval :=
  match ks with
  | [] => Normal v
  | k :: rest => w <-? js_get v k ;; js_path w rest
  end.

(** [v.forEach(x => ...)] over the elements, with [`${x}`] of each. *)
Definition js_forEach_text (v : jsval) : completion (list string) :=
  match v with
  | None => Throw (undefined_read "forEach")
  | Some JNull => Throw (null_read "forEach")
  | Some (JArray l) => Normal (map js_to_string l)
  | Some _ => Throw (TypeError "forEach is not a function")
  end.

(** [v > t] for the values the results hold. *)
Definition js_gt (v : jsval) (t : Z) : bool :=
  match v with
  | Some (JNumber n) =>
      if (0 <=? exp10 n)%Z then (t <? mant n * 10 ^ exp10 n)%Z
      else (t * 10 ^ (- exp10 n) <? mant n)%Z
  | Some JNull => (t <? 0)%Z
  | Some (JBool b) => (t <? if b then 1 else 0)%Z
  | _ => false
  end.

(** ** The report *)

Definition nl : string := String (ascii_of_nat 10) EmptyString.

(** [items.forEach(x => { content += `* ${x}\n`; })] *)
Definition bullets (items : list string) : string :=
  String.concat "" (map (fun x => "* " ++ x ++ nl) items).

(** [nextSteps.forEach((step, index) => { content += `${index + 1}. ${step}\n`; })] *)
Fixpoint numbered (i : nat) (steps : list string) : string :=
  match steps with
  | [] => ""
  | x :: rest => string_of_Z (Z.of_nat (S i)) ++ ". " ++ x ++ nl ++ numbered (S i) rest
  end.

(** The body of [for (const platformId in platformRecommendations)]. *)
Fixpoint platform_sections (platformData : list (string * PlatformRecord)) (recs : jsval)
    (ids : list string) : completion string :=
  match ids with
  | [] => Normal ""
  | platformId :: rest =>
      platformRec <-? js_get recs platformId ;;
      _ <-? name_of platformData platformId ;;
      title <-? js_get platformRec "title" ;;
      items <-? (r <-? js_get platformRec "recommendations" ;; js_forEach_text r) ;;
      more <-? platform_sections platformData recs rest ;;
      Normal ("### " ++ template_string title ++ nl ++ nl ++ bullets items ++ nl ++ more)
  end.

(** The report of [exportRecommendations()] for the retained [results] and
    the date [new Date().toLocaleDateString()]; [None] when there are no
    recommendations to export. *)
Definition export_content (date : string) (results : json) (s : ui_state) : completion (option string) :=
  if negb (js_truthy (Some results)) then Normal None else
  recs <-? js_get (Some results) "recommendations" ;;
  if negb (js_truthy recs) then Normal None else
  cohScore <-? js_path (Some results) ["coherence"; "overallScore"] ;;
  cohRating <-? js_path (Some results) ["coherence"; "benchmarkComparison"; "rating"] ;;
  conScore <-? js_path (Some results) ["consistency"; "overallScore"] ;;
  conRating <-? js_path (Some results) ["consistency"; "benchmarkComparison"; "rating"] ;;
  frag <-? js_path (Some results) ["audience"; "fragmentationScore"] ;;
  findings <-? (v <-? js_get (Some results) "keyFindings" ;; js_forEach_text v) ;;
  strategy <-? (v <-? js_get recs "strategyRecommendations" ;; js_forEach_text v) ;;
  platformData <-? fst (getAllPlatformData s) ;;
  prs <-? js_get recs "platformRecommendations" ;;
  sections <-? platform_sections platformData prs (js_keys prs) ;;
  steps <-? (v <-? js_get recs "nextSteps" ;; js_forEach_text v) ;;
  Normal (Some (
    "# Attention Economy Navigator: Recommendations" ++ nl ++ nl ++
    "## Analysis Date: " ++ date ++ nl ++ nl ++
    "## Overall Scores" ++ nl ++ nl ++
    "* Content Coherence: " ++ template_string cohScore ++ "/100 (" ++ template_string cohRating ++ ")" ++ nl ++
    "* Message Consistency: " ++ template_string conScore ++ "/100 (" ++ template_string conRating ++ ")" ++ nl ++
    "* Audience Fragmentation: " ++ template_string frag ++ "/100 (" ++
      (if js_gt frag 50 then "High" else "Moderate") ++ " fragmentation)" ++ nl ++ nl ++
    "## Key Findings" ++ nl ++ nl ++ bullets findings ++ nl ++
    "## Overall Strategy Recommendations" ++ nl ++ nl ++ bullets strategy ++ nl ++
    "## Platform-Specific Recommendations" ++ nl ++ nl ++ sections ++
    "## Next Steps" ++ nl ++ nl ++ numbered 0 steps)).

(** ** The report of an analysis *)

(** The text [`${x}`] gives a retained number. *)
Definition num_text (n : num) : string := template_string (Some (json_of_num n)).

Definition section_text (rec : PlatformRecommendation) : string :=
  "### " ++ title rec ++ nl ++ nl ++ bullets (recommendations rec) ++ nl.

Definition sections_text (l : list (string * PlatformRecommendation)) : string :=
  fold_right (fun kv acc => section_text kv.2 ++ acc) "" l.

(** The report written from the results themselves, around the text of
    the platform sections. *)
Definition markdown_with (date : string) (res : AnalysisResult) (sections : string) : string :=
  let coh := coherence res in
  let con := consistency res in
  let frag := Audience.fragmentationScore (audience res) in
  let recs := recommendationSet res in
  "# Attention Economy Navigator: Recommendations" ++ nl ++ nl ++
  "## Analysis Date: " ++ date ++ nl ++ nl ++
  "## Overall Scores" ++ nl ++ nl ++
  "* Content Coherence: " ++ num_text (Coherence.overallScore coh) ++ "/100 (" ++
    rating_text (bc_rating (Coherence.benchmarkComparison coh)) ++ ")" ++ nl ++
  "* Message Consistency: " ++ num_text (Consistency.overallScore con) ++ "/100 (" ++
    rating_text (bc_rating (Consistency.benchmarkComparison con)) ++ ")" ++ nl ++
  "* Audience Fragmentation: " ++ num_text (Num frag) ++ "/100 (" ++
    (if (50 <? frag)%Z then "High" else "Moderate") ++ " fragmentation)" ++ nl ++ nl ++
  "## Key Findings" ++ nl ++ nl ++ bullets (keyFindings res) ++ nl ++
  "## Overall Strategy Recommendations" ++ nl ++ nl ++ bullets (strategyRecommendations recs) ++ nl ++
  "## Platform-Specific Recommendations" ++ nl ++ nl ++
    sections ++
  "## Next Steps" ++ nl ++ nl ++ numbered 0 (nextSteps recs).

Definition markdown_of (date : string) (res : AnalysisResult) : string :=
  markdown_with date res (sections_text (platformRecommendations (recommendationSet res))).

Section ExportFacts.

Lemma forEach_strings l : js_forEach_text (Some (json_of_strings l)) = Normal l.
Proof.
  unfold json_of_strings. cbn. f_equal. induction l as [|x l IH]; cbn; [done | by f_equal].
Qed.

Definition json_of_platform_rec (rec : PlatformRecommendation) : json :=
  JObject [("title", JString (title rec)); ("recommendations", json_of_strings (recommendations rec))].

Lemma platform_sections_spec pd fs (l : list (string * PlatformRecommendation)) :
  Forall (fun kv => get_field fs kv.1 = Some (json_of_platform_rec kv.2) /\
                    is_Some (obj_get pd kv.1)) l ->
  platform_sections pd (Some (JObject fs)) (map fst l) = Normal (sections_text l).
Proof.
  induction l as [|[k rec] l IH]; intros Hl; [done|].
  inversion Hl as [|? ? [Hget [r Hr]] Hrest]; subst. cbn [fst snd] in Hget, Hr.
  cbn [map fst platform_sections js_get]. rewrite Hget. cbn [c_bind].
  unfold name_of. rewrite Hr. cbn [c_bind json_of_platform_rec js_get get_field String.eqb Ascii.eqb Bool.eqb].
  rewrite forEach_strings. cbn [c_bind]. rewrite (IH Hrest). cbn [c_bind].
  cbn [sections_text fold_right snd]. unfold section_text. by rewrite !string_app_assoc.
Qed.

Lemma platform_recs_keys (prs : list (string * PlatformRecommendation)) :
  map fst (map (fun kv => (kv.1, json_of_platform_rec kv.2)) prs) = map fst prs.
Proof. by rewrite map_map. Qed.

Lemma platform_recs_sections pd (prs : list (string * PlatformRecommendation)) :
  ids_ascending 0 (map fst prs) = true ->
  Forall (fun k => is_Some (obj_get pd k)) (map fst prs) ->
  platform_sections pd (Some (JObject (map (fun kv => (kv.1, json_of_platform_rec kv.2)) prs)))
    (map fst prs) = Normal (sections_text prs).
Proof.
  intros Hids Hpd. apply platform_sections_spec. apply Forall_forall. intros [k rec] Hin. split.
  - apply get_field_nodup; [rewrite platform_recs_keys; exact (ids_ascending_NoDup 0 _ Hids)|].
    apply list_elem_of_In,
      (in_map (fun kv : string * PlatformRecommendation => (kv.1, json_of_platform_rec kv.2)) prs (k, rec)).
    by apply list_elem_of_In.
  - apply (proj1 (Forall_forall _ _) Hpd k), list_elem_of_In, (in_map fst prs (k, rec)).
    by apply list_elem_of_In.
Qed.

End ExportFacts.

Definition platform_recs_json (prs : list (string * PlatformRecommendation)) : jsval :=
  Some (JObject (map (fun kv => (kv.1, json_of_platform_rec kv.2)) prs)).

(** Up to its platform sections, the export of retained results is their
    report. *)
Lemma export_content_sections date res s pd :
  fst (getAllPlatformData s) = Normal pd ->
  let prs := platformRecommendations (recommendationSet res) in
  ids_ascending 0 (map fst prs) = true ->
  export_content date (json_of_analysis res) s =
    c_bind (platform_sections pd (platform_recs_json prs) (map fst prs))
      (fun sections => Normal (Some (markdown_with date res sections))).
Proof.
  intros Hpd prs Hids.
  assert (Hkeys : js_keys (platform_recs_json prs) = map fst prs).
  { unfold platform_recs_json. rewrite js_keys_ascending, platform_recs_keys; [done|].
    by rewrite platform_recs_keys. }
  unfold platform_recs_json, json_of_platform_rec in Hkeys |- *. subst prs.
  unfold export_content, json_of_analysis, json_of_coherence, json_of_consistency, json_of_audience,
    json_of_recommendations, json_of_benchmark.
  cbn [js_truthy js_get get_field js_path c_bind String.eqb Ascii.eqb Bool.eqb negb].
  rewrite !forEach_strings. cbn [c_bind]. rewrite Hpd. cbn [c_bind]. rewrite Hkeys.
  destruct (platform_sections _ _ _) as [sections|e]; cbn [c_bind]; [|done].
  unfold markdown_with, num_text. cbn [js_gt json_of_num json_of_Z jnum_of_Z mant exp10 template_string].
  by rewrite Z.mul_1_r.
Qed.

Lemma platform_sections_missing pd fs (l : list (string * PlatformRecommendation)) :
  Forall (fun kv => get_field fs kv.1 = Some (json_of_platform_rec kv.2)) l ->
  (exists k, k ∈ map fst l /\ obj_get pd k = None) ->
  platform_sections pd (Some (JObject fs)) (map fst l) = Throw (undefined_read "name").
Proof.
  induction l as [|[k rec] l IH]; intros Hl (k' & Hk' & Hnone); [by apply not_elem_of_nil in Hk'|].
  inversion Hl as [|? ? Hget Hrest]; subst. cbn [fst snd] in Hget.
  cbn [map fst platform_sections js_get]. rewrite Hget. cbn [c_bind]. unfold name_of.
  destruct (obj_get pd k) as [r|] eqn:Hr; cbn [c_bind]; [|done].
  cbn [json_of_platform_rec js_get get_field String.eqb Ascii.eqb Bool.eqb c_bind].
  rewrite forEach_strings. cbn [c_bind]. rewrite IH; [done|done|].
  exists k'. split; [|done]. cbn in Hk'. apply elem_of_cons in Hk' as [->|]; [congruence|done].
Qed.

Section ExportClaims.

(** C23: On the results an analysis retains, while the form still holds
    every platform the results recommend for (their ids in ascending
    order), [exportRecommendations] writes exactly the report of the
    results: the overall scores with their ratings, the fragmentation
    graded High above 50, the key findings, the strategy recommendations,
    one section per platform in order, and the numbered next steps. *)
Theorem export_content_analysis date res s pd :
  fst (getAllPlatformData s) = Normal pd ->
  ids_ascending 0 (map fst (platformRecommendations (recommendationSet res))) = true ->
  Forall (fun k => is_Some (obj_get pd k)) (map fst (platformRecommendations (recommendationSet res))) ->
  export_content date (json_of_analysis res) s = Normal (Some (markdown_of date res)).
Proof.
  intros Hpd Hids Hin. rewrite (export_content_sections date res s pd Hpd Hids).
  unfold platform_recs_json. by rewrite (platform_recs_sections pd _ Hids Hin).
Qed.

(** C33: The export reads [platformData[platformId].name] for every
    platform the retained results recommend for: when one of them has been
    removed from the form since the analysis, [exportRecommendations]
    throws a TypeError and no report is downloaded. *)
Theorem export_removed_platform_throws date res s pd :
  fst (getAllPlatformData s) = Normal pd ->
  ids_ascending 0 (map fst (platformRecommendations (recommendationSet res))) = true ->
  (exists k, k ∈ map fst (platformRecommendations (recommendationSet res)) /\ obj_get pd k = None) ->
  export_content date (json_of_analysis res) s = Throw (undefined_read "name").
Proof.
  intros Hpd Hids Hmiss. rewrite (export_content_sections date res s pd Hpd Hids).
  unfold platform_recs_json. rewrite platform_sections_missing; [done| |done].
  apply Forall_forall. intros [k rec] Hin. apply get_field_nodup.
  - rewrite platform_recs_keys. exact (ids_ascending_NoDup 0 _ Hids).
  - apply list_elem_of_In,
      (in_map (fun kv : string * PlatformRecommendation => (kv.1, json_of_platform_rec kv.2)) _ (k, rec)).
    by apply list_elem_of_In.
Qed.

End ExportClaims.

(** ** Witnesses *)

Definition three_pd : list (string * PlatformRecord) :=
  (named_pd ++ [("3", mk_platform "Video" "Short explainers." "" "" "")])%list.

Lemma export_content_analysis_witness :
  export_content "3/1/2026" (json_of_analysis (fst (analyze hash_rnd named_pd [] engine_init))) named_form =
    Normal (Some (markdown_of "3/1/2026" (fst (analyze hash_rnd named_pd [] engine_init)))).
Proof.
  apply (export_content_analysis "3/1/2026" _ named_form named_pd); vm_compute; [reflexivity | reflexivity |].
  repeat (constructor || (eexists; reflexivity)).
Defined.

(** An analysis of three platforms exported from the form after platform 3
    is removed. *)
Lemma export_removed_platform_throws_witness :
  export_content "3/1/2026" (json_of_analysis (fst (analyze hash_rnd three_pd [] engine_init))) named_form =
    Throw (undefined_read "name").
Proof.
  apply (export_removed_platform_throws "3/1/2026" _ named_form named_pd);
    [vm_compute; reflexivity | vm_compute; reflexivity |].
  exists "3". split; [vm_compute; right; right; left | vm_compute; reflexivity].
Defined.
