(* ===== verification/Display.v ===== *)
(** * Display: [displayAnalysisResults] and [displayRecommendations] of
    src/js/ui-controller.js on the results of an analysis

    [displayAnalysisResults(results)] draws the three charts of [Charts],
    lists the key findings and writes the three summaries of [Summary]
    (which draw from [Math.random]); [displayRecommendations(results)]
    lists the strategy recommendations, writes a card per platform
    recommendation, coloured by the platform's id after reading its name
    from the form again, and lists the next steps.  What they write is
    returned as a view; when a step throws, the view is not produced (the
    lists written to the page before the throw are not kept). *)

From S2P Require Import Prelude Random Json JsonCodec JsBuiltins Benchmark Engine Ui Load Summary Charts.
Local Open Scope nav_scope.
Local Open Scope string_scope.

Record results_view := mk_view {
  rv_coherence : coherence_chart;
  rv_audience : audience_chart;
  rv_consistency : consistency_chart;
  rv_findings : list string;
  rv_summaries : string * string * string
}.

(** A card of [#platform-recommendations]: the header colours, the title
    and the list. *)
Record rec_card := mk_rec_card {
  rc_bg : string; rc_text : string; rc_title : string; rc_items : list string
}.

Record recommendations_view := mk_rview {
  rw_strategy : list string; rw_platforms : list rec_card; rw_next : list string
}.

Section Display.
Context (rnd : nat -> Z).
Context `{ArraySort}.

(** [displayAnalysisResults(results)]; [i] counts the draws of
    [Math.random] made so far. *)
Definition displayAnalysisResults (results : AnalysisResult) (s : ui_state) (i : nat)
    : completion results_view * nat :=
  match fst (displayCoherenceChart (coherence results) s) with
  | Throw e => (Throw e, i)
  | Normal coh =>
      match fst (displayAudienceChart (audience results) s) with
      | Throw e => (Throw e, i)
      | Normal aud =>
          match fst (displayConsistencyChart (consistency results) s) with
          | Throw e => (Throw e, i)
          | Normal con =>
              let '(s1, i1) := generateCoherenceSummary rnd (coherence results) i in
              let s2 := generateAudienceSummary (audience results) in
              let '(s3, i2) := generateConsistencySummary rnd (consistency results) i1 in
              (Normal (mk_view coh aud con (keyFindings results) (s1, s2, s3)), i2)
          end
      end
  end.

End Display.

(** The body of [for (const platformId in recommendations.platformRecommendations)]. *)
Fixpoint rec_cards (platformData : list (string * PlatformRecord))
    (recs : list (string * PlatformRecommendation)) : completion (list rec_card) :=
  match recs with
  | [] => Normal []
  | (platformId, platformRec) :: rest =>
      match name_of platformData platformId with
      | Throw e => Throw e
      | Normal _ =>
          match platform_color platformId with
          | Throw e => Throw e
          | Normal (bg, text) =>
              match rec_cards platformData rest with
              | Throw e => Throw e
              | Normal cards =>
                  Normal (mk_rec_card bg text (title platformRec) (recommendations platformRec) :: cards)
              end
          end
      end
  end.

(** [displayRecommendations(results)] *)
Definition displayRecommendations (results : AnalysisResult) (s : ui_state)
    : completion recommendations_view :=
  let recommendations := recommendationSet results in
  match fst (getAllPlatformData s) with
  | Throw e => Throw e
  | Normal platformData =>
      match rec_cards platformData (platformRecommendations recommendations) with
      | Throw e => Throw e
      | Normal cards =>
          Normal (mk_rview (strategyRecommendations recommendations) cards (nextSteps recommendations))
      end
  end.

(** ** Displaying the results of the form's analysis *)

Section DisplayFacts.
Context (rnd : nat -> Z).
Context `{ArraySort}.

(** The results of an analysis of the platforms [pd] (and of audiences
    whose ids [pd] has) are displayed on a form holding [pd]. *)
Lemma displayAnalysisResults_ready (results : AnalysisResult) s pd i :
  fst (getAllPlatformData s) = Normal pd -> ids_ascending 0 (map fst pd) = true ->
  map fst (Coherence.platformScores (coherence results)) = map fst pd ->
  map fst (Consistency.platformScores (consistency results)) = map fst pd ->
  Forall (fun k => is_Some (obj_get pd k)) (map fst (Audience.platformReach (audience results))) ->
  exists v i', displayAnalysisResults rnd results s i = (Normal v, i') /\
    cc_labels (rv_coherence v) = (map (fun kv => name kv.2) pd ++ ["Overall"])%list.
Proof.
  intros Hpd Hids Hcoh Hcon Haud. destruct (chart_ready_ascending pd Hids) as [Hready Hlabels].
  destruct (coherence_bars_ready pd (Coherence.platformScores (coherence results)))
    as (cs & Hbars & _); [by rewrite Hcoh|].
  destruct (audience_bars_ready pd _ Haud) as (sizes & rates & Habars & _).
  destruct (consistency_datasets_ready pd (Consistency.platformScores (consistency results)))
    as (ds & Hds & _); [by rewrite Hcon|].
  unfold displayAnalysisResults, displayCoherenceChart, displayAudienceChart, displayConsistencyChart.
  rewrite Hpd, Hbars, Habars, Hds. cbn [fst].
  destruct (generateCoherenceSummary rnd _ i) as [s1 i1].
  destruct (generateConsistencySummary rnd _ i1) as [s3 i2].
  do 2 eexists. split; [reflexivity|]. cbn.
  by rewrite <- (map_map fst (label_of pd)), Hcoh, Hlabels.
Qed.

End DisplayFacts.

Lemma rec_cards_ready pd (recs : list (string * PlatformRecommendation)) :
  chart_ready pd (map fst recs) ->
  exists cards, rec_cards pd recs = Normal cards /\ map rc_title cards = map (fun kv => title kv.2) recs.
Proof.
  induction recs as [|[k rec] recs IH]; intros Hready; [by exists []|].
  inversion Hready as [|? ? [[r Hr] (n & Hk & Hn)] Hrest]; subst.
  destruct (IH Hrest) as (cards & Hcards & Htitles).
  assert (Hc : exists c, platform_color k = Normal c).
  { destruct (platform_rgba_index k n Hk Hn) as [x Hx]. unfold platform_rgba in Hx.
    destruct (platform_color k) as [c|]; [by exists c | discriminate]. }
  destruct Hc as [[bg tx] Hc].
  eexists. cbn [rec_cards]. unfold name_of. rewrite Hr, Hc, Hcards. split; [reflexivity|].
  cbn. by rewrite Htitles.
Qed.
