(* ===== verification/App.v ===== *)
(** * App: the handlers of src/js/app.js

    The application state joins the form of [Ui], the engine of [Engine]
    and the storage of [Storage], with what the handlers show: the
    notifications, in order, the loading overlay of the controller
    ([showLoading], [hideLoading]) and the timers of the page
    ([EventLoop]).  [runAnalysis] shows the overlay, which sets a 10 s
    safety timeout, validates the form and, when it is valid, schedules
    the analysis with a two-second [setTimeout]; the callbacks are kept as
    data ([app_callback]) and run by the event loop ([fire_timer]).
    The load handler [confirmLoad] rebuilds the form with [loadAnalysisData]
    and displays the loaded results ([displayLoadedResults]): every property
    read of the three charts, the findings and the three summaries, each of
    which throws on [undefined] or [null], and the random draws of the
    summaries. *)

From S2P Require Import Prelude EventLoop Random Json JsonCodec JsBuiltins Engine WebStorage Storage Ui Load Summary Charts Export Display.
Local Open Scope nav_scope.

(** ** Validation *)

Definition msg_two_platforms : string := "Please input data for at least 2 platforms".
Definition msg_content : string := "Please provide content for all platforms".
Definition msg_audience : string := "Please provide audience data for all platforms".

(** [!platformData[platform].content || platformData[platform].content.trim() === ''] *)
Definition content_missing (r : PlatformRecord) : bool := trim_is_empty (content r).

(** [validateAnalysisData(platformData, audienceData)]: [None] when valid,
    [Some msg] for the message of the last check that failed. *)
Definition validateAnalysisData (platformData : list (string * PlatformRecord))
    (audienceData : list (string * AudienceRecord)) : option string :=
  let m1 := if Nat.ltb (length platformData) 2 then Some msg_two_platforms else None in
  let m2 := if existsb (fun kv => content_missing kv.2) platformData then Some msg_content else m1 in
  if existsb (fun kv => match obj_get audienceData kv.1 with Some _ => false | None => true end)
             platformData
  then Some msg_audience else m2.

(** ** The application state *)

(** The callbacks the page passes to [setTimeout]: the analysis of
    [runAnalysis], with the data it captured, and [hideLoading], the safety
    timeout of [showLoading]. *)
Inductive app_callback :=
  | CbAnalysis (platformData : list (string * PlatformRecord))
               (audienceData : list (string * AudienceRecord))
  | CbHideLoading.

Record app_state := mk_app {
  app_ui : ui_state;
  app_engine : engine_state;
  app_storage : local_storage;
  (** [showNotification(message, type)], in order *)
  app_notices : list (string * string);
  (** the loading overlay: shown or not, and its [#loading-message] *)
  app_loading : bool;
  app_loading_message : string;
  (** the timers of the page *)
  app_queue : timer_queue app_callback;
  (** [loadingTimeout] of the controller: the id of the safety timeout,
      or [null] *)
  app_loadingTimeout : option nat;
  (** the messages of [alert()], in order *)
  app_alerts : list string;
  (** the [data-index] of the items of [#analyses-list], in order: the
      handler writes the index of each analysis, which the delete handler
      reads back as the same number *)
  app_modal : list nat;
  (** the files offered for download, in order *)
  app_downloads : list download;
  (** the results tab and the recommendations tab, once drawn *)
  app_view : option (results_view * recommendations_view)
}.

Definition notify (msg ty : string) (a : app_state) : app_state :=
  mk_app (app_ui a) (app_engine a) (app_storage a) (app_notices a ++ [(msg, ty)])
         (app_loading a) (app_loading_message a)
         (app_queue a) (app_loadingTimeout a) (app_alerts a) (app_modal a) (app_downloads a) (app_view a).

Definition with_queue (a : app_state) (q : timer_queue app_callback) : app_state :=
  mk_app (app_ui a) (app_engine a) (app_storage a) (app_notices a)
         (app_loading a) (app_loading_message a) q (app_loadingTimeout a)
         (app_alerts a) (app_modal a) (app_downloads a) (app_view a).

Definition set_overlay (shown : bool) (message : string) (q : timer_queue app_callback)
    (loadingTimeout : option nat) (a : app_state) : app_state :=
  mk_app (app_ui a) (app_engine a) (app_storage a) (app_notices a)
         shown message q loadingTimeout
         (app_alerts a) (app_modal a) (app_downloads a) (app_view a).

(** [if (loadingTimeout) clearTimeout(loadingTimeout)]: ids are positive,
    so a pending id is truthy. *)
Definition clear_loading_timeout (a : app_state) : timer_queue app_callback :=
  match app_loadingTimeout a with
  | Some id => clearTimeout id (app_queue a)
  | None => app_queue a
  end.

(** [showLoading(message)]: the overlay is shown with the message, and the
    safety timeout is set again, 10 s from now. *)
Definition showLoading (message : string) (a : app_state) : app_state :=
  let r := setTimeout CbHideLoading 10000 (clear_loading_timeout a) in
  set_overlay true (if String.eqb message "" then "Loading..." else message) r.2 (Some r.1) a.

(** [hideLoading()]: the overlay is hidden and the safety timeout cleared. *)
Definition hideLoading (a : app_state) : app_state :=
  set_overlay false (app_loading_message a) (clear_loading_timeout a) None a.

(** [setTimeout(() => {...}, 2000)] of [runAnalysis]. *)
Definition schedule (pd : list (string * PlatformRecord)) (ad : list (string * AudienceRecord))
    (a : app_state) : app_state :=
  with_queue a (setTimeout (CbAnalysis pd ad) 2000 (app_queue a)).2.

(** The analysis a timer runs, with the data it captured. *)
Definition timer_analysis (t : timer app_callback)
    : option (list (string * PlatformRecord) * list (string * AudienceRecord)) :=
  match timer_cb t with CbAnalysis pd ad => Some (pd, ad) | CbHideLoading => None end.

(** The analyses pending in the timers of the page. *)
Definition pending_analyses (a : app_state) := omap timer_analysis (tq_pending (app_queue a)).

(** [runAnalysis()], up to the [setTimeout] it schedules. *)
Definition runAnalysis : JS app_state unit :=
  fun a =>
    let a1 := showLoading "Running analysis..." a in
    match fst (getAllPlatformData (app_ui a1)) with
    | Throw e => (Throw e, a1)
    | Normal pd =>
        match fst (getAllAudienceData (app_ui a1)) with
        | Throw e => (Throw e, a1)
        | Normal ad =>
            match validateAnalysisData pd ad with
            | Some msg => (Normal tt, hideLoading (notify msg "danger" a1))
            | None => (Normal tt, schedule pd ad a1)
            end
        end
    end.

Definition with_ui (a : app_state) (u : ui_state) : app_state :=
  mk_app u (app_engine a) (app_storage a) (app_notices a) (app_loading a) (app_loading_message a)
         (app_queue a) (app_loadingTimeout a) (app_alerts a) (app_modal a) (app_downloads a) (app_view a).

Definition with_storage (a : app_state) (st : local_storage) : app_state :=
  mk_app (app_ui a) (app_engine a) st (app_notices a) (app_loading a) (app_loading_message a)
         (app_queue a) (app_loadingTimeout a) (app_alerts a) (app_modal a) (app_downloads a) (app_view a).

Definition with_modal (a : app_state) (items : list nat) : app_state :=
  mk_app (app_ui a) (app_engine a) (app_storage a) (app_notices a) (app_loading a) (app_loading_message a)
         (app_queue a) (app_loadingTimeout a) (app_alerts a) items (app_downloads a) (app_view a).

Definition alert (msg : string) (a : app_state) : app_state :=
  mk_app (app_ui a) (app_engine a) (app_storage a) (app_notices a) (app_loading a) (app_loading_message a)
         (app_queue a) (app_loadingTimeout a) (app_alerts a ++ [msg]) (app_modal a) (app_downloads a) (app_view a).

(** Run a storage operation on the storage of the application. *)
Definition on_storage {A} (m : JS local_storage A) : JS app_state A :=
  fun a => let '(r, st) := m (app_storage a) in (r, with_storage a st).

(** The object [analysisData] of the save handler. *)
Definition saved_analysis (analysisName analysisNotes date : string)
    (pd : list (string * PlatformRecord)) (ad : list (string * AudienceRecord))
    (results : json) : json :=
  JObject [("name", JString analysisName); ("notes", JString analysisNotes);
           ("date", JString date); ("platformData", json_of_platform_data pd);
           ("audienceData", json_of_audience_data ad); ("analysisResults", results)].

(** The click on [#confirm-save], with the values of the name and notes
    inputs and the time [new Date().toISOString()]. *)
Definition confirmSave (analysisName analysisNotes date : string) : JS app_state unit :=
  fun a =>
    if String.eqb analysisName "" then (Normal tt, alert "Please enter a name for your analysis" a)
    else
      match fst (getAllPlatformData (app_ui a)) with
      | Throw e => (Throw e, a)
      | Normal pd =>
          let ad := collect_audience (audience_inputs (app_ui a)) (audience_inputs (app_ui a)) [] in
          js_bind (on_storage (saveAnalysis (saved_analysis analysisName analysisNotes date pd ad
                                                             (analysisResults (app_engine a)))))
                  (fun _ a' => (Normal tt, notify "Analysis saved successfully" "success" a')) a
      end.

(** The body of [savedAnalyses.forEach] in the load dialog: each item
    starts with [new Date(analysis.date)], which throws on a [null]
    element. *)
Fixpoint list_dates (l : list json) : completion unit :=
  match l with
  | [] => Normal tt
  | v :: r => match js_get (Some v) "date" with Throw e => Throw e | Normal _ => list_dates r end
  end.

(** The click on [#load-analysis]: the list is emptied, then holds one item
    per saved analysis; [savedAnalyses.length] and [forEach] throw on
    values that are not arrays.  When an element is [null] the loop throws:
    the listeners attached after it are never attached, so no item of the
    list answers a click. *)
Definition openLoadModal : JS app_state unit :=
  fun a =>
    let a0 := with_modal a [] in
    match on_storage getSavedAnalyses a0 with
    | (Throw e, a1) => (Throw e, a1)
    | (Normal v, a1) =>
        match v with
        | JArray l =>
            match list_dates l with
            | Throw e => (Throw e, a1)
            | Normal _ => (Normal tt, with_modal a1 (seq 0 (length l)))
            end
        | _ =>
            match fst (js_length v (app_storage a1)) with
            | Throw e => (Throw e, a1)
            | Normal (Some 0%Z) => (Normal tt, a1)
            | Normal _ => (Throw (TypeError "savedAnalyses.forEach is not a function"), a1)
            end
        end
    end.

(** The click on the delete button of the [j]-th item, and the answer to
    [confirm()]: [deleteAnalysis(index)], then the item goes. *)
Definition clickDeleteItem (j : nat) (confirmed : bool) : JS app_state unit :=
  fun a =>
    match app_modal a !! j with
    | None => (Normal tt, a)
    | Some index =>
        if negb confirmed then (Normal tt, a)
        else js_bind (on_storage (deleteAnalysis (Z.of_nat index)))
               (fun _ a' => (Normal tt, with_modal a' (delete j (app_modal a')))) a
    end.

Definition with_engine (a : app_state) (e : engine_state) : app_state :=
  mk_app (app_ui a) e (app_storage a) (app_notices a) (app_loading a) (app_loading_message a)
         (app_queue a) (app_loadingTimeout a) (app_alerts a) (app_modal a) (app_downloads a) (app_view a).

Local Notation "x <-? c ;; k" := (c_bind c (fun x => k))
  (at level 100, c at next level, right associativity).

(** ** [displayAnalysisResults] on the value of a loaded analysis

    Every property read the display makes of the loaded value, in source
    order; a read of [undefined] or [null] throws, and so does a method the
    value does not have.  The charts are only configured, so what is kept
    of a successful display is the number of draws of [Math.random] the two
    random summaries make. *)

Definition not_a_function (expr : string) : exn := TypeError (expr ++ " is not a function").

(** [for (const platformId in ...)] with a body that may throw. *)
Fixpoint for_keys (body : string -> completion unit) (ks : list string) : completion unit :=
  match ks with
  | [] => Normal tt
  | k :: r => _ <-? body k ;; for_keys body r
  end.

(** A turn of [displayCoherenceChart]: the platform's name, its score,
    then its colour. *)
Definition coherence_turn (platformData : list (string * PlatformRecord)) (scores : jsval)
    (platformId : string) : completion unit :=
  _ <-? name_of platformData platformId ;;
  ps <-? js_get scores platformId ;;
  _ <-? js_get ps "score" ;;
  _ <-? platform_rgba platformId ;;
  Normal tt.

(** [displayCoherenceChart(coherenceData)] (ui-controller.js 425-478). *)
Definition loaded_coherence_chart (coherenceData : jsval) (s : ui_state) : completion unit :=
  platformData <-? fst (getAllPlatformData s) ;;
  scores <-? js_get coherenceData "platformScores" ;;
  _ <-? for_keys (coherence_turn platformData scores) (js_keys scores) ;;
  _ <-? js_get coherenceData "overallScore" ;;
  Normal tt.

(** A turn of [displayAudienceChart]: the name, the size, the engagement. *)
Definition audience_turn (platformData : list (string * PlatformRecord)) (reach : jsval)
    (platformId : string) : completion unit :=
  _ <-? name_of platformData platformId ;;
  r <-? js_get reach platformId ;;
  _ <-? js_get r "size" ;;
  _ <-? js_get r "engagement" ;;
  Normal tt.

(** [displayAudienceChart(audienceData)] (lines 548-559). *)
Definition loaded_audience_chart (audienceData : jsval) (s : ui_state) : completion unit :=
  platformData <-? fst (getAllPlatformData s) ;;
  reach <-? js_get audienceData "platformReach" ;;
  for_keys (audience_turn platformData reach) (js_keys reach).

(** A turn of [displayConsistencyChart]: the colour, the name, then the
    four values of the dataset. *)
Definition consistency_turn (platformData : list (string * PlatformRecord)) (scores : jsval)
    (platformId : string) : completion unit :=
  _ <-? platform_rgba platformId ;;
  _ <-? name_of platformData platformId ;;
  ps <-? js_get scores platformId ;;
  _ <-? js_get ps "score" ;;
  ps <-? js_get scores platformId ;;
  _ <-? js_get ps "keyMessagePresence" ;;
  ps <-? js_get scores platformId ;;
  _ <-? js_get ps "toneConsistency" ;;
  ps <-? js_get scores platformId ;;
  _ <-? js_get ps "valueAlignment" ;;
  Normal tt.

(** [displayConsistencyChart(consistencyData)] (lines 644-687). *)
Definition loaded_consistency_chart (consistencyData : jsval) (s : ui_state) : completion unit :=
  platformData <-? fst (getAllPlatformData s) ;;
  scores <-? js_get consistencyData "platformScores" ;;
  for_keys (consistency_turn platformData scores) (js_keys scores).

(** [displayKeyFindings(findings)]: [findings.forEach]. *)
Definition loaded_key_findings (findings : jsval) : completion unit :=
  match findings with
  | None => Throw (undefined_read "forEach")
  | Some JNull => Throw (null_read "forEach")
  | Some (JArray _) => Normal tt
  | Some _ => Throw (not_a_function "findings.forEach")
  end.

(** The reads of [generateCoherenceSummary] and
    [generateConsistencySummary] before their random lists: [benchmark.rating]
    (for the class), the overall score, then [rating], [percentile], [score]
    and [industryAverage] of the benchmark. *)
Definition benchmark_reads (data : jsval) : completion unit :=
  benchmark <-? js_get data "benchmarkComparison" ;;
  _ <-? js_get benchmark "rating" ;;
  _ <-? js_get data "overallScore" ;;
  _ <-? js_get benchmark "rating" ;;
  _ <-? js_get benchmark "percentile" ;;
  _ <-? js_get benchmark "score" ;;
  _ <-? js_get benchmark "industryAverage" ;;
  Normal tt.

(** [audienceData.audienceGaps.slice(0, 2).map(...)] in
    [generateAudienceSummary], after its reads of [fragmentationScore]. *)
Definition audience_summary_reads (audienceData : jsval) : completion unit :=
  _ <-? js_get audienceData "fragmentationScore" ;;
  gaps <-? js_get audienceData "audienceGaps" ;;
  match gaps with
  | None => Throw (undefined_read "slice")
  | Some JNull => Throw (null_read "slice")
  | Some (JArray _) => Normal tt
  | Some (JString _) => Throw (not_a_function "audienceData.audienceGaps.slice(...).map")
  | Some _ => Throw (not_a_function "audienceData.audienceGaps.slice")
  end.

Section Loaded.
Context (rnd : nat -> Z).
Context `{ArraySort}.

(** [displayAnalysisResults(results)] (lines 343-360) on a loaded value,
    from the draw [i] of [Math.random]: the draws made before an exception
    are kept. *)
Definition displayLoadedResults (results : jsval) (s : ui_state) (i : nat) : completion unit * nat :=
  match (coherence <-? js_get results "coherence" ;;
         _ <-? loaded_coherence_chart coherence s ;;
         audience <-? js_get results "audience" ;;
         _ <-? loaded_audience_chart audience s ;;
         consistency <-? js_get results "consistency" ;;
         _ <-? loaded_consistency_chart consistency s ;;
         findings <-? js_get results "keyFindings" ;;
         _ <-? loaded_key_findings findings ;;
         benchmark_reads coherence) with
  | Throw e => (Throw e, i)
  | Normal _ =>
      let i1 := snd (UiRandom.generateRandomStrengths rnd 3 i) in
      match (audience <-? js_get results "audience" ;; audience_summary_reads audience) with
      | Throw e => (Throw e, i1)
      | Normal _ =>
          match (consistency <-? js_get results "consistency" ;; benchmark_reads consistency) with
          | Throw e => (Throw e, i1)
          | Normal _ => (Normal tt, snd (UiRandom.generateRandomWeaknesses rnd 2 i1))
          end
      end
  end.

(** The click on [#confirm-load]; [sel] is the position in the list of the
    item marked [selected], if any.  The item's [data-index] indexes the
    array [getSavedAnalyses()] returns now; the [analysisResults] of the
    loaded analysis go to [setResults] ([undefined] is kept as [null]),
    then to [displayAnalysisResults], whose draws the engine counts. *)
Definition confirmLoad (sel : option nat) : JS app_state unit :=
  fun a =>
    match match sel with Some j => app_modal a !! j | None => None end with
    | None => (Normal tt, alert "Please select an analysis to load" a)
    | Some index =>
        match on_storage getSavedAnalyses a with
        | (Throw e, a1) => (Throw e, a1)
        | (Normal v, a1) =>
            match js_get (Some v) (string_of_Z (Z.of_nat index)) with
            | Throw e => (Throw e, a1)
            | Normal analysisData =>
                match loadAnalysisData analysisData (app_ui a1) with
                | (Throw e, u) => (Throw e, with_ui a1 u)
                | (Normal _, u) =>
                    let a2 := with_ui a1 u in
                    let results := match js_get analysisData "analysisResults" with
                                   | Normal r => r | Throw _ => None end in
                    let e2 := snd (setResults (default JNull results) (app_engine a2)) in
                    match displayLoadedResults results (app_ui a2) (draws e2) with
                    | (Throw e, i) => (Throw e, with_engine a2 (mk_engine i (analysisResults e2)))
                    | (Normal _, i) =>
                        (Normal tt, notify "Analysis loaded successfully" "success"
                                      (with_engine a2 (mk_engine i (analysisResults e2))))
                    end
                end
            end
        end
    end.

End Loaded.

Definition with_view (a : app_state) (v : option (results_view * recommendations_view)) : app_state :=
  mk_app (app_ui a) (app_engine a) (app_storage a) (app_notices a) (app_loading a) (app_loading_message a)
         (app_queue a) (app_loadingTimeout a) (app_alerts a) (app_modal a) (app_downloads a) v.

Definition add_download (d : download) (a : app_state) : app_state :=
  mk_app (app_ui a) (app_engine a) (app_storage a) (app_notices a) (app_loading a) (app_loading_message a)
         (app_queue a) (app_loadingTimeout a) (app_alerts a) (app_modal a) (app_downloads a ++ [d]) (app_view a).

(** The click on [#export-recommendations]: [exportRecommendations()] with
    the date [new Date().toLocaleDateString()]. *)
Definition exportRecommendations (date : string) : JS app_state unit :=
  fun a =>
    match export_content date (analysisResults (app_engine a)) (app_ui a) with
    | Throw e => (Throw e, a)
    | Normal None => (Normal tt, notify "No recommendations available to export" "warning" a)
    | Normal (Some content) =>
        (Normal tt, add_download
                      (mk_download "attention-economy-recommendations.md" "text/plain" content) a)
    end.

Section Timer.
Context (rnd : nat -> Z).
Context `{ArraySort}.

(** The callback of the [setTimeout] of [runAnalysis], with the data it
    captured: [analyze], [displayAnalysisResults],
    [displayRecommendations], [hideLoading], and the results shown. *)
Definition analysisTimer (platformData : list (string * PlatformRecord))
    (audienceData : list (string * AudienceRecord)) : JS app_state unit :=
  fun a =>
    let '(results, e1) := analyze rnd platformData audienceData (app_engine a) in
    match displayAnalysisResults rnd results (app_ui a) (draws e1) with
    | (Throw e, i) => (Throw e, with_engine a (mk_engine i (analysisResults e1)))
    | (Normal view, i) =>
        let a2 := with_engine a (mk_engine i (analysisResults e1)) in
        match displayRecommendations results (app_ui a2) with
        | Throw e => (Throw e, a2)
        | Normal rv => (Normal tt, with_view (hideLoading a2) (Some (view, rv)))
        end
    end.

(** A callback run by the event loop. *)
Definition run_callback (cb : app_callback) : JS app_state unit :=
  match cb with
  | CbAnalysis pd ad => analysisTimer pd ad
  | CbHideLoading => fun a => (Normal tt, hideLoading a)
  end.

(** The event loop runs the next timer, if any; an exception of its
    callback ends the callback, not the page. *)
Definition fire_timer : JS app_state unit :=
  fun a =>
    match pop_timer (app_queue a) with
    | None => (Normal tt, a)
    | Some (cb, q) => run_callback cb (with_queue a q)
    end.

End Timer.

(** [d] ms pass with no event; the event loop does not let the clock pass
    the due time of a pending timer. *)
Definition wait (d : Z) (a : app_state) : app_state :=
  match elapse d (app_queue a) with Some q => with_queue a q | None => a end.

(** The [DOMContentLoaded] listener on a storage [st]:
    [UIController.init()] (which only adds the notification container),
    [StorageManager.init()], then [setupEventListeners()] ([app_handle]);
    the page starts with the form of index.html ([ui_init]) and an engine
    with no results. *)
Definition app_init (st : local_storage) : app_state :=
  snd (on_storage Storage.init (mk_app ui_init engine_init st [] false "" queue_init None [] [] [] None)).

(** The click on [#finish-analysis]; the switch to the welcome tab is
    Bootstrap's and is not modelled. *)
Definition finishAnalysis : JS app_state unit :=
  fun a => (Normal tt, notify "Analysis completed! You can save your results or start a new analysis."
                              "success" a).

(** ** The events of the page

    The listeners [setupEventListeners] of src/js/app.js and [init] of
    src/js/ui-controller.js attach, with the values they read from the
    page, and the [setTimeout] callback of [runAnalysis]. *)
Inductive app_event :=
  (** a listener of the form ([#add-platform], a remove button, an input) *)
  | EvForm (ev : ui_event)
  | EvRunAnalysis
  (** the next pending [setTimeout] callback runs *)
  | EvTimer
  (** time passes *)
  | EvWait (d : Z)
  | EvConfirmSave (analysisName analysisNotes date : string)
  | EvOpenLoad
  | EvDeleteItem (j : nat) (confirmed : bool)
  | EvConfirmLoad (sel : option nat)
  | EvExport (date : string)
  | EvFinish.

Section Events.
Context (rnd : nat -> Z).
Context `{ArraySort}.

(** The listener the event runs.  The other listeners of
    [setupEventListeners] (the tab buttons, [#start-analysis],
    [#save-analysis]) only show a Bootstrap tab or modal and change nothing
    the model holds. *)
Definition app_handle (ev : app_event) : JS app_state unit :=
  match ev with
  | EvForm e => fun a => let '(r, u) := ui_handle e (app_ui a) in (r, with_ui a u)
  | EvRunAnalysis => runAnalysis
  | EvTimer => fire_timer rnd
  | EvWait d => fun a => (Normal tt, wait d a)
  | EvConfirmSave n notes date => confirmSave n notes date
  | EvOpenLoad => openLoadModal
  | EvDeleteItem j c => clickDeleteItem j c
  | EvConfirmLoad sel => confirmLoad rnd sel
  | EvExport date => exportRecommendations date
  | EvFinish => finishAnalysis
  end.

(** A step of the page: a listener runs to its end or to an exception,
    whose effects before the throw stay. *)
Inductive app_step : app_state -> app_state -> Prop :=
  | app_step_event ev a : app_step a (snd (app_handle ev a)).

Definition app_reachable (a0 a : app_state) : Prop := rtc app_step a0 a.

(** Run a sequence of events, in order. *)
Definition app_run (evs : list app_event) (a : app_state) : app_state :=
  fold_left (fun a ev => snd (app_handle ev a)) evs a.

Lemma app_run_reachable evs a : app_reachable a (app_run evs a).
Proof.
  revert a. induction evs as [|ev evs IH]; intros a; [apply rtc_refl|].
  eapply rtc_l; [apply app_step_event | apply IH].
Qed.

End Events.

(** ** The form as the handlers read it *)

Lemma obj_set_keeps {A} (o : list (string * A)) k v k' :
  is_Some (obj_get o k') -> is_Some (obj_get (obj_set o k v) k').
Proof. rewrite obj_set_get. by case_match. Qed.

(** Every platform card whose id the regular expression reads back is a
    key of [getAllPlatformData()]. *)
Lemma collect_platforms_keys all cs acc pd c :
  collect_platforms all cs acc = Normal pd -> c ∈ cs ->
  match_platform_id (name_input_id c) = Some (pc_id c) -> is_Some (obj_get pd (pc_id c)).
Proof.
  assert (Hmono : forall cs acc pd k, collect_platforms all cs acc = Normal pd ->
                    is_Some (obj_get acc k) -> is_Some (obj_get pd k)).
  { induction cs0 as [|c0 cs0 IH]; intros acc0 pd0 k Hc Hk; cbn in Hc; [congruence|].
    repeat case_match; try discriminate. eapply IH; [done|]. by apply obj_set_keeps. }
  revert acc. induction cs as [|c0 cs IH]; intros acc Hc Hin Hm; [by apply elem_of_nil in Hin|].
  apply elem_of_cons in Hin as [->|Hin]; cbn in Hc.
  - rewrite Hm in Hc. destruct (find_platform _ _); [|done].
    eapply Hmono; [done|]. rewrite obj_set_get, String.eqb_refl. eauto.
  - repeat case_match; try discriminate. by eapply IH.
Qed.

(** An id no audience card carries is no key of [getAllAudienceData()]. *)
Lemma collect_audience_no_key all cs acc k :
  obj_get acc k = None -> k ∉ map ac_platform cs -> obj_get (collect_audience all cs acc) k = None.
Proof.
  revert acc. induction cs as [|c cs IH]; intros acc Hacc Hk; cbn; [done|].
  apply not_elem_of_cons in Hk as [Hc Hk]. apply IH; [|done].
  rewrite obj_set_get. destruct (String.eqb_spec (ac_platform c) k); [congruence|done].
Qed.

(** ** The overlay and the pending analyses *)

Lemma omap_sublist {A B} (f : A -> option B) l1 l2 :
  l1 `sublist_of` l2 -> omap f l1 `sublist_of` omap f l2.
Proof.
  induction 1 as [|x l1 l2 _ IH|x l1 l2 _ IH]; cbn; [done| |].
  - destruct (f x); [by apply sublist_skip | done].
  - destruct (f x); [by apply sublist_cons | done].
Qed.

Lemma Forall_sublist_of {A} (P : A -> Prop) l1 l2 :
  l1 `sublist_of` l2 -> Forall P l2 -> Forall P l1.
Proof. rewrite !Forall_forall. intros Hs H x Hx. apply H. by eapply elem_of_sublist. Qed.

Lemma pending_pop a cb q :
  pop_timer (app_queue a) = Some (cb, q) -> pending_analyses (with_queue a q) `sublist_of` pending_analyses a.
Proof.
  unfold pop_timer. destruct (earliest _); intros; simplify_eq.
  apply omap_sublist, drop_id_sublist.
Qed.

Lemma pending_clear a :
  omap timer_analysis (tq_pending (clear_loading_timeout a)) `sublist_of` pending_analyses a.
Proof.
  unfold clear_loading_timeout, pending_analyses. destruct (app_loadingTimeout a); [|done].
  apply omap_sublist, drop_id_sublist.
Qed.

(** The overlay adds no analysis, and may only clear timers. *)
Lemma pending_showLoading m a :
  pending_analyses (showLoading m a) `sublist_of` pending_analyses a.
Proof.
  unfold pending_analyses at 1. cbn [showLoading set_overlay app_queue setTimeout snd tq_pending].
  rewrite omap_app, app_nil_r. apply pending_clear.
Qed.

Lemma pending_hideLoading a : pending_analyses (hideLoading a) `sublist_of` pending_analyses a.
Proof. apply pending_clear. Qed.

Lemma pending_schedule pd ad a :
  pending_analyses (schedule pd ad a) = pending_analyses a ++ [(pd, ad)].
Proof. unfold pending_analyses. cbn. by rewrite omap_app. Qed.

(** [runAnalysis] on a form that validation rejects with [msg] schedules
    nothing, and the last notice is [msg]. *)
Lemma runAnalysis_rejects a msg :
  (forall pd, fst (getAllPlatformData (app_ui a)) = Normal pd ->
     validateAnalysisData pd (collect_audience (audience_inputs (app_ui a))
                                (audience_inputs (app_ui a)) []) = Some msg) ->
  pending_analyses (snd (runAnalysis a)) `sublist_of` pending_analyses a /\
  (fst (runAnalysis a) = Normal tt -> last (app_notices (snd (runAnalysis a))) = Some (msg, "danger"%string)).
Proof.
  intros Hv. unfold runAnalysis. cbn [app_ui showLoading set_overlay].
  destruct (fst (getAllPlatformData (app_ui a))) as [pd|e] eqn:Hpd; cbn [fst snd].
  - cbn [getAllAudienceData fst]. rewrite (Hv pd eq_refl). split.
    + etrans; [apply pending_hideLoading|]. apply pending_showLoading.
    + intros _. cbn. by rewrite last_snoc.
  - split; [apply pending_showLoading | done].
Qed.

(** On a form with a stranded platform card, [runAnalysis] schedules
    nothing: reading the form throws, or validation reports the missing
    audience data. *)
Lemma stranded_blocks a :
  stranded (app_ui a) ->
  pending_analyses (snd (runAnalysis a)) `sublist_of` pending_analyses a /\
  (fst (runAnalysis a) = Normal tt ->
   last (app_notices (snd (runAnalysis a))) = Some (msg_audience, "danger"%string)).
Proof.
  unfold stranded, ui_shape. intros (p & k & n & rm & _ & Hp & Hk & _ & _ & Ha).
  apply runAnalysis_rejects. intros pd Hpd. rewrite list_lookup_fmap in Hp.
  destruct (platform_inputs (app_ui a) !! p) as [c|] eqn:Hc; [|done]. injection Hp as Hid _.
  unfold validateAnalysisData.
  assert (Hkey : is_Some (obj_get pd (pc_id c))).
  { apply (collect_platforms_keys _ (platform_inputs (app_ui a)) [] pd c Hpd).
    - by eapply list_elem_of_lookup_2.
    - unfold name_input_id. rewrite Hid. apply match_platform_id_digits. lia. }
  destruct Hkey as [r Hr].
  assert (Hnone : obj_get (collect_audience (audience_inputs (app_ui a))
                             (audience_inputs (app_ui a)) []) (pc_id c) = None)
    by (apply collect_audience_no_key; [done | by rewrite Hid]).
  rewrite (proj2 (existsb_exists _ _)); [done|].
  exists (pc_id c, r). split; [by apply list_elem_of_In, obj_get_in|]. cbn. by rewrite Hnone.
Qed.

(** ** Properties of the handlers *)

(** C7: once the cards are desynchronised by removing platforms 3 and 4
    in turn, no sequence of form events (adding platforms, removing them,
    typing in any input) lets [runAnalysis] run an analysis again: it
    schedules nothing, and each run reports the missing audience data. *)
Theorem desync_blocks_analysis a u :
  app_ui a = run_events add_two_remove_two ui_init -> ui_reachable (app_ui a) u ->
  let a' := with_ui a u in
  pending_analyses (snd (runAnalysis a')) `sublist_of` pending_analyses a /\
  (fst (runAnalysis a') = Normal tt ->
   last (app_notices (snd (runAnalysis a'))) = Some (msg_audience, "danger"%string)).
Proof.
  intros Ha Hr. cbn zeta. apply (stranded_blocks (with_ui a u)). cbn [app_ui with_ui].
  apply (stranded_reachable (app_ui a)); [rewrite Ha; apply desync_stranded | done].
Qed.

(** C24: [validateAnalysisData] accepts exactly the forms with at least two
    platforms, each with non-blank content and with audience data; when it
    rejects, the message is the one of the last check that fails. *)
Theorem validateAnalysisData_spec pd ad :
  (validateAnalysisData pd ad = None <->
     2 <= length pd /\ Forall (fun kv => content_missing kv.2 = false) pd /\
     Forall (fun kv => is_Some (obj_get ad kv.1)) pd) /\
  ((exists kv, kv ∈ pd /\ obj_get ad kv.1 = None) ->
     validateAnalysisData pd ad = Some msg_audience) /\
  ((exists kv, kv ∈ pd /\ content_missing kv.2 = true) ->
   Forall (fun kv => is_Some (obj_get ad kv.1)) pd ->
     validateAnalysisData pd ad = Some msg_content).
Proof.
  unfold validateAnalysisData.
  assert (Haud : existsb (fun kv => match obj_get ad kv.1 with Some _ => false | None => true end) pd
                 = false <-> Forall (fun kv => is_Some (obj_get ad kv.1)) pd).
  { rewrite <- not_true_iff_false, existsb_exists, Forall_forall.
    setoid_rewrite <- list_elem_of_In. split.
    - intros H kv Hkv. destruct (obj_get ad kv.1) eqn:E; [eauto|].
      exfalso. apply H. exists kv. by rewrite E.
    - intros H (kv & Hkv & Hm). destruct (H kv Hkv) as [? E]. by rewrite E in Hm. }
  assert (Hcon : existsb (fun kv => content_missing kv.2) pd = false <->
                 Forall (fun kv => content_missing kv.2 = false) pd).
  { rewrite <- not_true_iff_false, existsb_exists, Forall_forall.
    setoid_rewrite <- list_elem_of_In. split.
    - intros H kv Hkv. apply not_true_iff_false. eauto.
    - intros H (kv & Hkv & Hm). by rewrite H in Hm. }
  split; [|split].
  - split.
    + destruct (existsb _ pd) eqn:E1; [discriminate|].
      destruct (existsb (fun kv => content_missing kv.2) pd) eqn:E2; [discriminate|].
      destruct (Nat.ltb_spec (length pd) 2); [discriminate|].
      intros _. split; [lia|]. split; [by apply Hcon | by apply Haud].
    + intros (H1 & H2 & H3). apply Haud in H3. apply Hcon in H2. rewrite H3, H2.
      destruct (Nat.ltb_spec (length pd) 2); [lia | done].
  - intros (kv & Hkv & Hm). rewrite (proj2 (existsb_exists _ _)); [done|].
    exists kv. rewrite <- list_elem_of_In. by rewrite Hm.
  - intros (kv & Hkv & Hm) Hall. apply Haud in Hall. rewrite Hall.
    rewrite (proj2 (existsb_exists _ _)); [done|]. exists kv. by rewrite <- list_elem_of_In.
Qed.

(** ** Witnesses *)

(** The application after the desynchronising events, with the storage of
    [Storage] that has room. *)
Definition desync_app : app_state :=
  mk_app (run_events add_two_remove_two ui_init) engine_init roomy_storage [] false "" queue_init None [] [] [] None.

Lemma desync_blocks_analysis_witness :
  let a' := with_ui desync_app (snd (addNewPlatform (app_ui desync_app))) in
  pending_analyses (snd (runAnalysis a')) `sublist_of` pending_analyses desync_app /\
  (fst (runAnalysis a') = Normal tt ->
   last (app_notices (snd (runAnalysis a'))) = Some (msg_audience, "danger"%string)).
Proof.
  apply desync_blocks_analysis; [reflexivity|].
  apply rtc_once. apply (ui_step_event ClickAdd).
Defined.

(** One platform without audience data: the audience message, the last
    check, is the one shown. *)
Lemma validateAnalysisData_spec_witness :
  validateAnalysisData (take 1 sample_platformData) [] = Some msg_audience.
Proof.
  apply (validateAnalysisData_spec (take 1 sample_platformData) []).
  eexists. split; [left | reflexivity].
Defined.

(** ** The save and delete handlers *)

Section LoadFacts.
Context (rnd : nat -> Z).
Context `{ArraySort}.

(** Confirming the load of a saved analysis whose text the card's HTML
    carries as text: the form is rebuilt from its platform data, the engine
    holds its results, and then the display runs on them. *)
Lemma confirmLoad_saved a j index l st' nm notes date pd ad results :
  app_modal a !! j = Some index -> (Z.of_nat index < 4294967295)%Z ->
  getSavedAnalyses (app_storage a) = (Normal (JArray l), st') ->
  l !! index = Some (saved_analysis nm notes date pd ad results) ->
  ids_ascending 0 (map fst pd) = true ->
  forallb (fun kv => html_plain kv.2) pd = true -> json_no_lt (json_of_audience_data ad) = true ->
  exists u, fst (getAllPlatformData u) = Normal (map (fun kv => (kv.1, loaded_record kv.2)) pd) /\
    let a2 := with_ui (with_storage a st') u in
    confirmLoad rnd (Some j) a =
      match displayLoadedResults rnd (Some results) u (draws (app_engine a)) with
      | (Throw e, i) => (Throw e, with_engine a2 (mk_engine i results))
      | (Normal _, i) =>
          (Normal tt, notify "Analysis loaded successfully" "success" (with_engine a2 (mk_engine i results)))
      end.
Proof.
  intros Hj Hi Hget Hl Hids Hplain Haud. unfold confirmLoad. rewrite Hj. unfold on_storage. rewrite Hget.
  cbn [js_get]. rewrite array_index_nat, Nat2N.id, Hl by done. unfold saved_analysis.
  set (fs := [("name", JString nm); ("notes", JString notes); ("date", JString date);
              ("platformData", json_of_platform_data pd); ("audienceData", json_of_audience_data ad);
              ("analysisResults", results)]).
  destruct (reload_platforms fs pd (map (fun kv => (kv.1, json_of_audience_record kv.2)) ad)
              (app_ui a) eq_refl eq_refl Hids Hplain Haud) as [Hres Hpd].
  destruct (loadAnalysisData (Some (JObject fs)) (app_ui a)) as [r u] eqn:E.
  cbn [fst snd] in Hres, Hpd. subst r. exists u. split; [exact Hpd|].
  cbn -[loadAnalysisData getAllPlatformData displayLoadedResults fs]. by rewrite E.
Qed.


End LoadFacts.

(** [runAnalysis] on a valid form schedules the analysis of the form's
    data behind the loading overlay. *)
Lemma runAnalysis_valid a pd ad :
  fst (getAllPlatformData (app_ui a)) = Normal pd ->
  fst (getAllAudienceData (app_ui a)) = Normal ad ->
  validateAnalysisData pd ad = None ->
  runAnalysis a = (Normal tt, schedule pd ad (showLoading "Running analysis..." a)).
Proof.
  intros Hpd Had Hv. unfold runAnalysis. cbn [app_ui showLoading set_overlay].
  by rewrite Hpd, Had, Hv.
Qed.

(** On a page with no timer, a valid run sets the safety timeout (id [n],
    due in 10 s) and then the analysis (id [n + 1], due in 2 s), which runs
    first, 2 s later. *)
Lemma pop_after_run a pd ad :
  tq_pending (app_queue a) = [] -> app_loadingTimeout a = None ->
  let n := tq_next (app_queue a) in
  let c := tq_clock (app_queue a) in
  pop_timer (app_queue (schedule pd ad (showLoading "Running analysis..." a))) =
    Some (CbAnalysis pd ad, mk_queue (c + 2000) (S (S n)) [mk_timer n (c + 10000) CbHideLoading]).
Proof.
  intros Hp Hlt. cbn zeta. destruct a as [u e st ns ld msg [c n l] lt al md dl vw]; cbn in Hp, Hlt |- *.
  subst l lt. unfold pop_timer, schedule, showLoading, clear_loading_timeout. cbn.
  rewrite (proj2 (Z.ltb_lt _ _)) by lia. cbn.
  change (0 `max` 2000)%Z with 2000%Z. change (0 `max` 10000)%Z with 10000%Z.
  unfold drop_id. rewrite !filter_cons. cbn [timer_id]. rewrite decide_True, decide_False by lia.
  by rewrite Z.max_r by lia.
Qed.

Lemma drop_id_only {C} n d (cb : C) : drop_id n [mk_timer n d cb] = [].
Proof. unfold drop_id. rewrite filter_cons, decide_False; [done|]. by intros Hne. Qed.

Section TimerFacts.
Context (rnd : nat -> Z).
Hypothesis rnd_ok : forall i, (0 <= rnd i < 2 ^ 53)%Z.
Context `{ArraySort}.

(** C8: On a page with no pending timer and a valid form whose platforms
    are numbered in ascending order (and whose audience cards belong to
    its platforms), running the analysis and letting the event loop run
    the next timer, with the form left as it was, runs the analysis 2 s
    later, before the 10 s safety timeout, and completes: the overlay is
    hidden, no timer is pending, the engine
    retains the results of the form's data, the coherence chart labels one
    bar per platform by name then [Overall], and there is one
    recommendation card per platform, titled with its name. *)
Theorem runAnalysis_timer_shows_results a pd ad :
  tq_pending (app_queue a) = [] -> app_loadingTimeout a = None ->
  fst (getAllPlatformData (app_ui a)) = Normal pd ->
  fst (getAllAudienceData (app_ui a)) = Normal ad ->
  validateAnalysisData pd ad = None ->
  ids_ascending 0 (map fst pd) = true ->
  Forall (fun k => is_Some (obj_get pd k)) (map fst ad) ->
  let a2 := snd (fire_timer rnd (snd (runAnalysis a))) in
  fst (fire_timer rnd (snd (runAnalysis a))) = Normal tt /\
  app_loading a2 = false /\ tq_pending (app_queue a2) = [] /\
  tq_clock (app_queue a2) = (tq_clock (app_queue a) + 2000)%Z /\
  analysisResults (app_engine a2) = json_of_analysis (fst (analyze rnd pd ad (app_engine a))) /\
  exists v rv, app_view a2 = Some (v, rv) /\
    cc_labels (rv_coherence v) = (map (fun kv => name kv.2) pd ++ ["Overall"])%list /\
    map rc_title (rw_platforms rv) =
      map (fun kv => ("Optimize Your " +:+ name kv.2 +:+ " Strategy")%string) pd.
Proof.
  intros Ht Hlt Hpd Had Hv Hids Haud. cbv zeta. rewrite (runAnalysis_valid a pd ad Hpd Had Hv).
  unfold fire_timer. cbn [snd]. rewrite (pop_after_run a pd ad Ht Hlt).
  cbn [run_callback]. unfold analysisTimer. cbn [with_queue schedule showLoading set_overlay app_engine app_ui].
  destruct (analyze_parts rnd pd ad (app_engine a)) as (i & j & k & Hc & Ha & Hk & Hr & Hret).
  destruct (analyze rnd pd ad (app_engine a)) as [results e1] eqn:E. cbn [fst snd] in *.
  destruct (displayAnalysisResults_ready rnd results (app_ui a) pd (draws e1) Hpd Hids)
    as (v & i' & Hdisp & Hlabels).
  - by rewrite Hc, (coherence_score_keys rnd rnd_ok pd i).
  - by rewrite Hk, (consistency_score_keys rnd rnd_ok pd k).
  - by rewrite Ha, (audience_reach_keys rnd rnd_ok ad j).
  - rewrite Hdisp. cbn [with_engine with_queue schedule showLoading set_overlay app_ui]. unfold displayRecommendations. rewrite Hpd, Hr.
    assert (Hkeys : map fst (platformRecommendations (generateRecommendations pd ad)) = map fst pd)
      by (cbn; by rewrite map_map).
    destruct (rec_cards_ready pd (platformRecommendations (generateRecommendations pd ad)))
      as (cards & Hcards & Htitles); [rewrite Hkeys; apply (chart_ready_ascending pd Hids)|].
    rewrite Hcards. cbn -[drop_id]. assert (Hcl : clear_loading_timeout a = app_queue a)
      by (unfold clear_loading_timeout; by rewrite Hlt). rewrite Hcl, drop_id_only.
    repeat split; [exact Hret|].
    exists v, (mk_rview (strategyRecommendations (generateRecommendations pd ad)) cards
                 (nextSteps (generateRecommendations pd ad))).
    split; [done|]. split; [exact Hlabels|]. cbn. rewrite Htitles. cbn. by rewrite map_map.
Qed.

End TimerFacts.

(** ** The invariant of the page *)

Lemma saveAnalysis_keeps_ok x s r s' :
  saveAnalysis x s = (r, s') -> storage_ok s -> storage_ok s'.
Proof.
  intros E Hs. destruct (saveAnalysis_outcome s x Hs) as [Ho|[t Ho]]; rewrite E in Ho.
  - by cbn in Ho; subst.
  - simplify_eq. by apply storage_ok_insert.
Qed.

Lemma deleteAnalysis_keeps_ok i s r s' :
  deleteAnalysis i s = (r, s') -> storage_ok s -> storage_ok s'.
Proof.
  intros E Hs. destruct (deleteAnalysis_outcome s i Hs) as [Ho|[t Ho]]; rewrite E in Ho.
  - by cbn in Ho; subst.
  - simplify_eq. by apply storage_ok_insert.
Qed.

Lemma getSavedAnalyses_keeps_ok s r s' :
  getSavedAnalyses s = (r, s') -> storage_ok s -> storage_ok s'.
Proof. intros E Hs. rewrite getSavedAnalyses_spec in E by done. by simplify_eq. Qed.

(** The invariant of the page: the availability test key is not left in
    [localStorage], and every pending [setTimeout] callback holds data that
    passed [validateAnalysisData]. *)
Definition page_ok (a : app_state) : Prop :=
  storage_ok (app_storage a) /\
  Forall (fun t => validateAnalysisData t.1 t.2 = None) (pending_analyses a).

Section PageInvariant.
Context (rnd : nat -> Z).
Context `{ArraySort}.

Lemma page_ok_sub a a' :
  page_ok a -> app_storage a' = app_storage a ->
  pending_analyses a' `sublist_of` pending_analyses a -> page_ok a'.
Proof. intros [Hs Ht] Heq Hsub. split; [by rewrite Heq | by eapply Forall_sublist_of]. Qed.

Lemma runAnalysis_ok a : page_ok a -> page_ok (snd (runAnalysis a)).
Proof.
  intros Hok. unfold runAnalysis.
  assert (H1 : page_ok (showLoading "Running analysis..." a))
    by (eapply page_ok_sub; [exact Hok | done | apply pending_showLoading]).
  change (app_ui (showLoading "Running analysis..." a)) with (app_ui a).
  destruct (fst (getAllPlatformData (app_ui a))) as [pd|e]; [|exact H1].
  cbn [getAllAudienceData fst]. destruct (validateAnalysisData pd _) eqn:Hv.
  - apply (page_ok_sub (notify s "danger" (showLoading "Running analysis..." a)));
      [exact H1 | done | apply pending_hideLoading].
  - destruct H1 as [Hs1 Ht1]. cbn [snd]. split; [done|]. rewrite pending_schedule.
    apply Forall_app. split; [done|]. by repeat constructor.
Qed.

(** A timer's callback adds no analysis and leaves the storage alone. *)
Lemma fire_timer_sub a :
  app_storage (snd (fire_timer rnd a)) = app_storage a /\
  pending_analyses (snd (fire_timer rnd a)) `sublist_of` pending_analyses a.
Proof.
  unfold fire_timer. destruct (pop_timer (app_queue a)) as [[cb q]|] eqn:E; [|done].
  pose proof (pending_pop a cb q E) as Hq.
  destruct cb as [pd ad|]; cbn [run_callback snd].
  - unfold analysisTimer. repeat case_match; cbn [snd]; split; try done; try exact Hq.
    etrans; [apply pending_hideLoading | exact Hq].
  - split; [done|]. etrans; [apply pending_hideLoading | exact Hq].
Qed.

Lemma app_handle_ok ev a : page_ok a -> page_ok (snd (app_handle rnd ev a)).
Proof.
  intros Hok. pose proof Hok as [Hs Ht]. destruct ev; cbn [app_handle].
  - destruct (ui_handle ev (app_ui a)). by split.
  - by apply runAnalysis_ok.
  - destruct (fire_timer_sub a) as [H1 H2]. by eapply page_ok_sub.
  - unfold wait. destruct (elapse d (app_queue a)) eqn:E; [|exact Hok].
    apply elapse_Some in E as (_ & _ & ->). exact Hok.
  - unfold confirmSave, js_bind, on_storage. repeat case_match; simplify_eq/=; split; cbn; eauto using saveAnalysis_keeps_ok.
  - unfold openLoadModal, on_storage. repeat case_match; simplify_eq/=; split; cbn; eauto using getSavedAnalyses_keeps_ok.
  - unfold clickDeleteItem, js_bind, on_storage. repeat case_match; simplify_eq/=; split; cbn; eauto using deleteAnalysis_keeps_ok.
  - unfold confirmLoad, on_storage. repeat case_match; simplify_eq/=; split; cbn; eauto using getSavedAnalyses_keeps_ok.
  - unfold exportRecommendations. repeat case_match; split; cbn; auto.
  - split; cbn; auto.
Qed.

(** C3: along every sequence of events of the page (listeners of the form,
    the buttons of src/js/app.js, the modals, the [setTimeout] callbacks),
    from a state whose storage does not hold the test key and with no
    analysis pending: the test key never stays in [localStorage], and every
    pending analysis holds data that passed [validateAnalysisData]. *)
Theorem app_reachable_page_ok a0 a :
  storage_ok (app_storage a0) -> pending_analyses a0 = [] -> app_reachable rnd a0 a ->
  storage_ok (app_storage a) /\
  Forall (fun t => validateAnalysisData t.1 t.2 = None) (pending_analyses a).
Proof.
  intros Hs Ht Hr. cut (page_ok a); [done|].
  assert (H0 : page_ok a0) by (split; [done|by rewrite Ht]). clear Hs Ht.
  induction Hr as [|a1 a2 a3 Hstep _ IH]; [done|].
  apply IH. destruct Hstep. by apply app_handle_ok.
Qed.

End PageInvariant.

Lemma with_storage_id a : with_storage a (app_storage a) = a.
Proof. by destruct a. Qed.

(** C29: the save handler ignores the result of [saveAnalysis]: when the
    storage is unavailable, nothing is saved and the storage is unchanged,
    yet the handler notifies "Analysis saved successfully". *)
Theorem confirmSave_ignores_failure a analysisName notes date pd :
  storage_ok (app_storage a) -> avail (app_storage a) = false -> analysisName <> "" ->
  fst (getAllPlatformData (app_ui a)) = Normal pd ->
  confirmSave analysisName notes date a =
    (Normal tt, notify "Analysis saved successfully" "success" a).
Proof.
  intros Hs Ha Hn Hpd. unfold confirmSave.
  destruct (String.eqb_spec analysisName ""); [done|]. rewrite Hpd.
  unfold js_bind, on_storage, saveAnalysis. rewrite guarded_unavailable by done.
  by rewrite with_storage_id.
Qed.

(** The application on the initial form, with a given storage. *)
Definition app_with (st : local_storage) : app_state :=
  mk_app ui_init engine_init st [] false "" queue_init None [] [] [] None.

Lemma confirmSave_ignores_failure_witness :
  confirmSave "Spring" "" "2026-03-01T00:00:00.000Z" (app_with full_storage) =
    (Normal tt, notify "Analysis saved successfully" "success" (app_with full_storage)).
Proof.
  apply (confirmSave_ignores_failure _ _ _ _
           [("1", mk_platform "" "" "" "" ""); ("2", mk_platform "" "" "" "" "")]%string);
    try (vm_compute; reflexivity). discriminate.
Defined.

(** A storage with room holding A, B and C. *)
Definition storage_ABC : local_storage :=
  mk_storage true 1000
    (<[STORAGE_KEY:=stringify (JArray [analysis_named "A"; analysis_named "B"; analysis_named "C"])]> ∅).

(** ** The load dialog after a deletion *)

(** Listing an array of analyses none of which is [null]: one item per
    analysis, carrying its position. *)
Lemma openLoadModal_array a l :
  storage_ok (app_storage a) -> avail (app_storage a) = true -> saved_value (app_storage a) = JArray l ->
  Forall (fun v => v <> JNull) l ->
  openLoadModal a = (Normal tt, with_modal a (seq 0 (length l))).
Proof.
  intros Hs Ha Hl Hnn. unfold openLoadModal, on_storage. cbn [with_modal app_storage].
  rewrite getSavedAnalyses_spec, Ha, Hl by done.
  assert (Hd : list_dates l = Normal tt).
  { clear Hl. induction Hnn as [|v l Hv _ IH]; [done|]. destruct v; try by destruct Hv. all: cbn; exact IH. }
  rewrite Hd. by destruct a.
Qed.

(** The delete button of the first item, confirmed. *)
Lemma clickDeleteItem_first a index rest st' :
  app_modal a = index :: rest -> deleteAnalysis (Z.of_nat index) (app_storage a) = (Normal true, st') ->
  clickDeleteItem 0 true a = (Normal tt, with_modal (with_storage a st') rest).
Proof. intros Hm Hd. unfold clickDeleteItem, js_bind, on_storage. rewrite Hm. cbn -[deleteAnalysis]. rewrite Hd. cbn [app_modal with_storage]. by rewrite Hm. Qed.

(** C30: the items of the load list keep the index they were listed with:
    after the first of the analyses [x0], [x1], [x2], ... is deleted, the
    item that lists [x1] still carries index 1; deleting it removes [x2],
    which now sits at position 1, and [x1] stays stored. *)
Theorem load_list_stale_index a x0 x1 x2 r :
  storage_ok (app_storage a) -> saved_value (app_storage a) = JArray (x0 :: x1 :: x2 :: r) ->
  Forall (fun v => v <> JNull) (x0 :: x1 :: x2 :: r) ->
  room (app_storage a) (entry_size storage_test storage_test +
                        entry_size STORAGE_KEY (json_stringify (JArray (x1 :: x2 :: r))) +
                        entry_size STORAGE_KEY (json_stringify (JArray (x1 :: r)))) ->
  let a1 := snd (openLoadModal a) in
  let a2 := snd (clickDeleteItem 0 true a1) in
  let a3 := snd (clickDeleteItem 0 true a2) in
  app_modal a2 = seq 1 (S (S (length r))) /\ saved_value (app_storage a2) = JArray (x1 :: x2 :: r) /\
  saved_value (app_storage a3) = JArray (x1 :: r).
Proof.
  intros Hs Hl Hnn Hroom. set (s := app_storage a) in *.
  assert (Ha : avail s = true) by (apply room_fits; eapply room_weaken; [|exact Hroom]; lia).
  cbn zeta. rewrite (openLoadModal_array a _ Hs Ha Hl Hnn). cbn [snd length seq].
  set (t1 := json_stringify (JArray (x1 :: x2 :: r))).
  destruct (written_facts s (JArray (x1 :: x2 :: r)) Hs) as (Hl1 & Hs1 & _).
  erewrite (clickDeleteItem_first _ 0 _ (with_items s (<[STORAGE_KEY:=t1]> (ls_items s)))); [|done|].
  2: { apply (deleteAnalysis_writes s _ 0 Hs Ha Hl); [cbn; lia|].
       change (delete 0 (x0 :: x1 :: x2 :: r)) with (x1 :: x2 :: r).
       apply room_fits. eapply room_weaken; [|exact Hroom]. lia. }
  cbn [snd app_modal with_modal]. split; [done|]. split; [done|].
  set (s1 := with_items s _) in *.
  assert (Hr1 : room s1 (entry_size storage_test storage_test +
                         entry_size STORAGE_KEY (json_stringify (JArray (x1 :: r))))).
  { apply room_insert. eapply room_weaken; [|exact Hroom]. lia. }
  erewrite (clickDeleteItem_first _ 1 _ (with_items s1 (<[STORAGE_KEY:=json_stringify (JArray (x1 :: r))]> (ls_items s1)))); [|done|].
  2: { apply (deleteAnalysis_writes s1 (x1 :: x2 :: r) 1 Hs1); [| done | cbn; lia |];
         change (delete 1 (x1 :: x2 :: r)) with (x1 :: r).
       - apply room_fits. eapply room_weaken; [|exact Hr1]. lia.
       - apply room_fits. eapply room_weaken; [|exact Hr1]. lia. }
  cbn [snd app_storage with_modal with_storage]. by destruct (written_facts s1 (JArray (x1 :: r)) Hs1) as (-> & _).
Qed.

(** C31: after the first of the listed analyses is deleted, the last item
    still carries the index of the old last position, one past the end of
    the shorter stored array: confirming its load reads [undefined] from
    the array and [loadAnalysisData] throws reading [platformData]. *)
Theorem confirmLoad_stale_index `{ArraySort} (rnd : nat -> Z) a x0 l :
  storage_ok (app_storage a) -> saved_value (app_storage a) = JArray (x0 :: l) ->
  Forall (fun v => v <> JNull) (x0 :: l) -> l <> [] -> (Z.of_nat (length l) < 4294967295)%Z ->
  room (app_storage a) (entry_size storage_test storage_test + entry_size STORAGE_KEY (json_stringify (JArray l))) ->
  let a1 := snd (openLoadModal a) in
  let a2 := snd (clickDeleteItem 0 true a1) in
  app_modal a2 = seq 1 (length l) /\ saved_value (app_storage a2) = JArray l /\
  fst (confirmLoad rnd (Some (pred (length l))) a2) = Throw (undefined_read "platformData").
Proof.
  intros Hs Hl Hnn Hne Hlen Hroom. set (s := app_storage a) in *.
  assert (Ha : avail s = true) by (apply room_fits; eapply room_weaken; [|exact Hroom]; lia).
  cbn zeta. rewrite (openLoadModal_array a _ Hs Ha Hl Hnn). cbn [snd length seq].
  destruct (written_facts s (JArray l) Hs) as (Hl1 & Hs1 & _).
  erewrite (clickDeleteItem_first _ 0 _ (with_items s (<[STORAGE_KEY:=json_stringify (JArray l)]> (ls_items s)))); [|done|].
  2: { apply (deleteAnalysis_writes s _ 0 Hs Ha Hl); [cbn; lia|].
       change (delete 0 (x0 :: l)) with l.
       apply room_fits. eapply room_weaken; [|exact Hroom]. lia. }
  cbn [snd app_modal with_modal]. split; [done|]. split; [done|].
  set (s1 := with_items s _) in *.
  assert (Ha1 : avail s1 = true).
  { apply room_fits, room_insert. eapply room_weaken; [|exact Hroom]. lia. }
  unfold confirmLoad, on_storage. cbn [app_modal app_storage with_modal with_storage].
  rewrite lookup_seq_lt by (destruct l; [done | cbn; lia]).
  rewrite getSavedAnalyses_spec, Ha1, Hl1 by done. cbn [js_get].
  replace (1 + pred (length l))%nat with (length l) by (destruct l; [done | cbn; lia]).
  rewrite array_index_nat, Nat2N.id, lookup_ge_None_2 by lia. done.
Qed.

Lemma load_list_stale_index_witness :
  let a1 := snd (openLoadModal (app_with storage_ABC)) in
  let a2 := snd (clickDeleteItem 0 true a1) in
  let a3 := snd (clickDeleteItem 0 true a2) in
  app_modal a2 = seq 1 (S (S (length ([] : list json)))) /\
  saved_value (app_storage a2) = JArray [analysis_named "B"; analysis_named "C"] /\
  saved_value (app_storage a3) = JArray [analysis_named "B"].
Proof.
  apply (load_list_stale_index _ (analysis_named "A")); [vm_compute; reflexivity.. | |].
  - repeat constructor; discriminate.
  - split; [reflexivity | apply Nat.leb_le; vm_compute; reflexivity].
Defined.

Lemma confirmLoad_stale_index_witness :
  let a1 := snd (openLoadModal (app_with roomy_storage)) in
  let a2 := snd (clickDeleteItem 0 true a1) in
  app_modal a2 = seq 1 (length [analysis_named "B"]) /\
  saved_value (app_storage a2) = JArray [analysis_named "B"] /\
  fst (confirmLoad hash_rnd (Some (pred (length [analysis_named "B"]))) a2) = Throw (undefined_read "platformData").
Proof.
  apply (confirmLoad_stale_index hash_rnd _ (analysis_named "A")); [vm_compute; reflexivity.. | | | |].
  - repeat constructor; discriminate.
  - discriminate.
  - cbn. lia.
  - split; [reflexivity | apply Nat.leb_le; vm_compute; reflexivity].
Defined.

Definition draft_date : string := "2026-03-01T00:00:00.000Z".

(** Saving the blank form before any analysis ran, then opening the load
    dialog: the draft is the third item. *)
Definition saved_draft : app_state :=
  snd (openLoadModal (snd (confirmSave "Draft" "" draft_date (app_with roomy_storage)))).

Definition blank_platforms : list (string * PlatformRecord) :=
  [("1", mk_platform "" "" "" "" ""); ("2", mk_platform "" "" "" "" "")].


(** The form of [Charts.named_form] in a fresh application. *)
Definition app_named : app_state := with_ui (app_with roomy_storage) named_form.

Lemma runAnalysis_timer_shows_results_witness :
  let a2 := snd (fire_timer hash_rnd (snd (runAnalysis app_named))) in
  fst (fire_timer hash_rnd (snd (runAnalysis app_named))) = Normal tt /\
  app_loading a2 = false /\ tq_pending (app_queue a2) = [] /\
  tq_clock (app_queue a2) = (tq_clock (app_queue app_named) + 2000)%Z /\
  analysisResults (app_engine a2) =
    json_of_analysis (fst (analyze hash_rnd named_pd
                             (collect_audience (audience_inputs named_form) (audience_inputs named_form) [])
                             (app_engine app_named))) /\
  exists v rv, app_view a2 = Some (v, rv) /\
    cc_labels (rv_coherence v) = (map (fun kv => name kv.2) named_pd ++ ["Overall"])%list /\
    map rc_title (rw_platforms rv) =
      map (fun kv => ("Optimize Your " +:+ name kv.2 +:+ " Strategy")%string) named_pd.
Proof.
  apply (runAnalysis_timer_shows_results hash_rnd hash_rnd_ok app_named named_pd
           (collect_audience (audience_inputs named_form) (audience_inputs named_form) []));
    try (vm_compute; reflexivity).
  vm_compute. repeat (constructor || (eexists; reflexivity)).
Defined.

Lemma app_reachable_page_ok_witness :
  let a := snd (app_handle hash_rnd EvOpenLoad
               (snd (app_handle hash_rnd EvRunAnalysis
                    (snd (app_handle hash_rnd (EvForm ClickAdd) (app_init roomy_storage)))))) in
  storage_ok (app_storage a) /\
  Forall (fun t => validateAnalysisData t.1 t.2 = None) (pending_analyses a).
Proof.
  apply (app_reachable_page_ok hash_rnd (app_init roomy_storage));
    [vm_compute; reflexivity | vm_compute; reflexivity |].
  eapply rtc_l; [apply app_step_event|]. eapply rtc_l; [apply app_step_event|].
  apply rtc_once, app_step_event.
Defined.

(** The form of the page after typing content for its two platforms, and
    the click on [#run-analysis]: the overlay is shown, the safety timeout
    is due at 10 s and the analysis at 2 s. *)
Definition run_events_valid : list app_event :=
  [EvForm (InputContent 0 "Weekly post"); EvForm (InputContent 1 "Weekly post"); EvRunAnalysis].
