(* ===== verification/Overlay.v ===== *)
(** * Overlay: the loading overlay and the timers of the page

    [showLoading] (src/js/ui-controller.js) shows the overlay and sets a
    10 s safety timeout, clearing the one it set before; [hideLoading]
    hides it and clears the timeout; [runAnalysis] (src/js/app.js) shows it
    and hides it in its validation branch or in the callback of its 2 s
    timer.  This file proves, over the events of [App.app_step]:
    - the invariant [overlay_ok]: the queue is well formed, no timer is
      due more than 10 s ahead, the only pending [hideLoading] timer is the
      one [loadingTimeout] names, and the overlay is shown exactly when
      [loadingTimeout] names a pending timer;
    - that the overlay never stays shown more than 10 s: while it is
      shown, its [hideLoading] timer is pending, due within 10 s, and time
      cannot pass it;
    - that the timers of the page run out: no callback sets a timer, so
      running the pending timers empties the queue within 10 s and leaves
      the overlay hidden. *)

From S2P Require Import Prelude EventLoop Random Json JsonCodec JsBuiltins Engine WebStorage Storage Ui Load Charts Export Display App.
Local Open Scope nav_scope.

Definition is_hide (t : timer app_callback) : bool :=
  match timer_cb t with CbHideLoading => true | CbAnalysis _ _ => false end.

(** The timers: well formed, none due more than 10 s ahead, and every
    [hideLoading] timer is the one [loadingTimeout] names. *)
Definition timers_ok (a : app_state) : Prop :=
  queue_wf (app_queue a) /\
  Forall (fun t => timer_due t <= tq_clock (app_queue a) + 10000)%Z (tq_pending (app_queue a)) /\
  Forall (fun t => is_hide t = true -> app_loadingTimeout a = Some (timer_id t))
         (tq_pending (app_queue a)).

(** The overlay is shown exactly when [loadingTimeout] names a pending
    [hideLoading] timer. *)
Definition loading_ok (a : app_state) : Prop :=
  match app_loadingTimeout a with
  | None => app_loading a = false
  | Some id => app_loading a = true /\
      exists t, t ∈ tq_pending (app_queue a) /\ timer_id t = id /\ is_hide t = true
  end.

Definition overlay_ok (a : app_state) : Prop := timers_ok a /\ loading_ok a.

(** Rendering the page (and reading or writing anything else) leaves the
    overlay and the timers alone. *)
Definition same_overlay (a a' : app_state) : Prop :=
  app_queue a' = app_queue a /\ app_loading a' = app_loading a /\
  app_loadingTimeout a' = app_loadingTimeout a.

(** Run the pending timers, at most [n] of them, with no other event. *)
Fixpoint run_timers `{ArraySort} (rnd : nat -> Z) (n : nat) (a : app_state) : app_state :=
  match n with
  | O => a
  | S n => run_timers rnd n (snd (fire_timer rnd a))
  end.

(** ** The invariant *)

Lemma overlay_ok_same a a' : overlay_ok a -> same_overlay a a' -> overlay_ok a'.
Proof.
  intros [[Hwf [Hdue Hh]] Hl] (Hq & Hld & Hlt). unfold overlay_ok, timers_ok, loading_ok.
  rewrite Hq, Hld, Hlt. exact (conj (conj Hwf (conj Hdue Hh)) Hl).
Qed.

Lemma overlay_ok_init st : overlay_ok (app_init st).
Proof.
  unfold app_init, on_storage. case_match.
  unfold overlay_ok, timers_ok, loading_ok, queue_wf. cbn. repeat split; try constructor.
Qed.

(** No [hideLoading] timer is left once [loadingTimeout] is cleared. *)
Lemma clear_no_hide a :
  timers_ok a -> Forall (fun t => is_hide t = false) (tq_pending (clear_loading_timeout a)).
Proof.
  intros (_ & _ & Hh). unfold clear_loading_timeout.
  destruct (app_loadingTimeout a) as [id|] eqn:E; cbn [tq_pending clearTimeout].
  - rewrite Forall_forall in Hh |- *. intros t Ht. apply elem_of_drop_id in Ht as [Ht Hne].
    destruct (is_hide t) eqn:Hi; [|done]. specialize (Hh t Ht Hi). congruence.
  - eapply Forall_impl; [exact Hh|]. intros t Ht. cbn in Ht. destruct (is_hide t); [|done]. by specialize (Ht eq_refl).
Qed.

Lemma clear_queue_wf a : timers_ok a -> queue_wf (clear_loading_timeout a) /\
  tq_clock (clear_loading_timeout a) = tq_clock (app_queue a) /\
  tq_next (clear_loading_timeout a) = tq_next (app_queue a) /\
  tq_pending (clear_loading_timeout a) `sublist_of` tq_pending (app_queue a).
Proof.
  intros (Hwf & _ & _). unfold clear_loading_timeout.
  destruct (app_loadingTimeout a); [|done]. split; [by apply clearTimeout_wf|].
  split; [done|]. split; [done|]. apply drop_id_sublist.
Qed.

Lemma timers_ok_same a a' : timers_ok a -> same_overlay a a' -> timers_ok a'.
Proof. intros (Hwf & Hdue & Hh) (Hq & _ & Hlt). unfold timers_ok. by rewrite Hq, Hlt. Qed.

(** [showLoading] sets the one safety timeout, due in 10 s. *)
Lemma showLoading_ok m a : timers_ok a -> overlay_ok (showLoading m a).
Proof.
  intros Hok. pose proof (clear_no_hide a Hok) as Hnh.
  destruct (clear_queue_wf a Hok) as (Hwf & Hc & Hn & Hs). destruct Hok as (_ & Hdue & _).
  unfold showLoading, overlay_ok, timers_ok, loading_ok.
  cbn [set_overlay app_queue app_loading app_loadingTimeout].
  pose proof (setTimeout_wf CbHideLoading 10000 _ Hwf) as Hwf'.
  set (q0 := clear_loading_timeout a) in *. unfold setTimeout in *. cbn [fst snd tq_pending tq_clock tq_next] in *.
  split; [split; [exact Hwf' | split] |].
  - apply Forall_app. split.
    + eapply Forall_sublist_of; [exact Hs|]. by rewrite Hc.
    + repeat constructor. cbn. lia.
  - apply Forall_app. split.
    + eapply Forall_impl; [exact Hnh|]. intros t Ht Ht'. cbn in Ht. congruence.
    + by repeat constructor.
  - split; [done|]. eexists. split; [apply elem_of_app; right; by left | done].
Qed.

(** [hideLoading] leaves no safety timeout. *)
Lemma hideLoading_ok a : timers_ok a -> overlay_ok (hideLoading a).
Proof.
  intros Hok. pose proof (clear_no_hide a Hok) as Hnh.
  destruct (clear_queue_wf a Hok) as (Hwf & Hc & Hn & Hs). destruct Hok as (_ & Hdue & _).
  unfold hideLoading, overlay_ok, timers_ok, loading_ok.
  cbn [set_overlay app_queue app_loading app_loadingTimeout].
  split; [split; [exact Hwf | split] | done].
  - eapply Forall_sublist_of; [exact Hs|]. by rewrite Hc.
  - eapply Forall_impl; [exact Hnh|]. intros t Ht Ht'. cbn in Ht. congruence.
Qed.

(** The analysis timer of [runAnalysis], due in 2 s. *)
Lemma schedule_ok pd ad a : overlay_ok a -> overlay_ok (schedule pd ad a).
Proof.
  intros [(Hwf & Hdue & Hh) Hl]. pose proof (setTimeout_wf (CbAnalysis pd ad) 2000 _ Hwf) as Hwf'.
  unfold schedule, overlay_ok, timers_ok, loading_ok in *.
  cbn [with_queue app_queue app_loading app_loadingTimeout] in *. unfold setTimeout in *.
  cbn [fst snd tq_pending tq_clock tq_next] in *.
  split; [split; [exact Hwf' | split] |].
  - apply Forall_app. split; [done|]. repeat constructor. cbn. lia.
  - apply Forall_app. split; [done|]. repeat constructor. by intros [=].
  - destruct (app_loadingTimeout a); [|done]. destruct Hl as (Hld & t & Ht & Hid & Hi).
    split; [done|]. exists t. split; [apply elem_of_app; by left | done].
Qed.

(** The event loop takes the next timer: the others stay well formed and
    within 10 s of the new time. *)
Lemma pop_timers_ok a cb q :
  timers_ok a -> pop_timer (app_queue a) = Some (cb, q) ->
  timers_ok (with_queue a q) /\
  exists t, t ∈ tq_pending (app_queue a) /\ timer_cb t = cb /\
    tq_pending q = drop_id (timer_id t) (tq_pending (app_queue a)).
Proof.
  intros (Hwf & Hdue & Hh) Hpop. pose proof (pop_timer_wf _ _ _ Hwf Hpop) as Hwf'.
  destruct (pop_timer_Some _ _ _ Hwf Hpop) as (t & Ht & Hcb & Hc & Hn & Hp).
  pose proof Hwf as (_ & _ & _ & Hclock). rewrite Forall_forall in Hclock.
  specialize (Hclock t Ht). cbn in Hclock.
  split; [|by exists t]. unfold timers_ok. cbn [with_queue app_queue app_loadingTimeout].
  rewrite Hc, Hp. split; [done|]. split.
  - apply Forall_drop_id. eapply Forall_impl; [exact Hdue|]. cbn. lia.
  - by apply Forall_drop_id.
Qed.

(** Running an analysis timer keeps the safety timeout pending. *)
Lemma pop_analysis_ok a pd ad q :
  overlay_ok a -> pop_timer (app_queue a) = Some (CbAnalysis pd ad, q) -> overlay_ok (with_queue a q).
Proof.
  intros [Hok Hl] Hpop. destruct (pop_timers_ok a _ q Hok Hpop) as [Hok' (t & Ht & Hcb & Hp)].
  split; [done|]. unfold loading_ok in *. cbn [with_queue app_queue app_loading app_loadingTimeout].
  destruct (app_loadingTimeout a) as [id|]; [|done]. destruct Hl as (Hld & h & Hh & Hid & Hi).
  split; [done|]. exists h. split; [|done]. rewrite Hp. apply elem_of_drop_id. split; [done|].
  intros Heq. assert (h = t) as ->.
  { destruct Hok as ((_ & Hn & _) & _). by apply (timer_id_unique (tq_pending (app_queue a))). }
  unfold is_hide in Hi. by rewrite Hcb in Hi.
Qed.

Lemma wait_ok d a : overlay_ok a -> overlay_ok (wait d a).
Proof.
  intros [(Hwf & Hdue & Hh) Hl]. unfold wait. destruct (elapse d (app_queue a)) as [q|] eqn:E.
  2: { by split; [split; [|split]|]. }
  pose proof (elapse_wf _ _ _ Hwf E) as Hwf'. apply elapse_Some in E as (Hd & _ & ->).
  unfold overlay_ok, timers_ok, loading_ok in *. cbn in *. split; [split; [exact Hwf'|split]|done].
  - eapply Forall_impl; [exact Hdue|]. cbn. lia.
  - done.
Qed.

Section Events.
Context (rnd : nat -> Z).
Context `{ArraySort}.

Lemma fire_timer_ok a : overlay_ok a -> overlay_ok (snd (fire_timer rnd a)).
Proof.
  intros Hok. unfold fire_timer. destruct (pop_timer (app_queue a)) as [[cb q]|] eqn:E; [|done].
  destruct cb as [pd ad|]; cbn [run_callback snd].
  - pose proof (pop_analysis_ok a pd ad q Hok E) as Hq. unfold analysisTimer.
    repeat case_match; cbn [snd];
      first [ eapply overlay_ok_same; [exact Hq | by repeat split]
            | eapply overlay_ok_same; [apply hideLoading_ok | by repeat split];
              eapply timers_ok_same; [exact (proj1 Hq) | by repeat split] ].
  - apply hideLoading_ok. exact (proj1 (pop_timers_ok a _ q (proj1 Hok) E)).
Qed.

Lemma runAnalysis_overlay_ok a : overlay_ok a -> overlay_ok (snd (runAnalysis a)).
Proof.
  intros [Hok _]. pose proof (showLoading_ok "Running analysis..." a Hok) as H1. unfold runAnalysis.
  change (app_ui (showLoading "Running analysis..." a)) with (app_ui a).
  destruct (fst (getAllPlatformData (app_ui a))) as [pd|e]; [|exact H1].
  cbn [getAllAudienceData fst]. destruct (validateAnalysisData pd _); cbn [snd].
  - apply hideLoading_ok. eapply timers_ok_same; [exact (proj1 H1) | by repeat split].
  - by apply schedule_ok.
Qed.

(** The other listeners do not touch the overlay or the timers. *)
Lemma app_handle_same ev a :
  match ev with EvRunAnalysis | EvTimer | EvWait _ => False | _ => True end ->
  same_overlay a (snd (app_handle rnd ev a)).
Proof.
  destruct ev; cbn [app_handle]; intros []; unfold same_overlay.
  - by destruct (ui_handle ev (app_ui a)).
  - unfold confirmSave, js_bind, on_storage. by repeat case_match; simplify_eq/=.
  - unfold openLoadModal, on_storage. by repeat case_match; simplify_eq/=.
  - unfold clickDeleteItem, js_bind, on_storage. by repeat case_match; simplify_eq/=.
  - unfold confirmLoad, on_storage. by repeat case_match; simplify_eq/=.
  - unfold exportRecommendations. by repeat case_match.
  - done.
Qed.

Lemma app_handle_overlay_ok ev a : overlay_ok a -> overlay_ok (snd (app_handle rnd ev a)).
Proof.
  intros Hok. destruct ev eqn:Ev;
    try (eapply overlay_ok_same; [exact Hok | apply app_handle_same; done]).
  - by apply runAnalysis_overlay_ok.
  - by apply fire_timer_ok.
  - by apply wait_ok.
Qed.

(** A callback sets no timer: after the event loop takes the next timer,
    the queue only shrinks and the clock stays at its due time. *)
Lemma fire_timer_queue a cb q :
  pop_timer (app_queue a) = Some (cb, q) ->
  tq_pending (app_queue (snd (fire_timer rnd a))) `sublist_of` tq_pending q /\
  tq_clock (app_queue (snd (fire_timer rnd a))) = tq_clock q.
Proof.
  intros E. unfold fire_timer. rewrite E.
  assert (Hhide : forall b, tq_pending (app_queue (hideLoading b)) `sublist_of` tq_pending (app_queue b) /\
                            tq_clock (app_queue (hideLoading b)) = tq_clock (app_queue b)).
  { intros b. cbn [hideLoading set_overlay app_queue]. unfold clear_loading_timeout.
    destruct (app_loadingTimeout b); [|done]. split; [apply drop_id_sublist | done]. }
  destruct cb as [pd ad|]; cbn [run_callback snd].
  - unfold analysisTimer. repeat case_match; cbn [snd]; try done. apply Hhide.
  - apply Hhide.
Qed.

Lemma fire_timer_empty a : tq_pending (app_queue a) = [] -> snd (fire_timer rnd a) = a.
Proof. intros Hp. unfold fire_timer. apply pop_timer_None in Hp. by rewrite Hp. Qed.

(** Running at least as many timers as are pending empties the queue,
    keeps the invariant, and the clock does not pass the latest due time. *)
Lemma run_timers_drain n a (B : Z) :
  length (tq_pending (app_queue a)) <= n -> overlay_ok a ->
  Forall (fun t => timer_due t <= B)%Z (tq_pending (app_queue a)) -> (tq_clock (app_queue a) <= B)%Z ->
  let a' := run_timers rnd n a in
  tq_pending (app_queue a') = [] /\ overlay_ok a' /\ (tq_clock (app_queue a') <= B)%Z.
Proof.
  revert a. induction n as [|n IH]; intros a Hlen Hok HB Hc; cbn [run_timers].
  - destruct (tq_pending (app_queue a)); [done | cbn in Hlen; lia].
  - destruct (pop_timer (app_queue a)) as [[cb q]|] eqn:E.
    2: { rewrite (fire_timer_empty a) by by apply pop_timer_None. apply IH; try done.
         apply pop_timer_None in E. rewrite E. cbn. lia. }
    destruct (fire_timer_queue a cb q E) as [Hs Hclk].
    destruct (pop_timer_Some _ _ _ (proj1 (proj1 Hok)) E) as (t & Ht & _ & Hct & _ & Hp).
    pose proof (pop_timer_length _ _ _ E) as Hl. apply sublist_length in Hs as Hsl.
    apply IH; [lia | by apply fire_timer_ok | |].
    + eapply Forall_sublist_of; [exact Hs|]. rewrite Hp. by apply Forall_drop_id.
    + rewrite Hclk, Hct. rewrite Forall_forall in HB. by apply HB.
Qed.

Lemma overlay_ok_reachable st a : app_reachable rnd (app_init st) a -> overlay_ok a.
Proof.
  intros Hr. pose proof (overlay_ok_init st) as H0. revert H0.
  induction Hr as [|a1 a2 a3 [ev a1'] _ IH]; [done|]. intros H1. by apply IH, app_handle_overlay_ok.
Qed.

(** ** The overlay is bounded and the timers run out *)

(** C4: from the page load, along every sequence of events (listeners,
    timers and the passing of time), while the loading overlay is shown a
    [hideLoading] timer is pending, due within 10 s of now, and the event
    loop lets no time pass beyond its due time: the overlay is never shown
    for more than 10 s. *)
Theorem overlay_hidden_within_10s st a :
  app_reachable rnd (app_init st) a -> app_loading a = true ->
  exists t, t ∈ tq_pending (app_queue a) /\ timer_cb t = CbHideLoading /\
    (tq_clock (app_queue a) <= timer_due t <= tq_clock (app_queue a) + 10000)%Z /\
    forall d q, elapse d (app_queue a) = Some q -> (tq_clock q <= timer_due t)%Z.
Proof.
  intros Hr Hld. destruct (overlay_ok_reachable st a Hr) as [((_ & _ & _ & Hc) & Hdue & _) Hl].
  unfold loading_ok in Hl. destruct (app_loadingTimeout a) as [id|]; [|congruence].
  destruct Hl as (_ & t & Ht & _ & Hi). exists t. split; [done|]. split.
  { unfold is_hide in Hi. by destruct (timer_cb t). }
  rewrite Forall_forall in Hc, Hdue. split; [split; [exact (Hc t Ht) | exact (Hdue t Ht)]|].
  intros d q (_ & Hle & ->)%elapse_Some. rewrite Forall_forall in Hle. exact (Hle t Ht).
Qed.

(** C9: from the page load, at any point, no callback of the page sets a
    timer, so running the pending timers, as many as there are, with no
    other event, empties the queue, leaves the overlay hidden, and takes at
    most 10 s. *)
Theorem timers_run_out st a :
  app_reachable rnd (app_init st) a ->
  let a' := run_timers rnd (length (tq_pending (app_queue a))) a in
  tq_pending (app_queue a') = [] /\ app_loading a' = false /\
  (tq_clock (app_queue a') <= tq_clock (app_queue a) + 10000)%Z.
Proof.
  intros Hr. pose proof (overlay_ok_reachable st a Hr) as Hok. pose proof Hok as [(_ & Hdue & _) _].
  destruct (run_timers_drain (length (tq_pending (app_queue a))) a (tq_clock (app_queue a) + 10000)
              (le_n _) Hok Hdue ltac:(lia)) as (Hp & [_ Hl] & Hc).
  split; [done|]. split; [|done]. unfold loading_ok in Hl. rewrite Hp in Hl.
  destruct (app_loadingTimeout _); [|done]. destruct Hl as (_ & t & Ht & _). by apply elem_of_nil in Ht.
Qed.

End Events.

Lemma overlay_hidden_within_10s_witness :
  let a := app_run hash_rnd run_events_valid (app_init roomy_storage) in
  app_loading a = true /\
  exists t, t ∈ tq_pending (app_queue a) /\ timer_cb t = CbHideLoading /\
    (tq_clock (app_queue a) <= timer_due t <= tq_clock (app_queue a) + 10000)%Z /\
    forall d q, elapse d (app_queue a) = Some q -> (tq_clock q <= timer_due t)%Z.
Proof.
  split; [vm_compute; reflexivity|].
  apply (overlay_hidden_within_10s hash_rnd roomy_storage); [apply app_run_reachable | vm_compute; reflexivity].
Defined.

Lemma timers_run_out_witness :
  let a := app_run hash_rnd run_events_valid (app_init roomy_storage) in
  let a' := run_timers hash_rnd (length (tq_pending (app_queue a))) a in
  length (tq_pending (app_queue a)) = 2 /\
  tq_pending (app_queue a') = [] /\ app_loading a' = false /\
  (tq_clock (app_queue a') <= tq_clock (app_queue a) + 10000)%Z.
Proof.
  split; [vm_compute; reflexivity|].
  apply (timers_run_out hash_rnd roomy_storage). apply app_run_reachable.
Defined.
