(* ===== verification/Schema.v ===== *)
(** * Schema: the shapes of the values the page stores and retains

    The program has no types for its JSON values; the readers assume them:
    [loadAnalysisData] reads [platformData] and [audienceData] as objects
    of records, the display and the export read the fields of the retained
    [analysisResults].  [jtype] describes these shapes (an object type
    lists the properties it requires, and allows others; [TMap] is an
    object used as a dictionary) and [has_type] checks a value against
    one.

    The theorems: every result of [analyze] has the shape [analysis_t];
    every object the save handler builds has the shape [saved_t]; and, along
    every sequence of page events from a page whose stored analyses have
    the shape [saved_t], they keep it, the retained results are [null] or
    of shape [analysis_t], the load dialog and the save never meet a
    stored value that is not an array, and the export of such results
    reads every property it needs ([export_content_typed]), so it throws
    only when a recommended platform has left the form.  The display of
    loaded results of shape [analysis_t] whose charts name platforms of the
    form never throws ([displayLoadedResults_typed]), so confirming the
    load of such an analysis completes ([confirmLoad_restores]). *)

From S2P Require Import Prelude EventLoop Random Json JsonCodec JsBuiltins Engine WebStorage Storage Ui Load Charts Export Display App.
Local Open Scope nav_scope.

Local Set Warnings "-register-all".

Inductive jtype :=
  | TNull | TBool | TNum | TStr
  | TArr (t : jtype)
  | TMap (t : jtype)
  | TObj (fields : list (string * jtype))
  | TOr (t1 t2 : jtype).

Fixpoint has_type (t : jtype) (v : json) {struct t} : bool :=
  match t, v with
  | TNull, JNull | TBool, JBool _ | TNum, JNumber _ | TStr, JString _ => true
  | TArr t', JArray l => forallb (has_type t') l
  | TMap t', JObject fs => forallb (fun kv => has_type t' kv.2) fs
  | TObj ts, JObject fs =>
      (fix fields (ts : list (string * jtype)) : bool :=
         match ts with
         | [] => true
         | (k, t') :: ts' =>
             match get_field fs k with Some v' => has_type t' v' | None => false end && fields ts'
         end) ts
  | TOr t1 t2, _ => has_type t1 v || has_type t2 v
  | _, _ => false
  end.

(** ** The shapes the readers assume *)

Definition num_or_null : jtype := TOr TNum TNull.
Definition strings_t : jtype := TArr TStr.

Definition benchmark_t : jtype :=
  TObj [("score", num_or_null); ("industryAverage", TNum); ("rating", TStr);
        ("percentile", num_or_null)].

Definition gender_t : jtype := TObj [("male", TNum); ("female", TNum); ("other", TNum)].

Definition coherence_t : jtype :=
  TObj [("overallScore", num_or_null);
        ("platformScores", TMap (TObj [("score", TNum); ("strengths", strings_t);
                                       ("weaknesses", strings_t)]));
        ("comparisons", TArr (TObj [("platforms", strings_t); ("similarity", TNum);
                                    ("commonThemes", strings_t);
                                    ("divergentElements", strings_t)]));
        ("benchmarkComparison", benchmark_t)].

Definition audience_result_t : jtype :=
  TObj [("fragmentationScore", TNum);
        ("audienceOverlap", TArr (TObj [("platforms", strings_t); ("overlapPercentage", TNum);
                                        ("uniqueToFirst", TNum); ("uniqueToSecond", TNum)]));
        ("platformReach", TMap (TObj [("size", TNum); ("engagement", TNum);
                                      ("genderDistribution", gender_t)]));
        ("audienceGaps", strings_t)].

Definition consistency_t : jtype :=
  TObj [("overallScore", num_or_null);
        ("platformScores", TMap (TObj [("score", TNum); ("keyMessagePresence", TNum);
                                       ("toneConsistency", TNum); ("valueAlignment", TNum)]));
        ("benchmarkComparison", benchmark_t)].

Definition recommendations_t : jtype :=
  TObj [("strategyRecommendations", strings_t);
        ("platformRecommendations", TMap (TObj [("title", TStr); ("recommendations", strings_t)]));
        ("nextSteps", strings_t)].

(** What [displayAnalysisResults], [displayRecommendations] and
    [exportRecommendations] read of the retained results. *)
Definition analysis_t : jtype :=
  TObj [("coherence", coherence_t); ("audience", audience_result_t);
        ("consistency", consistency_t); ("keyFindings", strings_t);
        ("recommendations", recommendations_t)].

Definition platform_t : jtype :=
  TObj [("name", TStr); ("content", TStr); ("tone", TStr); ("format", TStr); ("keywords", TStr)].

Definition age_t : jtype :=
  TObj [("18-24", TNum); ("25-34", TNum); ("35-44", TNum); ("45-54", TNum);
        ("55-64", TNum); ("65plus", TNum)].

Definition audience_t : jtype :=
  TObj [("audienceSize", TNum); ("engagementRate", TNum); ("ageDistribution", age_t);
        ("genderDistribution", gender_t); ("interests", TStr)].

(** A saved analysis, as [loadAnalysisData] and the load handler read it;
    its results are [null] when it was saved before any run. *)
Definition saved_t : jtype :=
  TObj [("name", TStr); ("notes", TStr); ("date", TStr);
        ("platformData", TMap platform_t); ("audienceData", TMap audience_t);
        ("analysisResults", TOr TNull analysis_t)].

(** The shape of the value at the path [ks] of a value of shape [t]. *)
Fixpoint type_at (t : jtype) (ks : list string) : option jtype :=
  match ks with
  | [] => Some t
  | k :: rest => match t with TObj ts => match obj_get ts k with Some t' => type_at t' rest | None => None end
                             | _ => None end
  end.

(** The platforms the retained results recommend for, as the export
    enumerates them. *)
Definition recommended_ids (v : json) : list string :=
  match js_path (Some v) ["recommendations"; "platformRecommendations"] with
  | Normal w => js_keys w
  | Throw _ => []
  end.

(** ** Checking the shapes *)

Lemma forallb_map_true {A B} (p : B -> bool) (f : A -> B) l :
  (forall x, p (f x) = true) -> forallb p (map f l) = true.
Proof. intros H. apply forallb_forall. intros y (x & <- & _)%in_map_iff. apply H. Qed.

(** Check a value built by the program against a shape: evaluate the
    checks on the literal property names, split the conjunctions, and
    check the elements of each mapped list. *)
Ltac typed :=
  cbn;
  repeat match goal with |- context [json_of_num ?n] => destruct n; cbn end;
  repeat first [ reflexivity
               | apply andb_true_intro; split
               | apply forallb_map_true; intros ?; cbn
               | destruct (Audience.primaryAgeGroup _); cbn ].

(** A value of an object shape is an object with each listed property, of
    its shape. *)
Lemma has_type_field ts v k t :
  has_type (TObj ts) v = true -> (k, t) ∈ ts ->
  exists fs w, v = JObject fs /\ get_field fs k = Some w /\ has_type t w = true.
Proof.
  destruct v as [| | | | |fs]; cbn; try discriminate. intros Hv Hk. exists fs.
  induction ts as [|[k' t'] ts IH]; [by apply elem_of_nil in Hk|].
  apply andb_true_iff in Hv as [Hw Hv]. apply elem_of_cons in Hk as [[= <- <-]|Hk].
  - destruct (get_field fs k) as [w|]; [by exists w | done].
  - by apply IH.
Qed.

(** Every result of [analyze] has the shape the display and the export read. *)
Lemma json_of_analysis_typed r : has_type analysis_t (json_of_analysis r) = true.
Proof.
  destruct r as [[co cs cc cb] [fs ov pr gaps] [so ss sb] kf [sr prs ns]]. typed.
Qed.

(** The save handler builds a saved analysis of shape [saved_t] from any
    form, when the results it retains are [null] or of shape [analysis_t]. *)
Lemma saved_analysis_typed nm notes date pd ad results :
  has_type (TOr TNull analysis_t) results = true ->
  has_type saved_t (saved_analysis nm notes date pd ad results) = true.
Proof.
  intros Hr. cbn [saved_analysis saved_t has_type get_field String.eqb Ascii.eqb Bool.eqb] in Hr |- *.
  rewrite Hr, andb_true_r. unfold json_of_platform_data, json_of_audience_data. typed.
Qed.

(** ** The stored analyses keep their shape *)

(** The stored value is an array of saved analyses. *)
Definition store_typed (s : local_storage) : Prop :=
  exists l, saved_value s = JArray l /\ Forall (fun v => has_type saved_t v = true) l.

(** The retained results are [null] or of the shape of a result. *)
Definition results_typed (e : engine_state) : Prop :=
  has_type (TOr TNull analysis_t) (analysisResults e) = true.

Definition page_typed (a : app_state) : Prop :=
  storage_ok (app_storage a) /\ store_typed (app_storage a) /\ results_typed (app_engine a).

(** [saveAnalysis] on an array [l] stores [l ++ [x]] or changes nothing. *)
Lemma saveAnalysis_array s l x :
  storage_ok s -> saved_value s = JArray l ->
  snd (saveAnalysis x s) = s \/ saved_value (snd (saveAnalysis x s)) = JArray (l ++ [x]).
Proof.
  intros Hs Hl. destruct (avail s) eqn:Ha.
  - rewrite saveAnalysis_available, Hl by done. cbn [js_push]. rewrite js_bind_ret.
    destruct (write_back_cases s (json_stringify (JArray (l ++ [x])))) as [[_ ->]|[_ ->]]; [|by left].
    right. by apply written_facts.
  - left. unfold saveAnalysis. by rewrite guarded_unavailable.
Qed.

(** [deleteAnalysis] on an array [l] stores [l] without one element or
    changes nothing. *)
Lemma deleteAnalysis_array s l i :
  storage_ok s -> saved_value s = JArray l ->
  snd (deleteAnalysis i s) = s \/ saved_value (snd (deleteAnalysis i s)) = JArray (delete (Z.to_nat i) l).
Proof.
  intros Hs Hl. destruct (avail s) eqn:Ha.
  - rewrite deleteAnalysis_available, Hl by done. cbn [js_length]. rewrite js_bind_ret.
    destruct (index_invalid i _); [by left|]. cbn [js_splice1]. rewrite js_bind_ret.
    destruct (write_back_cases s (json_stringify (JArray (delete (Z.to_nat i) l)))) as [[_ ->]|[_ ->]];
      [|by left].
    right. by apply written_facts.
  - left. unfold deleteAnalysis. by rewrite guarded_unavailable.
Qed.

Lemma save_store_typed s x :
  storage_ok s -> store_typed s -> has_type saved_t x = true -> store_typed (snd (saveAnalysis x s)).
Proof.
  intros Hs (l & Hl & Ht) Hx. destruct (saveAnalysis_array s l x Hs Hl) as [->|H]; [by exists l|].
  exists (l ++ [x]). split; [done|]. apply Forall_app. by split; [|constructor].
Qed.

Lemma delete_store_typed s i :
  storage_ok s -> store_typed s -> store_typed (snd (deleteAnalysis i s)).
Proof.
  intros Hs (l & Hl & Ht). destruct (deleteAnalysis_array s l i Hs Hl) as [->|H]; [by exists l|].
  exists (delete (Z.to_nat i) l). split; [done|]. by apply Forall_delete.
Qed.

(** The results the load handler passes to [setResults], read from an
    element of a stored array of saved analyses (or from nothing), are
    [null] or of the shape of a result. *)
Lemma loaded_results_typed l k r :
  Forall (fun v => has_type saved_t v = true) l -> js_get (Some (JArray l)) k = Normal r ->
  has_type (TOr TNull analysis_t)
    (default JNull (match js_get r "analysisResults" with Normal x => x | Throw _ => None end)) = true.
Proof.
  intros Ht Hget. cbn [js_get] in Hget. injection Hget as <-.
  destruct (array_index k) as [n|].
  - destruct (l !! N.to_nat n) as [v|] eqn:Hv; [|done].
    rewrite Forall_lookup in Ht. specialize (Ht _ _ Hv).
    destruct (has_type_field _ v "analysisResults" (TOr TNull analysis_t) Ht) as (fs & w & -> & Hw & Hwt);
      [by repeat (apply elem_of_cons; (by left) || right)|].
    cbn [js_get]. by rewrite Hw.
  - by destruct (String.eqb k "length").
Qed.

(** ** Reading typed values *)

Lemma get_field_in fs k w : get_field fs k = Some w -> (k, w) ∈ fs.
Proof.
  induction fs as [|[k' w'] fs IH]; cbn; [done|].
  destruct (String.eqb_spec k' k) as [->|]; [intros [= ->]; left | intros; right; auto].
Qed.

Lemma get_field_elem fs k : k ∈ map fst fs -> is_Some (get_field fs k).
Proof.
  induction fs as [|[k' w'] fs IH]; cbn; [by intros ?%elem_of_nil|].
  intros [->|Hk]%elem_of_cons; [by rewrite String.eqb_refl|].
  destruct (String.eqb k' k); [done | by apply IH].
Qed.

Lemma obj_get_elem {A} (o : list (string * A)) k : k ∈ map fst o -> is_Some (obj_get o k).
Proof.
  induction o as [|[k' w'] o IH]; cbn; [by intros ?%elem_of_nil|].
  intros [->|Hk]%elem_of_cons; [by rewrite String.eqb_refl|].
  destruct (String.eqb k' k); [done | by apply IH].
Qed.

(** A key of the object [for...in] builds from [fs] on top of [acc] is a key
    of [acc] or of [fs]. *)
Lemma fold_obj_set_keys (fs : list (string * json)) : forall acc k w,
  obj_get (fold_left (fun o kv => obj_set o kv.1 kv.2) fs acc) k = Some w ->
  is_Some (obj_get acc k) \/ k ∈ map fst fs.
Proof.
  induction fs as [|[k' w'] fs IH]; intros acc k w H; cbn in H |- *; [by left; eexists|].
  destruct (IH _ _ _ H) as [[u Hu]|Hin]; [|by right; right].
  rewrite obj_set_get in Hu. destruct (String.eqb_spec k' k) as [->|]; [by right; left|].
  by left; eexists.
Qed.

(** A key [for...in] enumerates on an object is one of its properties. *)
Lemma js_keys_object fs k : k ∈ js_keys (Some (JObject fs)) -> k ∈ map fst fs.
Proof.
  cbn. intros Hk. apply obj_get_elem in Hk as [w Hw].
  by destruct (fold_obj_set_keys fs [] k w Hw) as [[u Hu]|Hin].
Qed.

Lemma typed_js_get t v k t' :
  has_type t v = true -> type_at t [k] = Some t' ->
  exists w, js_get (Some v) k = Normal (Some w) /\ has_type t' w = true.
Proof.
  destruct t as [| | | | | |ts|]; cbn; try discriminate. intros Hv Hk.
  destruct (obj_get ts k) as [t''|] eqn:E; [|done]. injection Hk as <-.
  destruct (has_type_field ts v k t'' Hv) as (fs & w & -> & Hw & Ht); [by apply obj_get_in|].
  exists w. by rewrite Hw.
Qed.

Lemma typed_js_path ks : forall t v t',
  has_type t v = true -> type_at t ks = Some t' ->
  exists w, js_path (Some v) ks = Normal (Some w) /\ has_type t' w = true.
Proof.
  induction ks as [|k ks IH]; intros t v t' Hv Hks; [injection Hks as <-; by exists v|].
  destruct t as [| | | | | |ts|]; cbn in Hks; try discriminate.
  destruct (obj_get ts k) as [t1|] eqn:E; [|done].
  destruct (typed_js_get (TObj ts) v k t1 Hv) as (w & Hw & Ht1); [by cbn; rewrite E|].
  cbn [js_path]. rewrite Hw. cbn [c_bind]. by apply (IH t1 w t').
Qed.

Lemma typed_forEach w : has_type strings_t w = true -> exists l, js_forEach_text (Some w) = Normal l.
Proof. destruct w; cbn; try discriminate. by eexists. Qed.

(** The platform sections of the export, on a dictionary of platform
    recommendations, for platforms of the form. *)
Lemma platform_sections_typed pd fs ids :
  has_type (TMap (TObj [("title", TStr); ("recommendations", strings_t)])) (JObject fs) = true ->
  Forall (fun k => k ∈ map fst fs /\ is_Some (obj_get pd k)) ids ->
  exists c, platform_sections pd (Some (JObject fs)) ids = Normal c.
Proof.
  intros Hfs. induction 1 as [|k ids [Hk [r Hr]] _ IH]; [by eexists|].
  destruct IH as [c Hc]. destruct (get_field_elem fs k Hk) as [w Hw].
  cbn in Hfs. rewrite forallb_forall in Hfs.
  assert (Hwt : has_type (TObj [("title", TStr); ("recommendations", strings_t)]) w = true).
  { apply get_field_in, list_elem_of_In in Hw. exact (Hfs _ Hw). }
  destruct (typed_js_get _ w "title" TStr Hwt eq_refl) as (ti & Hti & _).
  destruct (typed_js_get _ w "recommendations" strings_t Hwt eq_refl) as (rs & Hrs & Hrst).
  destruct (typed_forEach rs Hrst) as [items Hitems].
  cbn [platform_sections js_get]. rewrite Hw. cbn [c_bind]. unfold name_of. rewrite Hr.
  cbn [c_bind]. rewrite Hti. cbn [c_bind]. rewrite Hrs. cbn [c_bind]. rewrite Hitems. cbn [c_bind].
  rewrite Hc. by eexists.
Qed.

(** The export of retained results of the shape of a result, whose
    recommended platforms are all on the form, writes a report. *)
Lemma export_content_typed date v s pd :
  has_type analysis_t v = true -> fst (getAllPlatformData s) = Normal pd ->
  Forall (fun k => is_Some (obj_get pd k)) (recommended_ids v) ->
  exists c, export_content date v s = Normal (Some c).
Proof.
  intros Hv Hpd Hids.
  destruct (typed_js_get _ v "recommendations" recommendations_t Hv eq_refl) as (r & Hr & Hrt).
  destruct (typed_js_path ["coherence"; "overallScore"] _ v _ Hv eq_refl) as (w1 & E1 & _).
  destruct (typed_js_path ["coherence"; "benchmarkComparison"; "rating"] _ v _ Hv eq_refl) as (w2 & E2 & _).
  destruct (typed_js_path ["consistency"; "overallScore"] _ v _ Hv eq_refl) as (w3 & E3 & _).
  destruct (typed_js_path ["consistency"; "benchmarkComparison"; "rating"] _ v _ Hv eq_refl) as (w4 & E4 & _).
  destruct (typed_js_path ["audience"; "fragmentationScore"] _ v _ Hv eq_refl) as (w5 & E5 & _).
  destruct (typed_js_get _ v "keyFindings" strings_t Hv eq_refl) as (kf & Hkf & Hkft).
  destruct (typed_forEach kf Hkft) as [findings Hfind].
  destruct (typed_js_get _ r "strategyRecommendations" strings_t Hrt eq_refl) as (sr & Hsr & Hsrt).
  destruct (typed_forEach sr Hsrt) as [strategy Hstrat].
  destruct (typed_js_get _ r "nextSteps" strings_t Hrt eq_refl) as (ns & Hns & Hnst).
  destruct (typed_forEach ns Hnst) as [steps Hsteps].
  destruct (typed_js_get _ r "platformRecommendations" _ Hrt eq_refl) as (prs & Hprs & Hprst).
  destruct prs as [| | | | |fs]; try discriminate.
  destruct (platform_sections_typed pd fs (js_keys (Some (JObject fs))) Hprst) as [sections Hsec].
  { unfold recommended_ids in Hids. cbn [js_path] in Hids. rewrite Hr in Hids. cbn [c_bind js_path] in Hids.
    rewrite Hprs in Hids. cbn [c_bind] in Hids. rewrite Forall_forall in Hids |- *.
    intros k Hk. split; [by apply js_keys_object | by apply Hids]. }
  destruct v as [| | | | |vfs]; try discriminate. destruct r as [| | | | |rfs]; try discriminate.
  unfold export_content. cbn [js_truthy negb]. rewrite Hr. cbn [c_bind js_truthy negb].
  rewrite E1, E2, E3, E4, E5. cbn [c_bind]. rewrite Hkf. cbn [c_bind]. rewrite Hfind. cbn [c_bind].
  rewrite Hsr. cbn [c_bind]. rewrite Hstrat. cbn [c_bind]. rewrite Hpd. cbn [c_bind].
  rewrite Hprs. cbn [c_bind]. rewrite Hsec. cbn [c_bind]. rewrite Hns. cbn [c_bind].
  rewrite Hsteps. cbn [c_bind]. by eexists.
Qed.

(** Exporting from a page whose retained results are [null] or of shape
    [analysis_t] does not throw, as long as every platform named in the
    results' recommendations is still on the form. *)
Lemma exportRecommendations_typed date a pd :
  results_typed (app_engine a) -> fst (getAllPlatformData (app_ui a)) = Normal pd ->
  Forall (fun k => is_Some (obj_get pd k)) (recommended_ids (analysisResults (app_engine a))) ->
  fst (exportRecommendations date a) = Normal tt.
Proof.
  unfold results_typed, exportRecommendations. intros Hr Hpd Hids.
  destruct (analysisResults (app_engine a)) as [| | | | |fs] eqn:E; try done.
  cbn [has_type] in Hr. apply orb_true_iff in Hr as [Hr|Hr]; [done|].
  by destruct (export_content_typed date (JObject fs) (app_ui a) pd Hr Hpd Hids) as [c ->].
Qed.

(** ** The display of a loaded value of the shape of a result *)

(** The platforms the charts of [displayAnalysisResults] enumerate. *)
Definition result_platform_ids (v : json) : list string :=
  let keys path := match js_path (Some v) path with Normal w => js_keys w | Throw _ => [] end in
  keys ["coherence"; "platformScores"] ++ keys ["audience"; "platformReach"] ++
  keys ["consistency"; "platformScores"].

Lemma js_get_obj fs k : js_get (Some (JObject fs)) k = Normal (get_field fs k).
Proof. done. Qed.

Lemma for_keys_ok body ks : Forall (fun k => body k = Normal tt) ks -> for_keys body ks = Normal tt.
Proof. induction 1 as [|k ks Hk _ IH]; [done|]. cbn. by rewrite Hk. Qed.

(** An entry [for...in] enumerates on a dictionary of shape [TMap t]. *)
Lemma typed_entry t fs k :
  has_type (TMap t) (JObject fs) = true -> k ∈ js_keys (Some (JObject fs)) ->
  exists w, js_get (Some (JObject fs)) k = Normal (Some w) /\ has_type t w = true.
Proof.
  intros Hfs Hk. apply js_keys_object in Hk. destruct (get_field_elem fs k Hk) as [w Hw].
  exists w. split; [by cbn; rewrite Hw|]. cbn in Hfs. rewrite forallb_forall in Hfs.
  apply (Hfs (k, w)), list_elem_of_In, get_field_in, Hw.
Qed.

(** A platform of a form with ascending ids has a name and a colour. *)
Lemma form_platform pd k :
  ids_ascending 0 (map fst pd) = true -> is_Some (obj_get pd k) ->
  (exists nm, name_of pd k = Normal nm) /\ exists c, platform_rgba k = Normal c.
Proof.
  intros Hids [r Hr]. split; [by unfold name_of; rewrite Hr; eexists|].
  apply obj_get_in in Hr. pose proof (ids_ascending_above 0 _ Hids) as Habove.
  rewrite Forall_forall in Habove. destruct (Habove k) as (n & Hn & Hpos).
  - apply list_elem_of_In, (in_map fst pd (k, r)), list_elem_of_In, Hr.
  - by apply (platform_rgba_index k n).
Qed.

(** The reads of a loop over a dictionary of objects, for platforms of the
    form. *)
Lemma chart_loop_typed (turn : string -> completion unit) t fs (pd : list (string * PlatformRecord)) :
  has_type (TMap t) (JObject fs) = true -> ids_ascending 0 (map fst pd) = true ->
  Forall (fun k => is_Some (obj_get pd k)) (js_keys (Some (JObject fs))) ->
  (forall k w, is_Some (obj_get pd k) -> js_get (Some (JObject fs)) k = Normal (Some w) ->
     has_type t w = true -> turn k = Normal tt) ->
  for_keys turn (js_keys (Some (JObject fs))) = Normal tt.
Proof.
  intros Hfs Hids Hks Hturn. apply for_keys_ok. rewrite Forall_forall in Hks |- *. intros k Hk.
  destruct (typed_entry t fs k Hfs Hk) as (w & Hw & Ht). by apply (Hturn k w); [apply Hks| |].
Qed.

(** A value of an object shape is an object. *)
Ltac obj_of H := match type of H with has_type _ ?w = true =>
  let fs := fresh "fs" in destruct w as [| | | | |fs]; try (cbn in H; discriminate H) end.

Lemma benchmark_reads_typed t w :
  has_type t w = true -> type_at t ["benchmarkComparison"] = Some benchmark_t ->
  (exists ts, t = TObj ts) -> benchmark_reads (Some w) = Normal tt.
Proof.
  intros Hw Hb [ts ->]. destruct (typed_js_get _ w "benchmarkComparison" benchmark_t Hw Hb) as (b & Hbw & Hbt).
  obj_of Hbt. obj_of Hw. unfold benchmark_reads. rewrite Hbw. done.
Qed.

Section LoadedDisplay.
Context (rnd : nat -> Z).
Context `{ArraySort}.

(** The display of a loaded value of shape [analysis_t] whose charts name
    platforms of the form makes no read that throws. *)
Lemma displayLoadedResults_typed v u pd i :
  has_type analysis_t v = true -> fst (getAllPlatformData u) = Normal pd ->
  ids_ascending 0 (map fst pd) = true ->
  Forall (fun k => is_Some (obj_get pd k)) (result_platform_ids v) ->
  exists i', displayLoadedResults rnd (Some v) u i = (Normal tt, i').
Proof.
  intros Hv Hpd Hids Hks. unfold result_platform_ids in Hks. rewrite !Forall_app in Hks.
  destruct Hks as (Hk1 & Hk2 & Hk3).
  destruct (typed_js_get _ v "coherence" coherence_t Hv eq_refl) as (c & Hc & Hct).
  destruct (typed_js_get _ v "audience" audience_result_t Hv eq_refl) as (au & Hau & Haut).
  destruct (typed_js_get _ v "consistency" consistency_t Hv eq_refl) as (co & Hco & Hcot).
  destruct (typed_js_get _ v "keyFindings" strings_t Hv eq_refl) as (kf & Hkf & Hkft).
  destruct (typed_js_get _ c "platformScores" _ Hct eq_refl) as (ps & Hps & Hpst).
  destruct (typed_js_get _ au "platformReach" _ Haut eq_refl) as (pr & Hpr & Hprt).
  destruct (typed_js_get _ au "audienceGaps" strings_t Haut eq_refl) as (ag & Hag & Hagt).
  destruct (typed_js_get _ co "platformScores" _ Hcot eq_refl) as (cs & Hcs & Hcst).
  cbn [js_path] in Hk1, Hk2, Hk3. rewrite Hc in Hk1. rewrite Hau in Hk2. rewrite Hco in Hk3.
  cbn [c_bind js_path] in Hk1, Hk2, Hk3. rewrite Hps in Hk1. rewrite Hpr in Hk2. rewrite Hcs in Hk3.
  cbn [c_bind] in Hk1, Hk2, Hk3.
  destruct ps as [| | | | |psf]; try discriminate. destruct pr as [| | | | |prf]; try discriminate.
  destruct cs as [| | | | |csf]; try discriminate.
  assert (H1 : for_keys (coherence_turn pd (Some (JObject psf))) (js_keys (Some (JObject psf))) = Normal tt).
  { apply (chart_loop_typed _ _ psf pd Hpst Hids Hk1). intros k w Hin Hw Ht.
    destruct (form_platform pd k Hids Hin) as [[nm Hnm] [col Hcol]]. obj_of Ht.
    unfold coherence_turn. by rewrite Hnm, Hw, Hcol. }
  assert (H2 : for_keys (audience_turn pd (Some (JObject prf))) (js_keys (Some (JObject prf))) = Normal tt).
  { apply (chart_loop_typed _ _ prf pd Hprt Hids Hk2). intros k w Hin Hw Ht.
    destruct (form_platform pd k Hids Hin) as [[nm Hnm] _]. obj_of Ht.
    unfold audience_turn. by rewrite Hnm, Hw. }
  assert (H3 : for_keys (consistency_turn pd (Some (JObject csf))) (js_keys (Some (JObject csf))) = Normal tt).
  { apply (chart_loop_typed _ _ csf pd Hcst Hids Hk3). intros k w Hin Hw Ht.
    destruct (form_platform pd k Hids Hin) as [[nm Hnm] [col Hcol]]. obj_of Ht.
    unfold consistency_turn. by rewrite Hcol, Hnm, Hw. }
  assert (Hb1 := benchmark_reads_typed _ c Hct eq_refl (ex_intro _ _ eq_refl)).
  assert (Hb2 := benchmark_reads_typed _ co Hcot eq_refl (ex_intro _ _ eq_refl)).
  obj_of Hct. obj_of Haut. obj_of Hcot. destruct kf; try discriminate Hkft. destruct ag; try discriminate Hagt.
  unfold displayLoadedResults, loaded_coherence_chart, loaded_audience_chart, loaded_consistency_chart,
    audience_summary_reads.
  rewrite ?Hc. cbn [c_bind]. rewrite ?Hpd. cbn [c_bind]. rewrite ?Hps. cbn [c_bind]. rewrite ?H1. cbn [c_bind]. rewrite js_get_obj. cbn [c_bind].
  rewrite ?Hau. cbn [c_bind]. rewrite ?Hpr. cbn [c_bind]. rewrite ?H2. cbn [c_bind].
  rewrite ?Hco. cbn [c_bind]. rewrite ?Hcs. cbn [c_bind]. rewrite ?H3. cbn [c_bind].
  rewrite ?Hkf. cbn [c_bind loaded_key_findings]. rewrite ?Hb1.
  rewrite ?Hau. cbn [c_bind]. rewrite js_get_obj. cbn [c_bind]. rewrite ?Hag. cbn [c_bind].
  rewrite ?Hco. cbn [c_bind]. rewrite ?Hb2. by eexists.
Qed.


End LoadedDisplay.

Section Typed.
Context (rnd : nat -> Z).
Context `{ArraySort}.

Lemma page_typed_same a a' :
  page_typed a -> app_storage a' = app_storage a -> app_engine a' = app_engine a -> page_typed a'.
Proof. unfold page_typed. by intros ? -> ->. Qed.

Lemma runAnalysis_typed a : page_typed a -> page_typed (snd (runAnalysis a)).
Proof. intros Hok. eapply page_typed_same; [exact Hok| |]; unfold runAnalysis; by repeat case_match. Qed.

(** A timer's callback retains the image of a result, or nothing new. *)
Lemma fire_timer_typed a : page_typed a -> page_typed (snd (fire_timer rnd a)).
Proof.
  intros (Hs & Hst & Hr). destruct (fire_timer_sub rnd a) as [Hsto _].
  unfold page_typed. rewrite Hsto. split; [done|]. split; [done|].
  unfold fire_timer. destruct (pop_timer (app_queue a)) as [[[pd ad|] q]|]; cbn [run_callback snd]; [|done|done].
  unfold analysisTimer. destruct (analyze_parts rnd pd ad (app_engine (with_queue a q))) as (_ & _ & _ & _ & _ & _ & _ & Hret).
  destruct (analyze rnd pd ad (app_engine (with_queue a q))) as [results e1]. cbn [fst snd] in Hret.
  assert (Ht : results_typed (mk_engine 0 (analysisResults e1))).
  { unfold results_typed. cbn [analysisResults]. rewrite Hret. cbn [has_type].
    by rewrite json_of_analysis_typed, orb_true_r. }
  repeat case_match; exact Ht.
Qed.

Lemma confirmSave_typed n notes date a : page_typed a -> page_typed (snd (confirmSave n notes date a)).
Proof.
  intros (Hs & Hst & Hr). unfold confirmSave, js_bind, on_storage.
  destruct (String.eqb n ""); [done|]. destruct (fst (getAllPlatformData (app_ui a))) as [pd|]; [|done].
  destruct (saveAnalysis _ (app_storage a)) as [c s'] eqn:E.
  pose proof (saveAnalysis_keeps_ok _ _ _ _ E Hs) as Hs'.
  pose proof (save_store_typed (app_storage a) (saved_analysis n notes date pd
      (collect_audience (audience_inputs (app_ui a)) (audience_inputs (app_ui a)) [])
      (analysisResults (app_engine a))) Hs Hst (saved_analysis_typed _ _ _ _ _ _ Hr)) as Ht.
  rewrite E in Ht. cbn in Ht. by destruct c.
Qed.

Lemma clickDeleteItem_typed j c a : page_typed a -> page_typed (snd (clickDeleteItem j c a)).
Proof.
  intros (Hs & Hst & Hr). unfold clickDeleteItem, js_bind, on_storage.
  destruct (app_modal a !! j) as [index|]; [|done]. destruct (negb c); [done|].
  destruct (deleteAnalysis _ (app_storage a)) as [r s'] eqn:E.
  pose proof (deleteAnalysis_keeps_ok _ _ _ _ E Hs) as Hs'.
  pose proof (delete_store_typed (app_storage a) (Z.of_nat index) Hs Hst) as Ht.
  rewrite E in Ht. cbn in Ht. by destruct r.
Qed.

(** The stored array the handlers read is typed, whether the storage is
    available or not. *)
Lemma read_typed a :
  page_typed a ->
  exists l, getSavedAnalyses (app_storage a) = (Normal (JArray l), app_storage a) /\
            Forall (fun v => has_type saved_t v = true) l.
Proof.
  intros (Hs & (l & Hl & Ht) & _). rewrite getSavedAnalyses_spec by done.
  destruct (avail (app_storage a)); [exists l; by rewrite Hl | by exists []].
Qed.

(** Every saved analysis is an object, whose [date] can be read. *)
Lemma list_dates_typed l : Forall (fun v => has_type saved_t v = true) l -> list_dates l = Normal tt.
Proof. induction 1 as [|v l Hv _ IH]; [done|]. destruct v; try discriminate. by cbn; rewrite IH. Qed.

Lemma openLoadModal_typed a :
  page_typed a -> fst (openLoadModal a) = Normal tt /\ page_typed (snd (openLoadModal a)).
Proof.
  intros Hok. destruct (read_typed a Hok) as (l & Hget & Ht).
  unfold openLoadModal, on_storage. cbn [with_modal app_storage]. rewrite Hget, list_dates_typed by done.
  split; [done|]. destruct Hok as (Hs & Hst & Hr). by split; [|split].
Qed.

Lemma confirmLoad_typed sel a : page_typed a -> page_typed (snd (confirmLoad rnd sel a)).
Proof.
  intros Hok. destruct (read_typed a Hok) as (l & Hget & Ht). pose proof Hok as (Hs & Hst & Hr).
  unfold confirmLoad, on_storage. destruct (match sel with Some j => _ | None => None end); [|done].
  rewrite Hget, with_storage_id.
  destruct (js_get (Some (JArray l)) _) as [r|e] eqn:Er; [|done].
  pose proof (loaded_results_typed l _ r Ht Er) as Hres.
  destruct (loadAnalysisData r (app_ui a)) as [[[]|e] u]; [|done].
  assert (Ha3 : forall a3, app_storage a3 = app_storage a ->
                  analysisResults (app_engine a3) =
                    default JNull (match js_get r "analysisResults" with Normal x => x | Throw _ => None end) ->
                  page_typed a3).
  { intros a3 H1 H2. unfold page_typed, results_typed. by rewrite H1, H2. }
  by repeat case_match; apply Ha3; cbn; rewrite ?default_JNull.
Qed.

Lemma app_handle_typed ev a : page_typed a -> page_typed (snd (app_handle rnd ev a)).
Proof.
  intros Hok. destruct ev; cbn [app_handle].
  - destruct (ui_handle ev (app_ui a)). exact Hok.
  - by apply runAnalysis_typed.
  - by apply fire_timer_typed.
  - unfold wait. by destruct (elapse d (app_queue a)).
  - by apply confirmSave_typed.
  - by apply openLoadModal_typed.
  - by apply clickDeleteItem_typed.
  - by apply confirmLoad_typed.
  - unfold exportRecommendations. by repeat case_match.
  - exact Hok.
Qed.

(** C5: Along every sequence of page events from a page whose storage holds no
    test key and an array of saved analyses of shape [saved_t], and whose
    retained results are [null] or of shape [analysis_t]: the stored
    analyses keep the shape [saved_t], the retained results keep theirs,
    opening the load dialog never throws, and exporting the recommendations
    throws only when a platform they name has been removed from the form. *)
Theorem app_reachable_typed a0 a :
  storage_ok (app_storage a0) -> store_typed (app_storage a0) -> results_typed (app_engine a0) ->
  app_reachable rnd a0 a ->
  store_typed (app_storage a) /\ results_typed (app_engine a) /\ fst (openLoadModal a) = Normal tt /\
  (forall date pd, fst (getAllPlatformData (app_ui a)) = Normal pd ->
     Forall (fun k => is_Some (obj_get pd k)) (recommended_ids (analysisResults (app_engine a))) ->
     fst (exportRecommendations date a) = Normal tt).
Proof.
  intros Hs Hst Hr Hreach. assert (Hok : page_typed a).
  { assert (H0 : page_typed a0) by done. clear Hs Hst Hr.
    induction Hreach as [|a1 a2 a3 [ev a1'] _ IH]; [done|]. by apply IH, app_handle_typed. }
  destruct (openLoadModal_typed a Hok) as [Hopen _]. destruct Hok as (_ & Hst' & Hr').
  split_and!; [done..|]. intros date pd. by apply exportRecommendations_typed.
Qed.

End Typed.

(** A storage holding one analysis saved before any run. *)
Definition draft_storage : local_storage :=
  mk_storage true 5000
    (<[STORAGE_KEY:=stringify (JArray [saved_analysis "Draft" "" draft_date blank_platforms [] JNull])]> ∅).

(** Type the content of the two platforms, run the analysis, let its timer
    fire, save the analysis and open the load dialog. *)
Definition typed_events : list app_event :=
  run_events_valid ++ [EvTimer; EvConfirmSave "Q3 review" "" draft_date; EvOpenLoad].

Lemma app_reachable_typed_witness :
  let a := app_run hash_rnd typed_events (app_init draft_storage) in
  store_typed (app_storage a) /\ results_typed (app_engine a) /\ fst (openLoadModal a) = Normal tt /\
  (forall date pd, fst (getAllPlatformData (app_ui a)) = Normal pd ->
     Forall (fun k => is_Some (obj_get pd k)) (recommended_ids (analysisResults (app_engine a))) ->
     fst (exportRecommendations date a) = Normal tt).
Proof.
  apply (app_reachable_typed hash_rnd (app_init draft_storage)).
  - vm_compute. reflexivity.
  - eexists. split; [vm_compute; reflexivity | repeat constructor].
  - vm_compute. reflexivity.
  - apply app_run_reachable.
Defined.

(** A storage holding one analysis of the three clean platforms of
    [Load.clean_pd], with the results of their analysis. *)
Definition clean_results : json :=
  json_of_analysis (fst (analyze hash_rnd clean_pd [] engine_init)).

Definition storage_clean : local_storage :=
  mk_storage true 5000
    (<[STORAGE_KEY:=stringify (JArray [saved_analysis "Q3 review" "" draft_date clean_pd [] clean_results])]> ∅).

