(* ===== verification/ImportPromise.v ===== *)
(** * ImportPromise: the promise of [importAnalyses] and its [FileReader]

    [importAnalyses(file)] in src/js/storage-manager.js returns
    [new Promise((resolve, reject) => ...)].  The executor checks the file
    and starts [reader.readAsText(file)]; the [onload] or [onerror] handler
    of the reader runs later, as a task of its own, and settles the
    promise.  Between the two, any other code of the page may run: a save,
    a delete, another import.  [Storage.importAnalyses] runs the executor
    and the handler as one step; this file keeps them apart.

    A world holds the storage, the [resolve]/[reject] calls each promise
    has received (in order; a promise takes the value of its first call and
    ignores the others), and the reads still pending.  Reads finish in any
    order: [ReaderDone k] runs the handler of the [k]-th pending read. *)

From S2P Require Import Prelude Json JsonCodec WebStorage Storage.
Local Open Scope nav_scope.

(** A pending [reader.readAsText(file)]: the promise its handlers settle
    and the text it reads, or [None] when the read fails. *)
Record reader := mk_reader { rd_promise : nat; rd_text : option string }.

Record import_world := mk_world {
  iw_storage : local_storage;
  iw_calls : list (list settled);
  iw_readers : list reader
}.

(** A computation on the storage, run in the world. *)
Definition on_storage {A} (m : JS local_storage A) : JS import_world A :=
  fun w => let '(r, s') := m (iw_storage w) in (r, mk_world s' (iw_calls w) (iw_readers w)).

(** A call of [resolve] or [reject] of promise [p]. *)
Definition settle_call (p : nat) (v : settled) : JS import_world unit :=
  fun w => (Normal tt, mk_world (iw_storage w) (alter (fun cs => cs ++ [v]) p (iw_calls w)) (iw_readers w)).

Definition resolve (p : nat) (n : nat) : JS import_world unit := settle_call p (Resolved n).
Definition reject (p : nat) (reason : string) : JS import_world unit := settle_call p (Rejected reason).

(** [reader.readAsText(file)] with the handlers of promise [p]. *)
Definition readAsText (p : nat) (f : file) : JS import_world unit :=
  fun w => (Normal tt, mk_world (iw_storage w) (iw_calls w) (iw_readers w ++ [mk_reader p (file_text f)])).

(** [new Promise(executor)]: a fresh promise, then the executor; an
    exception of the executor rejects the promise (with the error object,
    represented by its message). *)
Definition new_promise (executor : nat -> JS import_world unit) : JS import_world nat :=
  fun w =>
    let p := length (iw_calls w) in
    match executor p (mk_world (iw_storage w) (iw_calls w ++ [[]]) (iw_readers w)) with
    | (Normal _, w1) => (Normal p, w1)
    | (Throw e, w1) => (Normal p, snd (reject p (exn_message e) w1))
    end.

Section Handlers.
Context `{!JsonCodec}.

(** The executor of the promise of [importAnalyses(file)]. *)
Definition import_executor (f : option file) (p : nat) : JS import_world unit :=
  match f with
  | None => reject p "No file provided"
  | Some f =>
      if negb (String.eqb (file_type f) "application/json") then
        reject p "Invalid file type. Please select a JSON file."
      else readAsText p f
  end.

(** [importAnalyses(file)]: the promise, whose id it returns. *)
Definition importAnalyses_start (f : option file) : JS import_world nat :=
  new_promise (import_executor f).

(** [reader.onload] *)
Definition reader_onload (p : nat) (text : string) : JS import_world unit :=
  js_catch
    (importedData <-! on_storage (parse_or_throw text) ;;
     match importedData with
     | JArray imported =>
         existingAnalyses <-! on_storage getSavedAnalyses ;;
         existing <-! on_storage (js_spread existingAnalyses) ;;
         _ <-! on_storage (setItem STORAGE_KEY (json_stringify (JArray (existing ++ imported)))) ;;
         resolve p (length imported)
     | _ => reject p "Invalid data format. Expected an array of analyses."
     end)
    (fun e => reject p ("Error parsing import file: " ++ exn_message e)).

(** [reader.onerror] *)
Definition reader_onerror (p : nat) : JS import_world unit :=
  reject p "Error reading file".

(** The [k]-th pending read finishes: its handler runs; an exception
    escaping a handler would be reported and dropped. *)
Definition reader_done (k : nat) (w : import_world) : import_world :=
  match iw_readers w !! k with
  | None => w
  | Some r =>
      let w' := mk_world (iw_storage w) (iw_calls w) (delete k (iw_readers w)) in
      snd (match rd_text r with
           | Some text => reader_onload (rd_promise r) text w'
           | None => reader_onerror (rd_promise r) w'
           end)
  end.

(** What may happen next: an import starts, a read finishes, or other code
    of the page calls the storage manager. *)
Inductive import_event :=
  | ImportFile (f : option file)
  | ReaderDone (k : nat)
  | Save (x : json)
  | Delete (i : Z)
  | ClearAll.

Definition import_step (ev : import_event) (w : import_world) : import_world :=
  match ev with
  | ImportFile f => snd (importAnalyses_start f w)
  | ReaderDone k => reader_done k w
  | Save x => snd (on_storage (saveAnalysis x) w)
  | Delete i => snd (on_storage (deleteAnalysis i) w)
  | ClearAll => snd (on_storage clearAllAnalyses w)
  end.

Definition import_run (evs : list import_event) (w : import_world) : import_world :=
  fold_left (fun w ev => import_step ev w) evs w.

End Handlers.

(** The world of a page that has started no import. *)
Definition world_init (s : local_storage) : import_world := mk_world s [] [].

(** ** The handlers against the one-step model *)

Section Refinement.
Context `{!JsonCodec}.

Definition add_call (p : nat) (v : settled) (w : import_world) : import_world :=
  mk_world (iw_storage w) (alter (fun cs => cs ++ [v]) p (iw_calls w)) (iw_readers w).

Definition with_storage (s : local_storage) (w : import_world) : import_world :=
  mk_world s (iw_calls w) (iw_readers w).

(** [onload] does what the one-step [import_onload] does to the storage,
    and calls [resolve] or [reject] once, with the value it settles. *)
Lemma reader_onload_spec p text w :
  exists v, fst (import_onload text (iw_storage w)) = Normal v /\
    reader_onload p text w = (Normal tt, add_call p v (with_storage (snd (import_onload text (iw_storage w))) w)).
Proof.
  destruct w as [s calls rs]. unfold reader_onload, import_onload, js_catch, js_bind, on_storage.
  cbn [iw_storage]. destruct (parse_or_throw text s) as [[v|e] s1].
  - destruct v; cbn; try (eexists; split; reflexivity).
    destruct (getSavedAnalyses s1) as [[v|e] s2]; cbn; [|eexists; split; reflexivity].
    destruct (js_spread v s2) as [[l'|e] s3]; cbn; [|eexists; split; reflexivity].
    destruct (setItem _ _ s3) as [[[]|e] s4]; cbn; eexists; split; reflexivity.
  - cbn. eexists; split; reflexivity.
Qed.

Lemma alter_last {A} (g : A -> A) (l : list A) x : alter g (length l) (l ++ [x]) = l ++ [g x].
Proof. induction l as [|y l IH]; [done|]. cbn. by rewrite IH. Qed.

(** The executor of a file that is not rejected at once leaves its read
    pending. *)
Lemma importAnalyses_start_spec f w :
  importAnalyses_start f w =
    (Normal (length (iw_calls w)),
     match f with
     | None => mk_world (iw_storage w) (iw_calls w ++ [[Rejected "No file provided"]]) (iw_readers w)
     | Some f =>
         if negb (String.eqb (file_type f) "application/json") then
           mk_world (iw_storage w) (iw_calls w ++ [[Rejected "Invalid file type. Please select a JSON file."]])
             (iw_readers w)
         else mk_world (iw_storage w) (iw_calls w ++ [[]])
                (iw_readers w ++ [mk_reader (length (iw_calls w)) (file_text f)])
     end).
Proof.
  destruct w as [s calls rs]. unfold importAnalyses_start, new_promise, import_executor.
  destruct f as [f|]; cbn [iw_calls iw_storage iw_readers]; [destruct (negb _)|];
    unfold reject, settle_call, readAsText; cbn; by rewrite ?alter_last.
Qed.

(** The handler of the [k]-th pending read. *)
Lemma reader_done_spec k w r :
  iw_readers w !! k = Some r ->
  exists v, reader_done k w =
    add_call (rd_promise r) v
      (mk_world (match rd_text r with
                 | Some text => snd (import_onload text (iw_storage w))
                 | None => iw_storage w
                 end) (iw_calls w) (delete k (iw_readers w))) /\
    match rd_text r with
    | Some text => fst (import_onload text (iw_storage w)) = Normal v
    | None => v = Rejected "Error reading file"
    end.
Proof.
  intros Hk. unfold reader_done. rewrite Hk. destruct (rd_text r) as [text|].
  - destruct (reader_onload_spec (rd_promise r) text
                (mk_world (iw_storage w) (iw_calls w) (delete k (iw_readers w)))) as (v & Hv & ->).
    by exists v.
  - by eexists.
Qed.

End Refinement.

(** ** Each promise is settled once *)

(** The reads pending for promise [p]. *)
Definition pending_for (p : nat) (rs : list reader) : nat :=
  length (filter (fun r => rd_promise r = p) rs).
Arguments pending_for : simpl never.

(** Every pending read belongs to a promise, and every promise has either
    received exactly one call of [resolve] or [reject], or has exactly one
    read pending: never both, never two calls. *)
Definition settles_once (w : import_world) : Prop :=
  Forall (fun r => rd_promise r < length (iw_calls w)) (iw_readers w) /\
  forall p cs, iw_calls w !! p = Some cs -> length cs + pending_for p (iw_readers w) = 1.

Lemma pending_for_app p rs rs' : pending_for p (rs ++ rs') = pending_for p rs + pending_for p rs'.
Proof. unfold pending_for. by rewrite filter_app, length_app. Qed.

Lemma pending_for_one p r : pending_for p [r] = if decide (rd_promise r = p) then 1 else 0.
Proof. unfold pending_for. rewrite filter_cons. by case_decide. Qed.

Lemma pending_for_none p rs : Forall (fun r => rd_promise r < p) rs -> pending_for p rs = 0.
Proof.
  unfold pending_for. induction 1 as [|r rs Hr _ IH]; [done|].
  rewrite filter_cons. case_decide; [lia | done].
Qed.

Lemma pending_for_delete p k r rs :
  rs !! k = Some r ->
  pending_for p rs = pending_for p (delete k rs) + (if decide (rd_promise r = p) then 1 else 0).
Proof.
  intros Hk. rewrite <- (take_drop_middle rs k r Hk) at 1. rewrite delete_take_drop.
  replace (r :: drop (S k) rs) with ([r] ++ drop (S k) rs) by done.
  rewrite !pending_for_app, pending_for_one. lia.
Qed.

(** A world whose promises receive one more call, or one more read. *)
Lemma settles_once_new w v :
  settles_once w -> settles_once (mk_world (iw_storage w) (iw_calls w ++ [[v]]) (iw_readers w)).
Proof.
  intros [Hrs Hp]. split; cbn.
  - eapply Forall_impl; [exact Hrs|]. cbn. rewrite length_app. cbn. lia.
  - intros q cs [Hq|[Hlen Hq]]%lookup_app_Some; [by apply Hp|].
    apply list_lookup_singleton_Some in Hq as [Hq <-]. cbn.
    rewrite (pending_for_none q); [done|]. eapply Forall_impl; [exact Hrs|]. cbn. lia.
Qed.

Lemma settles_once_read w t :
  settles_once w ->
  settles_once (mk_world (iw_storage w) (iw_calls w ++ [[]])
                  (iw_readers w ++ [mk_reader (length (iw_calls w)) t])).
Proof.
  intros [Hrs Hp]. split; cbn.
  - rewrite length_app. cbn. apply Forall_app. split; [|constructor; cbn; [lia | done]].
    eapply Forall_impl; [exact Hrs|]. cbn. lia.
  - intros q cs. rewrite pending_for_app, pending_for_one. cbn.
    intros [Hq|[Hlen Hq]]%lookup_app_Some.
    + pose proof (lookup_lt_Some _ _ _ Hq). case_decide; [lia|]. rewrite Nat.add_0_r. by apply Hp.
    + apply list_lookup_singleton_Some in Hq as [Hq <-]. cbn.
      rewrite (pending_for_none q); [|eapply Forall_impl; [exact Hrs|]; cbn; lia].
      case_decide; lia.
Qed.

Section Invariant.
Context `{!JsonCodec}.

Lemma settles_once_storage {A} (m : JS local_storage A) w :
  settles_once w -> settles_once (snd (on_storage m w)).
Proof. unfold on_storage. by destruct (m (iw_storage w)). Qed.

(** A finished read takes its promise from one pending read to one call. *)
Lemma settles_once_reader_done k w : settles_once w -> settles_once (reader_done k w).
Proof.
  intros [Hrs Hp]. destruct (iw_readers w !! k) as [r|] eqn:Hk; [|by unfold reader_done; rewrite Hk].
  destruct (reader_done_spec k w r Hk) as (v & -> & _).
  pose proof (Forall_lookup_1 _ _ _ _ Hrs Hk) as Hr; cbn beta in Hr.
  split; cbn.
  - rewrite length_alter. by apply Forall_delete.
  - intros q cs Hq. pose proof (pending_for_delete q k r _ Hk) as Hdel.
    destruct (decide (rd_promise r = q)) as [<-|Hne].
    + rewrite list_lookup_alter, decide_True in Hq by done.
      destruct (iw_calls w !! rd_promise r) as [cs0|] eqn:Hcs; cbn in Hq; simplify_eq.
      specialize (Hp _ _ Hcs). rewrite length_app. cbn. lia.
    + rewrite list_lookup_alter_ne in Hq by done. specialize (Hp _ _ Hq). lia.
Qed.

Lemma import_step_settles_once ev w : settles_once w -> settles_once (import_step ev w).
Proof.
  intros Hw. destruct ev as [f|k|x|i|]; cbn [import_step];
    try by apply settles_once_storage.
  - rewrite importAnalyses_start_spec. cbn [snd].
    destruct f as [f|]; [destruct (negb _)|];
      [apply settles_once_new | apply settles_once_read | apply settles_once_new]; done.
  - by apply settles_once_reader_done.
Qed.

Lemma import_run_settles_once_from evs w : settles_once w -> settles_once (import_run evs w).
Proof.
  revert w. induction evs as [|ev evs IH]; intros w Hw; [done|].
  apply IH, import_step_settles_once, Hw.
Qed.

Lemma settles_once_init s : settles_once (world_init s).
Proof. split; [constructor | by intros ? ?]. Qed.

(** Finishing the first pending read removes it. *)
Lemma reader_done_first_length w r rs :
  iw_readers w = r :: rs -> iw_readers (reader_done 0 w) = rs.
Proof.
  intros Hrs. destruct (reader_done_spec 0 w r) as (v & -> & _); [by rewrite Hrs|].
  cbn. by rewrite Hrs.
Qed.

Lemma drain_readers n w :
  length (iw_readers w) = n -> settles_once w ->
  iw_readers (import_run (repeat (ReaderDone 0) n) w) = [] /\
  settles_once (import_run (repeat (ReaderDone 0) n) w).
Proof.
  revert w. induction n as [|n IH]; intros w Hn Hw.
  - split; [|done]. cbn. by destruct (iw_readers w).
  - destruct (iw_readers w) as [|r rs] eqn:Hrs; [done|].
    change (import_run (repeat (ReaderDone 0) (S n)) w)
      with (import_run (repeat (ReaderDone 0) n) (reader_done 0 w)).
    apply IH; [|by apply settles_once_reader_done]. rewrite (reader_done_first_length w r rs Hrs). cbn in Hn. lia.
Qed.

End Invariant.

Section Claims.
Context `{!JsonCodec}.

(** The handler of the read an executor has just started, on the storage it
    has then. *)
Lemma add_call_last p v s calls rs r :
  p = length calls ->
  add_call p v (mk_world s (calls ++ [[]]) (delete (length rs) (rs ++ [r]))) =
    mk_world s (calls ++ [[v]]) rs.
Proof.
  intros ->. unfold add_call. cbn. rewrite alter_last.
  by rewrite (delete_middle rs [] r), app_nil_r.
Qed.

(** Starting [importAnalyses(file)] and then running the handler of its
    read, with nothing in between, is the one-step [Storage.importAnalyses]:
    the same storage, and exactly one call of [resolve] or [reject] on the
    new promise, with the value [Storage.importAnalyses] settles; no read is
    left pending. *)
Theorem importAnalyses_refines f w :
  exists v, fst (importAnalyses f (iw_storage w)) = Normal v /\
    import_run [ImportFile f; ReaderDone (length (iw_readers w))] w =
      mk_world (snd (importAnalyses f (iw_storage w))) (iw_calls w ++ [[v]]) (iw_readers w).
Proof.
  unfold import_run. cbn [fold_left import_step]. rewrite importAnalyses_start_spec. cbn [snd].
  destruct f as [[ty text]|]; cbn [importAnalyses file_type file_text].
  2: { eexists; split; [reflexivity|]. unfold reader_done. cbn. by rewrite lookup_ge_None_2. }
  destruct (negb _).
  { eexists; split; [reflexivity|]. unfold reader_done. cbn. by rewrite lookup_ge_None_2. }
  edestruct (reader_done_spec (length (iw_readers w))) as (v & -> & Hv).
  { cbn. by rewrite lookup_app_r, Nat.sub_diag. }
  exists v. cbn [rd_text rd_promise iw_storage iw_calls iw_readers] in Hv |- *.
  destruct text as [text|]; [|subst v]; (split; [done|]); by apply add_call_last.
Qed.

(** C10: Along every interleaving of imports, finished reads, saves, deletes
    and clears from a page with no import, every promise [importAnalyses]
    has returned has received at most one call of [resolve] or [reject]:
    exactly one, or none and exactly one read still pending; and every
    pending read belongs to one of these promises. *)
Theorem import_promises_settle_once s evs :
  let w := import_run evs (world_init s) in
  settles_once w /\ forall p cs, iw_calls w !! p = Some cs -> length cs <= 1.
Proof.
  cbn zeta. pose proof (import_run_settles_once_from evs _ (settles_once_init s)) as Hw.
  split; [done|]. intros p cs Hp. destruct Hw as [_ Hw]. specialize (Hw p cs Hp). lia.
Qed.

(** C11: From every page reached by such an interleaving, once the pending
    reads finish (one handler per read), no read is pending and every
    promise [importAnalyses] has returned has been settled by exactly one
    call. *)
Theorem import_reads_settle_all s evs :
  let w := import_run evs (world_init s) in
  let w' := import_run (repeat (ReaderDone 0) (length (iw_readers w))) w in
  iw_readers w' = [] /\ Forall (fun cs => length cs = 1) (iw_calls w').
Proof.
  cbn zeta. pose proof (import_run_settles_once_from evs _ (settles_once_init s)) as Hw.
  destruct (drain_readers _ _ eq_refl Hw) as [Hnil [_ Hcalls]]. split; [done|].
  apply Forall_lookup_2. intros p cs Hp. specialize (Hcalls p cs Hp).
  rewrite Hnil in Hcalls. unfold pending_for in Hcalls. cbn in Hcalls. lia.
Qed.

(** A save on a storage with room for the availability test and the new
    text. *)
Lemma saveAnalysis_room s l x :
  storage_ok s -> saved_value s = JArray l ->
  room s (entry_size storage_test storage_test + entry_size STORAGE_KEY (json_stringify (JArray (l ++ [x])))) ->
  saveAnalysis x s =
    (Normal true, with_items s (<[STORAGE_KEY:=json_stringify (JArray (l ++ [x]))]> (ls_items s))).
Proof.
  intros Hs Hl Hroom.
  assert (Ha : avail s = true) by (apply room_fits; eapply room_weaken; [|exact Hroom]; lia).
  rewrite saveAnalysis_available, Hl by done.
  cbn [js_push]. rewrite js_bind_ret. apply write_back_fits, room_fits.
  eapply room_weaken; [|exact Hroom]. lia.
Qed.

(** The handler of a read of an array, on a storage holding [l] with room
    for the availability test and the result. *)
Lemma import_onload_room s l items text :
  storage_ok s -> saved_value s = JArray l -> json_parse text = inr (JArray items) ->
  room s (entry_size storage_test storage_test + entry_size STORAGE_KEY (json_stringify (JArray (l ++ items)))) ->
  import_onload text s =
    (Normal (Resolved (length items)),
     with_items s (<[STORAGE_KEY:=json_stringify (JArray (l ++ items))]> (ls_items s))).
Proof.
  intros Hs Hl Hp Hroom.
  apply (import_appends s l items text Hs); try done; apply room_fits;
    (eapply room_weaken; [|exact Hroom]); lia.
Qed.

(** C12: An analysis saved while an imported file is being read is kept:
    the handler of the read takes the stored analyses as they are when the
    read finishes, so the storage ends with the saved analysis followed by
    the imported ones, and the import resolves with their number (when the
    storage has room for both texts and the availability test). *)
Theorem save_during_import_kept s l x items text :
  storage_ok s -> saved_value s = JArray l -> json_parse text = inr (JArray items) ->
  room s (entry_size storage_test storage_test + entry_size STORAGE_KEY (json_stringify (JArray (l ++ [x]))) +
          entry_size STORAGE_KEY (json_stringify (JArray (l ++ [x] ++ items)))) ->
  let w := import_run [ImportFile (Some (mk_file "application/json" (Some text))); Save x; ReaderDone 0]
             (world_init s) in
  saved_value (iw_storage w) = JArray (l ++ [x] ++ items) /\
  iw_calls w = [[Resolved (length items)]] /\ iw_readers w = [].
Proof.
  intros Hs Hl Hp Hroom. cbn zeta. unfold import_run. cbn [fold_left import_step].
  rewrite importAnalyses_start_spec. cbn -[saveAnalysis reader_done].
  unfold on_storage. cbn [iw_storage iw_calls iw_readers].
  rewrite (saveAnalysis_room s l x Hs Hl) by (eapply room_weaken; [|exact Hroom]; lia).
  cbn -[reader_done].
  set (s1 := with_items s _).
  edestruct (reader_done_spec 0) as (v & -> & Hv); [reflexivity|].
  cbn [iw_storage iw_calls iw_readers rd_text rd_promise] in Hv |- *.
  destruct (written_facts s (JArray (l ++ [x])) Hs) as (Hl1 & Hs1 & _). fold s1 in Hl1, Hs1.
  rewrite (import_onload_room s1 (l ++ [x]) items text Hs1 Hl1 Hp) in Hv |- *.
  2, 3: rewrite <- app_assoc; apply room_insert; eapply room_weaken; [|exact Hroom]; lia.
  injection Hv as <-. split; [|split; reflexivity]. cbn [add_call iw_storage snd].
  destruct (written_facts s1 (JArray ((l ++ [x]) ++ items)) Hs1) as (-> & _).
  by rewrite <- app_assoc.
Qed.

End Claims.

(** ** Runs on concrete pages *)

(** The text of a file holding one analysis. *)
Definition import_text_C : string := stringify (JArray [analysis_named "C"]).

Lemma save_during_import_kept_witness :
  let w := import_run [ImportFile (Some (mk_file "application/json" (Some import_text_C)));
                       Save (analysis_named "D"); ReaderDone 0] (world_init roomy_storage) in
  saved_value (iw_storage w) =
    JArray ([analysis_named "A"; analysis_named "B"] ++ [analysis_named "D"] ++ [analysis_named "C"]) /\
  iw_calls w = [[Resolved (length [analysis_named "C"])]] /\ iw_readers w = [].
Proof.
  apply save_during_import_kept; [vm_compute; reflexivity.. |].
  split; [reflexivity | apply Nat.leb_le; vm_compute; reflexivity].
Defined.
